(** * BrainDrive protocol runtime: a shallow embedding and its properties

    The development follows the Python sources of the repository:

    - [braindrive_runtime/protocol.py]     -> [Protocol]
    - [braindrive_runtime/persistence.py]  -> [Persistence]
    - [braindrive_runtime/metadata.py]     -> [Metadata]
    - [braindrive_runtime/config.py]       -> [ConfigResolver]
    - [braindrive_runtime/registry.py]     -> [NodeRegistry]
    - [braindrive_runtime/router.py]       -> [RouterCore]
    - [braindrive_runtime/nodes/approval_gate.py] -> [ApprovalGateNode]
    - [Proof-of-Concept-3/shared/bdp.py], [workers/echo_worker/worker.py],
      [router/router_service.py]           -> [Bdp], [EchoWorker], [RouterHandler]

    Part I holds the definitions, Part II the lemmas and theorems. *)

From Stdlib Require Import ZArith String Ascii List Bool Lia.
From Stdlib Require Import OrdersEx Sorting.Sorted Permutation.
From stdpp Require Import base tactics option list strings gmap pretty.
Import ListNotations.

Set Warnings "-register-all".

Open Scope string_scope.
Open Scope list_scope.
Open Scope Z_scope.

(* ===================================================================== *)
(** * Part I: definitions                                                 *)
(* ===================================================================== *)

(** ** Results and a state-and-exception monad

    Python code either returns or raises; state changes made before an
    exception stay.  [ST S A] threads a state of type [S]. *)

(** A Python exception: [type(exc).__name__] and [str(exc)]. *)
Record exn : Type := Exn { exc_type : string; exc_text : string }.

Definition AttributeError (text : string) : exn := Exn "AttributeError" text.
Definition TypeError (text : string) : exn := Exn "TypeError" text.
Definition ValueError (text : string) : exn := Exn "ValueError" text.
Definition RuntimeError (text : string) : exn := Exn "RuntimeError" text.

Inductive Res (A : Type) : Type :=
| Ok (a : A)
| Raise (e : exn).
Arguments Ok {A} a.
Arguments Raise {A} e.

Definition ST (S A : Type) : Type := S -> Res A * S.

Definition ret {S A : Type} (a : A) : ST S A := fun s => (Ok a, s).

Definition bind {S A B : Type} (c : ST S A) (k : A -> ST S B) : ST S B :=
  fun s =>
    match c s with
    | (Ok a, s') => k a s'
    | (Raise e, s') => (Raise e, s')
    end.

Definition raise {S A : Type} (e : exn) : ST S A := fun s => (Raise e, s).

Definition gets {S A : Type} (f : S -> A) : ST S A := fun s => (Ok (f s), s).

Definition modify {S : Type} (f : S -> S) : ST S unit := fun s => (Ok tt, f s).

Definition lift_res {S A : Type} (r : Res A) : ST S A := fun s => (r, s).

(** [try: c except Exception as e: h e] *)
Definition catch {S A : Type} (c : ST S A) (h : exn -> ST S A) : ST S A :=
  fun s =>
    match c s with
    | (Ok a, s') => (Ok a, s')
    | (Raise e, s') => h e s'
    end.

Declare Scope st_scope.
Delimit Scope st_scope with st.
Notation "'let*' x := c 'in' k" := (bind c (fun x => k))
  (at level 10, x name, c at level 100, k at level 200) : st_scope.
Notation "'let*' ' p := c 'in' k" := (bind c (fun x => match x with p => k end))
  (at level 10, p pattern, c at level 100, k at level 200) : st_scope.
Notation "'do*' c 'in' k" := (bind c (fun _ => k))
  (at level 10, c at level 100, k at level 200) : st_scope.
Open Scope st_scope.

(** ** Python values *)

Module Py.

(** JSON-shaped Python values.  Dictionaries keep insertion order, so
    they are association lists with string keys; floats are left out. *)
Inductive value : Type :=
| VNone
| VBool (b : bool)
| VInt (z : Z)
| VStr (s : string)
| VList (l : list value)
| VDict (d : list (string * value)).

(** *** Dictionaries *)

(** [d.get(k)] *)
Fixpoint dget {A : Type} (k : string) (d : list (string * A)) : option A :=
  match d with
  | [] => None
  | (k', x) :: d' => if String.eqb k' k then Some x else dget k d'
  end.

(** [k in d] *)
Definition dhas {A : Type} (k : string) (d : list (string * A)) : bool :=
  match dget k d with Some _ => true | None => false end.

(** [d[k] = x]: an existing key keeps its place, a new one goes last. *)
Fixpoint dset {A : Type} (k : string) (x : A) (d : list (string * A))
  : list (string * A) :=
  match d with
  | [] => [(k, x)]
  | (k', y) :: d' =>
      if String.eqb k' k then (k', x) :: d' else (k', y) :: dset k x d'
  end.

(** [d.pop(k, None)] (the dictionary that is left) *)
Fixpoint dpop {A : Type} (k : string) (d : list (string * A))
  : list (string * A) :=
  match d with
  | [] => []
  | (k', y) :: d' =>
      if String.eqb k' k then d' else (k', y) :: dpop k d'
  end.

(** [d.setdefault(k, x)] (the dictionary after the call) *)
Definition dsetdefault {A : Type} (k : string) (x : A) (d : list (string * A))
  : list (string * A) :=
  if dhas k d then d else d ++ [(k, x)].

(** [d.get(k, default)] *)
Definition dget_or {A : Type} (k : string) (default : A)
  (d : list (string * A)) : A :=
  match dget k d with Some x => x | None => default end.

(** *** Tests and coercions *)

(** [bool(v)] *)
Definition truthy (v : value) : bool :=
  match v with
  | VNone => false
  | VBool b => b
  | VInt z => negb (z =? 0)
  | VStr s => negb (String.eqb s EmptyString)
  | VList l => match l with [] => false | _ => true end
  | VDict d => match d with [] => false | _ => true end
  end.

(** [a or b] *)
Definition py_or (a b : value) : value := if truthy a then a else b.

(** [isinstance(v, dict)] and what the code then uses it as *)
Definition as_dict (v : value) : option (list (string * value)) :=
  match v with VDict d => Some d | _ => None end.

Definition is_dict (v : value) : bool :=
  match v with VDict _ => true | _ => false end.

Definition is_str (v : value) : bool :=
  match v with VStr _ => true | _ => false end.

(** [v == s] for a string constant [s] *)
Definition eq_str (v : value) (s : string) : bool :=
  match v with VStr x => String.eqb x s | _ => false end.

(** [type(v).__name__] *)
Definition type_name (v : value) : string :=
  match v with
  | VNone => "NoneType"
  | VBool _ => "bool"
  | VInt _ => "int"
  | VStr _ => "str"
  | VList _ => "list"
  | VDict _ => "dict"
  end.

(** *** Text

    A string holds the bytes of the UTF-8 encoding of a Python [str].
    White space, letter case and decimal digits are those of the Unicode
    tables CPython 3.11 is built with. *)

Definition byte_of (c : ascii) : Z := Z.of_nat (nat_of_ascii c).
Definition ascii_of_byte (b : Z) : ascii := ascii_of_nat (Z.to_nat b).

Definition continuation (b : Z) : bool := (128 <=? b) && (b <=? 191).

(** The code point of a well-formed sequence of two, three or four bytes:
    the shortest encoding only, no surrogate, nothing above U+10FFFF. *)
Definition code2 (b0 b1 : Z) : option Z :=
  let c := (b0 - 192) * 64 + (b1 - 128) in
  if (192 <=? b0) && (b0 <=? 223) && continuation b1 && (128 <=? c)
  then Some c else None.

Definition code3 (b0 b1 b2 : Z) : option Z :=
  let c := (b0 - 224) * 4096 + (b1 - 128) * 64 + (b2 - 128) in
  if (224 <=? b0) && (b0 <=? 239) && continuation b1 && continuation b2
     && (2048 <=? c) && negb ((55296 <=? c) && (c <=? 57343))
  then Some c else None.

Definition code4 (b0 b1 b2 b3 : Z) : option Z :=
  let c := (b0 - 240) * 262144 + (b1 - 128) * 4096 + (b2 - 128) * 64 + (b3 - 128) in
  if (240 <=? b0) && (b0 <=? 247) && continuation b1 && continuation b2
     && continuation b3 && (65536 <=? c) && (c <=? 1114111)
  then Some c else None.

(** The code points of a text.  A byte that begins no well-formed sequence
    stands for itself, as U+DC00 plus the byte. *)
Fixpoint decode (s : string) : list Z :=
  match s with
  | EmptyString => []
  | String c0 s0 =>
      let b0 := byte_of c0 in
      if b0 <? 128 then b0 :: decode s0
      else
        let alone := (56320 + b0) :: decode s0 in
        match s0 with
        | EmptyString => alone
        | String c1 s1 =>
            match code2 b0 (byte_of c1) with
            | Some c => c :: decode s1
            | None =>
                match s1 with
                | EmptyString => alone
                | String c2 s2 =>
                    match code3 b0 (byte_of c1) (byte_of c2) with
                    | Some c => c :: decode s2
                    | None =>
                        match s2 with
                        | EmptyString => alone
                        | String c3 s3 =>
                            match code4 b0 (byte_of c1) (byte_of c2) (byte_of c3) with
                            | Some c => c :: decode s3
                            | None => alone
                            end
                        end
                    end
                end
            end
        end
  end.

Definition bytes (l : list Z) : string :=
  fold_right (fun b s => String (ascii_of_byte b) s) EmptyString l.

(** The bytes of one code point. *)
Definition encode1 (c : Z) : string :=
  if c <? 128 then bytes [c]
  else if c <? 2048 then bytes [192 + c / 64; 128 + c mod 64]
  else if (56448 <=? c) && (c <=? 56575) then bytes [c - 56320]
  else if c <? 65536 then
    bytes [224 + c / 4096; 128 + (c / 64) mod 64; 128 + c mod 64]
  else
    bytes [240 + c / 262144; 128 + (c / 4096) mod 64; 128 + (c / 64) mod 64;
           128 + c mod 64].

Definition encode (l : list Z) : string :=
  fold_right (fun c s => encode1 c +:+ s) EmptyString l.

(** [c.isspace()] *)
Definition is_space (c : Z) : bool :=
  ((9 <=? c) && (c <=? 13)) || ((28 <=? c) && (c <=? 32)) || (c =? 133) || (c =? 160)
  || (c =? 5760) || ((8192 <=? c) && (c <=? 8202)) || (c =? 8232) || (c =? 8233)
  || (c =? 8239) || (c =? 8287) || (c =? 12288).

(** How many bytes the white space character at the head of [s] takes;
    0 when [s] begins with none. *)
Definition space_len (s : string) : nat :=
  match s with
  | EmptyString => 0%nat
  | String c0 s0 =>
      let b0 := byte_of c0 in
      if b0 <? 128 then (if is_space b0 then 1%nat else 0%nat)
      else
        match s0 with
        | EmptyString => 0%nat
        | String c1 s1 =>
            match code2 b0 (byte_of c1) with
            | Some c => if is_space c then 2%nat else 0%nat
            | None =>
                match s1 with
                | EmptyString => 0%nat
                | String c2 _ =>
                    match code3 b0 (byte_of c1) (byte_of c2) with
                    | Some c => if is_space c then 3%nat else 0%nat
                    | None => 0%nat
                    end
                end
            end
        end
  end.

(** [s.lstrip()] *)
Fixpoint lstrip (s : string) : string :=
  match s with
  | EmptyString => EmptyString
  | String _ s0 =>
      match space_len s with
      | 1%nat => lstrip s0
      | 2%nat => match s0 with
                 | String _ s1 => lstrip s1
                 | EmptyString => s
                 end
      | 3%nat => match s0 with
                 | String _ (String _ s2) => lstrip s2
                 | _ => s
                 end
      | _ => s
      end
  end.

(** [s.rstrip()]: the text ends where only white space follows. *)
Fixpoint rstrip (s : string) : string :=
  match s with
  | EmptyString => EmptyString
  | String c s' =>
      if String.eqb (lstrip s) EmptyString then EmptyString else String c (rstrip s')
  end.

(** [s.strip()] *)
Definition strip (s : string) : string := rstrip (lstrip s).

(** [lo <= c <= hi] for one of the ranges *)
Definition in_ranges (c : Z) (ranges : list (Z * Z)) : bool :=
  existsb (fun r => (fst r <=? c) && (c <=? snd r)) ranges.

(** The characters with a lower case of their own, as runs
    [(first, last, step, shift)]: every [step]-th character from [first]
    to [last] has its lower case [shift] further on. *)
Definition lower_shifts : list (Z * Z * Z * Z) :=
  [
   (65, 90, 1, 32); (192, 214, 1, 32); (216, 222, 1, 32); (256, 302, 2, 1);
   (306, 310, 2, 1); (313, 327, 2, 1); (330, 374, 2, 1); (376, 376, 1, -121);
   (377, 381, 2, 1); (385, 385, 1, 210); (386, 388, 2, 1); (390, 390, 1, 206);
   (391, 391, 1, 1); (393, 394, 1, 205); (395, 395, 1, 1); (398, 398, 1, 79);
   (399, 399, 1, 202); (400, 400, 1, 203); (401, 401, 1, 1); (403, 403, 1, 205);
   (404, 404, 1, 207); (406, 406, 1, 211); (407, 407, 1, 209); (408, 408, 1, 1);
   (412, 412, 1, 211); (413, 413, 1, 213); (415, 415, 1, 214); (416, 420, 2, 1);
   (422, 422, 1, 218); (423, 423, 1, 1); (425, 425, 1, 218); (428, 428, 1, 1);
   (430, 430, 1, 218); (431, 431, 1, 1); (433, 434, 1, 217); (435, 437, 2, 1);
   (439, 439, 1, 219); (440, 440, 1, 1); (444, 444, 1, 1); (452, 452, 1, 2);
   (453, 453, 1, 1); (455, 455, 1, 2); (456, 456, 1, 1); (458, 458, 1, 2);
   (459, 475, 2, 1); (478, 494, 2, 1); (497, 497, 1, 2); (498, 500, 2, 1);
   (502, 502, 1, -97); (503, 503, 1, -56); (504, 542, 2, 1); (544, 544, 1, -130);
   (546, 562, 2, 1); (570, 570, 1, 10795); (571, 571, 1, 1); (573, 573, 1, -163);
   (574, 574, 1, 10792); (577, 577, 1, 1); (579, 579, 1, -195); (580, 580, 1, 69);
   (581, 581, 1, 71); (582, 590, 2, 1); (880, 882, 2, 1); (886, 886, 1, 1);
   (895, 895, 1, 116); (902, 902, 1, 38); (904, 906, 1, 37); (908, 908, 1, 64);
   (910, 911, 1, 63); (913, 929, 1, 32); (932, 939, 1, 32); (975, 975, 1, 8);
   (984, 1006, 2, 1); (1012, 1012, 1, -60); (1015, 1015, 1, 1); (1017, 1017, 1, -7);
   (1018, 1018, 1, 1); (1021, 1023, 1, -130); (1024, 1039, 1, 80); (1040, 1071, 1, 32);
   (1120, 1152, 2, 1); (1162, 1214, 2, 1); (1216, 1216, 1, 15); (1217, 1229, 2, 1);
   (1232, 1326, 2, 1); (1329, 1366, 1, 48); (4256, 4293, 1, 7264); (4295, 4295, 1, 7264);
   (4301, 4301, 1, 7264); (5024, 5103, 1, 38864); (5104, 5109, 1, 8); (7312, 7354, 1, -3008);
   (7357, 7359, 1, -3008); (7680, 7828, 2, 1); (7838, 7838, 1, -7615); (7840, 7934, 2, 1);
   (7944, 7951, 1, -8); (7960, 7965, 1, -8); (7976, 7983, 1, -8); (7992, 7999, 1, -8);
   (8008, 8013, 1, -8); (8025, 8031, 2, -8); (8040, 8047, 1, -8); (8072, 8079, 1, -8);
   (8088, 8095, 1, -8); (8104, 8111, 1, -8); (8120, 8121, 1, -8); (8122, 8123, 1, -74);
   (8124, 8124, 1, -9); (8136, 8139, 1, -86); (8140, 8140, 1, -9); (8152, 8153, 1, -8);
   (8154, 8155, 1, -100); (8168, 8169, 1, -8); (8170, 8171, 1, -112); (8172, 8172, 1, -7);
   (8184, 8185, 1, -128); (8186, 8187, 1, -126); (8188, 8188, 1, -9); (8486, 8486, 1, -7517);
   (8490, 8490, 1, -8383); (8491, 8491, 1, -8262); (8498, 8498, 1, 28); (8544, 8559, 1, 16);
   (8579, 8579, 1, 1); (9398, 9423, 1, 26); (11264, 11311, 1, 48); (11360, 11360, 1, 1);
   (11362, 11362, 1, -10743); (11363, 11363, 1, -3814); (11364, 11364, 1, -10727); (11367, 11371, 2, 1);
   (11373, 11373, 1, -10780); (11374, 11374, 1, -10749); (11375, 11375, 1, -10783); (11376, 11376, 1, -10782);
   (11378, 11378, 1, 1); (11381, 11381, 1, 1); (11390, 11391, 1, -10815); (11392, 11490, 2, 1);
   (11499, 11501, 2, 1); (11506, 11506, 1, 1); (42560, 42604, 2, 1); (42624, 42650, 2, 1);
   (42786, 42798, 2, 1); (42802, 42862, 2, 1); (42873, 42875, 2, 1); (42877, 42877, 1, -35332);
   (42878, 42886, 2, 1); (42891, 42891, 1, 1); (42893, 42893, 1, -42280); (42896, 42898, 2, 1);
   (42902, 42920, 2, 1); (42922, 42922, 1, -42308); (42923, 42923, 1, -42319); (42924, 42924, 1, -42315);
   (42925, 42925, 1, -42305); (42926, 42926, 1, -42308); (42928, 42928, 1, -42258); (42929, 42929, 1, -42282);
   (42930, 42930, 1, -42261); (42931, 42931, 1, 928); (42932, 42946, 2, 1); (42948, 42948, 1, -48);
   (42949, 42949, 1, -42307); (42950, 42950, 1, -35384); (42951, 42953, 2, 1); (42960, 42960, 1, 1);
   (42966, 42968, 2, 1); (42997, 42997, 1, 1); (65313, 65338, 1, 32); (66560, 66599, 1, 40);
   (66736, 66771, 1, 40); (66928, 66938, 1, 39); (66940, 66954, 1, 39); (66956, 66962, 1, 39);
   (66964, 66965, 1, 39); (68736, 68786, 1, 64); (71840, 71871, 1, 32); (93760, 93791, 1, 32);
   (125184, 125217, 1, 34)
  ].

(** The case-ignorable characters. *)
Definition case_ignorable_ranges : list (Z * Z) :=
  [
   (39, 39); (46, 46); (58, 58); (94, 94); (96, 96); (168, 168);
   (173, 173); (175, 175); (180, 180); (183, 184); (688, 879); (884, 885);
   (890, 890); (900, 901); (903, 903); (1155, 1161); (1369, 1369); (1375, 1375);
   (1425, 1469); (1471, 1471); (1473, 1474); (1476, 1477); (1479, 1479); (1524, 1524);
   (1536, 1541); (1552, 1562); (1564, 1564); (1600, 1600); (1611, 1631); (1648, 1648);
   (1750, 1757); (1759, 1768); (1770, 1773); (1807, 1807); (1809, 1809); (1840, 1866);
   (1958, 1968); (2027, 2037); (2042, 2042); (2045, 2045); (2070, 2093); (2137, 2139);
   (2184, 2184); (2192, 2193); (2200, 2207); (2249, 2306); (2362, 2362); (2364, 2364);
   (2369, 2376); (2381, 2381); (2385, 2391); (2402, 2403); (2417, 2417); (2433, 2433);
   (2492, 2492); (2497, 2500); (2509, 2509); (2530, 2531); (2558, 2558); (2561, 2562);
   (2620, 2620); (2625, 2626); (2631, 2632); (2635, 2637); (2641, 2641); (2672, 2673);
   (2677, 2677); (2689, 2690); (2748, 2748); (2753, 2757); (2759, 2760); (2765, 2765);
   (2786, 2787); (2810, 2815); (2817, 2817); (2876, 2876); (2879, 2879); (2881, 2884);
   (2893, 2893); (2901, 2902); (2914, 2915); (2946, 2946); (3008, 3008); (3021, 3021);
   (3072, 3072); (3076, 3076); (3132, 3132); (3134, 3136); (3142, 3144); (3146, 3149);
   (3157, 3158); (3170, 3171); (3201, 3201); (3260, 3260); (3263, 3263); (3270, 3270);
   (3276, 3277); (3298, 3299); (3328, 3329); (3387, 3388); (3393, 3396); (3405, 3405);
   (3426, 3427); (3457, 3457); (3530, 3530); (3538, 3540); (3542, 3542); (3633, 3633);
   (3636, 3642); (3654, 3662); (3761, 3761); (3764, 3772); (3782, 3782); (3784, 3789);
   (3864, 3865); (3893, 3893); (3895, 3895); (3897, 3897); (3953, 3966); (3968, 3972);
   (3974, 3975); (3981, 3991); (3993, 4028); (4038, 4038); (4141, 4144); (4146, 4151);
   (4153, 4154); (4157, 4158); (4184, 4185); (4190, 4192); (4209, 4212); (4226, 4226);
   (4229, 4230); (4237, 4237); (4253, 4253); (4348, 4348); (4957, 4959); (5906, 5908);
   (5938, 5939); (5970, 5971); (6002, 6003); (6068, 6069); (6071, 6077); (6086, 6086);
   (6089, 6099); (6103, 6103); (6109, 6109); (6155, 6159); (6211, 6211); (6277, 6278);
   (6313, 6313); (6432, 6434); (6439, 6440); (6450, 6450); (6457, 6459); (6679, 6680);
   (6683, 6683); (6742, 6742); (6744, 6750); (6752, 6752); (6754, 6754); (6757, 6764);
   (6771, 6780); (6783, 6783); (6823, 6823); (6832, 6862); (6912, 6915); (6964, 6964);
   (6966, 6970); (6972, 6972); (6978, 6978); (7019, 7027); (7040, 7041); (7074, 7077);
   (7080, 7081); (7083, 7085); (7142, 7142); (7144, 7145); (7149, 7149); (7151, 7153);
   (7212, 7219); (7222, 7223); (7288, 7293); (7376, 7378); (7380, 7392); (7394, 7400);
   (7405, 7405); (7412, 7412); (7416, 7417); (7468, 7530); (7544, 7544); (7579, 7679);
   (8125, 8125); (8127, 8129); (8141, 8143); (8157, 8159); (8173, 8175); (8189, 8190);
   (8203, 8207); (8216, 8217); (8228, 8228); (8231, 8231); (8234, 8238); (8288, 8292);
   (8294, 8303); (8305, 8305); (8319, 8319); (8336, 8348); (8400, 8432); (11388, 11389);
   (11503, 11505); (11631, 11631); (11647, 11647); (11744, 11775); (11823, 11823); (12293, 12293);
   (12330, 12333); (12337, 12341); (12347, 12347); (12441, 12446); (12540, 12542); (40981, 40981);
   (42232, 42237); (42508, 42508); (42607, 42610); (42612, 42621); (42623, 42623); (42652, 42655);
   (42736, 42737); (42752, 42785); (42864, 42864); (42888, 42890); (42994, 42996); (43000, 43001);
   (43010, 43010); (43014, 43014); (43019, 43019); (43045, 43046); (43052, 43052); (43204, 43205);
   (43232, 43249); (43263, 43263); (43302, 43309); (43335, 43345); (43392, 43394); (43443, 43443);
   (43446, 43449); (43452, 43453); (43471, 43471); (43493, 43494); (43561, 43566); (43569, 43570);
   (43573, 43574); (43587, 43587); (43596, 43596); (43632, 43632); (43644, 43644); (43696, 43696);
   (43698, 43700); (43703, 43704); (43710, 43711); (43713, 43713); (43741, 43741); (43756, 43757);
   (43763, 43764); (43766, 43766); (43867, 43871); (43881, 43883); (44005, 44005); (44008, 44008);
   (44013, 44013); (64286, 64286); (64434, 64450); (65024, 65039); (65043, 65043); (65056, 65071);
   (65106, 65106); (65109, 65109); (65279, 65279); (65287, 65287); (65294, 65294); (65306, 65306);
   (65342, 65342); (65344, 65344); (65392, 65392); (65438, 65439); (65507, 65507); (65529, 65531);
   (66045, 66045); (66272, 66272); (66422, 66426); (67456, 67461); (67463, 67504); (67506, 67514);
   (68097, 68099); (68101, 68102); (68108, 68111); (68152, 68154); (68159, 68159); (68325, 68326);
   (68900, 68903); (69291, 69292); (69446, 69456); (69506, 69509); (69633, 69633); (69688, 69702);
   (69744, 69744); (69747, 69748); (69759, 69761); (69811, 69814); (69817, 69818); (69821, 69821);
   (69826, 69826); (69837, 69837); (69888, 69890); (69927, 69931); (69933, 69940); (70003, 70003);
   (70016, 70017); (70070, 70078); (70089, 70092); (70095, 70095); (70191, 70193); (70196, 70196);
   (70198, 70199); (70206, 70206); (70367, 70367); (70371, 70378); (70400, 70401); (70459, 70460);
   (70464, 70464); (70502, 70508); (70512, 70516); (70712, 70719); (70722, 70724); (70726, 70726);
   (70750, 70750); (70835, 70840); (70842, 70842); (70847, 70848); (70850, 70851); (71090, 71093);
   (71100, 71101); (71103, 71104); (71132, 71133); (71219, 71226); (71229, 71229); (71231, 71232);
   (71339, 71339); (71341, 71341); (71344, 71349); (71351, 71351); (71453, 71455); (71458, 71461);
   (71463, 71467); (71727, 71735); (71737, 71738); (71995, 71996); (71998, 71998); (72003, 72003);
   (72148, 72151); (72154, 72155); (72160, 72160); (72193, 72202); (72243, 72248); (72251, 72254);
   (72263, 72263); (72273, 72278); (72281, 72283); (72330, 72342); (72344, 72345); (72752, 72758);
   (72760, 72765); (72767, 72767); (72850, 72871); (72874, 72880); (72882, 72883); (72885, 72886);
   (73009, 73014); (73018, 73018); (73020, 73021); (73023, 73029); (73031, 73031); (73104, 73105);
   (73109, 73109); (73111, 73111); (73459, 73460); (78896, 78904); (92912, 92916); (92976, 92982);
   (92992, 92995); (94031, 94031); (94095, 94111); (94176, 94177); (94179, 94180); (110576, 110579);
   (110581, 110587); (110589, 110590); (113821, 113822); (113824, 113827); (118528, 118573); (118576, 118598);
   (119143, 119145); (119155, 119170); (119173, 119179); (119210, 119213); (119362, 119364); (121344, 121398);
   (121403, 121452); (121461, 121461); (121476, 121476); (121499, 121503); (121505, 121519); (122880, 122886);
   (122888, 122904); (122907, 122913); (122915, 122916); (122918, 122922); (123184, 123197); (123566, 123566);
   (123628, 123631); (125136, 125142); (125252, 125259); (127995, 127999); (917505, 917505); (917536, 917631);
   (917760, 917999)
  ].

(** The cased characters: lower case, upper case and title case letters. *)
Definition cased_ranges : list (Z * Z) :=
  [
   (65, 90); (97, 122); (170, 170); (181, 181); (186, 186); (192, 214);
   (216, 246); (248, 442); (444, 447); (452, 659); (661, 696); (704, 705);
   (736, 740); (837, 837); (880, 883); (886, 887); (890, 893); (895, 895);
   (902, 902); (904, 906); (908, 908); (910, 929); (931, 1013); (1015, 1153);
   (1162, 1327); (1329, 1366); (1376, 1416); (4256, 4293); (4295, 4295); (4301, 4301);
   (4304, 4346); (4349, 4351); (5024, 5109); (5112, 5117); (7296, 7304); (7312, 7354);
   (7357, 7359); (7424, 7615); (7680, 7957); (7960, 7965); (7968, 8005); (8008, 8013);
   (8016, 8023); (8025, 8025); (8027, 8027); (8029, 8029); (8031, 8061); (8064, 8116);
   (8118, 8124); (8126, 8126); (8130, 8132); (8134, 8140); (8144, 8147); (8150, 8155);
   (8160, 8172); (8178, 8180); (8182, 8188); (8305, 8305); (8319, 8319); (8336, 8348);
   (8450, 8450); (8455, 8455); (8458, 8467); (8469, 8469); (8473, 8477); (8484, 8484);
   (8486, 8486); (8488, 8488); (8490, 8493); (8495, 8500); (8505, 8505); (8508, 8511);
   (8517, 8521); (8526, 8526); (8544, 8575); (8579, 8580); (9398, 9449); (11264, 11492);
   (11499, 11502); (11506, 11507); (11520, 11557); (11559, 11559); (11565, 11565); (42560, 42605);
   (42624, 42653); (42786, 42887); (42891, 42894); (42896, 42954); (42960, 42961); (42963, 42963);
   (42965, 42969); (42997, 42998); (43000, 43002); (43824, 43866); (43868, 43880); (43888, 43967);
   (64256, 64262); (64275, 64279); (65313, 65338); (65345, 65370); (66560, 66639); (66736, 66771);
   (66776, 66811); (66928, 66938); (66940, 66954); (66956, 66962); (66964, 66965); (66967, 66977);
   (66979, 66993); (66995, 67001); (67003, 67004); (67456, 67456); (67459, 67461); (67463, 67504);
   (67506, 67514); (68736, 68786); (68800, 68850); (71840, 71903); (93760, 93823); (119808, 119892);
   (119894, 119964); (119966, 119967); (119970, 119970); (119973, 119974); (119977, 119980); (119982, 119993);
   (119995, 119995); (119997, 120003); (120005, 120069); (120071, 120074); (120077, 120084); (120086, 120092);
   (120094, 120121); (120123, 120126); (120128, 120132); (120134, 120134); (120138, 120144); (120146, 120485);
   (120488, 120512); (120514, 120538); (120540, 120570); (120572, 120596); (120598, 120628); (120630, 120654);
   (120656, 120686); (120688, 120712); (120714, 120744); (120746, 120770); (120772, 120779); (122624, 122633);
   (122635, 122654); (125184, 125251); (127280, 127305); (127312, 127337); (127344, 127369)
  ].

Definition lower_shift (c : Z) : Z :=
  match find (fun r => let '(lo, hi, step, _) := r in
                       (lo <=? c) && (c <=? hi) && ((c - lo) mod step =? 0))
          lower_shifts with
  | Some (_, _, _, shift) => shift
  | None => 0
  end.

(** The lower case of one character; that of LATIN CAPITAL LETTER I WITH
    DOT ABOVE is two characters long. *)
Definition to_lower_full (c : Z) : list Z :=
  if c <? 128 then [if (65 <=? c) && (c <=? 90) then c + 32 else c]
  else if c =? 304 then [105; 775]
  else [c + lower_shift c].

Definition case_ignorable (c : Z) : bool := in_ranges c case_ignorable_ranges.
Definition cased (c : Z) : bool := in_ranges c cased_ranges.

Fixpoint skip_ignorable (l : list Z) : list Z :=
  match l with
  | [] => []
  | c :: l' => if case_ignorable c then skip_ignorable l' else l
  end.

(** A capital sigma ends a word when a cased letter comes before it and
    none after it, case-ignorable characters aside.  [before] is what was
    read, the nearest character first. *)
Definition final_sigma (before after : list Z) : bool :=
  match skip_ignorable before with
  | [] => false
  | c :: _ =>
      cased c &&
      match skip_ignorable after with
      | [] => true
      | c' :: _ => negb (cased c')
      end
  end.

Fixpoint lower_from (before l : list Z) : list Z :=
  match l with
  | [] => []
  | c :: rest =>
      (if c =? 931 then [if final_sigma before rest then 962 else 963]
       else to_lower_full c)
      ++ lower_from (c :: before) rest
  end.

(** [s.lower()] *)
Definition lower (s : string) : string := encode (lower_from [] (decode s)).

(** [needle in hay] *)
Fixpoint contains (needle hay : string) : bool :=
  String.prefix needle hay ||
  match hay with
  | EmptyString => false
  | String _ hay' => contains needle hay'
  end.

(** [s.startswith(p)] *)
Definition startswith (p s : string) : bool := String.prefix p s.

(** [s.split(sep)] for a one-character separator *)
Fixpoint split_on (sep : ascii) (s : string) : list string :=
  match s with
  | EmptyString => [EmptyString]
  | String c s' =>
      if Ascii.eqb c sep then EmptyString :: split_on sep s'
      else match split_on sep s' with
           | [] => [String c EmptyString]
           | w :: ws => String c w :: ws
           end
  end.

(** [s.replace(a, b)] for single characters *)
Fixpoint replace_char (a b : ascii) (s : string) : string :=
  match s with
  | EmptyString => EmptyString
  | String c s' => String (if Ascii.eqb c a then b else c) (replace_char a b s')
  end.

(** [sep.join(parts)] *)
Definition join (sep : string) (parts : list string) : string :=
  String.concat sep parts.

(** *** [repr] and [str] *)

Definition dquote : ascii := ascii_of_nat 34.
Definition squote : ascii := ascii_of_nat 39.
Definition backslash : ascii := ascii_of_nat 92.

Definition hex_digit (n : nat) : ascii :=
  if (n <? 10)%nat then ascii_of_nat (48 + n) else ascii_of_nat (87 + n).

Definition has_char (c : ascii) (s : string) : bool :=
  contains (String c EmptyString) s.

(** One character of [repr(s)] with quote [q]. *)
Definition repr_char (q c : ascii) : string :=
  let n := nat_of_ascii c in
  if Ascii.eqb c backslash then String backslash (String backslash EmptyString)
  else if Ascii.eqb c q then String backslash (String q EmptyString)
  else if (n =? 9)%nat then String backslash "t"
  else if (n =? 10)%nat then String backslash "n"
  else if (n =? 13)%nat then String backslash "r"
  else if (n <? 32)%nat || (n =? 127)%nat then
    String backslash
      (String "x" (String (hex_digit (n / 16)) (String (hex_digit (n mod 16)) EmptyString)))
  else String c EmptyString.

Fixpoint repr_chars (q : ascii) (s : string) : string :=
  match s with
  | EmptyString => EmptyString
  | String c s' => repr_char q c +:+ repr_chars q s'
  end.

(** [repr(s)] of a string: single quotes unless the text has one and no
    double quote. *)
Definition repr_str (s : string) : string :=
  let q := if has_char squote s && negb (has_char dquote s) then dquote else squote in
  String q (repr_chars q s +:+ String q EmptyString).

(** [repr(v)] *)
Fixpoint repr (v : value) : string :=
  match v with
  | VNone => "None"
  | VBool true => "True"
  | VBool false => "False"
  | VInt z => pretty z
  | VStr s => repr_str s
  | VList l => "[" +:+ join ", " (map repr l) +:+ "]"
  | VDict d =>
      "{" +:+ join ", " (map (fun kv => repr_str (fst kv) +:+ ": " +:+ repr (snd kv)) d) +:+ "}"
  end.

(** [str(v)] *)
Definition str (v : value) : string :=
  match v with
  | VStr s => s
  | _ => repr v
  end.

(** *** [int] *)

(** The zeros of the decimal digits: the nine code points after each are
    its digits one to nine. *)
Definition decimal_zeros : list Z :=
  [
   48; 1632; 1776; 1984; 2406; 2534; 2662; 2790; 2918; 3046;
   3174; 3302; 3430; 3558; 3664; 3792; 3872; 4160; 4240; 6112;
   6160; 6470; 6608; 6784; 6800; 6992; 7088; 7232; 7248; 42528;
   43216; 43264; 43472; 43504; 43600; 44016; 65296; 66720; 68912; 69734;
   69872; 69942; 70096; 70384; 70736; 70864; 71248; 71360; 71472; 71904;
   72016; 72784; 73040; 73120; 92768; 92864; 93008; 120782; 120792; 120802;
   120812; 120822; 123200; 123632; 125264; 130032
  ].

(** A decimal digit of any script, by the code point of its zero. *)
Definition decimal_of (c : Z) : option Z :=
  option_map (fun zero => c - zero)
    (find (fun zero => (zero <=? c) && (c <? zero + 10)) decimal_zeros).

(** What [int] makes of a text before it reads it: white space becomes a
    blank and a decimal digit its ASCII digit; anything else that is not
    ASCII ends the text with a question mark. *)
Fixpoint to_ascii_decimal (l : list Z) : list Z :=
  match l with
  | [] => []
  | c :: rest =>
      if c <? 127 then c :: to_ascii_decimal rest
      else if is_space c then 32 :: to_ascii_decimal rest
      else
        match decimal_of c with
        | Some d => (48 + d) :: to_ascii_decimal rest
        | None => [63]
        end
  end.

(** The blanks [int] skips around the digits: tab to carriage return, and
    the space. *)
Definition is_blank (c : Z) : bool := ((9 <=? c) && (c <=? 13)) || (c =? 32).

Fixpoint skip_blanks (l : list Z) : list Z :=
  match l with
  | [] => []
  | c :: l' => if is_blank c then skip_blanks l' else l
  end.

Definition digit_of (c : Z) : option Z :=
  if (48 <=? c) && (c <=? 57) then Some (c - 48) else None.

Definition underscore : Z := 95.

(** The digits of a decimal literal, with their number; a single
    underscore may stand between two digits, and blanks may follow the
    last digit.  [prev] tells whether the previous character was a digit. *)
Fixpoint parse_digits (acc count : Z) (prev : bool) (l : list Z) : option (Z * Z) :=
  match l with
  | [] => if prev then Some (acc, count) else None
  | c :: l' =>
      match digit_of c with
      | Some d => parse_digits (10 * acc + d) (count + 1) true l'
      | None =>
          if (c =? underscore) && prev then
            match l' with
            | [] => None
            | c' :: _ =>
                match digit_of c' with
                | Some _ => parse_digits acc count false l'
                | None => None
                end
            end
          else if prev && forallb is_blank l then Some (acc, count)
          else None
      end
  end.

(** [sys.get_int_max_str_digits()] *)
Definition max_str_digits : Z := 4300.

(** [int(s)] for text: blanks around, an optional sign, decimal digits,
    no more than [max_str_digits] of them. *)
Definition int_of_string (s : string) : option Z :=
  let signed :=
    match skip_blanks (to_ascii_decimal (decode s)) with
    | [] => None
    | c :: l' =>
        if c =? 45 then option_map (fun r => (- fst r, snd r)) (parse_digits 0 0 false l')
        else if c =? 43 then parse_digits 0 0 false l'
        else parse_digits 0 0 false (c :: l')
    end in
  match signed with
  | Some (z, count) => if count <=? max_str_digits then Some z else None
  | None => None
  end.

(** [int(v)] *)
Definition int (v : value) : Res Z :=
  match v with
  | VInt z => Ok z
  | VBool b => Ok (if b then 1 else 0)
  | VStr s =>
      match int_of_string s with
      | Some z => Ok z
      | None => Raise (ValueError ("invalid literal for int() with base 10: " +:+ repr_str s))
      end
  | _ =>
      Raise (TypeError ("int() argument must be a string, a bytes-like object or a real number, not "
                        +:+ repr_str (type_name v)))
  end.

End Py.
Import Py.

Abbreviation dict := (list (string * value)).

(** [d.get(k)] as a value: a missing key reads as [None]. *)
Definition vget (k : string) (d : dict) : value := dget_or k VNone d.

(** ** Hosts: identifiers and the clock

    [uuid.uuid4()] is a counter behind [uuid_of]; the clock is read off the
    state, which the environment (and any handler) may advance. *)

Definition uuid_of (n : nat) : string := "uuid-" +:+ pretty (Z.of_nat n).

(** ISO rendering of a clock reading (the calendar arithmetic is not
    modelled: the text stands for the reading). *)
Definition iso_of (t : Z) : string := "T" +:+ pretty t.

Class Host (S : Type) : Type := {
  draw_uuid : S -> string * S;
  read_clock : S -> Z
}.

Definition new_uuid {S : Type} `{Host S} : ST S string :=
  fun s => let '(u, s') := draw_uuid s in (Ok u, s').

Definition time_time {S : Type} `{Host S} : ST S Z := gets read_clock.

Definition now_iso {S : Type} `{Host S} : ST S string :=
  gets (fun s => iso_of (read_clock s)).

(** ** constants.py *)

Module Constants.

(** Modelled from the spec: [braindrive_runtime/constants.py] is not among
    the sources.  The protocol version is the fixed string of section 3,
    the error codes are the closed set of section 4.1, each code being its
    own name (as in [Proof-of-Concept-3/shared/bdp.py] and in the tests). *)
Definition PROTOCOL_VERSION : string := "0.1".
Definition E_BAD_MESSAGE : string := "E_BAD_MESSAGE".
Definition E_UNSUPPORTED_PROTOCOL : string := "E_UNSUPPORTED_PROTOCOL".
Definition E_NO_ROUTE : string := "E_NO_ROUTE".
Definition E_REQUIRED_EXTENSION_MISSING : string := "E_REQUIRED_EXTENSION_MISSING".
Definition E_CONFIRMATION_REQUIRED : string := "E_CONFIRMATION_REQUIRED".
Definition E_NODE_UNAVAILABLE : string := "E_NODE_UNAVAILABLE".
Definition E_NODE_TIMEOUT : string := "E_NODE_TIMEOUT".
Definition E_NODE_ERROR : string := "E_NODE_ERROR".
Definition E_NODE_REG_INVALID : string := "E_NODE_REG_INVALID".
Definition E_NODE_UNTRUSTED : string := "E_NODE_UNTRUSTED".
Definition E_NODE_NOT_REGISTERED : string := "E_NODE_NOT_REGISTERED".
Definition E_INTERNAL : string := "E_INTERNAL".

(** Modelled from the spec: the model providers of sections 4.6 and 8 (S3)
    and the risk classes of section 3. *)
Definition MODEL_PROVIDER_OPENROUTER : string := "openrouter".
Definition MODEL_PROVIDER_OLLAMA : string := "ollama".
Definition MODEL_PROVIDERS : list string :=
  [MODEL_PROVIDER_OPENROUTER; MODEL_PROVIDER_OLLAMA].
Definition RISK_CLASSES : list string := ["read"; "mutate"; "destructive"].

End Constants.
Import Constants.

(** [s in xs] for a collection of strings *)
Definition str_in (s : string) (xs : list string) : bool :=
  existsb (String.eqb s) xs.

(** ** protocol.py (the same text serves Proof-of-Concept-3/shared/bdp.py) *)

Module Protocol.

Definition no_attribute (v : value) (attr : string) : exn :=
  AttributeError ("'" +:+ type_name v +:+ "' object has no attribute '" +:+ attr +:+ "'").

Definition ensure_extensions (message : dict) : dict :=
  match dget "extensions" message with
  | None | Some VNone => dset "extensions" (VDict []) message
  | Some _ => message
  end.

(** [if hop:] *)
Definition hop_given (hop : option string) : option string :=
  match hop with
  | Some h => if String.eqb h EmptyString then None else Some h
  | None => None
  end.

Definition ensure_trace (message : dict) (parent_message_id : value)
  (hop : option string) : Res dict :=
  let message := ensure_extensions message in
  let parent := py_or parent_message_id (vget "message_id" message) in
  match vget "extensions" message with
  | VDict ext =>
      let ext :=
        dsetdefault "trace"
          (VDict [("parent_message_id", parent); ("depth", VInt 0); ("path", VList [])])
          ext in
      match vget "trace" ext with
      | VDict trace =>
          let trace := dsetdefault "parent_message_id" parent trace in
          let trace := dsetdefault "depth" (VInt 0) trace in
          let trace := dsetdefault "path" (VList []) trace in
          match Py.int (vget "depth" trace) with
          | Raise e => Raise e
          | Ok depth =>
              let trace := dset "depth" (VInt (depth + 1)) trace in
              let finish (trace : dict) : dict :=
                dset "extensions" (VDict (dset "trace" (VDict trace) ext)) message in
              match hop_given hop with
              | None => Ok (finish trace)
              | Some h =>
                  match vget "path" trace with
                  | VList p => Ok (finish (dset "path" (VList (p ++ [VStr h])) trace))
                  | v => Raise (no_attribute v "append")
                  end
              end
          end
      | v => Raise (no_attribute v "setdefault")
      end
  | v => Raise (no_attribute v "setdefault")
  end.

Section WithHost.
Context {S : Type} `{Host S}.

Definition make_response (intent : string) (payload : dict)
  (parent_message_id : value) (extensions : dict) : ST S dict :=
  let* id := new_uuid in
  let response :=
    [("protocol_version", VStr PROTOCOL_VERSION); ("message_id", VStr id);
     ("intent", VStr intent); ("payload", VDict payload)] in
  let response :=
    match extensions with
    | [] => response
    | _ => dset "extensions" (VDict extensions) response
    end in
  if truthy parent_message_id
  then lift_res (ensure_trace response parent_message_id None)
  else ret response.

Definition make_error (code message : string) (parent_message_id : value)
  (retryable : bool) (details : dict) : ST S dict :=
  let* id := new_uuid in
  let err :=
    [("protocol_version", VStr PROTOCOL_VERSION); ("message_id", VStr id);
     ("intent", VStr "error");
     ("payload",
      VDict [("error",
              VDict [("code", VStr code); ("message", VStr message);
                     ("retryable", VBool retryable); ("details", VDict details)])]);
     ("extensions", VDict [])] in
  if truthy parent_message_id
  then lift_res (ensure_trace err parent_message_id None)
  else ret err.

(** The first of the four required fields that [message] lacks. *)
Definition missing_field (message : dict) : option string :=
  find (fun field => negb (dhas field message))
    ["protocol_version"; "message_id"; "intent"; "payload"].

Definition validate_core (message : value) : ST S (option dict) :=
  match message with
  | VDict m =>
      let msg_id := vget "message_id" m in
      let bad (text : string) : ST S (option dict) :=
        let* e := make_error E_BAD_MESSAGE text msg_id false [] in ret (Some e) in
      match missing_field m with
      | Some field => bad ("Missing required field: " +:+ field)
      | None =>
          if negb (is_str (vget "protocol_version" m)) then bad "protocol_version must be string"
          else if negb (is_str (vget "message_id" m)) then bad "message_id must be string"
          else if negb (is_str (vget "intent" m)) then bad "intent must be string"
          else if negb (is_dict (vget "payload" m)) then bad "payload must be object"
          else
            match dget "extensions" m with
            | None | Some VNone | Some (VDict _) => ret None
            | Some _ => bad "extensions must be object if present"
            end
      end
  | _ =>
      let* e := make_error E_BAD_MESSAGE "Message must be an object" VNone false [] in
      ret (Some e)
  end.

Definition looks_like_bdp (message : value) : ST S bool :=
  let* r := validate_core message in
  ret (match r with None => true | Some _ => false end).

End WithHost.

End Protocol.

(** ** The world the nodes act on *)

(** One entry below the library root: its path relative to the root, part
    by part, and what [stat] reports.  Symbolic links are not modelled. *)
Record FsEntry : Type := {
  fs_path : list string;
  fs_is_file : bool;
  fs_size : Z;
  fs_mtime_ns : Z
}.

(** The library root ([None]: the directory does not exist), the data root
    of [Persistence] (one list of lines per log, one value per state file),
    the private memory of the in-process nodes, the clock, the counter of
    identifiers handed out, and what the clock has in store: [ticks] lists
    by how much the reading will have moved at each of the coming points
    where time is let pass ([elapse_world]). *)
Record World : Type := {
  library : option (list FsEntry);
  logs : gmap string (list value);
  state_files : gmap string value;
  node_mem : gmap string value;
  now : Z;
  uuids : nat;
  ticks : list Z
}.

Definition set_library (l : option (list FsEntry)) (w : World) : World :=
  {| library := l; logs := logs w; state_files := state_files w;
     node_mem := node_mem w; now := now w; uuids := uuids w; ticks := ticks w |}.
Definition set_logs (l : gmap string (list value)) (w : World) : World :=
  {| library := library w; logs := l; state_files := state_files w;
     node_mem := node_mem w; now := now w; uuids := uuids w; ticks := ticks w |}.
Definition set_state_files (f : gmap string value) (w : World) : World :=
  {| library := library w; logs := logs w; state_files := f;
     node_mem := node_mem w; now := now w; uuids := uuids w; ticks := ticks w |}.
Definition set_node_mem (m : gmap string value) (w : World) : World :=
  {| library := library w; logs := logs w; state_files := state_files w;
     node_mem := m; now := now w; uuids := uuids w; ticks := ticks w |}.
Definition set_now (t : Z) (w : World) : World :=
  {| library := library w; logs := logs w; state_files := state_files w;
     node_mem := node_mem w; now := t; uuids := uuids w; ticks := ticks w |}.
Definition set_uuids (n : nat) (w : World) : World :=
  {| library := library w; logs := logs w; state_files := state_files w;
     node_mem := node_mem w; now := now w; uuids := n; ticks := ticks w |}.
Definition set_ticks (l : list Z) (w : World) : World :=
  {| library := library w; logs := logs w; state_files := state_files w;
     node_mem := node_mem w; now := now w; uuids := uuids w; ticks := l |}.

(** Time passes: the clock moves by the next tick.  Nothing else in the
    world changes, and with no tick in store the clock stands still. *)
Definition elapse_world (w : World) : World :=
  match ticks w with
  | [] => w
  | d :: rest => set_ticks rest (set_now (now w + d) w)
  end.

#[export] Instance World_Host : Host World := {
  draw_uuid w := (uuid_of (uuids w), set_uuids (Datatypes.S (uuids w)) w);
  read_clock w := now w
}.

(** ** persistence.py *)

Module Persistence.

Definition SENSITIVE_KEYS : list string :=
  ["api_key"; "authorization"; "token"; "secret"].

Definition REDACTED : value := VStr "<redacted>".

(** [any(token in lowered for token in SENSITIVE_KEYS)] *)
Definition sensitive (key : string) : bool :=
  let lowered := lower key in
  existsb (fun token => contains token lowered) SENSITIVE_KEYS.

Fixpoint _scrub_sensitive (v : value) : value :=
  match v with
  | VDict d =>
      VDict (map (fun kv =>
                    (fst kv,
                     if sensitive (fst kv) then REDACTED
                     else _scrub_sensitive (snd kv))) d)
  | VList l => VList (map _scrub_sensitive l)
  | _ => v
  end.

(** One more JSON line at the end of [logs/<name>.jsonl]. *)
Definition append_log (name : string) (item : value) : ST World unit :=
  modify (fun w =>
    set_logs (<[name := default [] (logs w !! name) ++ [_scrub_sensitive item]]> (logs w)) w).

Definition emit_event (channel event_type : string) (payload : value)
  : ST World unit :=
  let* ts := now_iso in
  append_log channel
    (VDict [("ts", VStr ts); ("event_type", VStr event_type); ("payload", payload)]).

Definition load_state (name : string) (default_value : value) : ST World value :=
  gets (fun w => default default_value (state_files w !! name)).

(** [state/<name>.json] is replaced by the new text in one step. *)
Definition save_state (name : string) (v : value) : ST World unit :=
  modify (fun w => set_state_files (<[name := _scrub_sensitive v]> (state_files w)) w).

End Persistence.

(** ** [sorted(xs, key=...)]

    Python's sort is stable: of two items with equal keys the one that came
    first stays first.  A stable sort has one possible result, which the
    insertion below computes. *)

Section Sorted.
Context {A K : Type} (ltb : K -> K -> bool) (key : A -> K).

Fixpoint insert_sorted (x : A) (l : list A) : list A :=
  match l with
  | [] => [x]
  | y :: l' => if ltb (key y) (key x) then y :: insert_sorted x l' else x :: l
  end.

Definition sorted (l : list A) : list A := fold_right insert_sorted [] l.

End Sorted.

(** ** metadata.py *)

Module Metadata.

Definition pad3 (values : list Z) : list Z :=
  values ++ repeat 0 (3 - length values)%nat.

Definition parse_version (version : string) : Z * Z * Z :=
  let parts := split_on "."%char version in
  let values :=
    pad3 (map (fun token => default 0 (int_of_string token)) (firstn 3 parts)) in
  (nth 0 values 0, nth 1 values 0, nth 2 values 0).

Record CapabilityMetadata : Type := {
  name : string;
  description : string;
  input_schema : value;
  risk_class : string;
  required_extensions : list string;
  approval_required : bool;
  examples : list string;
  idempotency : string;
  side_effect_scope : string;
  capability_version : string;
  provider : option string
}.

Definition not_blank (s : string) : bool :=
  negb (String.eqb (strip s) EmptyString).

Definition cap_validate (c : CapabilityMetadata) : option string :=
  if negb (not_blank (name c)) then Some "capability.name must be non-empty"
  else if negb (str_in (risk_class c) RISK_CLASSES)
  then Some ("capability " +:+ name c +:+ " has invalid risk_class")
  else if negb (is_dict (input_schema c))
  then Some ("capability " +:+ name c +:+ " input_schema must be object")
  else if match examples c with [] => true | _ => false end
  then Some ("capability " +:+ name c +:+ " examples must contain at least one string")
  else if negb (str_in (idempotency c) ["idempotent"; "non_idempotent"])
  then Some ("capability " +:+ name c +:+ " invalid idempotency")
  else if negb (str_in (side_effect_scope c) ["none"; "file"; "external"])
  then Some ("capability " +:+ name c +:+ " invalid side_effect_scope")
  else match provider c with
       | Some p =>
           if str_in p MODEL_PROVIDERS then None
           else Some ("capability " +:+ name c +:+ " invalid provider")
       | None => None
       end.

Definition opt_str (o : option string) : value :=
  match o with Some s => VStr s | None => VNone end.

Definition cap_to_dict (c : CapabilityMetadata) : dict :=
  [("name", VStr (name c)); ("description", VStr (description c));
   ("input_schema", input_schema c); ("risk_class", VStr (risk_class c));
   ("required_extensions", VList (map VStr (required_extensions c)));
   ("approval_required", VBool (approval_required c));
   ("examples", VList (map VStr (examples c)));
   ("idempotency", VStr (idempotency c));
   ("side_effect_scope", VStr (side_effect_scope c));
   ("capability_version", VStr (capability_version c));
   ("provider", opt_str (provider c))].

(** [CapabilityMetadata.from_dict(c.to_dict())] *)
Definition cap_reload (c : CapabilityMetadata) : CapabilityMetadata :=
  {| name := strip (name c);
     description := strip (description c);
     input_schema := if is_dict (input_schema c) then input_schema c else VDict [];
     risk_class := strip (risk_class c);
     required_extensions := required_extensions c;
     approval_required := approval_required c;
     examples := examples c;
     idempotency := strip (idempotency c);
     side_effect_scope := strip (side_effect_scope c);
     capability_version := strip (capability_version c);
     provider :=
       match provider c with
       | Some p => if String.eqb (strip p) EmptyString then None else Some (strip p)
       | None => None
       end |}.

Record NodeDescriptor : Type := {
  node_id : string;
  node_version : string;
  endpoint_url : string;
  supported_protocol_versions : list string;
  capabilities : list CapabilityMetadata;
  requires : list string;
  priority : Z;
  auth : dict
}.

(** The first error among the capabilities, in their order. *)
Fixpoint first_cap_error (caps : list CapabilityMetadata) : option string :=
  match caps with
  | [] => None
  | c :: caps' =>
      match cap_validate c with
      | Some err => Some err
      | None => first_cap_error caps'
      end
  end.

Definition validate (d : NodeDescriptor) : option string :=
  if negb (not_blank (node_id d)) then Some "node_id must be a non-empty string"
  else if negb (not_blank (node_version d)) then Some "node_version must be a non-empty string"
  else if negb (not_blank (endpoint_url d)) then Some "endpoint_url must be a non-empty string"
  else if match supported_protocol_versions d with [] => true | _ => false end
          || negb (forallb not_blank (supported_protocol_versions d))
  then Some "supported_protocol_versions must be a non-empty list[str]"
  else if match capabilities d with [] => true | _ => false end
  then Some "capabilities must be non-empty"
  else first_cap_error (capabilities d).

Definition to_dict (d : NodeDescriptor) : dict :=
  [("node_id", VStr (node_id d)); ("node_version", VStr (node_version d));
   ("endpoint_url", VStr (endpoint_url d));
   ("supported_protocol_versions", VList (map VStr (supported_protocol_versions d)));
   ("capabilities", VList (map (fun c => VDict (cap_to_dict c)) (capabilities d)));
   ("requires", VList (map VStr (requires d)));
   ("priority", VInt (priority d)); ("auth", VDict (auth d))].

(** [NodeDescriptor.from_dict(d.to_dict())] *)
Definition reload (d : NodeDescriptor) : NodeDescriptor :=
  {| node_id := strip (node_id d);
     node_version := strip (node_version d);
     endpoint_url := strip (endpoint_url d);
     supported_protocol_versions := supported_protocol_versions d;
     capabilities := map cap_reload (capabilities d);
     requires := requires d;
     priority := priority d;
     auth := auth d |}.

End Metadata.
Import Metadata.

(** ** config.py *)

Module ConfigResolver.

Record t : Type := {
  env : gmap string string;
  user_config : dict
}.

Record LLMSelection : Type := {
  sel_provider : string;
  sel_model : string;
  provider_source : string;
  model_source : string
}.

Record ProviderDefaults : Type := {
  base_url : string;
  default_model : string
}.

(** [self.env.get(k, d)] *)
Definition env_get (self : t) (k d : string) : string :=
  default d (env self !! k).

(** [x.get(k, {}) if isinstance(x.get(k), dict) else {}] *)
Definition sub_dict (k : string) (d : dict) : dict :=
  match dget k d with Some (VDict x) => x | _ => [] end.

Definition llm_cfg (self : t) : dict := sub_dict "llm" (user_config self).

Definition default_provider (self : t) : string * string :=
  let from_env : string * string :=
    let env_provider :=
      lower (strip (env_get self "BRAINDRIVE_DEFAULT_PROVIDER" "openrouter")) in
    if str_in env_provider MODEL_PROVIDERS then (env_provider, ".env")
    else (MODEL_PROVIDER_OPENROUTER, "fallback") in
  match dget "default_provider" (llm_cfg self) with
  | Some (VStr cfg_provider) =>
      if str_in cfg_provider MODEL_PROVIDERS then (cfg_provider, "user config")
      else from_env
  | _ => from_env
  end.

Definition provider_defaults (self : t) (provider : string) : ProviderDefaults :=
  let cfg_provider := sub_dict provider (llm_cfg self) in
  if String.eqb provider MODEL_PROVIDER_OPENROUTER then
    {| base_url :=
         Py.str (py_or (vget "base_url" cfg_provider)
                   (VStr (env_get self "BRAINDRIVE_OPENROUTER_BASE_URL" "https://openrouter.ai/api/v1")));
       default_model :=
         strip (Py.str (py_or (vget "default_model" cfg_provider)
                          (VStr (env_get self "BRAINDRIVE_OPENROUTER_DEFAULT_MODEL" EmptyString)))) |}
  else
    {| base_url :=
         strip (Py.str (py_or (vget "base_url" cfg_provider)
                          (VStr (env_get self "BRAINDRIVE_OLLAMA_BASE_URL" EmptyString))));
       default_model :=
         strip (Py.str (py_or (vget "default_model" cfg_provider)
                          (VStr (env_get self "BRAINDRIVE_OLLAMA_DEFAULT_MODEL" EmptyString)))) |}.

Definition select_llm (self : t) (llm_extension : value) : LLMSelection :=
  let ext := match llm_extension with VDict d => d | _ => [] end in
  let '(provider, provider_source) :=
    match dget "provider" ext with
    | Some (VStr p) =>
        if str_in p MODEL_PROVIDERS then (p, "request override")
        else default_provider self
    | _ => default_provider self
    end in
  let provider_cfg := provider_defaults self provider in
  let from_config : string * string :=
    let provider_cfg_dict := sub_dict provider (llm_cfg self) in
    match dget "default_model" provider_cfg_dict with
    | Some (VStr m) =>
        if not_blank m then (strip m, "user config")
        else (default_model provider_cfg, ".env")
    | _ => (default_model provider_cfg, ".env")
    end in
  let '(model, model_source) :=
    match dget "model" ext with
    | Some (VStr m) =>
        if not_blank m then (strip m, "request override") else from_config
    | _ => from_config
    end in
  {| sel_provider := provider; sel_model := model;
     provider_source := provider_source; model_source := model_source |}.

Definition validate_provider_requirements (self : t) (selection : LLMSelection)
  : option string :=
  if String.eqb (sel_provider selection) MODEL_PROVIDER_OPENROUTER then
    if String.eqb (strip (env_get self "BRAINDRIVE_OPENROUTER_API_KEY" EmptyString)) EmptyString
    then Some "BRAINDRIVE_OPENROUTER_API_KEY is required for provider openrouter"
    else if String.eqb (sel_model selection) EmptyString
    then Some "Default model is required for provider openrouter"
    else None
  else
    if String.eqb (base_url (provider_defaults self MODEL_PROVIDER_OLLAMA)) EmptyString
    then Some "BRAINDRIVE_OLLAMA_BASE_URL is required for provider ollama"
    else if String.eqb (sel_model selection) EmptyString
    then Some "Default model is required for provider ollama"
    else None.

End ConfigResolver.

(** ** registry.py: the data *)

(** A node handler: it gets the outbound message, acts on the world and
    returns anything, or raises. *)
Definition Handler : Type := dict -> ST World value.

Record NodeRecord : Type := {
  descriptor : NodeDescriptor;
  handler : option Handler;
  lease_token : string;
  expires_at_epoch : Z;
  registered_at : string;
  last_heartbeat_at : string
}.

(** The health entry of a node; its two float fields ([ewma_latency_ms],
    [circuit_open_until]) are left out. *)
Record NodeHealth : Type := {
  success_count : Z;
  failure_count : Z;
  consecutive_failures : Z;
  updated_at : string
}.

(** The fields of a [NodeRegistry]; [records] and [health] are Python
    dictionaries keyed by node id. *)
Record Registry : Type := {
  registration_token : string;
  heartbeat_ttl_sec : Z;
  records : list (string * NodeRecord);
  health : list (string * NodeHealth)
}.

(** One handler invocation, kept for the proofs: the node, what it declares
    for the intent, the message it was handed, what came back, and the
    library before and after. *)
Record Call : Type := {
  call_node : string;
  call_cap : option CapabilityMetadata;
  call_message : dict;
  call_result : Res value;
  call_library_before : option (list FsEntry);
  call_library_after : option (list FsEntry)
}.

Record State : Type := {
  registry : Registry;
  world : World;
  calls : list Call
}.

Definition set_records (r : list (string * NodeRecord)) (s : State) : State :=
  {| registry :=
       {| registration_token := registration_token (registry s);
          heartbeat_ttl_sec := heartbeat_ttl_sec (registry s);
          records := r; health := health (registry s) |};
     world := world s; calls := calls s |}.

Definition set_health (h : list (string * NodeHealth)) (s : State) : State :=
  {| registry :=
       {| registration_token := registration_token (registry s);
          heartbeat_ttl_sec := heartbeat_ttl_sec (registry s);
          records := records (registry s); health := h |};
     world := world s; calls := calls s |}.

Definition set_world (w : World) (s : State) : State :=
  {| registry := registry s; world := w; calls := calls s |}.

Definition add_call (c : Call) (s : State) : State :=
  {| registry := registry s; world := world s; calls := calls s ++ [c] |}.

(** Run a computation on the world inside the router state. *)
Definition liftW {A : Type} (c : ST World A) : ST State A :=
  fun s => let '(r, w) := c (world s) in (r, set_world w s).

#[export] Instance State_Host : Host State := {
  draw_uuid s := let '(u, w) := draw_uuid (world s) in (u, set_world w s);
  read_clock s := now (world s)
}.

(** ** registry.py: the operations *)

Module NodeRegistry.

(** [d.update(extra)] *)
Definition dupdate (d extra : dict) : dict :=
  fold_left (fun acc kv => dset (fst kv) (snd kv) acc) extra d.

(** [rec.to_public()] when the clock reads [t] *)
Definition to_public (t : Z) (rec : NodeRecord) : dict :=
  dupdate (to_dict (descriptor rec))
    [("lease_token", VStr (lease_token rec));
     ("registered_at", VStr (registered_at rec));
     ("last_heartbeat_at", VStr (last_heartbeat_at rec));
     ("expires_at_epoch", VInt (expires_at_epoch rec));
     ("status", VStr (if t <? expires_at_epoch rec then "active" else "stale"))].

Definition health_to_dict (h : NodeHealth) : dict :=
  [("success_count", VInt (success_count h));
   ("failure_count", VInt (failure_count h));
   ("consecutive_failures", VInt (consecutive_failures h));
   ("updated_at", VStr (updated_at h))].

Definition _snapshot_payload_locked : ST State value :=
  let* t := time_time in
  let* reg := gets registry in
  let node (kv : string * NodeRecord) : value :=
    VDict (dset "health"
             (VDict (match dget (fst kv) (health reg) with
                     | Some h => health_to_dict h
                     | None => []
                     end))
             (to_public t (snd kv))) in
  ret (VDict [("nodes", VList (map node (records reg)))]).

Definition _save_snapshot_locked : ST State unit :=
  let* payload := _snapshot_payload_locked in
  liftW (Persistence.save_state "router_registry" payload).

Definition fresh_health (stamp : string) : NodeHealth :=
  {| success_count := 0; failure_count := 0; consecutive_failures := 0;
     updated_at := stamp |}.

Definition reply_error (error code : string) : dict :=
  [("ok", VBool false); ("error", VStr error); ("code", VStr code)].

Definition register (d : NodeDescriptor) (h : option Handler) : ST State dict :=
  match validate d with
  | Some err => ret (reply_error err E_NODE_REG_INVALID)
  | None =>
      let* token := gets (fun s => registration_token (registry s)) in
      if negb (eq_str (vget "registration_token" (auth d)) token)
      then ret (reply_error "registration token invalid" E_NODE_UNTRUSTED)
      else
        let* now_epoch := time_time in
        let* lease := new_uuid in
        let* ttl := gets (fun s => heartbeat_ttl_sec (registry s)) in
        let* registered := now_iso in
        let* beat := now_iso in
        let record :=
          {| descriptor := d; handler := h; lease_token := lease;
             expires_at_epoch := now_epoch + ttl;
             registered_at := registered; last_heartbeat_at := beat |} in
        do* modify (fun s => set_records (dset (node_id d) record (records (registry s))) s) in
        let* stamp := now_iso in
        do* modify (fun s =>
              set_health (dsetdefault (node_id d) (fresh_health stamp) (health (registry s))) s) in
        do* _save_snapshot_locked in
        do* liftW (Persistence.emit_event "router" "router.node_registered"
                     (VDict [("node_id", VStr (node_id d));
                             ("capability_count", VInt (Z.of_nat (length (capabilities d))))])) in
        ret [("ok", VBool true); ("node_id", VStr (node_id d));
             ("lease_token", VStr lease); ("heartbeat_ttl_sec", VInt ttl)]
  end.

Definition heartbeat (node : string) (token : string) : ST State dict :=
  let* recs := gets (fun s => records (registry s)) in
  match dget node recs with
  | None => ret (reply_error "node not registered" E_NODE_NOT_REGISTERED)
  | Some record =>
      if negb (String.eqb (lease_token record) token)
      then ret (reply_error "invalid lease token" E_NODE_UNTRUSTED)
      else
        let* now_epoch := time_time in
        let* beat := now_iso in
        let* ttl := gets (fun s => heartbeat_ttl_sec (registry s)) in
        let record' :=
          {| descriptor := descriptor record; handler := handler record;
             lease_token := lease_token record;
             expires_at_epoch := now_epoch + ttl;
             registered_at := registered_at record;
             last_heartbeat_at := beat |} in
        do* modify (set_records (dset node record' recs)) in
        do* _save_snapshot_locked in
        ret [("ok", VBool true); ("node_id", VStr node)]
  end.

(** The ids of the records whose lease has run out by [t]. *)
Definition stale_ids (t : Z) (recs : list (string * NodeRecord)) : list string :=
  map fst (List.filter (fun kv => expires_at_epoch (snd kv) <=? t) recs).

Definition prune_stale : ST State unit :=
  let* now_epoch := time_time in
  let* recs := gets (fun s => records (registry s)) in
  let stale := stale_ids now_epoch recs in
  do* modify (set_records (fold_left (fun d k => dpop k d) stale recs)) in
  match stale with
  | [] => ret tt
  | _ => _save_snapshot_locked
  end.

Definition _clone_record (rec : NodeRecord) : NodeRecord :=
  {| descriptor := reload (descriptor rec); handler := handler rec;
     lease_token := lease_token rec; expires_at_epoch := expires_at_epoch rec;
     registered_at := registered_at rec;
     last_heartbeat_at := last_heartbeat_at rec |}.

Definition active_records : ST State (list NodeRecord) :=
  do* prune_stale in
  gets (fun s => map (fun kv => _clone_record (snd kv)) (records (registry s))).

Definition get_record (node : string) : ST State (option NodeRecord) :=
  do* prune_stale in
  gets (fun s => option_map _clone_record (dget node (records (registry s)))).

Definition update_health (node : string) (success : bool) : ST State unit :=
  let* stamp0 := now_iso in
  let* table := gets (fun s => dsetdefault node (fresh_health stamp0) (health (registry s))) in
  let state := dget_or node (fresh_health stamp0) table in
  let* stamp := now_iso in
  let state' :=
    if success then
      {| success_count := success_count state + 1;
         failure_count := failure_count state;
         consecutive_failures := 0; updated_at := stamp |}
    else
      {| success_count := success_count state;
         failure_count := failure_count state + 1;
         consecutive_failures := consecutive_failures state + 1;
         updated_at := stamp |} in
  do* modify (set_health (dset node state' table)) in
  _save_snapshot_locked.

(** The key both the registry and the router sort providers by. *)
Definition SortKey : Type := Z * Z * Z * Z * string.

Definition key_ltb (a b : SortKey) : bool :=
  let '(a1, a2, a3, a4, a5) := a in
  let '(b1, b2, b3, b4, b5) := b in
  if a1 <? b1 then true else if b1 <? a1 then false else
  if a2 <? b2 then true else if b2 <? a2 then false else
  if a3 <? b3 then true else if b3 <? a3 then false else
  if a4 <? b4 then true else if b4 <? a4 then false else
  String.ltb a5 b5.

Definition sort_key (prio : Z) (version node : string) : SortKey :=
  let '(major, minor, patch) := parse_version version in
  (- prio, - major, - minor, - patch, node).

(** The candidates of [capability_metadata]: one per capability named
    [intent], record by record. *)
Definition metadata_candidates (intent : string) (recs : list (string * NodeRecord))
  : list (SortKey * CapabilityMetadata) :=
  flat_map (fun kv =>
    let d := descriptor (snd kv) in
    map (fun c => (sort_key (priority d) (node_version d) (node_id d), c))
        (List.filter (fun c => String.eqb (name c) intent) (capabilities d)))
    recs.

Definition capability_metadata (intent : string) : ST State (option CapabilityMetadata) :=
  do* prune_stale in
  let* recs := gets (fun s => records (registry s)) in
  ret (match sorted key_ltb fst (metadata_candidates intent recs) with
       | [] => None
       | c :: _ => Some (snd c)
       end).

End NodeRegistry.

(** ** router.py *)

Module RouterCore.

Import NodeRegistry.

(** The fields of a [RouterCore] that do not change: the provider
    configuration, whether a library root was given, and what a POST to a
    remote endpoint answers ([http_post_json]). *)
Record t : Type := {
  config : ConfigResolver.t;
  library_root : bool;
  http_post_json : string -> Handler
}.

Definition _node_sort_key (rec : NodeRecord) : SortKey :=
  let '(major, minor, patch) := parse_version (node_version (descriptor rec)) in
  (- priority (descriptor rec), - major, - minor, - patch, node_id (descriptor rec)).

Definition has_capability (intent : string) (rec : NodeRecord) : bool :=
  existsb (fun c => String.eqb (name c) intent) (capabilities (descriptor rec)).

Definition _eligible_nodes (intent protocol_version : string)
  : ST State (list NodeRecord) :=
  let* active := active_records in
  ret (List.filter (fun rec =>
                 str_in protocol_version (supported_protocol_versions (descriptor rec))
                 && has_capability intent rec) active).

Definition _metadata_for (rec : NodeRecord) (intent : string)
  : option CapabilityMetadata :=
  find (fun c => String.eqb (name c) intent) (capabilities (descriptor rec)).

Definition _required_extensions_for (rec : NodeRecord) (intent : string)
  : list string :=
  match _metadata_for rec intent with
  | Some c => required_extensions c
  | None => []
  end.

(** Paths compare part by part, parts as strings. *)
Fixpoint path_ltb (p q : list string) : bool :=
  match p, q with
  | [], [] => false
  | [], _ :: _ => true
  | _ :: _, [] => false
  | a :: p', b :: q' =>
      if String.ltb a b then true
      else if String.ltb b a then false
      else path_ltb p' q'
  end.

Definition Fingerprint : Type := list (string * Z * Z).

(** The files below the root in sorted order, each with its relative
    path, size and modification time. *)
Definition fingerprint_of (entries : list FsEntry) : Fingerprint :=
  map (fun e =>
         (replace_char backslash "/"%char (join "/" (fs_path e)),
          fs_size e, fs_mtime_ns e))
      (List.filter fs_is_file (sorted path_ltb fs_path entries)).

Definition _fingerprint_library (self : t) : ST State (option Fingerprint) :=
  if library_root self
  then gets (fun s => option_map fingerprint_of (library (world s)))
  else ret None.

Definition fingerprint_eqb (a b : Fingerprint) : bool :=
  bool_decide (a = b).

(** [message.get(key, {}) or {}] for a message that passed [validate_core]:
    the extensions are a dictionary, [None] or absent. *)
Definition extensions_of (message : dict) : dict :=
  match dget "extensions" message with
  | Some (VDict d) => d
  | _ => []
  end.

(** [x.get(k) if isinstance(x.get(k), dict) else {}] *)
Definition dict_at (k : string) (d : dict) : dict :=
  match dget k d with
  | Some (VDict x) => x
  | _ => []
  end.

(** [str(confirmation.get(status, empty)).lower()] *)
Definition confirmation_status (message : dict) : string :=
  lower (Py.str (dget_or "status" (VStr EmptyString)
                   (dict_at "confirmation" (extensions_of message)))).

Definition _check_confirmation (message : dict) (approval : bool)
  : ST State (option dict) :=
  if negb approval then ret None
  else if negb (String.eqb (confirmation_status message) "approved") then
    let* e := Protocol.make_error E_CONFIRMATION_REQUIRED
                "Approval required before applying changes."
                (vget "message_id" message) false [] in
    ret (Some e)
  else ret None.

Definition disclosure_of (selection : ConfigResolver.LLMSelection) : dict :=
  [("provider", VStr (ConfigResolver.sel_provider selection));
   ("model", VStr (ConfigResolver.sel_model selection));
   ("provider_source", VStr (ConfigResolver.provider_source selection));
   ("model_source", VStr (ConfigResolver.model_source selection))].

Definition provider_matches (intent provider : string) (rec : NodeRecord) : bool :=
  match _metadata_for rec intent with
  | Some c =>
      match Metadata.provider c with
      | Some p => String.eqb p provider
      | None => false
      end
  | None => false
  end.

(** The nodes kept, or the error to return, and the disclosure to stamp. *)
Definition _filter_for_provider (self : t) (nodes : list NodeRecord)
  (intent : string) (message : dict)
  : ST State (list NodeRecord * option dict * option dict) :=
  if negb (startswith "model." intent) then ret (nodes, None, None)
  else
    let llm_ext := VDict (dict_at "llm" (extensions_of message)) in
    let selection := ConfigResolver.select_llm (config self) llm_ext in
    let msg_id := vget "message_id" message in
    if negb (str_in (ConfigResolver.sel_provider selection) MODEL_PROVIDERS) then
      let* e := Protocol.make_error E_BAD_MESSAGE "Invalid model provider" msg_id false [] in
      ret ([], Some e, None)
    else if String.eqb (ConfigResolver.sel_model selection) EmptyString then
      let* e := Protocol.make_error E_BAD_MESSAGE "Model is required for model intent"
                  msg_id false [] in
      ret ([], Some e, None)
    else
      match ConfigResolver.validate_provider_requirements (config self) selection with
      | Some requirement_error =>
          let* e := Protocol.make_error E_NODE_UNAVAILABLE requirement_error msg_id false [] in
          ret ([], Some e, None)
      | None =>
          match List.filter (provider_matches intent (ConfigResolver.sel_provider selection)) nodes with
          | [] =>
              let* e := Protocol.make_error E_NODE_UNAVAILABLE
                          "Model provider unavailable. Check provider status and config."
                          msg_id false
                          [("provider", VStr (ConfigResolver.sel_provider selection));
                           ("intent", VStr intent)] in
              ret ([], Some e, None)
          | filtered => ret (filtered, None, Some (disclosure_of selection))
          end
      end.

(** The four assignments into [outbound[extensions][llm]]. *)
Definition stamp_disclosure (disclosure : option dict) (outbound : dict) : Res dict :=
  match disclosure with
  | None => Ok outbound
  | Some pd =>
      let out_ext :=
        match dget "extensions" outbound with
        | Some (VDict e) => e
        | _ => []
        end in
      let out_ext := dsetdefault "llm" (VDict []) out_ext in
      match vget "llm" out_ext with
      | VDict llm_ext =>
          let llm_ext := dset "provider" (vget "provider" pd) llm_ext in
          let llm_ext := dset "model" (vget "model" pd) llm_ext in
          let llm_ext := dset "provider_source" (vget "provider_source" pd) llm_ext in
          let llm_ext := dset "model_source" (vget "model_source" pd) llm_ext in
          Ok (dset "extensions" (VDict (dset "llm" (VDict llm_ext) out_ext)) outbound)
      | v =>
          Raise (TypeError ("'" +:+ type_name v +:+ "' object does not support item assignment"))
      end
  end.

(** What one pass of the loop over the candidates ends in. *)
Inductive Step : Type :=
| Return (response : dict)
| Continue (attempted : list dict) (retryable_errors : list dict).

Definition attempted_item (node result : string) (more : dict) : dict :=
  [("node_id", VStr node); ("result", VStr result)] ++ more.

(** Call the handler, keeping a record of the call. *)
Definition invoke (node : string) (cap : option CapabilityMetadata) (h : Handler)
  (outbound : dict) : ST State (Res value) :=
  fun s =>
    let '(r, w) := h outbound (world s) in
    (Ok r,
     add_call {| call_node := node; call_cap := cap; call_message := outbound;
                 call_result := r;
                 call_library_before := library (world s);
                 call_library_after := library w |}
       (set_world w s)).

(** The [except Exception] branch. *)
Definition on_exception (node : string) (exc : exn) : ST State Step :=
  do* update_health node false in
  ret (Continue [attempted_item node "exception" [("error", VStr (exc_text exc))]] []).

(** What follows a handler call inside the [try]. *)
Definition after_call (self : t) (node : string) (before_fp : option Fingerprint)
  (result : Res value) : ST State Step :=
  match result with
  | Raise exc => on_exception node exc
  | Ok response =>
      let* ok := Protocol.looks_like_bdp response in
      match ok, response with
      | true, VDict resp =>
          let* flagged :=
            match before_fp with
            | Some before =>
                let* after_fp := _fingerprint_library self in
                ret (match after_fp with
                     | Some after => negb (fingerprint_eqb after before)
                     | None => false
                     end)
            | None => ret false
            end in
          if flagged then
            do* update_health node false in
            ret (Continue [attempted_item node "undeclared_side_effect" []] [])
          else if eq_str (vget "intent" resp) "error" then
            match dget_or "error" (VDict []) (dict_at "payload" resp) with
            | VDict err =>
                if truthy (dget_or "retryable" (VBool false) err) then
                  do* update_health node false in
                  ret (Continue
                         [attempted_item node "retryable_error" [("code", vget "code" err)]]
                         [[("code", vget "code" err); ("message", vget "message" err);
                           ("details", dget_or "details" (VDict []) err)]])
                else
                  do* update_health node true in
                  ret (Return resp)
            | v => on_exception node (Protocol.no_attribute v "get")
            end
          else
            do* update_health node true in
            ret (Return resp)
      | _, _ =>
          do* update_health node false in
          ret (Continue [attempted_item node "invalid_response" []] [])
      end
  end.

(** The body of the [try] for one candidate. *)
Definition attempt (self : t) (rec : NodeRecord) (intent : string) (outbound : dict)
  : ST State Step :=
  let node := node_id (descriptor rec) in
  let* before_fp :=
    match _metadata_for rec intent with
    | Some cap_meta =>
        if String.eqb (risk_class cap_meta) "read"
           && String.eqb (side_effect_scope cap_meta) "none"
        then _fingerprint_library self
        else ret None
    | None => ret None
    end in
  match handler rec with
  | Some h =>
      let* result := invoke node (_metadata_for rec intent) h outbound in
      after_call self node before_fp result
  | None =>
      let endpoint := endpoint_url (descriptor rec) in
      if negb (startswith "http" endpoint)
      then ret (Continue [attempted_item node "handler_missing" []] [])
      else
        let* result :=
          invoke node (_metadata_for rec intent) (http_post_json self endpoint) outbound in
        after_call self node before_fp result
  end.

Definition is_undeclared (item : dict) : bool :=
  eq_str (vget "result" item) "undeclared_side_effect".

(** What [route] returns once the loop has run out of candidates. *)
Definition exhausted (msg_id : value) (attempted retryable_errors : list dict)
  : ST State dict :=
  match retryable_errors with
  | first :: _ =>
      Protocol.make_error
        (Py.str (dget_or "code" (VStr E_NODE_UNAVAILABLE) first))
        (Py.str (dget_or "message" (VStr "Request failed. You can retry.") first))
        msg_id true
        [("attempted", VList (map VDict attempted));
         ("upstream", dget_or "details" (VDict []) first)]
  | [] =>
      match attempted with
      | _ :: _ =>
          if existsb is_undeclared attempted then
            Protocol.make_error E_NODE_ERROR
              "Execution failed due to undeclared side effects in read-only capability."
              msg_id false [("attempted", VList (map VDict attempted))]
          else
            Protocol.make_error E_NODE_UNAVAILABLE
              "No eligible nodes could successfully process the request"
              msg_id true [("attempted", VList (map VDict attempted))]
      | [] =>
          Protocol.make_error E_INTERNAL "Unexpected internal error. Please retry."
            msg_id true []
      end
  end.

(** The message handed to every candidate: a copy of the request with the
    router hop on its trace and the provider disclosure stamped. *)
Definition outbound_of (message : dict) (msg_id : value) (disclosure : option dict)
  : Res dict :=
  match Protocol.ensure_trace message msg_id (Some "router.core") with
  | Ok outbound => stamp_disclosure disclosure outbound
  | Raise e => Raise e
  end.

(** The loop over the sorted candidates. *)
Fixpoint dispatch (self : t) (message : dict) (msg_id : value) (intent : string)
  (disclosure : option dict) (eligible : list NodeRecord)
  (attempted retryable_errors : list dict) : ST State dict :=
  match eligible with
  | [] => exhausted msg_id attempted retryable_errors
  | rec :: rest =>
      let* outbound := lift_res (outbound_of message msg_id disclosure) in
      do* liftW (Persistence.emit_event "router" "router.route_dispatched"
                   (VDict [("selected_node_id", VStr (node_id (descriptor rec)));
                           ("intent", VStr intent)])) in
      let* step := attempt self rec intent outbound in
      match step with
      | Return response => ret response
      | Continue a r =>
          dispatch self message msg_id intent disclosure rest
            (attempted ++ a) (retryable_errors ++ r)
      end
  end.

(** [sorted(set(xs))] *)
Definition sorted_set (xs : list string) : list string :=
  sorted String.ltb (fun x => x) (nodup string_dec xs).

(** The required extensions of [rec] that the request lacks. *)
Definition missing_extensions (rec : NodeRecord) (intent : string) (extensions : dict)
  : list string :=
  List.filter (fun req => negb (dhas req extensions)) (_required_extensions_for rec intent).

(** Time passes between two operations of the router. *)
Definition elapse : ST State unit :=
  modify (fun s => set_world (elapse_world (world s)) s).

(** [route].  The registry is read twice, by [_eligible_nodes] and by
    [capability_metadata], and each reading prunes by the clock as it then
    stands: time passes in between. *)
Definition route (self : t) (message : value) : ST State dict :=
  let* validation_error := Protocol.validate_core message in
  match validation_error, message with
  | Some e, _ => ret e
  | None, VDict m =>
      let msg_id := vget "message_id" m in
      let protocol_version := Py.str (vget "protocol_version" m) in
      let intent := Py.str (vget "intent" m) in
      let extensions := extensions_of m in
      if negb (String.eqb protocol_version PROTOCOL_VERSION) then
        Protocol.make_error E_UNSUPPORTED_PROTOCOL
          ("Protocol version unsupported in this build: " +:+ protocol_version)
          msg_id false []
      else
        let* candidates := _eligible_nodes intent protocol_version in
        match candidates with
        | [] =>
            Protocol.make_error E_NO_ROUTE
              ("No matching capability for intent: " +:+ intent) msg_id false []
        | _ =>
            let eligible :=
              List.filter (fun rec =>
                        match missing_extensions rec intent extensions with
                        | [] => true | _ => false end) candidates in
            let missing_union :=
              flat_map (fun rec => missing_extensions rec intent extensions) candidates in
            match eligible with
            | [] =>
                Protocol.make_error E_REQUIRED_EXTENSION_MISSING
                  "Required protocol extension is missing for this request."
                  msg_id false
                  [("missing", VList (map VStr (sorted_set missing_union)))]
            | _ =>
                do* elapse in
                let* protected_meta := capability_metadata intent in
                let* approval_error :=
                  _check_confirmation m
                    (match protected_meta with
                     | Some meta => approval_required meta
                     | None => false
                     end) in
                match approval_error with
                | Some e => ret e
                | None =>
                    let* '(filtered, provider_error, provider_disclosure) :=
                      _filter_for_provider self eligible intent m in
                    match provider_error with
                    | Some e => ret e
                    | None =>
                        dispatch self m msg_id intent provider_disclosure
                          (sorted key_ltb _node_sort_key filtered) [] []
                    end
                end
            end
        end
  | None, _ => raise (TypeError "validate_core accepts dictionaries only")
  end.

End RouterCore.

(** ** nodes/approval_gate.py *)

Module ApprovalGateNode.

Definition node_id : string := "node.approval.gate".
Definition priority : Z := 190.

Definition initial_state : dict := [("requests", VDict [])].

(** [self.state]: the dictionary the node keeps in memory. *)
Definition self_state (w : World) : dict :=
  match node_mem w !! node_id with
  | Some (VDict st) => st
  | _ => initial_state
  end.

Definition put_state (st : dict) : ST World unit :=
  modify (fun w => set_node_mem (<[node_id := VDict st]> (node_mem w)) w).

(** [__init__] *)
Definition init : ST World unit :=
  let* loaded := Persistence.load_state "approvals" (VDict initial_state) in
  let st := match loaded with VDict d => d | _ => initial_state end in
  put_state (match dget "requests" st with
             | Some (VDict _) => st
             | _ => dset "requests" (VDict []) st
             end).

Definition _save : ST World unit :=
  let* st := gets self_state in
  Persistence.save_state "approvals" (VDict st).

Definition _get_request (request_id : string) : ST World (option dict) :=
  let* st := gets self_state in
  ret (match dget_or "requests" (VDict []) st with
       | VDict requests =>
           match dget request_id requests with
           | Some (VDict item) => Some item
           | _ => None
           end
       | _ => None
       end).

(** [requests[request_id] = record] inside [self.state]. *)
Definition store_record (request_id : string) (record : dict) : ST World unit :=
  let* st := gets self_state in
  let st := dsetdefault "requests" (VDict []) st in
  match vget "requests" st with
  | VDict requests =>
      put_state (dset "requests" (VDict (dset request_id (VDict record) requests)) st)
  | v => raise (TypeError ("'" +:+ type_name v +:+ "' object does not support item assignment"))
  end.

Definition bad (text : string) (message : dict) : ST World value :=
  let* e := Protocol.make_error "E_BAD_MESSAGE" text (vget "message_id" message) false [] in
  ret (VDict e).

Definition handle_request (message : dict) (payload : value) : ST World value :=
  match payload with
  | VDict payload =>
      let guarded := strip (Py.str (dget_or "intent_being_guarded" (VStr EmptyString) payload)) in
      let changes := dget_or "changes" (VList []) payload in
      if String.eqb guarded EmptyString then bad "intent_being_guarded is required" message
      else
        match changes with
        | VList (_ :: _) =>
            let given := strip (Py.str (dget_or "request_id" (VStr EmptyString) payload)) in
            let* request_id :=
              if String.eqb given EmptyString
              then (let* u := new_uuid in ret ("appr-" +:+ u))
              else ret given in
            let* requested_at := now_iso in
            let record :=
              [("request_id", VStr request_id); ("intent_being_guarded", VStr guarded);
               ("changes", changes); ("status", VStr "pending");
               ("requested_at", VStr requested_at); ("resolved_at", VNone);
               ("decision", VNone); ("decision_note", VStr EmptyString)] in
            do* store_record request_id record in
            do* _save in
            let* r := Protocol.make_response "approval.requested" record
                        (vget "message_id" message) [] in
            ret (VDict r)
        | _ => bad "changes must be non-empty list" message
        end
  | _ => bad "payload must be object" message
  end.

(** The record once a decision is written into it. *)
Definition resolved_record (record : dict) (decision resolved_at : string)
  (payload : dict) : dict :=
  let record := dset "status" (VStr decision) record in
  let record := dset "decision" (VStr decision) record in
  let record := dset "resolved_at" (VStr resolved_at) record in
  let record :=
    dset "decision_note"
      (VStr (Py.str (dget_or "decision_note" (VStr EmptyString) payload))) record in
  dset "decided_by" (VStr (Py.str (dget_or "decided_by" (VStr "owner") payload))) record.

Definition handle_resolve (message : dict) (payload : value) : ST World value :=
  match payload with
  | VDict payload =>
      let request_id := strip (Py.str (dget_or "request_id" (VStr EmptyString) payload)) in
      let decision := lower (strip (Py.str (dget_or "decision" (VStr EmptyString) payload))) in
      if String.eqb request_id EmptyString then bad "request_id is required" message
      else if negb (str_in decision ["approved"; "denied"])
      then bad "decision must be approved|denied" message
      else
        let* found := _get_request request_id in
        match found with
        | Some ((_ :: _) as record) =>
            let* resolved_at := now_iso in
            let record := resolved_record record decision resolved_at payload in
            do* store_record request_id record in
            do* _save in
            let* r :=
              Protocol.make_response "approval.resolved"
                (dset "confirmation"
                   (VDict [("required", VBool true); ("status", VStr decision);
                           ("request_id", VStr request_id)])
                   record)
                (vget "message_id" message) [] in
            ret (VDict r)
        | _ =>
            let* e := Protocol.make_error "E_NO_ROUTE"
                        ("approval request not found: " +:+ request_id)
                        (vget "message_id" message) false [] in
            ret (VDict e)
        end
  | _ => bad "payload must be object" message
  end.

Definition handle : Handler := fun message =>
  let intent := vget "intent" message in
  let payload := dget_or "payload" (VDict []) message in
  if eq_str intent "approval.request" then handle_request message payload
  else if eq_str intent "approval.resolve" then handle_resolve message payload
  else
    let* e := Protocol.make_error "E_NO_ROUTE" "Unsupported intent"
                (vget "message_id" message) false [] in
    ret (VDict e).

Definition capability (cap_name description : string) (required : list string)
  (example : string) : CapabilityMetadata :=
  {| name := cap_name; description := description;
     input_schema := VDict [("type", VStr "object"); ("required", VList (map VStr required))];
     risk_class := "read"; required_extensions := []; approval_required := false;
     examples := [example]; idempotency := "non_idempotent";
     side_effect_scope := "file"; capability_version := "0.1.0"; provider := None |}.

Definition capabilities : list CapabilityMetadata :=
  [capability "approval.request" "Create approval request for pending mutation"
     ["intent_being_guarded"; "changes"] "request approval for spec save";
   capability "approval.resolve" "Resolve approval request"
     ["request_id"; "decision"] "approve request appr-123"].

End ApprovalGateNode.

(** ** Proof-of-Concept-3/shared/bdp.py *)

Module Bdp.

Definition EX_CAPABILITY : string := "bdp.capability".
Definition EX_LOG : string := "bdp.log".
Definition EX_DLQ : string := "bdp.dlq".
Definition QUEUE_ECHO : string := "q.echo".
Definition QUEUE_LOG : string := "q.log_event".
Definition QUEUE_ECHO_DLQ : string := "q.echo.dlq".

(** What a Redis string (or hash field) holds: plain text, or the JSON
    text of a value, which stands here for the value it encodes. *)
Inductive rval : Type :=
| Text (s : string)
| Json (v : value).

Record Redis : Type := {
  strings : gmap string rval;
  lists : gmap string (list dict);
  hashes : gmap string (list (string * rval))
}.

(** What the processes do to the outside, in the order they do it. *)
Inductive Effect : Type :=
| Slept (ms : Z)
| Published (exchange routing_key : string) (body : dict)
| Posted (url : string) (payload : dict).

(** Redis, the queues of the broker, [router-events.jsonl], the effects so
    far, the clock and the counter of identifiers. *)
Record Sys : Type := {
  rdb : Redis;
  queues : gmap string (list dict);
  jsonl : list dict;
  effects : list Effect;
  sys_now : Z;
  sys_uuids : nat
}.

Definition set_rdb (r : Redis) (s : Sys) : Sys :=
  {| rdb := r; queues := queues s; jsonl := jsonl s; effects := effects s;
     sys_now := sys_now s; sys_uuids := sys_uuids s |}.
Definition set_queues (q : gmap string (list dict)) (s : Sys) : Sys :=
  {| rdb := rdb s; queues := q; jsonl := jsonl s; effects := effects s;
     sys_now := sys_now s; sys_uuids := sys_uuids s |}.
Definition set_jsonl (l : list dict) (s : Sys) : Sys :=
  {| rdb := rdb s; queues := queues s; jsonl := l; effects := effects s;
     sys_now := sys_now s; sys_uuids := sys_uuids s |}.
Definition add_effect (e : Effect) (s : Sys) : Sys :=
  {| rdb := rdb s; queues := queues s; jsonl := jsonl s;
     effects := effects s ++ [e];
     sys_now := sys_now s; sys_uuids := sys_uuids s |}.
Definition set_sys_uuids (n : nat) (s : Sys) : Sys :=
  {| rdb := rdb s; queues := queues s; jsonl := jsonl s; effects := effects s;
     sys_now := sys_now s; sys_uuids := n |}.

#[export] Instance Sys_Host : Host Sys := {
  draw_uuid s := (uuid_of (sys_uuids s), set_sys_uuids (Datatypes.S (sys_uuids s)) s);
  read_clock s := sys_now s
}.

Definition set_strings (m : gmap string rval) (r : Redis) : Redis :=
  {| strings := m; lists := lists r; hashes := hashes r |}.
Definition set_lists (m : gmap string (list dict)) (r : Redis) : Redis :=
  {| strings := strings r; lists := m; hashes := hashes r |}.
Definition set_hashes (m : gmap string (list (string * rval))) (r : Redis) : Redis :=
  {| strings := strings r; lists := lists r; hashes := m |}.

(** [json_loads]: text that is not the JSON of an object is refused. *)
Definition json_loads (raw : rval) : Res dict :=
  match raw with
  | Json (VDict d) => Ok d
  | _ => Raise (ValueError "JSON payload must decode to an object")
  end.

Definition looks_like_bdp (message : value) : bool :=
  match message with
  | VDict m =>
      is_str (vget "protocol_version" m) && is_str (vget "message_id" m)
      && is_str (vget "intent" m) && is_dict (vget "payload" m)
      && match dget "extensions" m with
         | None | Some VNone | Some (VDict _) => true
         | Some _ => false
         end
  | _ => false
  end.

(** [rdb.get(key)] *)
Definition redis_get (key : string) : ST Sys (option rval) :=
  gets (fun s => strings (rdb s) !! key).

(** [rdb.set(key, v)] *)
Definition redis_set (key : string) (v : rval) : ST Sys unit :=
  modify (fun s => set_rdb (set_strings (<[key := v]> (strings (rdb s))) (rdb s)) s).

(** [rdb.set(key, v, nx=True)]: whether the key was set. *)
Definition redis_setnx (key : string) (v : rval) : ST Sys bool :=
  let* old := redis_get key in
  match old with
  | Some _ => ret false
  | None => do* redis_set key v in ret true
  end.

Definition status_key (message_id : string) : string := "bdp:status:" +:+ message_id.
Definition events_key (message_id : string) : string := "bdp:events:" +:+ message_id.

(** A value as [redis_set_status] stores it. *)
Definition status_field (v : value) : rval :=
  match v with
  | VDict _ | VList _ => Json v
  | _ => Text (Py.str v)
  end.

(** [hset(key, mapping=...)]: the given fields are written, the others stay. *)
Definition hset (fields : list (string * rval)) (old : list (string * rval))
  : list (string * rval) :=
  fold_left (fun acc kv => dset (fst kv) (snd kv) acc) fields old.

Definition redis_set_status (message_id state : string) (extra : dict) : ST Sys unit :=
  let* stamp := now_iso in
  let payload :=
    hset (map (fun kv => (fst kv, status_field (snd kv))) extra)
      [("message_id", Text message_id); ("state", Text state); ("updated_at", Text stamp)] in
  modify (fun s =>
    let key := status_key message_id in
    set_rdb (set_hashes (<[key := hset payload (default [] (hashes (rdb s) !! key))]>
                           (hashes (rdb s))) (rdb s)) s).

Definition redis_append_event (message_id event : string) (details : dict) : ST Sys unit :=
  let* stamp := now_iso in
  let entry :=
    [("ts", VStr stamp); ("event", VStr event); ("message_id", VStr message_id);
     ("details", VDict details)] in
  modify (fun s =>
    let key := events_key message_id in
    set_jsonl (jsonl s ++ [entry])
      (set_rdb (set_lists (<[key := default [] (lists (rdb s) !! key) ++ [entry]]>
                             (lists (rdb s))) (rdb s)) s)).

Definition redis_get_events (message_id : string) : ST Sys (list dict) :=
  gets (fun s => default [] (lists (rdb s) !! events_key message_id)).

(** The queues an exchange delivers to ([ensure_topology]). *)
Definition bound_queues (exchange routing_key : string) : list string :=
  if String.eqb exchange EX_CAPABILITY then
    if String.eqb routing_key "echo" then [QUEUE_ECHO] else []
  else if String.eqb exchange EX_LOG then [QUEUE_LOG]
  else if String.eqb exchange EX_DLQ then
    if String.eqb routing_key "echo" then [QUEUE_ECHO_DLQ] else []
  else [].

Definition enqueue (body : dict) (q : gmap string (list dict)) (queue : string)
  : gmap string (list dict) :=
  <[queue := default [] (q !! queue) ++ [body]]> q.

Definition publish_json (exchange routing_key : string) (body : dict) : ST Sys unit :=
  modify (fun s =>
    add_effect (Published exchange routing_key body)
      (set_queues (fold_left (enqueue body) (bound_queues exchange routing_key) (queues s)) s)).

Definition publish_log (message_id event : string) (details : dict) : ST Sys unit :=
  publish_json EX_LOG EmptyString
    [("event", VStr event); ("message_id", VStr message_id); ("details", VDict details)].

End Bdp.

(** ** Proof-of-Concept-3/router/router_service.py *)

Module RouterHandler.

Import Bdp.

(** The registry of the router: intent to node and routing key. *)
Definition REGISTRY : list (string * (string * string)) :=
  [("echo", ("terminal.echo", "echo")); ("chat", ("terminal.echo", "echo"))].

(** Status code and body of the HTTP answer. *)
Definition Reply : Type := Z * dict.

Definition _handle_route_async (body : value) : ST Sys Reply :=
  match body with
  | VDict message =>
      let msg_id := vget "message_id" message in
      let* validation_error := Protocol.validate_core (VDict message) in
      match validation_error with
      | Some e => ret (200, e)
      | None =>
          let id := Py.str msg_id in
          let intent := Py.str (vget "intent" message) in
          if negb (eq_str (vget "protocol_version" message) PROTOCOL_VERSION) then
            let* e := Protocol.make_error E_UNSUPPORTED_PROTOCOL
                        ("PoC3 router supports protocol " +:+ PROTOCOL_VERSION)
                        msg_id false [] in
            ret (200, e)
          else
            match dget intent REGISTRY with
            | None =>
                let* e := Protocol.make_error E_NO_ROUTE ("No route for intent: " +:+ intent)
                            msg_id false [("intent", VStr intent)] in
                ret (200, e)
            | Some (node, routing_key) =>
                let envelope :=
                  [("message", VDict message); ("node_id", VStr node);
                   ("routing_key", VStr routing_key); ("attempt", VInt 0);
                   ("max_attempts", VInt 3)] in
                do* redis_set_status id "queued"
                      [("intent", VStr intent); ("node_id", VStr node);
                       ("request", VDict message);
                       ("meta", VDict [("correlation_id", msg_id)])] in
                do* redis_append_event id "route_enqueued"
                      [("node_id", VStr node); ("routing_key", VStr routing_key);
                       ("attempt", VInt 0)] in
                do* publish_json EX_CAPABILITY routing_key envelope in
                do* publish_log id "route_enqueued"
                      [("node_id", VStr node); ("routing_key", VStr routing_key)] in
                ret (202,
                     [("accepted", VBool true); ("message_id", msg_id);
                      ("correlation_id", msg_id);
                      ("status_url", VStr ("/status/" +:+ id));
                      ("replay_url", VStr ("/replay/" +:+ id))])
            end
      end
  | _ =>
      let* e := Protocol.make_error "E_BAD_MESSAGE" "Invalid JSON body" VNone false [] in
      ret (200, e)
  end.

Definition _handle_worker_result (body : value) : ST Sys Reply :=
  match body with
  | VDict body =>
      let message_id := Py.str (dget_or "message_id" (VStr EmptyString) body) in
      let node := Py.str (dget_or "node_id" (VStr "unknown") body) in
      let response := vget "response" body in
      let dead_lettered := truthy (dget_or "dead_lettered" (VBool false) body) in
      let duplicate := truthy (dget_or "duplicate" (VBool false) body) in
      let* attempt := lift_res (Py.int (dget_or "attempt" (VInt 0) body)) in
      if String.eqb message_id EmptyString
      then ret (200, [("ok", VBool false); ("error", VStr "missing_message_id")])
      else
        let* response :=
          match looks_like_bdp response, response with
          | true, VDict r => ret r
          | _, _ =>
              Protocol.make_error "E_NODE_ERROR"
                ("Worker returned invalid BDP response: " +:+ node)
                (VStr message_id) false [("node_id", VStr node)]
          end in
        let state :=
          if eq_str (vget "intent" response) "error"
          then (if dead_lettered then "dlq" else "error")
          else "completed" in
        do* redis_set_status message_id state
              [("node_id", VStr node); ("response", VDict response);
               ("details",
                VDict [("attempt", VInt attempt); ("duplicate", VBool duplicate);
                       ("dead_lettered", VBool dead_lettered)])] in
        let details :=
          [("node_id", VStr node); ("attempt", VInt attempt);
           ("duplicate", VBool duplicate); ("dead_lettered", VBool dead_lettered);
           ("response_intent", vget "intent" response)] in
        do* redis_append_event message_id "worker_result" details in
        do* publish_log message_id "worker_result" details in
        ret (200, [("ok", VBool true)])
  | _ => ret (200, [("ok", VBool false); ("error", VStr "bad_json")])
  end.

(** [int(count) if count else 0] *)
Definition side_effect_count (count : option rval) : Res Z :=
  match count with
  | Some (Text s) => if String.eqb s EmptyString then Ok 0 else Py.int (VStr s)
  | Some (Json (VInt z)) => Ok z
  | Some (Json v) =>
      Raise (ValueError ("invalid literal for int() with base 10: " +:+ repr v))
  | None => Ok 0
  end.

Definition is_duplicate_event (e : dict) : bool :=
  eq_str (vget "event" e) "duplicate_delivery".

Definition _handle_debug_idempotency (message_id : string) : ST Sys Reply :=
  let* count := redis_get ("bdp:side_effect:terminal.echo:" +:+ message_id) in
  let* events := redis_get_events message_id in
  let* n := lift_res (side_effect_count count) in
  ret (200,
       [("ok", VBool true); ("message_id", VStr message_id);
        ("side_effect_count", VInt n);
        ("duplicate_event_count",
         VInt (Z.of_nat (length (List.filter is_duplicate_event events))))]).

End RouterHandler.

(** ** Proof-of-Concept-3/workers/echo_worker/worker.py *)

Module EchoWorker.

Import Bdp.

(** The settings the worker reads from its environment, and what the
    Ollama endpoint answers to a chat request. *)
Record t : Type := {
  NODE_ID : string;
  ROUTER_RESULT_URL : string;
  MAX_ATTEMPTS : Z;
  RETRY_DELAY_MS : Z;
  OLLAMA_BASE_URL : string;
  DEFAULT_CHAT_MODEL : string;
  ollama : dict -> Res value
}.

Definition DEFAULT_SYSTEM_PROMPTS : list (string * string) :=
  [("general", "You are the BrainDrive general assistant node. Answer clearly and concisely.");
   ("builder", "You are the BrainDrive builder node. Provide implementation-first guidance.")].

(** [k in container] for a string [k] *)
Definition py_in (k : string) (container : value) : Res bool :=
  match container with
  | VDict d => Ok (dhas k d)
  | VStr s => Ok (contains k s)
  | VList l => Ok (existsb (fun x => eq_str x k) l)
  | v => Raise (TypeError ("argument of type '" +:+ type_name v +:+ "' is not iterable"))
  end.

(** [v.get(k, default)] on anything *)
Definition get_on (v : value) (k : string) (default : value) : Res value :=
  match v with
  | VDict d => Ok (dget_or k default d)
  | _ => Raise (Protocol.no_attribute v "get")
  end.

Definition bind_res {A B : Type} (r : Res A) (k : A -> Res B) : Res B :=
  match r with
  | Ok a => k a
  | Raise e => Raise e
  end.

(** [message.get(extensions, {}) or {}] *)
Definition extensions_or_empty (message : dict) : value :=
  py_or (dget_or "extensions" (VDict []) message) (VDict []).

(** [send_result]: the POST reaches [/worker_result] of the router; a
    failure there comes back as an error of the HTTP client. *)
Definition send_result (self : t) (message_id : string) (response : dict)
  (attempt : Z) (duplicate dead_lettered : bool) : ST Sys unit :=
  let payload :=
    [("message_id", VStr message_id); ("node_id", VStr (NODE_ID self));
     ("response", VDict response); ("attempt", VInt attempt);
     ("duplicate", VBool duplicate); ("dead_lettered", VBool dead_lettered)] in
  do* modify (add_effect (Posted (ROUTER_RESULT_URL self) payload)) in
  catch
    (let* _ := RouterHandler._handle_worker_result (VDict payload) in ret tt)
    (fun _ => raise (RuntimeError ("HTTP POST failed for " +:+ ROUTER_RESULT_URL self))).

(** [v[k]] for a string [k] *)
Definition getitem (v : value) (k : string) : Res value :=
  match v with
  | VDict d =>
      match dget k d with
      | Some x => Ok x
      | None => Raise (Exn "KeyError" (repr_str k))
      end
  | VStr _ => Raise (TypeError "string indices must be integers, not 'str'")
  | VList _ => Raise (TypeError "list indices must be integers or slices, not str")
  | v => Raise (TypeError ("'" +:+ type_name v +:+ "' object is not subscriptable"))
  end.

(** Copy the identity of the request into the response, when it has one. *)
Definition with_identity (message response : dict) : Res dict :=
  bind_res (py_in "identity" (extensions_or_empty message)) (fun has =>
    if has then
      bind_res (getitem (vget "extensions" message) "identity") (fun identity =>
        Ok (dset "extensions"
              (VDict (dset "identity" identity (RouterCore.dict_at "extensions" response)))
              response))
    else Ok response).

Definition build_echo_response (self : t) (message : dict) : Res dict :=
  bind_res (get_on (dget_or "payload" (VDict []) message) "text" (VStr EmptyString)) (fun text =>
  bind_res (get_on (dget_or "extensions" (VDict []) message) "identity" (VDict [])) (fun identity =>
  bind_res (get_on identity "actor_id" (VStr "unknown")) (fun actor_id =>
    let response :=
      [("protocol_version", VStr PROTOCOL_VERSION);
       ("message_id", vget "message_id" message);
       ("intent", VStr "echo_response");
       ("payload",
        VDict [("text", VStr (Py.str text)); ("handled_by", VStr (NODE_ID self));
               ("actor", actor_id)]);
       ("extensions", VDict [])] in
    bind_res (with_identity message response) (fun response =>
      Protocol.ensure_trace response (vget "message_id" message)
        (Some "terminal.echo.worker"))))).

Definition build_chat_response (self : t) (message : dict) : ST Sys dict :=
  let ext := extensions_or_empty message in
  let llm := match ext with VDict e => dget_or "llm" (VDict []) e | _ => VDict [] end in
  let* text := lift_res (get_on (dget_or "payload" (VDict []) message) "text" (VStr EmptyString)) in
  let pick (k : string) (fallback : string) : string :=
    match llm with
    | VDict l => Py.str (dget_or k (VStr fallback) l)
    | _ => fallback
    end in
  let node := pick "node" "general" in
  let model := pick "model" (DEFAULT_CHAT_MODEL self) in
  let node_id := pick "node_id" ("node.assistant." +:+ node) in
  let default_prompt :=
    dget_or node
      "You are the BrainDrive general assistant node. Answer clearly and concisely."
      DEFAULT_SYSTEM_PROMPTS in
  let system_prompt := pick "system_prompt" default_prompt in
  let ollama_req :=
    [("model", VStr model);
     ("messages",
      VList [VDict [("role", VStr "system"); ("content", VStr system_prompt)];
             VDict [("role", VStr "user"); ("content", VStr (Py.str text))]]);
     ("stream", VBool false)] in
  do* modify (add_effect (Posted (OLLAMA_BASE_URL self +:+ "/api/chat") ollama_req)) in
  let* ollama_resp := lift_res (ollama self ollama_req) in
  let content :=
    match ollama_resp with
    | VDict r =>
        match dget_or "message" (VDict []) r with
        | VDict message_obj => Py.str (dget_or "content" (VStr EmptyString) message_obj)
        | _ => EmptyString
        end
    | _ => EmptyString
    end in
  let response :=
    [("protocol_version", VStr PROTOCOL_VERSION);
     ("message_id", vget "message_id" message);
     ("intent", VStr "chat_response");
     ("payload",
      VDict [("text", VStr content); ("handled_by", VStr (NODE_ID self));
             ("node", VStr node); ("node_id", VStr node_id); ("model", VStr model)]);
     ("extensions", VDict [])] in
  let* response := lift_res (with_identity message response) in
  lift_res (Protocol.ensure_trace response (vget "message_id" message)
              (Some "terminal.echo.worker.chat")).

(** An event and the log line that goes with it. *)
Definition note (message_id event : string) (details : dict) : ST Sys unit :=
  do* redis_append_event message_id event details in
  publish_log message_id event details.

(** The work itself: the [try] / [except] after the side-effect key is set. *)
Definition perform (self : t) (message : dict) (message_id : string) : ST Sys dict :=
  catch
    (let intent := Py.str (dget_or "intent" (VStr EmptyString) message) in
     if String.eqb intent "chat" then build_chat_response self message
     else if String.eqb intent "echo" then lift_res (build_echo_response self message)
     else
       let* response := Protocol.make_error "E_NO_ROUTE"
                          ("Unsupported intent for worker: " +:+ intent)
                          (VStr message_id) false [] in
       do* note message_id "worker_error"
             [("node_id", VStr (NODE_ID self)); ("code", VStr "E_NO_ROUTE")] in
       ret response)
    (fun exc =>
       let* response := Protocol.make_error "E_NODE_UNAVAILABLE"
                          ("LLM processing failed: " +:+ exc_type exc)
                          (VStr message_id) true
                          [("error", VStr (exc_text exc));
                           ("ollama_base_url", VStr (OLLAMA_BASE_URL self))] in
       do* note message_id "worker_error"
             [("node_id", VStr (NODE_ID self)); ("code", VStr "E_NODE_UNAVAILABLE")] in
       ret response).

Definition process_delivery (self : t) (body : value) : ST Sys unit :=
  let* envelope := lift_res (json_loads (Json body)) in
  let message := vget "message" envelope in
  let* attempt := lift_res (Py.int (dget_or "attempt" (VInt 0) envelope)) in
  let* max_attempts :=
    lift_res (Py.int (dget_or "max_attempts" (VInt (MAX_ATTEMPTS self)) envelope)) in
  match message with
  | VDict message =>
      let message_id := Py.str (dget_or "message_id" (VStr EmptyString) message) in
      if String.eqb message_id EmptyString then ret tt
      else
        let node := NODE_ID self in
        let here := [("node_id", VStr node); ("attempt", VInt attempt)] in
        do* note message_id "worker_received" here in
        let idempotency_key := "bdp:idempotency:" +:+ node +:+ ":" +:+ message_id in
        let side_effect_key := "bdp:side_effect:" +:+ node +:+ ":" +:+ message_id in
        let cached_response_key := "bdp:node_response:" +:+ node +:+ ":" +:+ message_id in
        if negb (eq_str (vget "protocol_version" message) PROTOCOL_VERSION) then
          let* response := Protocol.make_error E_UNSUPPORTED_PROTOCOL
                             (node +:+ " supports protocol " +:+ PROTOCOL_VERSION)
                             (VStr message_id) false [] in
          do* redis_set cached_response_key (Json (VDict response)) in
          send_result self message_id response attempt false false
        else
          let* has_identity := lift_res (py_in "identity" (extensions_or_empty message)) in
          if negb has_identity then
            let* response := Protocol.make_error E_REQUIRED_EXTENSION_MISSING
                               "Missing required extension(s): identity"
                               (VStr message_id) false
                               [("missing", VList [VStr "identity"])] in
            do* redis_set cached_response_key (Json (VDict response)) in
            do* note message_id "worker_error"
                  [("node_id", VStr node); ("code", VStr E_REQUIRED_EXTENSION_MISSING)] in
            send_result self message_id response attempt false false
          else
            let* flag := lift_res (get_on (dget_or "payload" (VDict []) message)
                                     "force_error" (VBool false)) in
            if truthy flag then
              let next_attempt := attempt + 1 in
              if next_attempt <? max_attempts then
                let retry_envelope :=
                  [("message", VDict message); ("node_id", VStr node);
                   ("routing_key", VStr "echo"); ("attempt", VInt next_attempt);
                   ("max_attempts", VInt max_attempts)] in
                do* modify (add_effect (Slept (RETRY_DELAY_MS self))) in
                do* publish_json EX_CAPABILITY "echo" retry_envelope in
                note message_id "retry_scheduled"
                  [("node_id", VStr node); ("attempt", VInt next_attempt)]
              else
                let* response := Protocol.make_error E_NODE_TIMEOUT
                                   (node +:+ " exceeded max attempts")
                                   (VStr message_id) true
                                   [("node_id", VStr node); ("attempt", VInt next_attempt)] in
                let dead_letter_entry :=
                  [("message", VDict message); ("node_id", VStr node);
                   ("attempt", VInt next_attempt); ("dead_lettered", VBool true);
                   ("error", VDict response)] in
                do* publish_json EX_DLQ "echo" dead_letter_entry in
                do* note message_id "worker_dead_lettered"
                      [("node_id", VStr node); ("attempt", VInt next_attempt)] in
                do* redis_set cached_response_key (Json (VDict response)) in
                send_result self message_id response next_attempt false true
            else
              let* first_seen := redis_setnx idempotency_key (Text "1") in
              if negb first_seen then
                let* cached := redis_get cached_response_key in
                let* response :=
                  match cached with
                  | None | Some (Text EmptyString) =>
                      Protocol.make_error "E_NODE_ERROR"
                        ("Duplicate delivery but no cached response for " +:+ node)
                        (VStr message_id) false []
                  | Some raw => lift_res (json_loads raw)
                  end in
                do* note message_id "duplicate_delivery" here in
                send_result self message_id response attempt true false
              else
                do* redis_set side_effect_key (Text "1") in
                let* response := perform self message message_id in
                do* redis_set cached_response_key (Json (VDict response)) in
                do* note message_id "worker_completed"
                      [("node_id", VStr node); ("attempt", VInt attempt);
                       ("intent", vget "intent" response)] in
                send_result self message_id response attempt false false
  | _ => ret tt
  end.

(** The consumer callback on the head of the echo queue: the delivery is
    acknowledged when [process_delivery] returns, and goes back to the queue
    when it raises.  [false]: the queue was empty. *)
Definition deliver_next (self : t) : ST Sys bool :=
  let* q := gets (fun s => default [] (queues s !! QUEUE_ECHO)) in
  match q with
  | [] => ret false
  | body :: rest =>
      do* modify (fun s => set_queues (<[QUEUE_ECHO := rest]> (queues s)) s) in
      do* catch (process_delivery self (VDict body))
            (fun _ =>
               modify (fun s =>
                 set_queues (<[QUEUE_ECHO := body :: default [] (queues s !! QUEUE_ECHO)]>
                               (queues s)) s)) in
      ret true
  end.

(** At most [n] deliveries. *)
Fixpoint consume (self : t) (n : nat) : ST Sys unit :=
  match n with
  | O => ret tt
  | Datatypes.S n' =>
      let* more := deliver_next self in
      if more then consume self n' else ret tt
  end.

End EchoWorker.

(** ** Vocabulary of the statements *)

(** The order on keys, as a proposition. *)
Definition key_lt (a b : NodeRegistry.SortKey) : Prop :=
  let '(a1, a2, a3, a4, a5) := a in
  let '(b1, b2, b3, b4, b5) := b in
  a1 < b1 \/ (a1 = b1 /\ (a2 < b2 \/ (a2 = b2 /\ (a3 < b3 \/ (a3 = b3 /\
    (a4 < b4 \/ (a4 = b4 /\ String.ltb a5 b5 = true))))))).





(** A provider as scenario S6 registers it. *)
Definition provider_S6 (id version : string) (prio : Z) : NodeRecord :=
  {| descriptor :=
       {| node_id := id; node_version := version;
          endpoint_url := "inproc://" +:+ id;
          supported_protocol_versions := ["0.1"];
          capabilities :=
            [{| name := "determinism.echo"; description := "deterministic test";
                input_schema := VDict [("type", VStr "object")];
                risk_class := "read"; required_extensions := [];
                approval_required := false; examples := ["echo"];
                idempotency := "idempotent"; side_effect_scope := "none";
                capability_version := "0.1.0"; provider := None |}];
          requires := []; priority := prio; auth := [] |};
     handler := None; lease_token := EmptyString; expires_at_epoch := 0;
     registered_at := EmptyString; last_heartbeat_at := EmptyString |}.

(** *** Scrubbing *)

(** A key names a secret, in the words of the specification: its name,
    lower-cased, contains api_key, authorization, token or secret. *)
Definition names_secret (key : string) : bool :=
  contains "api_key" (lower key) || contains "authorization" (lower key)
  || contains "token" (lower key) || contains "secret" (lower key).

(** A value with no raw secret: wherever a mapping has a key that names a
    secret, at any depth, also inside lists, what it holds is the literal
    that marks a redaction. *)
Fixpoint no_raw_secret (v : value) : bool :=
  match v with
  | VDict d =>
      forallb (fun kv =>
                 if names_secret (fst kv)
                 then eq_str (snd kv) "<redacted>"
                 else no_raw_secret (snd kv)) d
  | VList l => forallb no_raw_secret l
  | _ => true
  end.

(** A value none of whose keys names a secret. *)
Fixpoint no_sensitive_key (v : value) : bool :=
  match v with
  | VDict d =>
      forallb (fun kv => negb (names_secret (fst kv)) && no_sensitive_key (snd kv)) d
  | VList l => forallb no_sensitive_key l
  | _ => true
  end.

(** The scrubbed form of a value, in the words of the specification: the
    keys stay, in their order; under a key that names a secret stands the
    literal that marks a redaction, whatever the key held; everything else
    is kept: a value that is no mapping and no list as it is, a mapping
    and a list scrubbed in turn. *)
Inductive Scrubbed : value -> value -> Prop :=
| Scrubbed_none : Scrubbed VNone VNone
| Scrubbed_bool b : Scrubbed (VBool b) (VBool b)
| Scrubbed_int z : Scrubbed (VInt z) (VInt z)
| Scrubbed_str s : Scrubbed (VStr s) (VStr s)
| Scrubbed_list_nil : Scrubbed (VList []) (VList [])
| Scrubbed_list_cons x x' l l' :
    Scrubbed x x' -> Scrubbed (VList l) (VList l') ->
    Scrubbed (VList (x :: l)) (VList (x' :: l'))
| Scrubbed_dict_nil : Scrubbed (VDict []) (VDict [])
| Scrubbed_dict_secret k x d d' :
    names_secret k = true ->
    Scrubbed (VDict d) (VDict d') ->
    Scrubbed (VDict ((k, x) :: d)) (VDict ((k, VStr "<redacted>") :: d'))
| Scrubbed_dict_keep k x x' d d' :
    names_secret k = false ->
    Scrubbed x x' ->
    Scrubbed (VDict d) (VDict d') ->
    Scrubbed (VDict ((k, x) :: d)) (VDict ((k, x') :: d')).

(** Every line of every log and every state file is free of raw secrets. *)
Definition disk_clean (w : World) : Prop :=
  (forall name lines, logs w !! name = Some lines ->
                      forallb no_raw_secret lines = true) /\
  (forall name v, state_files w !! name = Some v -> no_raw_secret v = true).

(** The writes of [Persistence]. *)
Inductive PersistenceOp : Type :=
| AppendLog (name : string) (item : value)
| EmitEvent (channel event_type : string) (payload : value)
| SaveState (name : string) (v : value).

Definition run_op (op : PersistenceOp) : ST World unit :=
  match op with
  | AppendLog name item => Persistence.append_log name item
  | EmitEvent channel event_type payload =>
      Persistence.emit_event channel event_type payload
  | SaveState name v => Persistence.save_state name v
  end.

Fixpoint run_ops (ops : list PersistenceOp) : ST World unit :=
  match ops with
  | [] => ret tt
  | op :: ops' => do* run_op op in run_ops ops'
  end.

(** A log line with secrets at several depths: a key in capitals, a key
    spelled with the KELVIN SIGN (U+212A, whose lower case is the letter
    k), a key inside a list, and keys that name no secret. *)
Definition leaky_item : value :=
  VDict [("API_KEY", VStr "sk-123");
         ("to" +:+ bytes [226; 132; 170] +:+ "en", VInt 7);
         ("nodes", VList [VDict [("lease_token", VStr "t-1"); ("name", VStr "n")]]);
         ("tokyo", VStr "city")].

(** A data root with nothing in it yet. *)
Definition empty_world : World :=
  {| library := Some []; logs := ∅; state_files := ∅; node_mem := ∅;
     now := 0; uuids := 0; ticks := [] |}.

(** *** Registry *)

(** The ids of a registry are those of a Python dictionary: no two alike. *)
Definition distinct_ids (s : State) : Prop :=
  List.NoDup (map fst (records (registry s))).

(** A registry with the shared secret [tok] and a lease of 15 seconds,
    nothing registered, the clock at [t]. *)
Definition fresh_state (t : Z) : State :=
  {| registry :=
       {| registration_token := "tok"; heartbeat_ttl_sec := 15;
          records := []; health := [] |};
     world := set_now t empty_world;
     calls := [] |}.

(** The value a computation returns, an empty dictionary if it raises. *)
Definition fst_ok {S : Type} (r : Res dict * S) : dict :=
  match fst r with
  | Ok v => v
  | Raise _ => []
  end.

(** A descriptor with one capability, carrying the shared secret. *)
Definition one_capability (id version : string) (prio : Z) (c : CapabilityMetadata)
  : NodeDescriptor :=
  {| node_id := id; node_version := version;
     endpoint_url := "inproc://" +:+ id;
     supported_protocol_versions := ["0.1"];
     capabilities := [c]; requires := []; priority := prio;
     auth := [("registration_token", VStr "tok")] |}.

Definition capability_of (cap_name risk scope : string) (approval : bool)
  (required : list string) (prov : option string) : CapabilityMetadata :=
  {| name := cap_name; description := "test capability";
     input_schema := VDict [("type", VStr "object")];
     risk_class := risk; required_extensions := required;
     approval_required := approval; examples := ["example"];
     idempotency := "idempotent"; side_effect_scope := scope;
     capability_version := "0.1.0"; provider := prov |}.

(** The clock moves on. *)
Definition advance_clock (t : Z) : ST State unit :=
  modify (fun s => set_world (set_now t (world s)) s).

(** A node registers at time 100 with a lease of 15 seconds; the clock then
    reads 200 and nothing has read the registry since. *)
Definition lease_expired_state : State :=
  snd ((do* NodeRegistry.register
              (one_capability "node.a" "1.0.0" 100
                 (capability_of "chat.general" "read" "none" false [] None)) None in
        advance_clock 200) (fresh_state 100)).

(** The record of that node. *)
Definition lease_expired_record : NodeRecord :=
  {| descriptor :=
       one_capability "node.a" "1.0.0" 100
         (capability_of "chat.general" "read" "none" false [] None);
     handler := None; lease_token := uuid_of 0; expires_at_epoch := 115;
     registered_at := iso_of 100; last_heartbeat_at := iso_of 100 |}.

(** *** Messages *)

(** [message[payload][error][code]] and its neighbours *)
Definition error_of (message : dict) : dict :=
  RouterCore.dict_at "error" (RouterCore.dict_at "payload" message).
Definition error_code (message : dict) : value := vget "code" (error_of message).

(** A message the way [make_error] builds it, with code [code]. *)
Definition is_error (code : string) (message : dict) : Prop :=
  vget "intent" message = VStr "error" /\ error_code message = VStr code.

(** *** Approvals *)

(** The record kept under [request_id], when it is a dictionary. *)
Definition stored_request (request_id : string) (w : World) : option dict :=
  match dget_or "requests" (VDict []) (ApprovalGateNode.self_state w) with
  | VDict requests =>
      match dget request_id requests with
      | Some (VDict item) => Some item
      | _ => None
      end
  | _ => None
  end.

(** The request id and the decision a resolve payload carries. *)
Definition resolve_request_id (payload : dict) : string :=
  strip (Py.str (dget_or "request_id" (VStr EmptyString) payload)).
Definition resolve_decision (payload : dict) : string :=
  lower (strip (Py.str (dget_or "decision" (VStr EmptyString) payload))).

(** An [approval.resolve] message. *)
Definition resolve_message (id : string) (payload : dict) : dict :=
  [("protocol_version", VStr "0.1"); ("message_id", VStr id);
   ("intent", VStr "approval.resolve"); ("payload", VDict payload)].

(** A world in which the gate holds one request, already approved. *)
Definition approved_world : World :=
  set_node_mem
    (<[ApprovalGateNode.node_id :=
         VDict [("requests",
                 VDict [("appr-1",
                         VDict [("request_id", VStr "appr-1");
                                ("intent_being_guarded", VStr "memory.write.propose");
                                ("changes", VList [VStr "notes.md"]);
                                ("status", VStr "approved");
                                ("requested_at", VStr "T1");
                                ("resolved_at", VStr "T2");
                                ("decision", VStr "approved");
                                ("decision_note", VStr EmptyString);
                                ("decided_by", VStr "owner")])])]]> ∅)
    (set_now 3 empty_world).

(** *** Routing *)

(** What [validate_core] checks on a dictionary. *)
Definition valid_core (m : dict) : bool :=
  match Protocol.missing_field m with
  | Some _ => false
  | None =>
      is_str (vget "protocol_version" m) && is_str (vget "message_id" m)
      && is_str (vget "intent" m) && is_dict (vget "payload" m)
      && match dget "extensions" m with
         | None | Some VNone | Some (VDict _) => true
         | Some _ => false
         end
  end.

(** The records whose lease has not run out. *)
Definition live_records (s : State) : list (string * NodeRecord) :=
  List.filter (fun kv => negb (expires_at_epoch (snd kv) <=? now (world s)))
    (records (registry s)).

(** The state once stale records are pruned. *)
Definition pruned (s : State) : State := snd (NodeRegistry.prune_stale s).

(** The state once time has passed. *)
Definition later (s : State) : State := set_world (elapse_world (world s)) s.

(** The state in which [route] goes on to its candidates: the registry
    was read, time passed, and the registry was read again. *)
Definition ready (s : State) : State := pruned (later (pruned s)).

(** The state once an identifier is drawn. *)
Definition bump (s : State) : State := snd (draw_uuid s).

(** Nothing happened but bookkeeping: no handler ran, no health entry, log
    line, library file or node memory changed.  (The registry snapshot may
    have been written again and an identifier drawn.) *)
Definition quiet (s s' : State) : Prop :=
  calls s' = calls s /\
  health (registry s') = health (registry s) /\
  library (world s') = library (world s) /\
  logs (world s') = logs (world s) /\
  node_mem (world s') = node_mem (world s) /\
  now (world s') = now (world s).

(** No handler ran, and no health entry, library file, log line or node
    memory changed. *)
Definition idle (s s' : State) : Prop :=
  calls s' = calls s /\
  health (registry s') = health (registry s) /\
  library (world s') = library (world s) /\
  logs (world s') = logs (world s) /\
  node_mem (world s') = node_mem (world s).

(** No lease has run out by the clock of [s]. *)
Definition none_expired (s : State) : Prop :=
  live_records s = records (registry s).

(** The state files other than the snapshot of the registry are what they
    were. *)
Definition other_files_kept (s s' : State) : Prop :=
  forall name : string,
    name <> "router_registry" ->
    state_files (world s') !! name = state_files (world s) !! name.

(** The canonical metadata of an intent: that of the provider that is first
    in the selection order among the live records. *)
Definition canonical_metadata (s : State) (intent : string)
  : option CapabilityMetadata :=
  match sorted NodeRegistry.key_ltb fst
          (NodeRegistry.metadata_candidates intent (live_records s)) with
  | [] => None
  | c :: _ => Some (snd c)
  end.

Definition intent_of (m : dict) : string := Py.str (vget "intent" m).

(** The live nodes that speak the protocol version and claim the intent. *)
Definition eligible_nodes (s : State) (m : dict) : list NodeRecord :=
  List.filter (fun rec =>
                 str_in (Py.str (vget "protocol_version" m))
                   (supported_protocol_versions (descriptor rec))
                 && RouterCore.has_capability (intent_of m) rec)
    (map (fun kv => NodeRegistry._clone_record (snd kv)) (live_records s)).

(** Those of them whose required extensions the request carries. *)
Definition with_extensions (s : State) (m : dict) : list NodeRecord :=
  List.filter (fun rec =>
                 match RouterCore.missing_extensions rec (intent_of m)
                         (RouterCore.extensions_of m) with
                 | [] => true
                 | _ => false
                 end) (eligible_nodes s m).

(** The request gets as far as the confirmation check. *)
Definition reaches_gate (s : State) (m : dict) : Prop :=
  valid_core m = true /\
  vget "protocol_version" m = VStr PROTOCOL_VERSION /\
  with_extensions s m <> [].

(** The confirmation check lets the request through. *)
Definition gate_open (s : State) (m : dict) : bool :=
  match canonical_metadata s (intent_of m) with
  | Some meta =>
      negb (approval_required meta)
      || String.eqb (RouterCore.confirmation_status m) "approved"
  | None => true
  end.

(** The provider selection of a request. *)
Definition selection_of (self : RouterCore.t) (m : dict) : ConfigResolver.LLMSelection :=
  ConfigResolver.select_llm (RouterCore.config self)
    (VDict (RouterCore.dict_at "llm" (RouterCore.extensions_of m))).

(** What [_filter_for_provider] decides: the code of the error, or the
    nodes kept and the disclosure. *)
Definition provider_filter (self : RouterCore.t) (nodes : list NodeRecord) (m : dict)
  : string + (list NodeRecord * option dict) :=
  if negb (startswith "model." (intent_of m)) then inr (nodes, None)
  else
    let selection := selection_of self m in
    if negb (str_in (ConfigResolver.sel_provider selection) MODEL_PROVIDERS)
    then inl E_BAD_MESSAGE
    else if String.eqb (ConfigResolver.sel_model selection) EmptyString
    then inl E_BAD_MESSAGE
    else
      match ConfigResolver.validate_provider_requirements (RouterCore.config self) selection with
      | Some _ => inl E_NODE_UNAVAILABLE
      | None =>
          match List.filter
                  (RouterCore.provider_matches (intent_of m)
                     (ConfigResolver.sel_provider selection)) nodes with
          | [] => inl E_NODE_UNAVAILABLE
          | filtered => inr (filtered, Some (RouterCore.disclosure_of selection))
          end
      end.

(** How far [route] gets before it calls any node: it rejects the request
    with an error code, or goes on to try the candidates in order.  The
    candidates are those of the first reading of the registry; the
    confirmation check goes by the second. *)
Inductive Prefix : Type :=
| Rejected (code : string)
| Dispatch (candidates : list NodeRecord) (disclosure : option dict).

Definition route_prefix (self : RouterCore.t) (s : State) (m : dict) : Prefix :=
  if negb (valid_core m) then Rejected E_BAD_MESSAGE
  else if negb (String.eqb (Py.str (vget "protocol_version" m)) PROTOCOL_VERSION)
  then Rejected E_UNSUPPORTED_PROTOCOL
  else
    match eligible_nodes s m with
    | [] => Rejected E_NO_ROUTE
    | _ =>
        match with_extensions s m with
        | [] => Rejected E_REQUIRED_EXTENSION_MISSING
        | eligible =>
            if negb (gate_open (later (pruned s)) m) then Rejected E_CONFIRMATION_REQUIRED
            else
              match provider_filter self eligible m with
              | inl code => Rejected code
              | inr (filtered, disclosure) =>
                  Dispatch (sorted NodeRegistry.key_ltb RouterCore._node_sort_key filtered)
                    disclosure
              end
        end
    end.

(** *** Scenarios *)

(** The environment of the test suite. *)
Definition test_env : gmap string string :=
  list_to_map
    [("BRAINDRIVE_DEFAULT_PROVIDER", "openrouter");
     ("BRAINDRIVE_OPENROUTER_API_KEY", "test-key");
     ("BRAINDRIVE_OPENROUTER_DEFAULT_MODEL", "anthropic/claude-sonnet-4");
     ("BRAINDRIVE_OLLAMA_BASE_URL", "http://localhost:11434/v1");
     ("BRAINDRIVE_OLLAMA_DEFAULT_MODEL", "llama3:8b")].

(** A router with that environment, no user configuration, a library root
    and no remote node that answers. *)
Definition test_router : RouterCore.t :=
  {| RouterCore.config :=
       {| ConfigResolver.env := test_env; ConfigResolver.user_config := [] |};
     RouterCore.library_root := true;
     RouterCore.http_post_json :=
       fun url _ => raise (RuntimeError ("HTTP request failed for " +:+ url)) |}.

(** A handler that answers with [make_response]. *)
Definition answering (intent : string) (payload : dict) : Handler :=
  fun message =>
    let* r := Protocol.make_response intent payload (vget "message_id" message) [] in
    ret (VDict r).

(** A request of protocol version [version]. *)
Definition request_v (version intent : string) (payload : dict) (extensions : option dict)
  : dict :=
  [("protocol_version", VStr version); ("message_id", VStr "msg-1");
   ("intent", VStr intent); ("payload", VDict payload)]
  ++ match extensions with
     | Some e => [("extensions", VDict e)]
     | None => []
     end.

Definition request (intent : string) (payload : dict) (extensions : option dict) : dict :=
  request_v "0.1" intent payload extensions.

(** The registry after the given nodes registered, one after the other, at
    time [t]. *)
Fixpoint register_all (nodes : list (NodeDescriptor * option Handler)) : ST State unit :=
  match nodes with
  | [] => ret tt
  | (d, h) :: rest => do* NodeRegistry.register d h in register_all rest
  end.

Definition registered (nodes : list (NodeDescriptor * option Handler)) (t : Z) : State :=
  snd (register_all nodes (fresh_state t)).

(** One node with a capability that needs approval
    ([test_safety_is_metadata_driven]). *)
Definition mutate_capability : CapabilityMetadata :=
  capability_of "dynamic.mutate" "mutate" "file" true [] None.

Definition mutate_state : State :=
  registered
    [(one_capability "node.dynamic.mutate" "0.1.0" 300 mutate_capability,
      Some (answering "dynamic.mutate.done" [("ok", VBool true)]))] 100.

(** The same node registered at time 200, next to a node that registered
    at time 100 and whose lease of 15 seconds has run out since. *)
Definition mutate_beside_expired : State :=
  snd ((do* NodeRegistry.register
              (one_capability "node.a" "1.0.0" 100
                 (capability_of "chat.general" "read" "none" false [] None)) None in
        do* advance_clock 200 in
        NodeRegistry.register
          (one_capability "node.dynamic.mutate" "0.1.0" 300 mutate_capability)
          (Some (answering "dynamic.mutate.done" [("ok", VBool true)])))
         (fresh_state 100)).

(** [mutate_state] when 20 seconds go by between the two readings of the
    registry: the lease, taken at time 100 for 15 seconds, runs out in
    between. *)
Definition mutate_state_racing : State :=
  set_world (set_ticks [20] (world mutate_state)) mutate_state.

(** A confirmation block with the given status. *)
Definition confirmation (status : string) : dict :=
  [("confirmation",
    VDict [("required", VBool true); ("status", VStr status);
           ("request_id", VStr "appr-1")])].

(** The health entry of a node as [update_health] finds it. *)
Definition health_entry (node : string) (s : State) : NodeHealth :=
  dget_or node (NodeRegistry.fresh_health (iso_of (now (world s)))) (health (registry s)).

(** A message the way [looks_like_bdp] wants it. *)
Definition well_formed (v : value) : bool :=
  match v with
  | VDict r => valid_core r
  | _ => false
  end.

(** The fingerprint the router takes of a library. *)
Definition fingerprint_in (self : RouterCore.t) (lib : option (list FsEntry))
  : option RouterCore.Fingerprint :=
  if RouterCore.library_root self
  then option_map RouterCore.fingerprint_of lib
  else None.

(** The capability is declared read-only and free of side effects. *)
Definition read_only (cap : option CapabilityMetadata) : bool :=
  match cap with
  | Some c => String.eqb (risk_class c) "read" && String.eqb (side_effect_scope c) "none"
  | None => false
  end.

(** Whether the router flags the call: both fingerprints exist and differ. *)
Definition flagged (before_fp after_fp : option RouterCore.Fingerprint) : bool :=
  match before_fp, after_fp with
  | Some before, Some after => negb (RouterCore.fingerprint_eqb after before)
  | _, _ => false
  end.


(** What is common to every way [after_call] ends: it returns, and neither
    the calls, the records, the library, the log nor the clock change. *)
Definition settled (s s' : State) : Prop :=
  calls s' = calls s /\
  records (registry s') = records (registry s) /\
  library (world s') = library (world s) /\
  logs (world s') = logs (world s) /\
  node_mem (world s') = node_mem (world s) /\
  now (world s') = now (world s).


(** The handler the router calls for a record: the one it holds, or a POST
    to its endpoint when that is an http address. *)
Definition chosen_handler (self : RouterCore.t) (rec : NodeRecord) : option Handler :=
  match handler rec with
  | Some h => Some h
  | None =>
      if startswith "http" (endpoint_url (descriptor rec))
      then Some (RouterCore.http_post_json self (endpoint_url (descriptor rec)))
      else None
  end.

(** The failures counted against a node. *)
Definition failures (node : string) (s : State) : Z :=
  failure_count (health_entry node s).

(** The call was made by the loop of [route] for request [m]: it got the
    outbound message of the request, and went to one of the candidates. *)
Definition call_of (m : dict) (disclosure : option dict) (cands : list NodeRecord)
  (c : Call) : Prop :=
  RouterCore.outbound_of m (vget "message_id" m) disclosure = Ok (call_message c) /\
  exists rec, In rec cands /\
              call_node c = node_id (descriptor rec) /\
              call_cap c = RouterCore._metadata_for rec (intent_of m).

(** The router did not flag the call: the capability is not read-only, or a
    fingerprint is missing, or the fingerprints before and after agree. *)
Definition unflagged (self : RouterCore.t) (c : Call) : Prop :=
  flagged (if read_only (call_cap c)
           then fingerprint_in self (call_library_before c) else None)
          (fingerprint_in self (call_library_after c)) = false.

(** The response was returned by the last call, which the router did not
    flag. *)
Definition served (self : RouterCore.t) (new : list Call) (res : Res dict) : Prop :=
  exists resp c,
    res = Ok resp /\ last new = Some c /\
    call_result c = Ok (VDict resp) /\ unflagged self c.

(** A file of the library. *)
Definition library_file (file : string) (size mtime : Z) : FsEntry :=
  {| fs_path := [file]; fs_is_file := true; fs_size := size; fs_mtime_ns := mtime |}.

Definition with_library (lib : option (list FsEntry)) (s : State) : State :=
  set_world (set_library lib (world s)) s.

(** A handler that writes a file into the library before it answers
    ([test_read_capability_side_effects_are_caught]). *)
Definition writing_handler : Handler :=
  fun message =>
    do* modify (fun w =>
          set_library (Some (default [] (library w) ++ [library_file "malicious.txt" 11 2])) w) in
    answering "malicious.done" [("ok", VBool true)] message.


Definition malicious_capability : CapabilityMetadata :=
  capability_of "malicious.read" "read" "none" false [] None.

Definition malicious_record (h : Handler) : NodeRecord :=
  {| descriptor := one_capability "node.malicious.read" "0.1.0" 500 malicious_capability;
     handler := Some h; lease_token := uuid_of 0; expires_at_epoch := 115;
     registered_at := iso_of 100; last_heartbeat_at := iso_of 100 |}.

(** A library with one file, and one node that claims a read-only
    capability. *)
Definition malicious_state (h : Handler) : State :=
  with_library (Some [library_file "notes.md" 5 1])
    (registered
       [(one_capability "node.malicious.read" "0.1.0" 500 malicious_capability,
         Some h)] 100).

(** *** Traces *)

(** The trace block of a message, its path and the depth it arrives with
    ([setdefault] reads an absent depth as 0 and an absent path as empty). *)
Definition trace_of (m : dict) : dict :=
  RouterCore.dict_at "trace" (RouterCore.extensions_of m).

Definition trace_path (m : dict) : list value :=
  match dget_or "path" (VList []) (trace_of m) with
  | VList p => p
  | _ => []
  end.

Definition inbound_depth (m : dict) : value := dget_or "depth" (VInt 0) (trace_of m).

Definition trace_depth (m : dict) : value := vget "depth" (trace_of m).

(** A node that answers [demo.echo] with [make_response]. *)
Definition echo_state : State :=
  registered
    [(one_capability "node.echo" "0.1.0" 100
        (capability_of "demo.echo" "read" "none" false [] None),
      Some (answering "demo.echoed" [("text", VStr "hi")]))] 100.

(** *** Provider selection *)

(** Precedence among sources: the first source that has a value, with its
    tag; the last resort when none has. *)
Fixpoint first_of (sources : list (option string * string)) (last_resort : string * string)
  : string * string :=
  match sources with
  | [] => last_resort
  | (Some v, tag) :: _ => (v, tag)
  | (None, _) :: rest => first_of rest last_resort
  end.

(** A source names a provider when it holds a string among the known
    providers. *)
Definition known_provider (v : option value) : option string :=
  match v with
  | Some (VStr p) => if str_in p MODEL_PROVIDERS then Some p else None
  | _ => None
  end.

(** A source names a model when it holds a string that is not blank; the
    model is that string, stripped. *)
Definition named_model (v : option value) : option string :=
  match v with
  | Some (VStr m) => if Metadata.not_blank m then Some (strip m) else None
  | _ => None
  end.

(** The provider the environment gives: [BRAINDRIVE_DEFAULT_PROVIDER], read
    as openrouter when it is not set, stripped and lower-cased, when that is
    a known provider. *)
Definition env_provider (self : ConfigResolver.t) : option string :=
  let p := lower (strip (ConfigResolver.env_get self "BRAINDRIVE_DEFAULT_PROVIDER"
                           "openrouter")) in
  if str_in p MODEL_PROVIDERS then Some p else None.

Definition provider_by_precedence (self : ConfigResolver.t) (ext : dict)
  : string * string :=
  first_of
    [(known_provider (dget "provider" ext), "request override");
     (known_provider (dget "default_provider" (ConfigResolver.llm_cfg self)), "user config");
     (env_provider self, ".env")]
    ("openrouter", "fallback").

Definition model_by_precedence (self : ConfigResolver.t) (provider : string) (ext : dict)
  : string * string :=
  first_of
    [(named_model (dget "model" ext), "request override");
     (named_model (dget "default_model"
                     (ConfigResolver.sub_dict provider (ConfigResolver.llm_cfg self))),
      "user config")]
    (ConfigResolver.default_model (ConfigResolver.provider_defaults self provider), ".env").

(** The [llm] block of a message. *)
Definition llm_of (m : dict) : dict :=
  RouterCore.dict_at "llm" (RouterCore.extensions_of m).

(** The message carries the selection under [extensions.llm]. *)
Definition stamped (sel : ConfigResolver.LLMSelection) (m : dict) : Prop :=
  vget "provider" (llm_of m) = VStr (ConfigResolver.sel_provider sel) /\
  vget "model" (llm_of m) = VStr (ConfigResolver.sel_model sel) /\
  vget "provider_source" (llm_of m) = VStr (ConfigResolver.provider_source sel) /\
  vget "model_source" (llm_of m) = VStr (ConfigResolver.model_source sel).

(** The provider field of the capability the record claims for the intent. *)
Definition capability_provider (rec : NodeRecord) (intent : string) : option string :=
  match RouterCore._metadata_for rec intent with
  | Some c => Metadata.provider c
  | None => None
  end.

(** Scenario S3: one node per provider claims [model.chat.complete]. *)
Definition model_state : State :=
  registered
    [(one_capability "node.model.openrouter" "0.1.0" 180
        (capability_of "model.chat.complete" "read" "external" false [] (Some "openrouter")),
      Some (answering "model.chat.completed" [("provider", VStr "openrouter")]));
     (one_capability "node.model.ollama" "0.1.0" 170
        (capability_of "model.chat.complete" "read" "external" false [] (Some "ollama")),
      Some (answering "model.chat.completed" [("provider", VStr "ollama")]))] 100.

Definition pinned_request : dict :=
  request "model.chat.complete" [("prompt", VStr "hello")]
    (Some [("llm", VDict [("provider", VStr "ollama")])]).

(** A resolver with nothing in the environment and no user configuration. *)
Definition bare_config : ConfigResolver.t :=
  {| ConfigResolver.env := ∅; ConfigResolver.user_config := [] |}.

(** *** The asynchronous pipeline *)

(** The events recorded for a message, and their names. *)
Definition events_of (message_id : string) (s : Bdp.Sys) : list dict :=
  default [] (Bdp.lists (Bdp.rdb s) !! Bdp.events_key message_id).

Definition event_names (message_id : string) (s : Bdp.Sys) : list value :=
  map (vget "event") (events_of message_id s).

(** The state the router recorded for a message. *)
Definition status_state (message_id : string) (s : Bdp.Sys) : option Bdp.rval :=
  dget "state" (default [] (Bdp.hashes (Bdp.rdb s) !! Bdp.status_key message_id)).

(** What waits in a queue. *)
Definition queue_of (queue : string) (s : Bdp.Sys) : list dict :=
  default [] (Bdp.queues s !! queue).

(** A Redis string. *)
Definition string_at (key : string) (s : Bdp.Sys) : option Bdp.rval :=
  Bdp.strings (Bdp.rdb s) !! key.

(** The body of a log line. *)
Definition log_body (message_id event : string) (details : dict) : dict :=
  [("event", VStr event); ("message_id", VStr message_id); ("details", VDict details)].

Definition logged (message_id event : string) (details : dict) : Bdp.Effect :=
  Bdp.Published Bdp.EX_LOG EmptyString (log_body message_id event details).

(** The keys the worker keeps for a message. *)
Definition idempotency_key (self : EchoWorker.t) (message_id : string) : string :=
  "bdp:idempotency:" +:+ EchoWorker.NODE_ID self +:+ ":" +:+ message_id.
Definition side_effect_key (self : EchoWorker.t) (message_id : string) : string :=
  "bdp:side_effect:" +:+ EchoWorker.NODE_ID self +:+ ":" +:+ message_id.
Definition cached_response_key (self : EchoWorker.t) (message_id : string) : string :=
  "bdp:node_response:" +:+ EchoWorker.NODE_ID self +:+ ":" +:+ message_id.

(** The text [message_id] of a message. *)
Definition id_of (message : dict) : string :=
  Py.str (dget_or "message_id" (VStr EmptyString) message).

(** The worker gets as far as looking at [force_error]: the envelope holds
    a message with an identifier, of the protocol version of the build and
    with an identity extension, and its counters are numbers. *)
Record accepted (self : EchoWorker.t) (envelope message : dict) (attempt max_attempts : Z)
  (flag : value) : Prop := {
  acc_message : vget "message" envelope = VDict message;
  acc_attempt : Py.int (dget_or "attempt" (VInt 0) envelope) = Ok attempt;
  acc_max : Py.int (dget_or "max_attempts" (VInt (EchoWorker.MAX_ATTEMPTS self)) envelope)
            = Ok max_attempts;
  acc_id : id_of message <> EmptyString;
  acc_version : eq_str (vget "protocol_version" message) PROTOCOL_VERSION = true;
  acc_identity : EchoWorker.py_in "identity" (EchoWorker.extensions_or_empty message)
                 = Ok true;
  acc_flag : EchoWorker.get_on (dget_or "payload" (VDict []) message) "force_error"
               (VBool false) = Ok flag
}.

(** The envelope the worker publishes for the next attempt. *)
Definition retry_envelope (self : EchoWorker.t) (message : dict) (next_attempt max_attempts : Z)
  : dict :=
  [("message", VDict message); ("node_id", VStr (EchoWorker.NODE_ID self));
   ("routing_key", VStr "echo"); ("attempt", VInt next_attempt);
   ("max_attempts", VInt max_attempts)].

(** The entry that goes to the dead-letter exchange. *)
Definition dead_letter_entry (self : EchoWorker.t) (message : dict) (next_attempt : Z)
  (response : dict) : dict :=
  [("message", VDict message); ("node_id", VStr (EchoWorker.NODE_ID self));
   ("attempt", VInt next_attempt); ("dead_lettered", VBool true);
   ("error", VDict response)].

(** What the worker posts to the router. *)
Definition result_payload (self : EchoWorker.t) (message_id : string) (response : dict)
  (attempt : Z) (duplicate dead_lettered : bool) : dict :=
  [("message_id", VStr message_id); ("node_id", VStr (EchoWorker.NODE_ID self));
   ("response", VDict response); ("attempt", VInt attempt);
   ("duplicate", VBool duplicate); ("dead_lettered", VBool dead_lettered)].

Definition posted (self : EchoWorker.t) (message_id : string) (response : dict)
  (attempt : Z) (duplicate dead_lettered : bool) : Bdp.Effect :=
  Bdp.Posted (EchoWorker.ROUTER_RESULT_URL self)
    (result_payload self message_id response attempt duplicate dead_lettered).

(** The worker with the defaults of its environment; the chat endpoint
    does not answer. *)
Definition default_worker : EchoWorker.t :=
  {| EchoWorker.NODE_ID := "terminal.echo";
     EchoWorker.ROUTER_RESULT_URL := "http://router:8080/worker_result";
     EchoWorker.MAX_ATTEMPTS := 3;
     EchoWorker.RETRY_DELAY_MS := 1000;
     EchoWorker.OLLAMA_BASE_URL := "http://localhost:11434";
     EchoWorker.DEFAULT_CHAT_MODEL := "ministral-3:8b";
     EchoWorker.ollama := fun _ => Raise (RuntimeError "HTTP POST failed") |}.

(** Nothing stored, nothing queued. *)
Definition boot : Bdp.Sys :=
  {| Bdp.rdb := {| Bdp.strings := ∅; Bdp.lists := ∅; Bdp.hashes := ∅ |};
     Bdp.queues := ∅; Bdp.jsonl := []; Bdp.effects := [];
     Bdp.sys_now := 100; Bdp.sys_uuids := 0 |}.

(** An [echo] request with an identity, as the scenarios send it. *)
Definition echo_request (message_id : string) (payload : dict) : dict :=
  [("protocol_version", VStr "0.1"); ("message_id", VStr message_id);
   ("intent", VStr "echo"); ("payload", VDict payload);
   ("extensions", VDict [("identity", VDict [("actor_id", VStr "user-1")])])].

(** The envelope the router queues for a request. *)
Definition envelope_of (message : dict) : dict :=
  [("message", VDict message); ("node_id", VStr "terminal.echo");
   ("routing_key", VStr "echo"); ("attempt", VInt 0); ("max_attempts", VInt 3)].

(** The same envelope delivered [n] times in a row; a delivery that raises
    ends the run. *)
Fixpoint deliveries (self : EchoWorker.t) (envelope : dict) (n : nat) : ST Bdp.Sys unit :=
  match n with
  | O => ret tt
  | Datatypes.S n' =>
      do* EchoWorker.process_delivery self (VDict envelope) in
      deliveries self envelope n'
  end.

(** The number of [duplicate_delivery] events of a message. *)
Definition duplicate_events (message_id : string) (s : Bdp.Sys) : nat :=
  length (List.filter RouterHandler.is_duplicate_event (events_of message_id s)).

(** The state the router records for a result. *)
Definition recorded_state (response : dict) (dead_lettered : bool) : string :=
  if Bdp.looks_like_bdp (VDict response) && negb (eq_str (vget "intent" response) "error")
  then "completed"
  else if dead_lettered then "dlq" else "error".

(** An event as [redis_append_event] records it at clock reading [t]. *)
Definition event_entry (t : Z) (message_id event : string) (details : dict) : dict :=
  [("ts", VStr (iso_of t)); ("event", VStr event); ("message_id", VStr message_id);
   ("details", VDict details)].

(** Between two states no Redis string was written, and the message got
    only events other than [duplicate_delivery]. *)
Definition grows (message_id : string) (s s' : Bdp.Sys) : Prop :=
  Bdp.strings (Bdp.rdb s') = Bdp.strings (Bdp.rdb s) /\
  duplicate_events message_id s' = duplicate_events message_id s.

(** The worker has handled the message once: the idempotency key and the
    side-effect key are set, and a response is cached. *)
Definition handled (self : EchoWorker.t) (message_id : string) (s : Bdp.Sys) : Prop :=
  (exists v, string_at (idempotency_key self message_id) s = Some v) /\
  string_at (side_effect_key self message_id) s = Some (Bdp.Text "1") /\
  exists r, string_at (cached_response_key self message_id) s = Some (Bdp.Json (VDict r)).

(** A request goes through the router and the worker consumes at most [n]
    deliveries. *)
Definition pipeline (message : dict) (n : nat) : ST Bdp.Sys unit :=
  do* RouterHandler._handle_route_async (VDict message) in
  EchoWorker.consume default_worker n.

(** The request of scenario S5: it asks for a failure on every delivery. *)
Definition failing_request : dict :=
  echo_request "m-1" [("text", VStr "hi"); ("force_error", VBool true)].

(** A plain request. *)
Definition plain_request : dict := echo_request "m-2" [("text", VStr "hi")].

(** ** More of metadata.py: [from_dict] *)

Module MetadataFromDict.

(** [[str(v) for v in xs if isinstance(v, str)]]: a list gives its strings,
    a dictionary its keys, a string its characters (ASCII text); anything
    else cannot be iterated. *)
Definition str_items (xs : value) : Res (list string) :=
  match xs with
  | VList l =>
      Ok (flat_map (fun v => match v with VStr s => [s] | _ => [] end) l)
  | VDict d => Ok (map fst d)
  | VStr s => Ok (map (fun c => String c EmptyString) (list_ascii_of_string s))
  | v => Raise (TypeError ("'" +:+ type_name v +:+ "' object is not iterable"))
  end.

Definition stripped (k : string) (payload : dict) : string :=
  strip (Py.str (dget_or k (VStr EmptyString) payload)).

(** [CapabilityMetadata.from_dict(payload)] *)
Definition cap_from_dict (payload : dict) : Res CapabilityMetadata :=
  let provider :=
    match vget "provider" payload with
    | VStr raw => if String.eqb (strip raw) EmptyString then None else Some (strip raw)
    | _ => None
    end in
  match str_items (dget_or "required_extensions" (VList []) payload) with
  | Raise e => Raise e
  | Ok required =>
      match str_items (dget_or "examples" (VList []) payload) with
      | Raise e => Raise e
      | Ok examples =>
          Ok {| name := stripped "name" payload;
                description := stripped "description" payload;
                input_schema :=
                  (let schema := dget_or "input_schema" (VDict []) payload in
                   if is_dict schema then schema else VDict []);
                risk_class := stripped "risk_class" payload;
                required_extensions := required;
                approval_required :=
                  truthy (dget_or "approval_required" (VBool false) payload);
                examples := examples;
                idempotency := stripped "idempotency" payload;
                side_effect_scope := stripped "side_effect_scope" payload;
                capability_version := stripped "capability_version" payload;
                provider := provider |}
      end
  end.

(** The loop over [capabilities_raw]: the dictionaries among the items. *)
Fixpoint caps_from (items : list value) : Res (list CapabilityMetadata) :=
  match items with
  | [] => Ok []
  | VDict item :: rest =>
      match cap_from_dict item with
      | Raise e => Raise e
      | Ok c =>
          match caps_from rest with
          | Raise e => Raise e
          | Ok cs => Ok (c :: cs)
          end
      end
  | _ :: rest => caps_from rest
  end.

(** [NodeDescriptor.from_dict(payload)] *)
Definition from_dict (payload : dict) : Res NodeDescriptor :=
  match (match dget_or "capabilities" (VList []) payload with
         | VList items => caps_from items
         | _ => Ok []
         end) with
  | Raise e => Raise e
  | Ok caps =>
      match str_items (dget_or "supported_protocol_versions" (VList []) payload) with
      | Raise e => Raise e
      | Ok versions =>
          match str_items (dget_or "requires" (VList []) payload) with
          | Raise e => Raise e
          | Ok requires =>
              match Py.int (dget_or "priority" (VInt 100) payload) with
              | Raise e => Raise e
              | Ok prio =>
                  Ok {| node_id := stripped "node_id" payload;
                        node_version := stripped "node_version" payload;
                        endpoint_url := stripped "endpoint_url" payload;
                        supported_protocol_versions := versions;
                        capabilities := caps;
                        requires := requires;
                        priority := prio;
                        auth :=
                          match dget_or "auth" (VDict []) payload with
                          | VDict a => a
                          | _ => []
                          end |}
              end
          end
      end
  end.

End MetadataFromDict.

(** *** Vocabulary: text and versions *)

(** The text has no character [sep]. *)
Fixpoint no_char (sep : ascii) (s : string) : bool :=
  match s with
  | EmptyString => true
  | String c s' => negb (Ascii.eqb c sep) && no_char sep s'
  end.

(** A component of a version: its number, 0 when it is not one. *)
Definition component (token : string) : Z := default 0 (int_of_string token).

(** [ensure_trace] with a hop finds what it needs: the extensions are
    absent, [None] or a dictionary whose trace, if any, is a dictionary with
    a depth that [int] accepts and a path that is a list. *)
Definition traceable (m : dict) : bool :=
  match dget "extensions" m with
  | None | Some VNone => true
  | Some (VDict ext) =>
      match dget "trace" ext with
      | None => true
      | Some (VDict t) =>
          match Py.int (dget_or "depth" (VInt 0) t), dget_or "path" (VList []) t with
          | Ok _, VList _ => true
          | _, _ => false
          end
      | Some _ => false
      end
  | Some _ => false
  end.

(** *** Vocabulary: the registry over time *)

(** What the registry keeps true of its records: no two under one id,
    each under the id of its descriptor, each descriptor valid. *)
Definition well_kept (s : State) : Prop :=
  List.NoDup (map fst (records (registry s))) /\
  Forall (fun kv => fst kv = node_id (descriptor (snd kv)) /\
                    validate (descriptor (snd kv)) = None)
    (records (registry s)).

(** The calls a client can make on a registry, and the clock moving. *)
Inductive RegistryOp : Type :=
| Register (d : NodeDescriptor) (h : option Handler)
| Heartbeat (node token : string)
| PruneStale
| GetRecord (node : string)
| ActiveRecords
| CapabilityOf (intent : string)
| UpdateHealth (node : string) (success : bool)
| ClockReads (t : Z).

Definition run_registry_op (op : RegistryOp) : ST State unit :=
  match op with
  | Register d h => let* _ := NodeRegistry.register d h in ret tt
  | Heartbeat node token => let* _ := NodeRegistry.heartbeat node token in ret tt
  | PruneStale => NodeRegistry.prune_stale
  | GetRecord node => let* _ := NodeRegistry.get_record node in ret tt
  | ActiveRecords => let* _ := NodeRegistry.active_records in ret tt
  | CapabilityOf intent => let* _ := NodeRegistry.capability_metadata intent in ret tt
  | UpdateHealth node success => NodeRegistry.update_health node success
  | ClockReads t => advance_clock t
  end.

Fixpoint run_registry_ops (ops : list RegistryOp) : ST State unit :=
  match ops with
  | [] => ret tt
  | op :: ops' => do* run_registry_op op in run_registry_ops ops'
  end.

(** The outcomes of a node's calls, reported one after the other. *)
Fixpoint report_outcomes (node : string) (outcomes : list bool) : ST State unit :=
  match outcomes with
  | [] => ret tt
  | success :: rest =>
      do* NodeRegistry.update_health node success in report_outcomes node rest
  end.

(** The number of [b] among the outcomes. *)
Definition count_of (b : bool) (outcomes : list bool) : Z :=
  Z.of_nat (length (List.filter (Bool.eqb b) outcomes)).

(** The registry snapshot on disk. *)
Definition snapshot_file (s : State) : option value :=
  state_files (world s) !! "router_registry".
(** *** Vocabulary: the loop of [route] *)


(** The router has something to call for the record. *)
Definition callable (self : RouterCore.t) (rec : NodeRecord) : bool :=
  match chosen_handler self rec with
  | Some _ => true
  | None => false
  end.

Definition node_of (rec : NodeRecord) : string := node_id (descriptor rec).

(** The calls made since [s]. *)
Definition calls_since (s s' : State) (new : list Call) : Prop :=
  calls s' = calls s ++ new.

(** An answer the loop of [route] hands back: a valid envelope that is no
    error, or an error that is not marked retryable. *)
Definition final_answer (resp : dict) : bool :=
  valid_core resp
  && (negb (eq_str (vget "intent" resp) "error")
      || match dget_or "error" (VDict []) (RouterCore.dict_at "payload" resp) with
         | VDict err => negb (truthy (dget_or "retryable" (VBool false) err))
         | _ => false
         end).

(** *** Vocabulary: approval requests *)

(** The guarded intent a request payload names. *)
Definition guarded_intent (payload : dict) : string :=
  strip (Py.str (dget_or "intent_being_guarded" (VStr EmptyString) payload)).

(** The id under which a request is stored: the one the payload asks for
    or, when it asks for none, one made of the identifier drawn next. *)
Definition request_id_for (payload : dict) (w : World) : string :=
  let given := strip (Py.str (dget_or "request_id" (VStr EmptyString) payload)) in
  if String.eqb given EmptyString then "appr-" +:+ uuid_of (uuids w) else given.

(** The gate keeps its requests in a dictionary, as [__init__] leaves
    them. *)
Definition requests_kept (w : World) : bool :=
  match dget "requests" (ApprovalGateNode.self_state w) with
  | None | Some (VDict _) => true
  | Some _ => false
  end.

(** An [approval.request] message. *)
Definition request_message (id : string) (payload : dict) : dict :=
  [("protocol_version", VStr "0.1"); ("message_id", VStr id);
   ("intent", VStr "approval.request"); ("payload", VDict payload)].

(** *** Vocabulary: the front door of the pipeline *)

(** The fields of the status the router keeps for a message. *)
Definition status_fields (message_id : string) (s : Bdp.Sys) : list (string * Bdp.rval) :=
  default [] (Bdp.hashes (Bdp.rdb s) !! Bdp.status_key message_id).

(** The router of the pipeline takes the request: it is a valid message of
    the protocol version of the build whose intent is in the registry. *)
Definition routable (m : dict) : bool :=
  valid_core m
  && eq_str (vget "protocol_version" m) PROTOCOL_VERSION
  && match dget (intent_of m) RouterHandler.REGISTRY with
     | Some _ => true
     | None => false
     end.

(** The request was answered with an error and left no trace: nothing
    stored, queued, logged or published. *)
Definition turned_away (code : Z) (reply : dict) (s s' : Bdp.Sys) : Prop :=
  code = 200 /\ vget "intent" reply = VStr "error" /\
  Bdp.rdb s' = Bdp.rdb s /\ Bdp.queues s' = Bdp.queues s /\
  Bdp.jsonl s' = Bdp.jsonl s /\ Bdp.effects s' = Bdp.effects s.

(** The code of the error with which the worker rejects a message it does
    not start on. *)
Definition rejection_code (message : dict) : string :=
  if eq_str (vget "protocol_version" message) PROTOCOL_VERSION
  then E_REQUIRED_EXTENSION_MISSING
  else E_UNSUPPORTED_PROTOCOL.

(** The error block of an answer that the loop of [route] takes for a
    retryable error: a valid envelope with intent [error] whose error is
    a dictionary marked retryable. *)
Definition retryable_error (resp : dict) : option dict :=
  if valid_core resp && eq_str (vget "intent" resp) "error" then
    match dget_or "error" (VDict []) (RouterCore.dict_at "payload" resp) with
    | VDict err =>
        if truthy (dget_or "retryable" (VBool false) err) then Some err else None
    | _ => None
    end
  else None.

(** What the loop notes of a retryable error of a node: the attempt, and
    the error as it will be relayed. *)
Definition retry_attempt (node : string) (err : dict) : dict :=
  RouterCore.attempted_item node "retryable_error" [("code", vget "code" err)].

Definition relayed (err : dict) : dict :=
  [("code", vget "code" err); ("message", vget "message" err);
   ("details", dget_or "details" (VDict []) err)].

(** *** More scenarios *)

(** A handler that answers a retryable error, and a node that has it. *)
Definition busy_handler : Handler := fun message =>
  let* e := Protocol.make_error "E_NODE_TIMEOUT" "busy" (vget "message_id" message) true [] in
  ret (VDict e).

Definition busy_error : dict :=
  [("code", VStr "E_NODE_TIMEOUT"); ("message", VStr "busy");
   ("retryable", VBool true); ("details", VDict [])].

Definition busy_state : State :=
  registered
    [(one_capability "node.busy" "0.1.0" 100
        (capability_of "demo.busy" "read" "none" false [] None),
      Some busy_handler)] 100.

(** The candidates and the disclosure with which [route] enters its
    loop, if it does. *)
Definition candidates_of (self : RouterCore.t) (s : State) (m : dict) : list NodeRecord :=
  match route_prefix self s m with
  | Dispatch cands _ => cands
  | Rejected _ => []
  end.

Definition disclosure_for (self : RouterCore.t) (s : State) (m : dict) : option dict :=
  match route_prefix self s m with
  | Dispatch _ pd => pd
  | Rejected _ => None
  end.

(** A request whose trace is a text. *)
Definition untraceable_request : dict :=
  request "demo.echo" [] (Some [("trace", VStr "x")]).

(** An [echo] request without identity. *)
Definition anonymous_request : dict :=
  [("protocol_version", VStr "0.1"); ("message_id", VStr "m-3");
   ("intent", VStr "echo"); ("payload", VDict [("text", VStr "hi")])].

(** A request for approval under an id that is taken. *)
Definition repeated_approval_request : dict :=
  request_message "m-7"
    [("intent_being_guarded", VStr "memory.write.propose");
     ("changes", VList [VStr "notes.md"]); ("request_id", VStr "appr-1")].

(** A request for approval that names no changes. *)
Definition empty_approval_request : dict :=
  request_message "m-8"
    [("intent_being_guarded", VStr "memory.write.propose"); ("changes", VList [])].

(** The record the registry keeps of a node that registered alone at
    time 100, as [route] gets it. *)
Definition serving_record (id : string) (c : CapabilityMetadata) (h : Handler)
  : NodeRecord :=
  {| descriptor := one_capability id "0.1.0" 100 c; handler := Some h;
     lease_token := uuid_of 0; expires_at_epoch := 115;
     registered_at := iso_of 100; last_heartbeat_at := iso_of 100 |}.

Definition echo_record : NodeRecord :=
  serving_record "node.echo" (capability_of "demo.echo" "read" "none" false [] None)
    (answering "demo.echoed" [("text", VStr "hi")]).

Definition busy_record : NodeRecord :=
  serving_record "node.busy" (capability_of "demo.busy" "read" "none" false [] None)
    busy_handler.

(** *** Vocabulary: the order of the candidates *)

(** [a] stands before [b] in [l]. *)
Definition stands_before {A : Type} (l : list A) (a b : A) : Prop :=
  exists l1 l2 l3, l = l1 ++ a :: l2 ++ b :: l3.




(** *** Vocabulary: what the router makes of a call *)





(** *** Scenarios: selection *)

(** The capability of [test_deterministic_selection], and a handler that
    tells which node answered. *)
Definition determinism_capability : CapabilityMetadata :=
  {| name := "determinism.echo"; description := "deterministic test";
     input_schema := VDict [("type", VStr "object")];
     risk_class := "read"; required_extensions := [];
     approval_required := false; examples := ["echo"];
     idempotency := "idempotent"; side_effect_scope := "none";
     capability_version := "0.1.0"; provider := None |}.

Definition selected (who : string) : Handler :=
  answering "determinism.result" [("selected", VStr who)].

(** The two providers of scenario S6: priority 200 both, versions 1.0.0
    and 1.2.0, ids z and a. *)
Definition provider_z : NodeDescriptor * option Handler :=
  (one_capability "z" "1.0.0" 200 determinism_capability, Some (selected "z")).
Definition provider_a : NodeDescriptor * option Handler :=
  (one_capability "a" "1.2.0" 200 determinism_capability, Some (selected "a")).


(** What a response says was selected. *)
Definition selected_by (response : dict) : value :=
  vget "selected" (RouterCore.dict_at "payload" response).

(** *** Scenarios: read-only calls *)



(** *** Scenarios: several candidates *)

(** The records the registry keeps of the two providers of scenario S6
    when z registers first, as [route] gets them. *)
Definition selected_record (id version who : string) (drawn : nat) : NodeRecord :=
  {| descriptor := one_capability id version 200 determinism_capability;
     handler := Some (selected who);
     lease_token := uuid_of drawn; expires_at_epoch := 115;
     registered_at := iso_of 100; last_heartbeat_at := iso_of 100 |}.

(** A handler that answers a retryable error with the given code. *)
Definition failing (code text : string) : Handler := fun message =>
  let* e := Protocol.make_error code text (vget "message_id" message) true [] in
  ret (VDict e).

Definition failing_error (code text : string) : dict :=
  [("code", VStr code); ("message", VStr text);
   ("retryable", VBool true); ("details", VDict [])].

(** Two nodes that claim one capability and are both busy, each in its
    own way; the one of higher priority registers last. *)
Definition busy_capability : CapabilityMetadata :=
  capability_of "demo.busy" "read" "none" false [] None.

Definition busy_pair_state : State :=
  registered
    [(one_capability "node.busy.low" "0.1.0" 100 busy_capability,
      Some (failing "E_NODE_BUSY" "later"));
     (one_capability "node.busy.high" "0.1.0" 200 busy_capability,
      Some (failing "E_NODE_TIMEOUT" "busy"))] 100.

Definition busy_low_record : NodeRecord :=
  {| descriptor := one_capability "node.busy.low" "0.1.0" 100 busy_capability;
     handler := Some (failing "E_NODE_BUSY" "later");
     lease_token := uuid_of 0; expires_at_epoch := 115;
     registered_at := iso_of 100; last_heartbeat_at := iso_of 100 |}.

Definition busy_high_record : NodeRecord :=
  {| descriptor := one_capability "node.busy.high" "0.1.0" 200 busy_capability;
     handler := Some (failing "E_NODE_TIMEOUT" "busy");
     lease_token := uuid_of 1; expires_at_epoch := 115;
     registered_at := iso_of 100; last_heartbeat_at := iso_of 100 |}.

(** The error each of the two answers. *)
Definition busy_pair_error (rec : NodeRecord) : dict :=
  if String.eqb (node_of rec) "node.busy.high"
  then failing_error "E_NODE_TIMEOUT" "busy"
  else failing_error "E_NODE_BUSY" "later".
(* ===================================================================== *)
(** * Part II: lemmas and theorems                                        *)
(* ===================================================================== *)

(** ** Running monadic code *)

Lemma bind_ok {S A B : Type} (c : ST S A) (k : A -> ST S B) (s s' : S) (a : A) :
  c s = (Ok a, s') -> bind c k s = k a s'.
Proof. intros H. unfold bind. now rewrite H. Qed.

Lemma bind_raise {S A B : Type} (c : ST S A) (k : A -> ST S B) (s s' : S) (e : exn) :
  c s = (Raise e, s') -> bind c k s = (Raise e, s').
Proof. intros H. unfold bind. now rewrite H. Qed.

(** One step of a computation whose first command runs by computation. *)
Ltac step := erewrite bind_ok by reflexivity.

(** One step with the equation of the first command at hand. *)
Ltac step_with H := erewrite bind_ok by exact H.

Arguments NodeRegistry._save_snapshot_locked : simpl never.
Arguments NodeRegistry.prune_stale : simpl never.
Arguments NodeRegistry.update_health : simpl never.
Arguments Persistence.emit_event : simpl never.
Arguments Persistence.save_state : simpl never.
Arguments Persistence.append_log : simpl never.

(** ** Selection order (registry.py, router.py) *)

Section SelectionOrder.

Import NodeRegistry RouterCore.

Lemma string_ltb_irrefl (a : string) : String.ltb a a = false.
Proof.
  unfold String.ltb.
  destruct (String.compare a a) eqn:E; auto.
  exfalso. exact (StrictOrder_Irreflexive (R := String_as_OT.lt) a E).
Qed.

Lemma string_ltb_trans (a b c : string) :
  String.ltb a b = true -> String.ltb b c = true -> String.ltb a c = true.
Proof.
  unfold String.ltb. intros H1 H2.
  destruct (String.compare a b) eqn:Eab; try discriminate H1.
  destruct (String.compare b c) eqn:Ebc; try discriminate H2.
  assert (H : String_as_OT.lt a c)
    by exact (StrictOrder_Transitive (R := String_as_OT.lt) a b c Eab Ebc).
  unfold String_as_OT.lt in H.
  change (String_as_OT.compare a c) with (String.compare a c) in H.
  now rewrite H.
Qed.


Lemma string_ltb_asym (a b : string) :
  String.ltb a b = true -> String.ltb b a = false.
Proof.
  intros H. destruct (String.ltb b a) eqn:E; auto.
  pose proof (string_ltb_trans _ _ _ H E) as T.
  rewrite string_ltb_irrefl in T. discriminate.
Qed.

Lemma key_ltb_spec (a b : SortKey) : key_ltb a b = true <-> key_lt a b.
Proof.
  destruct a as [[[[a1 a2] a3] a4] a5], b as [[[[b1 b2] b3] b4] b5].
  unfold key_ltb, key_lt.
  repeat match goal with
         | |- context [?x <? ?y] => destruct (Z.ltb_spec x y)
         end;
    (split; intros Hk;
     [ try discriminate Hk;
       repeat first [left; lia | right; split; [lia|]]; try assumption
     | try reflexivity; intuition (try lia; try congruence) ]).
Qed.

Lemma key_lt_irrefl (a : SortKey) : ~ key_lt a a.
Proof.
  destruct a as [[[[a1 a2] a3] a4] a5]. unfold key_lt.
  rewrite string_ltb_irrefl. intuition (try lia; try discriminate).
Qed.

Lemma key_lt_trans (a b c : SortKey) : key_lt a b -> key_lt b c -> key_lt a c.
Proof.
  destruct a as [[[[a1 a2] a3] a4] a5], b as [[[[b1 b2] b3] b4] b5],
           c as [[[[c1 c2] c3] c4] c5].
  unfold key_lt. intros H1 H2.
  destruct H1 as [H1|[E1 H1]]; destruct H2 as [H2|[E2 H2]]; try (left; lia).
  right; split; [lia|].
  destruct H1 as [H1|[F1 H1]]; destruct H2 as [H2|[F2 H2]]; try (left; lia).
  right; split; [lia|].
  destruct H1 as [H1|[G1 H1]]; destruct H2 as [H2|[G2 H2]]; try (left; lia).
  right; split; [lia|].
  destruct H1 as [H1|[I1 H1]]; destruct H2 as [H2|[I2 H2]]; try (left; lia).
  right; split; [lia|]. eapply string_ltb_trans; eauto.
Qed.


Lemma key_lt_asym (a b : SortKey) : key_lt a b -> ~ key_lt b a.
Proof.
  intros H1 H2. exact (key_lt_irrefl a (key_lt_trans _ _ _ H1 H2)).
Qed.

Lemma key_ltb_false (a b : SortKey) : key_ltb a b = false <-> ~ key_lt a b.
Proof.
  rewrite <- key_ltb_spec. destruct (key_ltb a b); split; congruence.
Qed.


Lemma sorted_In {A : Type} (key : A -> SortKey) (l : list A) (x : A) :
  In x (sorted key_ltb key l) <-> In x l.
Proof.
  induction l as [|y l IH]; simpl; [tauto|].
  assert (Hins : forall z s, In z (insert_sorted key_ltb key y s) <-> z = y \/ In z s).
  { intros z s. induction s as [|u s IHs]; simpl; [intuition|].
    destruct (key_ltb (key u) (key y)); simpl; rewrite ?IHs; intuition. }
  rewrite Hins, IH. intuition.
Qed.

End SelectionOrder.

Section SelectionTheorem.

Import NodeRegistry RouterCore.



Lemma sorted_perm {A : Type} (key : A -> SortKey) (l : list A) :
  Permutation (sorted key_ltb key l) l.
Proof.
  induction l as [|x l IH]; simpl; [constructor|].
  assert (Hins : forall s, Permutation (insert_sorted key_ltb key x s) (x :: s)).
  { induction s as [|u s IHs]; simpl; [reflexivity|].
    destruct (key_ltb (key u) (key x)); [|reflexivity].
    rewrite IHs. apply perm_swap. }
  rewrite Hins. now constructor.
Qed.

Lemma sorted_pair (a b : NodeRecord) :
  key_lt (_node_sort_key a) (_node_sort_key b) ->
  sorted key_ltb _node_sort_key [a; b] = [a; b] /\
  sorted key_ltb _node_sort_key [b; a] = [a; b].
Proof.
  intros H. pose proof (key_lt_asym _ _ H) as N.
  apply key_ltb_spec in H. apply key_ltb_false in N.
  unfold sorted. cbn [fold_right insert_sorted]. now rewrite H, N.
Qed.

End SelectionTheorem.

(** ** Secret scrubbing (persistence.py) *)

Section Scrubbing.

Import Persistence.

(** Induction on values, through lists and dictionaries. *)
Lemma value_ind' (P : value -> Prop) :
  P VNone ->
  (forall b, P (VBool b)) ->
  (forall z, P (VInt z)) ->
  (forall s, P (VStr s)) ->
  (forall l, Forall P l -> P (VList l)) ->
  (forall d, Forall (fun kv => P (snd kv)) d -> P (VDict d)) ->
  forall v, P v.
Proof.
  intros Hn Hb Hi Hs Hl Hd.
  fix IH 1. intros [| b | z | s | l | d].
  - exact Hn.
  - apply Hb.
  - apply Hi.
  - apply Hs.
  - apply Hl. induction l as [|x l IHl]; constructor; [apply IH|exact IHl].
  - apply Hd. induction d as [|[k x] d IHd]; constructor; [apply IH|exact IHd].
Qed.

Lemma prefix_spec (p s : string) :
  String.prefix p s = true <-> exists post, s = p +:+ post.
Proof.
  revert s. induction p as [|c p IH]; intros [|c' s]; simpl.
  - split; [intros _; now exists EmptyString|reflexivity].
  - split; [intros _; now exists (String c' s)|reflexivity].
  - split; [discriminate|intros [post H]; discriminate].
  - destruct (ascii_dec c c') as [->|Hne].
    + rewrite IH. split; intros [post H]; exists post.
      * now rewrite H.
      * now injection H.
    + split; [discriminate|]. intros [post H]. injection H as H _. congruence.
Qed.

(** [needle in hay] holds when [hay] is some text, then [needle], then some
    text. *)
Lemma contains_spec (needle hay : string) :
  contains needle hay = true <-> exists pre post, hay = pre +:+ needle +:+ post.
Proof.
  induction hay as [|c hay IH].
  - cbn [contains]. rewrite orb_false_r, prefix_spec. split.
    + intros [post H]. now exists EmptyString, post.
    + intros [pre [post H]]. destruct pre as [|c pre]; [now exists post|discriminate].
  - cbn [contains]. rewrite orb_true_iff, prefix_spec, IH. split.
    + intros [[post H]|[pre [post H]]].
      * now exists EmptyString, post.
      * exists (String c pre), post. now rewrite H.
    + intros [pre [post H]]. destruct pre as [|c' pre].
      * left. now exists post.
      * right. exists pre, post. now injection H.
Qed.

(** The test of the code is the test of the specification. *)
Lemma sensitive_names_secret (key : string) : sensitive key = names_secret key.
Proof.
  unfold sensitive, names_secret, SENSITIVE_KEYS. cbn [existsb].
  now rewrite orb_false_r, !orb_assoc.
Qed.

Lemma names_secret_spec (key : string) :
  names_secret key = true <->
  exists fragment pre post,
    In fragment ["api_key"; "authorization"; "token"; "secret"] /\
    lower key = pre +:+ fragment +:+ post.
Proof.
  unfold names_secret. rewrite !orb_true_iff, !contains_spec. split.
  - intros [[[H|H]|H]|H]; destruct H as [pre [post H]];
      eexists; exists pre, post; (split; [|exact H]); cbn; auto.
  - intros [fragment [pre [post [Hin H]]]]. cbn in Hin.
    destruct Hin as [<-|[<-|[<-|[<-|[]]]]]; eauto 6.
Qed.

Lemma scrub_no_raw_secret (v : value) : no_raw_secret (_scrub_sensitive v) = true.
Proof.
  induction v as [| b | z | s | l IH | d IH] using value_ind'; simpl; auto.
  - induction IH as [|x l Hx _ IHl]; simpl; auto.
    now rewrite Hx, IHl.
  - induction IH as [|[k x] d Hx _ IHd]; simpl; auto.
    rewrite IHd, andb_true_r. simpl in Hx. rewrite sensitive_names_secret.
    destruct (names_secret k); [reflexivity|exact Hx].
Qed.

Lemma scrub_is_Scrubbed (v : value) : Scrubbed v (_scrub_sensitive v).
Proof.
  induction v as [| b | z | s | l IH | d IH] using value_ind'; simpl;
    try constructor.
  - induction IH as [|x l Hx _ IHl]; simpl; constructor; auto.
  - induction IH as [|[k x] d Hx _ IHd]; simpl; [constructor|].
    rewrite sensitive_names_secret.
    destruct (names_secret k) eqn:E; [now apply Scrubbed_dict_secret|].
    now apply Scrubbed_dict_keep.
Qed.

Lemma Scrubbed_functional (v v' : value) :
  Scrubbed v v' -> v' = _scrub_sensitive v.
Proof.
  induction 1 as [| | | | | x x' l l' _ IHx _ IHl | | k x d d' Hk _ IHd
                 | k x x' d d' Hk _ IHx _ IHd]; simpl in *; auto;
    rewrite ?sensitive_names_secret.
  - injection IHl as ->. now subst.
  - injection IHd as ->. now rewrite Hk.
  - injection IHd as ->. rewrite Hk. now subst.
Qed.

Lemma scrub_no_sensitive_key (v : value) :
  no_sensitive_key v = true -> _scrub_sensitive v = v.
Proof.
  induction v as [| b | z | s | l IH | d IH] using value_ind'; simpl; auto;
    intros H; f_equal.
  - induction IH as [|x l Hx _ IHl]; simpl in *; auto.
    apply andb_true_iff in H as [H1 H2]. f_equal; auto.
  - induction IH as [|[k x] d Hx _ IHd]; simpl in *; auto.
    apply andb_true_iff in H as [H1 H2].
    apply andb_true_iff in H1 as [H0 H1].
    rewrite sensitive_names_secret.
    destruct (names_secret k); [discriminate|]. f_equal; auto. f_equal; auto.
Qed.

Lemma append_log_run (name : string) (item : value) (w : World) :
  append_log name item w =
  (Ok tt, set_logs (<[name := default [] (logs w !! name) ++ [_scrub_sensitive item]]> (logs w)) w).
Proof. reflexivity. Qed.

Lemma append_log_clean (name : string) (item : value) (w : World) :
  disk_clean w -> disk_clean (snd (append_log name item w)).
Proof.
  intros [Hl Hs]. rewrite append_log_run. split; simpl; [|exact Hs].
  intros n lines. destruct (decide (name = n)) as [->|Hne].
  - rewrite lookup_insert_eq. intros [= <-].
    rewrite forallb_app. simpl. rewrite scrub_no_raw_secret, andb_true_r.
    destruct (logs w !! n) as [old|] eqn:E; simpl; [eauto|reflexivity].
  - rewrite lookup_insert_ne by exact Hne. apply Hl.
Qed.

Lemma save_state_clean (name : string) (v : value) (w : World) :
  disk_clean w -> disk_clean (snd (save_state name v w)).
Proof.
  intros [Hl Hs]. split; simpl; [exact Hl|].
  intros n x. destruct (decide (name = n)) as [->|Hne].
  - rewrite lookup_insert_eq. intros [= <-]. apply scrub_no_raw_secret.
  - rewrite lookup_insert_ne by exact Hne. apply Hs.
Qed.

Lemma emit_event_run (channel event_type : string) (payload : value) (w : World) :
  emit_event channel event_type payload w =
  append_log channel
    (VDict [("ts", VStr (iso_of (now w))); ("event_type", VStr event_type);
            ("payload", payload)]) w.
Proof. reflexivity. Qed.

Lemma run_op_clean (op : PersistenceOp) (w : World) :
  disk_clean w -> disk_clean (snd (run_op op w)).
Proof.
  destruct op; cbn [run_op].
  - apply append_log_clean.
  - rewrite emit_event_run. apply append_log_clean.
  - apply save_state_clean.
Qed.

Lemma run_op_ok (op : PersistenceOp) (w : World) : fst (run_op op w) = Ok tt.
Proof. destruct op; reflexivity. Qed.

Lemma run_ops_clean (ops : list PersistenceOp) (w : World) :
  disk_clean w ->
  fst (run_ops ops w) = Ok tt /\ disk_clean (snd (run_ops ops w)).
Proof.
  revert w. induction ops as [|op ops IH]; intros w H; simpl; [auto|].
  unfold bind. pose proof (run_op_ok op w) as Hok.
  pose proof (run_op_clean op w H) as Hc.
  destruct (run_op op w) as [[[]|e] w']; simpl in *; [|discriminate].
  now apply IH.
Qed.

(** C5: what [Persistence] writes holds no raw secret.  The code redacts
    under exactly the keys the specification names: those whose name,
    lower-cased, is some text, then one of api_key, authorization, token
    and secret, then some text.  [_scrub_sensitive] is the scrubber of the
    specification: it keeps the keys and their order, puts the literal
    that marks a redaction under every key that names a secret, at any
    depth and inside lists too, and keeps every other value, scrubbed in
    turn ([Scrubbed], of which it is the only solution); its result has
    no raw secret, and a value none of whose keys names a secret comes
    back unchanged.  [append_log] appends the scrubbed item to its log and
    [save_state] replaces its file by the scrubbed value, and neither
    touches another log or file; so whatever sequence of writes runs on a
    clean data root, the run ends normally and the data root is clean
    again. *)
Theorem C5_persisted_values_are_scrubbed :
  (forall key,
     sensitive key = true <->
     exists fragment pre post,
       In fragment ["api_key"; "authorization"; "token"; "secret"] /\
       lower key = pre +:+ fragment +:+ post) /\
  (forall v, Scrubbed v (_scrub_sensitive v) /\
             (forall v', Scrubbed v v' -> v' = _scrub_sensitive v) /\
             no_raw_secret (_scrub_sensitive v) = true /\
             (no_sensitive_key v = true -> _scrub_sensitive v = v)) /\
  (forall name item w v',
     Scrubbed item v' ->
     logs (snd (append_log name item w)) !! name
     = Some (default [] (logs w !! name) ++ [v']) /\
     (forall other, other <> name ->
        logs (snd (append_log name item w)) !! other = logs w !! other) /\
     state_files (snd (append_log name item w)) = state_files w) /\
  (forall name v w v',
     Scrubbed v v' ->
     state_files (snd (save_state name v w)) !! name = Some v' /\
     (forall other, other <> name ->
        state_files (snd (save_state name v w)) !! other = state_files w !! other) /\
     logs (snd (save_state name v w)) = logs w) /\
  (forall ops w,
     disk_clean w ->
     fst (run_ops ops w) = Ok tt /\ disk_clean (snd (run_ops ops w))).
Proof.
  split; [|split; [|split; [|split]]].
  - intros key. rewrite sensitive_names_secret. apply names_secret_spec.
  - intros v. split; [apply scrub_is_Scrubbed|].
    split; [apply Scrubbed_functional|].
    split; [apply scrub_no_raw_secret|apply scrub_no_sensitive_key].
  - intros name item w v' Hv. rewrite (Scrubbed_functional _ _ Hv).
    rewrite append_log_run. simpl. split; [apply lookup_insert_eq|].
    split; [|reflexivity]. intros other Hne. now apply lookup_insert_ne.
  - intros name v w v' Hv. rewrite (Scrubbed_functional _ _ Hv). simpl.
    split; [apply lookup_insert_eq|].
    split; [|reflexivity]. intros other Hne. now apply lookup_insert_ne.
  - apply run_ops_clean.
Qed.

End Scrubbing.

Section ScrubbingExample.

Import Persistence.

Lemma empty_world_clean : disk_clean empty_world.
Proof. split; intros n x Hx; simpl in Hx; rewrite lookup_empty in Hx; discriminate. Qed.

Lemma leaky_item_Scrubbed :
  Scrubbed leaky_item
    (VDict [("API_KEY", VStr "<redacted>");
            ("to" +:+ bytes [226; 132; 170] +:+ "en", VStr "<redacted>");
            ("nodes", VList [VDict [("lease_token", VStr "<redacted>");
                                    ("name", VStr "n")]]);
            ("tokyo", VStr "city")]).
Proof.
  unfold leaky_item.
  repeat first
    [ apply Scrubbed_dict_secret; [vm_compute; reflexivity|]
    | apply Scrubbed_dict_keep; [vm_compute; reflexivity| |]
    | constructor ].
Qed.

(** The log line of the example reaches the disk with every secret
    redacted and everything else as it was; and after it, an event and a
    state file that carry secrets too, the data root is clean. *)
Lemma C5_persisted_values_witness :
  logs (snd (append_log "router" leaky_item empty_world)) !! "router"
  = Some [VDict [("API_KEY", VStr "<redacted>");
                 ("to" +:+ bytes [226; 132; 170] +:+ "en", VStr "<redacted>");
                 ("nodes", VList [VDict [("lease_token", VStr "<redacted>");
                                         ("name", VStr "n")]]);
                 ("tokyo", VStr "city")]] /\
  _scrub_sensitive (VDict [("name", VStr "n"); ("tokyo", VList [VInt 1])])
  = VDict [("name", VStr "n"); ("tokyo", VList [VInt 1])] /\
  disk_clean
    (snd (run_ops
            [AppendLog "router" leaky_item;
             EmitEvent "audit" "login" (VDict [("Authorization", VStr "Bearer x")]);
             SaveState "approvals" (VDict [("client_secret", VDict [("a", VInt 1)])])]
            empty_world)).
Proof.
  destruct C5_persisted_values_are_scrubbed as [_ [Hscrub [Hlog [_ Hops]]]].
  split; [|split].
  - exact (proj1 (Hlog "router" leaky_item empty_world _ leaky_item_Scrubbed)).
  - apply (proj2 (proj2 (proj2 (Hscrub _)))). vm_compute. reflexivity.
  - exact (proj2 (Hops _ empty_world empty_world_clean)).
Defined.

End ScrubbingExample.

(** ** Leases (registry.py) *)

Section Leases.

Import NodeRegistry.

Lemma save_snapshot_run (s : State) :
  exists v,
    _save_snapshot_locked s =
    (Ok tt, set_world (set_state_files (<["router_registry" := v]> (state_files (world s)))
                         (world s)) s).
Proof. eexists. reflexivity. Qed.

Lemma prune_stale_run (s : State) :
  exists w,
    prune_stale s =
    (Ok tt,
     {| registry :=
          {| registration_token := registration_token (registry s);
             heartbeat_ttl_sec := heartbeat_ttl_sec (registry s);
             records := fold_left (fun d k => dpop k d)
                          (stale_ids (now (world s)) (records (registry s)))
                          (records (registry s));
             health := health (registry s) |};
        world := w; calls := calls s |}) /\
    library w = library (world s) /\ logs w = logs (world s) /\
    node_mem w = node_mem (world s) /\ now w = now (world s) /\
    uuids w = uuids (world s) /\ ticks w = ticks (world s) /\
    (forall name : string,
       name <> "router_registry" ->
       state_files w !! name = state_files (world s) !! name) /\
    (stale_ids (now (world s)) (records (registry s)) = [] -> w = world s).
Proof.
  unfold prune_stale, bind, time_time, gets, modify. simpl.
  destruct (stale_ids (now (world s)) (records (registry s))) eqn:E.
  - exists (world s). simpl. destruct s as [[? ? ? ?] ? ?]; simpl. auto 10.
  - eexists. split; [reflexivity|]. simpl.
    repeat (split; [reflexivity|]). split; [|discriminate].
    intros name Hne. now rewrite lookup_insert_ne.
Qed.

Lemma dget_dset_same {A : Type} (k : string) (x : A) (d : list (string * A)) :
  dget k (dset k x d) = Some x.
Proof.
  induction d as [|[k0 y] d IH]; simpl.
  - now rewrite String.eqb_refl.
  - destruct (String.eqb k0 k) eqn:E; simpl; now rewrite E.
Qed.

Lemma dget_dset_other {A : Type} (k k' : string) (x : A) (d : list (string * A)) :
  k <> k' -> dget k' (dset k x d) = dget k' d.
Proof.
  intros Hne. induction d as [|[k0 y] d IH]; simpl.
  - destruct (String.eqb_spec k k'); [contradiction|reflexivity].
  - destruct (String.eqb_spec k0 k) as [->|H0]; simpl.
    + destruct (String.eqb_spec k k'); [contradiction|reflexivity].
    + destruct (String.eqb k0 k'); auto.
Qed.

Lemma dget_dpop_other {A : Type} (k k' : string) (d : list (string * A)) :
  dget k d = None -> dget k (dpop k' d) = None.
Proof.
  induction d as [|[k0 x] d IH]; simpl; auto.
  destruct (String.eqb k0 k) eqn:E; [discriminate|]. intros H.
  destruct (String.eqb k0 k'); simpl; auto. now rewrite E, IH.
Qed.

Lemma dget_None_not_In {A : Type} (k : string) (d : list (string * A)) :
  dget k d = None <-> ~ In k (map fst d).
Proof.
  induction d as [|[k0 x] d IH]; simpl; [tauto|].
  destruct (String.eqb_spec k0 k) as [->|Hne].
  - split; [discriminate|]. intros H. exfalso. apply H. now left.
  - rewrite IH. tauto.
Qed.

Lemma dget_dpop_same {A : Type} (k : string) (d : list (string * A)) :
  List.NoDup (map fst d) -> dget k (dpop k d) = None.
Proof.
  induction d as [|[k0 x] d IH]; simpl; auto.
  intros Hnd. apply List.NoDup_cons_iff in Hnd as [Hnot Hnd].
  destruct (String.eqb_spec k0 k) as [->|Hne].
  - now apply dget_None_not_In.
  - simpl. destruct (String.eqb_spec k0 k); [contradiction|]. now apply IH.
Qed.

Lemma dpop_keys_incl {A : Type} (k : string) (d : list (string * A)) :
  forall x, In x (map fst (dpop k d)) -> In x (map fst d).
Proof.
  induction d as [|[k0 y] d IH]; simpl; auto.
  destruct (String.eqb k0 k); simpl; intuition.
Qed.

Lemma dpop_NoDup {A : Type} (k : string) (d : list (string * A)) :
  List.NoDup (map fst d) -> List.NoDup (map fst (dpop k d)).
Proof.
  induction d as [|[k0 y] d IH]; simpl; auto.
  intros Hnd. apply List.NoDup_cons_iff in Hnd as [Hnot Hnd].
  destruct (String.eqb k0 k); simpl; auto.
  constructor; auto. intros Hin. apply Hnot. eapply dpop_keys_incl; eauto.
Qed.

Lemma pruned_gone {A : Type} (k : string) (ks : list string) (d : list (string * A)) :
  List.NoDup (map fst d) -> In k ks ->
  dget k (fold_left (fun d k => dpop k d) ks d) = None.
Proof.
  revert d. induction ks as [|k0 ks IH]; intros d Hnd Hin; [destruct Hin|].
  simpl. destruct (string_dec k0 k) as [->|Hne].
  - clear IH Hin. pose proof (dget_dpop_same k d Hnd) as H.
    revert H. generalize (dpop k d). induction ks as [|k1 ks IHks]; simpl; auto.
    intros d' H. apply IHks. now apply dget_dpop_other.
  - destruct Hin as [->|Hin]; [contradiction|].
    apply IH; auto. now apply dpop_NoDup.
Qed.

Lemma stale_id_In (t : Z) (k : string) (rec : NodeRecord)
  (recs : list (string * NodeRecord)) :
  dget k recs = Some rec -> expires_at_epoch rec <= t -> In k (stale_ids t recs).
Proof.
  unfold stale_ids. induction recs as [|[k0 r] recs IH]; simpl; [discriminate|].
  destruct (String.eqb_spec k0 k) as [->|Hne].
  - intros [= ->] Hle. apply Z.leb_le in Hle. rewrite Hle. now left.
  - intros H Hle. destruct (expires_at_epoch r <=? t); simpl; auto.
Qed.

(** Every read of the registry prunes first. *)
Lemma reads_prune (s : State) :
  records (registry (snd (active_records s))) = records (registry (snd (prune_stale s))) /\
  (forall node, records (registry (snd (get_record node s)))
                = records (registry (snd (prune_stale s)))) /\
  (forall intent, records (registry (snd (capability_metadata intent s)))
                  = records (registry (snd (prune_stale s)))).
Proof.
  destruct (prune_stale_run s) as [w [E _]].
  unfold active_records, get_record, capability_metadata, bind, gets, ret.
  rewrite E. simpl. auto.
Qed.

(** C6, as the code has it: the record of a node whose lease has run out
    ([expires_at_epoch <= now]) is destroyed by [prune_stale], which every
    read of the registry runs first and [heartbeat] does not.  After a
    prune [heartbeat] answers [E_NODE_NOT_REGISTERED] whatever the token;
    before any prune the record is still there, and a heartbeat with its
    lease token is accepted and renews the lease. *)
Theorem C6_heartbeat_after_prune :
  forall (s : State) (node : string) (rec : NodeRecord),
    distinct_ids s ->
    dget node (records (registry s)) = Some rec ->
    expires_at_epoch rec <= now (world s) ->
    (forall (s' : State) (token : string),
       records (registry s') = records (registry (snd (prune_stale s))) ->
       heartbeat node token s' =
       (Ok (reply_error "node not registered" E_NODE_NOT_REGISTERED), s')) /\
    (exists s',
       heartbeat node (lease_token rec) s =
       (Ok [("ok", VBool true); ("node_id", VStr node)], s') /\
       option_map expires_at_epoch (dget node (records (registry s')))
       = Some (now (world s) + heartbeat_ttl_sec (registry s))).
Proof.
  intros s node rec Hnd Hget Hexp. split.
  - intros s' token Hrecs.
    destruct (prune_stale_run s) as [w [E _]]. rewrite E in Hrecs. simpl in Hrecs.
    unfold heartbeat, bind, gets. simpl. rewrite Hrecs.
    rewrite pruned_gone; auto. eapply stale_id_In; eauto.
  - unfold heartbeat. step. rewrite Hget, String.eqb_refl. cbn [negb].
    do 4 step.
    match goal with
    | |- context [bind _save_snapshot_locked _ ?st] =>
        destruct (save_snapshot_run st) as [v Ev]
    end.
    step_with Ev. eexists. split; [reflexivity|]. cbn.
    now rewrite dget_dset_same.
Qed.

End Leases.

Section LeasesExamples.

Import NodeRegistry.

Lemma lease_expired_lookup :
  dget "node.a" (records (registry lease_expired_state)) = Some lease_expired_record.
Proof. vm_compute. reflexivity. Qed.

(** The lease of the node ran out at 115, the clock reads 200, and the
    heartbeat with its lease token is accepted all the same. *)
Lemma C6_counterexample :
  dget "node.a" (records (registry lease_expired_state)) = Some lease_expired_record /\
  expires_at_epoch lease_expired_record <= now (world lease_expired_state) /\
  fst (heartbeat "node.a" (lease_token lease_expired_record) lease_expired_state)
  = Ok [("ok", VBool true); ("node_id", VStr "node.a")].
Proof.
  split; [exact lease_expired_lookup|]. split.
  - vm_compute. discriminate.
  - vm_compute. reflexivity.
Qed.

(** Once the registry has been read (and so pruned) the same heartbeat is
    refused. *)
Lemma C6_heartbeat_after_prune_witness :
  fst (heartbeat "node.a" (lease_token lease_expired_record)
         (snd (prune_stale lease_expired_state)))
  = Ok (reply_error "node not registered" E_NODE_NOT_REGISTERED).
Proof.
  assert (Hnd : distinct_ids lease_expired_state).
  { unfold distinct_ids. vm_compute. repeat constructor. intros []. }
  assert (Hexp : expires_at_epoch lease_expired_record <= now (world lease_expired_state)).
  { vm_compute. discriminate. }
  destruct (C6_heartbeat_after_prune lease_expired_state "node.a" lease_expired_record
              Hnd lease_expired_lookup Hexp) as [H _].
  rewrite (H _ (lease_token lease_expired_record) eq_refl). reflexivity.
Defined.

End LeasesExamples.

(** ** Messages (protocol.py) *)

Section ProtocolRuns.

Context {S : Type} `{Host S}.

(** [make_error] always returns: an error envelope with the given code. *)
Lemma make_error_run (code message : string) (parent : value) (retryable : bool)
  (details : dict) (s : S) :
  exists e,
    Protocol.make_error code message parent retryable details s
    = (Ok e, snd (draw_uuid s)) /\
    is_error code e /\
    vget "retryable" (error_of e) = VBool retryable /\
    vget "message" (error_of e) = VStr message /\
    vget "details" (error_of e) = VDict details /\
    Bdp.looks_like_bdp (VDict e) = true.
Proof.
  unfold Protocol.make_error, new_uuid, bind, is_error.
  destruct (draw_uuid s) as [u s']. simpl.
  destruct (truthy parent); eexists; (split; [reflexivity|]); cbn; auto 10.
Qed.

(** [make_response] without extensions always returns. *)
Lemma make_response_run (intent : string) (payload : dict) (parent : value) (s : S) :
  exists r,
    Protocol.make_response intent payload parent [] s = (Ok r, snd (draw_uuid s)) /\
    vget "intent" r = VStr intent /\ vget "payload" r = VDict payload.
Proof.
  unfold Protocol.make_response, new_uuid, bind.
  destruct (draw_uuid s) as [u s']. simpl.
  destruct (truthy parent); eexists; (split; [reflexivity|]); cbn; auto.
Qed.

End ProtocolRuns.

Arguments Protocol.make_error : simpl never.
Arguments Protocol.make_response : simpl never.

(** ** Approvals (nodes/approval_gate.py) *)

Section Approvals.

Import ApprovalGateNode.

Lemma get_request_run (request_id : string) (w : World) :
  _get_request request_id w = (Ok (stored_request request_id w), w).
Proof. reflexivity. Qed.

Lemma self_state_put (st : dict) (w : World) :
  self_state (snd (put_state st w)) = st.
Proof.
  unfold self_state, put_state, modify. simpl. now rewrite lookup_insert_eq.
Qed.

Lemma stored_request_requests (request_id : string) (w : World) (record : dict) :
  stored_request request_id w = Some record ->
  exists requests,
    dget "requests" (self_state w) = Some (VDict requests) /\
    dget request_id requests = Some (VDict record).
Proof.
  unfold stored_request, dget_or.
  destruct (dget "requests" (self_state w)) as [v|] eqn:E; [|simpl; discriminate].
  destruct v as [| | | | |requests]; try discriminate.
  destruct (dget request_id requests) as [v|] eqn:F; [|discriminate].
  destruct v as [| | | | |item]; try discriminate.
  intros [= ->]. eauto.
Qed.

Lemma dhas_of_dget {A : Type} (k : string) (d : list (string * A)) (x : A) :
  dget k d = Some x -> dhas k d = true.
Proof. unfold dhas. now intros ->. Qed.

Lemma resolved_record_fields (record : dict) (decision resolved_at : string)
  (payload : dict) :
  let r := resolved_record record decision resolved_at payload in
  vget "status" r = VStr decision /\
  vget "decision" r = VStr decision /\
  vget "resolved_at" r = VStr resolved_at /\
  vget "decision_note" r
  = VStr (Py.str (dget_or "decision_note" (VStr EmptyString) payload)) /\
  vget "decided_by" r = VStr (Py.str (dget_or "decided_by" (VStr "owner") payload)).
Proof.
  unfold resolved_record, vget, dget_or.
  repeat split;
    repeat first [ rewrite dget_dset_same | rewrite dget_dset_other by discriminate ];
    reflexivity.
Qed.

Lemma dset_nonempty {A : Type} (k : string) (x : A) (d : list (string * A)) :
  dset k x d <> [].
Proof. destruct d as [|[k0 y] d]; simpl; [|destruct (String.eqb k0 k)]; discriminate. Qed.

(** C10: [approval.resolve] does not look at the current status of the
    record.  Whatever record is stored under the request id, a resolve
    request with decision approved or denied writes status, decision,
    resolved_at, decision_note and decided_by into it, saves the state and
    answers [approval.resolved] with the record and a confirmation block
    that echoes the decision. *)
Theorem C10_resolve_ignores_current_status :
  forall (w : World) (message payload record : dict),
    eq_str (vget "intent" message) "approval.resolve" = true ->
    dget "payload" message = Some (VDict payload) ->
    resolve_request_id payload <> EmptyString ->
    resolve_decision payload = "approved" \/ resolve_decision payload = "denied" ->
    stored_request (resolve_request_id payload) w = Some record ->
    record <> [] ->
    exists (response p : dict) (w' : World),
      handle message w = (Ok (VDict response), w') /\
      vget "intent" response = VStr "approval.resolved" /\
      vget "payload" response = VDict p /\
      vget "status" p = VStr (resolve_decision payload) /\
      vget "decision" p = VStr (resolve_decision payload) /\
      vget "resolved_at" p = VStr (iso_of (now w)) /\
      vget "decision_note" p
      = VStr (Py.str (dget_or "decision_note" (VStr EmptyString) payload)) /\
      vget "decided_by" p = VStr (Py.str (dget_or "decided_by" (VStr "owner") payload)) /\
      vget "confirmation" p
      = VDict [("required", VBool true); ("status", VStr (resolve_decision payload));
               ("request_id", VStr (resolve_request_id payload))] /\
      stored_request (resolve_request_id payload) w'
      = Some (resolved_record record (resolve_decision payload) (iso_of (now w)) payload) /\
      state_files w' !! "approvals"
      = Some (Persistence._scrub_sensitive (VDict (self_state w'))).
Proof.
  intros w message payload record Hintent Hpayload Hid Hdec Hrec Hne.
  destruct record as [|entry record0]; [contradiction|].
  set (record := entry :: record0) in *.
  destruct (stored_request_requests _ _ _ Hrec) as [requests [Hreqs Hitem]].
  unfold resolve_request_id, resolve_decision in *.
  set (rid := strip (Py.str (dget_or "request_id" (VStr EmptyString) payload))) in *.
  set (decision := lower (strip (Py.str (dget_or "decision" (VStr EmptyString) payload)))) in *.
  set (record' := resolved_record record decision (iso_of (now w)) payload).
  assert (Hv : eq_str (vget "intent" message) "approval.request" = false).
  { destruct (vget "intent" message) as [| | |s| |]; try reflexivity.
    simpl in *. apply String.eqb_eq in Hintent. now subst. }
  unfold handle. rewrite Hv, Hintent.
  unfold dget_or at 1. rewrite Hpayload.
  unfold handle_resolve. cbv zeta. fold rid. fold decision.
  destruct (String.eqb_spec rid EmptyString) as [E|_]; [contradiction|].
  assert (Hin : str_in decision ["approved"; "denied"] = true).
  { destruct Hdec as [-> | ->]; reflexivity. }
  rewrite Hin. cbn [negb].
  step_with (get_request_run rid w). rewrite Hrec.
  unfold record at 1. fold record.
  step. fold record'.
  (* the record is written back into the state *)
  assert (Hstore :
    store_record rid record' w =
    (Ok tt,
     set_node_mem
       (<[node_id := VDict (dset "requests" (VDict (dset rid (VDict record') requests))
                              (self_state w))]> (node_mem w)) w)).
  { unfold store_record. step.
    unfold dsetdefault. rewrite (dhas_of_dget _ _ _ Hreqs).
    unfold vget, dget_or. rewrite Hreqs. reflexivity. }
  step_with Hstore.
  set (w1 := set_node_mem _ w).
  assert (Hst1 : self_state w1
                 = dset "requests" (VDict (dset rid (VDict record') requests)) (self_state w)).
  { unfold self_state at 1, w1. simpl. now rewrite lookup_insert_eq. }
  assert (Hsave :
    _save w1 =
    (Ok tt, set_state_files
              (<["approvals" := Persistence._scrub_sensitive (VDict (self_state w1))]>
                 (state_files w1)) w1)).
  { reflexivity. }
  step_with Hsave.
  set (w2 := set_state_files _ w1).
  destruct (make_response_run "approval.resolved"
              (dset "confirmation"
                 (VDict [("required", VBool true); ("status", VStr decision);
                         ("request_id", VStr rid)]) record')
              (vget "message_id" message) w2) as [r [Hr [Hri Hrp]]].
  step_with Hr.
  destruct (resolved_record_fields record decision (iso_of (now w)) payload)
    as [F1 [F2 [F3 [F4 F5]]]].
  fold record' in F1, F2, F3, F4, F5.
  exists r, (dset "confirmation"
               (VDict [("required", VBool true); ("status", VStr decision);
                       ("request_id", VStr rid)]) record'), (snd (draw_uuid w2)).
  split; [reflexivity|]. split; [exact Hri|]. split; [exact Hrp|].
  unfold vget, dget_or in *.
  repeat (split; [rewrite dget_dset_other by discriminate; assumption|]).
  split; [now rewrite dget_dset_same|].
  assert (Hself : self_state (snd (draw_uuid w2)) = self_state w1) by reflexivity.
  split.
  - unfold stored_request. rewrite Hself, Hst1.
    unfold dget_or. rewrite dget_dset_same, dget_dset_same. reflexivity.
  - rewrite Hself. simpl. now rewrite lookup_insert_eq.
Qed.

(** A request that was approved is resolved again, this time denied: the
    record flips. *)
Lemma C10_resolve_witness :
  exists (response : dict) (w' : World),
    handle (resolve_message "m-9" [("request_id", VStr "appr-1"); ("decision", VStr "denied")])
      approved_world = (Ok (VDict response), w') /\
    vget "intent" response = VStr "approval.resolved" /\
    option_map (vget "status") (stored_request "appr-1" approved_world)
    = Some (VStr "approved") /\
    option_map (vget "status") (stored_request "appr-1" w') = Some (VStr "denied").
Proof.
  destruct (C10_resolve_ignores_current_status approved_world
              (resolve_message "m-9" [("request_id", VStr "appr-1"); ("decision", VStr "denied")])
              [("request_id", VStr "appr-1"); ("decision", VStr "denied")]
              [("request_id", VStr "appr-1");
               ("intent_being_guarded", VStr "memory.write.propose");
               ("changes", VList [VStr "notes.md"]);
               ("status", VStr "approved");
               ("requested_at", VStr "T1");
               ("resolved_at", VStr "T2");
               ("decision", VStr "approved");
               ("decision_note", VStr EmptyString);
               ("decided_by", VStr "owner")])
    as [response [p [w' [Hrun [Hint [_ [_ [_ [_ [_ [_ [_ [Hst _]]]]]]]]]]]]].
  - reflexivity.
  - reflexivity.
  - vm_compute. discriminate.
  - right. vm_compute. reflexivity.
  - vm_compute. reflexivity.
  - discriminate.
  - exists response, w'. split; [exact Hrun|]. split; [exact Hint|].
    split; [vm_compute; reflexivity|].
    assert (E : resolve_request_id
                  [("request_id", VStr "appr-1"); ("decision", VStr "denied")] = "appr-1")
      by (vm_compute; reflexivity).
    rewrite E in Hst. rewrite Hst. vm_compute. reflexivity.
Defined.

End Approvals.

(** ** Pruning (registry.py) *)

Section Pruning.

Import NodeRegistry.

Lemma dpop_filter {A : Type} (k : string) (d : list (string * A)) :
  List.NoDup (map fst d) ->
  dpop k d = List.filter (fun kv => negb (String.eqb (fst kv) k)) d.
Proof.
  induction d as [|[k0 x] d IH]; simpl; auto.
  intros Hnd. apply List.NoDup_cons_iff in Hnd as [Hnot Hnd].
  destruct (String.eqb_spec k0 k) as [->|Hne]; simpl.
  - symmetry. rewrite <- (List.filter_ext_in (fun _ => true)).
    + clear. induction d as [|y d IH]; simpl; congruence.
    + intros [k1 y] Hin. simpl. destruct (String.eqb_spec k1 k) as [->|]; auto.
      exfalso. apply Hnot. now apply (in_map fst) in Hin.
  - now rewrite IH.
Qed.

Lemma filter_NoDup_keys {A : Type} (f : string * A -> bool) (d : list (string * A)) :
  List.NoDup (map fst d) -> List.NoDup (map fst (List.filter f d)).
Proof.
  induction d as [|kv d IH]; simpl; auto.
  intros Hnd. apply List.NoDup_cons_iff in Hnd as [Hnot Hnd].
  destruct (f kv); simpl; auto. constructor; auto.
  intros Hin. apply Hnot. apply in_map_iff in Hin as [kv' [E Hin]].
  apply filter_In in Hin as [Hin _]. rewrite <- E. now apply in_map.
Qed.

Lemma fold_dpop_filter {A : Type} (ks : list string) (d : list (string * A)) :
  List.NoDup (map fst d) ->
  fold_left (fun d k => dpop k d) ks d
  = List.filter (fun kv => negb (str_in (fst kv) ks)) d.
Proof.
  revert d. induction ks as [|k ks IH]; intros d Hnd; simpl.
  - symmetry. clear. induction d as [|y d IH]; simpl; congruence.
  - rewrite dpop_filter by exact Hnd.
    rewrite IH by now apply filter_NoDup_keys.
    clear. induction d as [|kv d IH]; simpl; auto.
    destruct (String.eqb (fst kv) k); simpl; auto.
    destruct (str_in (fst kv) ks); simpl; congruence.
Qed.

Lemma keys_determine {A : Type} (d : list (string * A)) (k : string) (x y : A) :
  List.NoDup (map fst d) -> In (k, x) d -> In (k, y) d -> x = y.
Proof.
  induction d as [|[k0 z] d IH]; simpl; [tauto|].
  intros Hnd. apply List.NoDup_cons_iff in Hnd as [Hnot Hnd].
  intros [E1|H1] [E2|H2]; try congruence; auto.
  - injection E1 as -> ->. exfalso. apply Hnot.
    now apply (in_map fst) in H2.
  - injection E2 as -> ->. exfalso. apply Hnot.
    now apply (in_map fst) in H1.
Qed.

Lemma prune_filter (t : Z) (d : list (string * NodeRecord)) :
  List.NoDup (map fst d) ->
  fold_left (fun d k => dpop k d) (stale_ids t d) d
  = List.filter (fun kv => negb (expires_at_epoch (snd kv) <=? t)) d.
Proof.
  intros Hnd. rewrite fold_dpop_filter by exact Hnd.
  apply List.filter_ext_in. intros [k r] Hin. simpl. f_equal.
  unfold stale_ids, str_in.
  destruct (expires_at_epoch r <=? t) eqn:E.
  - apply existsb_exists. exists k. split; [|apply String.eqb_refl].
    apply in_map_iff. exists (k, r). split; auto.
    apply filter_In. now split.
  - destruct (existsb (String.eqb k) _) eqn:F; auto.
    apply existsb_exists in F as [k' [Hin' Heq]].
    apply String.eqb_eq in Heq. subst k'.
    apply in_map_iff in Hin' as [[k1 r1] [Hk Hin1]]. simpl in Hk. subst k1.
    apply filter_In in Hin1 as [Hin1 Hst]. simpl in Hst.
    rewrite (keys_determine d k r r1 Hnd Hin Hin1) in E. congruence.
Qed.

Lemma stale_ids_live (t : Z) (d : list (string * NodeRecord)) :
  stale_ids t (List.filter (fun kv => negb (expires_at_epoch (snd kv) <=? t)) d) = [].
Proof.
  unfold stale_ids. induction d as [|kv d IH]; simpl; auto.
  destruct (expires_at_epoch (snd kv) <=? t) eqn:E; simpl; auto.
  now rewrite E.
Qed.

Lemma pruned_run (s : State) : prune_stale s = (Ok tt, pruned s).
Proof.
  unfold pruned. destruct (prune_stale_run s) as [w [E _]]. now rewrite E.
Qed.

Lemma pruned_shape (s : State) :
  distinct_ids s ->
  exists w,
    pruned s =
    {| registry :=
         {| registration_token := registration_token (registry s);
            heartbeat_ttl_sec := heartbeat_ttl_sec (registry s);
            records := live_records s;
            health := health (registry s) |};
       world := w; calls := calls s |} /\
    library w = library (world s) /\ logs w = logs (world s) /\
    node_mem w = node_mem (world s) /\ now w = now (world s) /\
    uuids w = uuids (world s) /\ ticks w = ticks (world s).
Proof.
  intros Hnd. unfold pruned.
  destruct (prune_stale_run s) as [w [E F]]. rewrite E. simpl.
  exists w. split; [|intuition]. unfold live_records.
  now rewrite prune_filter.
Qed.

(** Pruning writes no state file but the snapshot of the registry. *)
Lemma pruned_files (s : State) : other_files_kept s (pruned s).
Proof.
  unfold other_files_kept, pruned.
  destruct (prune_stale_run s) as [w [E F]]. rewrite E. simpl. apply F.
Qed.

Lemma filter_all {A : Type} (f : A -> bool) (l : list A) :
  List.filter f l = l -> List.filter (fun x => negb (f x)) l = [].
Proof.
  induction l as [|x l IH]; [reflexivity|]. simpl.
  destruct (f x) eqn:E; simpl.
  - intros [= H]. auto.
  - intros H. exfalso.
    assert (Hin : In x (List.filter f l)) by (rewrite H; now left).
    apply List.filter_In in Hin. destruct Hin as [_ Hx]. congruence.
Qed.

(** With no lease run out, pruning changes nothing at all. *)
Lemma pruned_none_expired (s : State) : none_expired s -> pruned s = s.
Proof.
  unfold none_expired, live_records. intros Hlive.
  assert (Hst : stale_ids (now (world s)) (records (registry s)) = []).
  { unfold stale_ids.
    rewrite (List.filter_ext (fun kv => expires_at_epoch (snd kv) <=? now (world s))
               (fun kv => negb (negb (expires_at_epoch (snd kv) <=? now (world s))))).
    - now rewrite (filter_all _ _ Hlive).
    - intros kv. now rewrite negb_involutive. }
  unfold pruned. destruct (prune_stale_run s) as [w [E F]]. rewrite E. cbn [snd].
  rewrite Hst. cbn [fold_left].
  assert (Hw : w = world s) by now apply F.
  rewrite Hw. now destruct s as [[? ? ? ?] ? ?].
Qed.

Lemma pruned_quiet (s : State) : quiet s (pruned s).
Proof.
  unfold pruned. destruct (prune_stale_run s) as [w [E F]]. rewrite E. simpl.
  unfold quiet. simpl. intuition.
Qed.

Lemma pruned_records (s : State) :
  distinct_ids s -> records (registry (pruned s)) = live_records s.
Proof. intros H. destruct (pruned_shape s H) as [w [E _]]. now rewrite E. Qed.

Lemma pruned_now (s : State) : now (world (pruned s)) = now (world s).
Proof. apply pruned_quiet. Qed.

Lemma pruned_distinct (s : State) : distinct_ids s -> distinct_ids (pruned s).
Proof.
  intros H. unfold distinct_ids. rewrite pruned_records by exact H.
  now apply filter_NoDup_keys.
Qed.

Lemma pruned_idem (s : State) : distinct_ids s -> pruned (pruned s) = pruned s.
Proof.
  intros Hnd. destruct (pruned_shape s Hnd) as [w [E [_ [_ [_ [Hnow _]]]]]].
  rewrite E. unfold pruned at 1, prune_stale.
  step. step. cbn [records registry world read_clock State_Host].
  unfold live_records. rewrite Hnow, stale_ids_live. reflexivity.
Qed.

Lemma pruned_live (s : State) :
  distinct_ids s -> live_records (pruned s) = live_records s.
Proof.
  intros Hnd. unfold live_records at 1. rewrite pruned_records, pruned_now by exact Hnd.
  unfold live_records. generalize (records (registry s)). intros d.
  induction d as [|kv d IH]; simpl; auto.
  destruct (expires_at_epoch (snd kv) <=? now (world s)) eqn:E; simpl; auto.
  rewrite E. simpl. now rewrite IH.
Qed.

Lemma active_records_run (s : State) :
  distinct_ids s ->
  active_records s
  = (Ok (map (fun kv => _clone_record (snd kv)) (live_records s)), pruned s).
Proof.
  intros Hnd. unfold active_records. step_with (pruned_run s).
  unfold gets. now rewrite pruned_records.
Qed.

Lemma capability_metadata_run (intent : string) (s : State) :
  distinct_ids s ->
  capability_metadata intent s = (Ok (canonical_metadata s intent), pruned s).
Proof.
  intros Hnd. unfold capability_metadata.
  step_with (pruned_run s).
  step. unfold ret, canonical_metadata. now rewrite pruned_records.
Qed.

Lemma quiet_idle (s s' : State) : quiet s s' -> idle s s'.
Proof. unfold quiet, idle. intuition. Qed.

Lemma idle_refl (s : State) : idle s s.
Proof. unfold idle. intuition. Qed.

Lemma idle_trans (s1 s2 s3 : State) : idle s1 s2 -> idle s2 s3 -> idle s1 s3.
Proof. unfold idle. intuition congruence. Qed.

Lemma later_idle (s : State) : idle s (later s).
Proof.
  unfold idle, later, elapse_world. destruct (ticks (world s)); cbn; intuition.
Qed.

Lemma later_registry (s : State) : registry (later s) = registry s.
Proof. reflexivity. Qed.

Lemma later_distinct (s : State) : distinct_ids s -> distinct_ids (later s).
Proof. intros H. exact H. Qed.

Lemma elapse_run (s : State) : RouterCore.elapse s = (Ok tt, later s).
Proof. reflexivity. Qed.

Lemma ready_idle (s : State) : idle s (ready s).
Proof.
  unfold ready.
  eapply idle_trans; [apply quiet_idle, pruned_quiet|].
  eapply idle_trans; [apply later_idle|apply quiet_idle, pruned_quiet].
Qed.

Lemma ready_distinct (s : State) : distinct_ids s -> distinct_ids (ready s).
Proof. intros H. unfold ready. now apply pruned_distinct, later_distinct, pruned_distinct. Qed.

(** With no tick in store the second reading finds nothing more to prune. *)
Lemma ready_still (s : State) :
  distinct_ids s -> ticks (world s) = [] -> ready s = pruned s.
Proof.
  intros Hnd Ht. unfold ready.
  assert (E : later (pruned s) = pruned s).
  { destruct (pruned_shape s Hnd) as [w [E F]].
    assert (Hw : ticks w = []).
    { destruct F as [_ [_ [_ [_ [_ Ft]]]]]. now rewrite Ft. }
    rewrite E. unfold later, elapse_world. cbn [world]. rewrite Hw.
    reflexivity. }
  rewrite E. now apply pruned_idem.
Qed.

End Pruning.

(** ** The way to the candidates (router.py) *)

Section RoutePrefix.

Import NodeRegistry RouterCore.

Lemma validate_core_valid {S : Type} `{Host S} (m : dict) (s : S) :
  valid_core m = true -> Protocol.validate_core (VDict m) s = (Ok None, s).
Proof.
  unfold valid_core, Protocol.validate_core. cbv zeta.
  destruct (Protocol.missing_field m); [discriminate|].
  intros Hv. repeat (apply andb_true_iff in Hv as [Hv ?]).
  repeat match goal with E : _ = true |- _ => rewrite E; clear E end.
  cbn [negb].
  destruct (dget "extensions" m) as [[| | | | |]|]; try discriminate; reflexivity.
Qed.

Lemma validate_core_invalid {S : Type} `{Host S} (m : dict) (s : S) :
  valid_core m = false ->
  exists e,
    Protocol.validate_core (VDict m) s = (Ok (Some e), snd (draw_uuid s)) /\
    is_error E_BAD_MESSAGE e.
Proof.
  unfold valid_core, Protocol.validate_core. cbv zeta.
  assert (Hbad : forall text,
    exists e,
      bind (Protocol.make_error E_BAD_MESSAGE text (vget "message_id" m) false [])
        (fun e => ret (Some e)) s = (Ok (Some e), snd (draw_uuid s)) /\
      is_error E_BAD_MESSAGE e).
  { intros text.
    destruct (make_error_run E_BAD_MESSAGE text (vget "message_id" m) false [] s)
      as [e [He [Hi _]]].
    exists e. split; [|exact Hi]. now step_with He. }
  destruct (Protocol.missing_field m); [intros _; apply Hbad|].
  destruct (is_str (vget "protocol_version" m)); [|intros _; apply Hbad].
  destruct (is_str (vget "message_id" m)); [|intros _; apply Hbad].
  destruct (is_str (vget "intent" m)); [|intros _; apply Hbad].
  destruct (is_dict (vget "payload" m)); [|intros _; apply Hbad].
  cbn [negb andb].
  destruct (dget "extensions" m) as [[| | | | |]|]; try discriminate;
    intros _; apply Hbad.
Qed.

Lemma bump_quiet (s : State) : quiet s (bump s).
Proof. unfold quiet, bump. simpl. intuition. Qed.

Lemma bump_registry (s : State) : registry (bump s) = registry s.
Proof. reflexivity. Qed.

Lemma quiet_refl (s : State) : quiet s s.
Proof. unfold quiet. intuition. Qed.

Lemma quiet_trans (s1 s2 s3 : State) : quiet s1 s2 -> quiet s2 s3 -> quiet s1 s3.
Proof. unfold quiet. intuition congruence. Qed.

Lemma eligible_nodes_run (s : State) (m : dict) :
  distinct_ids s ->
  _eligible_nodes (intent_of m) (Py.str (vget "protocol_version" m)) s
  = (Ok (eligible_nodes s m), pruned s).
Proof.
  intros Hnd. unfold _eligible_nodes. now step_with (active_records_run s Hnd).
Qed.

Lemma check_confirmation_run (s : State) (m : dict) (approval : bool) :
  if negb approval || String.eqb (confirmation_status m) "approved"
  then _check_confirmation m approval s = (Ok None, s)
  else exists e,
         _check_confirmation m approval s = (Ok (Some e), bump s) /\
         is_error E_CONFIRMATION_REQUIRED e.
Proof.
  unfold _check_confirmation. destruct approval; cbn [negb orb]; [|reflexivity].
  destruct (String.eqb (confirmation_status m) "approved"); cbn [negb]; [reflexivity|].
  destruct (make_error_run E_CONFIRMATION_REQUIRED
              "Approval required before applying changes."
              (vget "message_id" m) false [] s) as [e [He [Hi _]]].
  exists e. split; [|exact Hi]. now step_with He.
Qed.

Lemma filter_for_provider_run (self : t) (nodes : list NodeRecord) (m : dict) (s : State) :
  match provider_filter self nodes m with
  | inl code =>
      exists e,
        _filter_for_provider self nodes (intent_of m) m s = (Ok ([], Some e, None), bump s) /\
        is_error code e
  | inr (filtered, pd) =>
      _filter_for_provider self nodes (intent_of m) m s = (Ok (filtered, None, pd), s)
  end.
Proof.
  unfold provider_filter, _filter_for_provider, selection_of. cbv zeta.
  assert (Hbad : forall code text details,
    exists e,
      bind (Protocol.make_error code text (vget "message_id" m) false details)
        (fun e => ret ([] : list NodeRecord, Some e, None : option dict)) s
      = (Ok ([], Some e, None), bump s) /\ is_error code e).
  { intros code text details.
    destruct (make_error_run code text (vget "message_id" m) false details s)
      as [e [He [Hi _]]].
    exists e. split; [|exact Hi]. now step_with He. }
  destruct (startswith "model." (intent_of m)); cbn [negb]; [|reflexivity].
  destruct (str_in _ MODEL_PROVIDERS); cbn [negb]; [|apply Hbad].
  destruct (String.eqb _ EmptyString); [apply Hbad|].
  destruct (ConfigResolver.validate_provider_requirements _ _); [apply Hbad|].
  destruct (List.filter _ nodes); [apply Hbad|reflexivity].
Qed.

Arguments RouterCore.dispatch : simpl never.
Arguments RouterCore._filter_for_provider : simpl never.
Arguments RouterCore._check_confirmation : simpl never.

(** [route] is its prefix followed by the loop over the candidates. *)
Lemma route_run (self : t) (s : State) (m : dict) :
  distinct_ids s ->
  match route_prefix self s m with
  | Rejected code =>
      exists e s',
        route self (VDict m) s = (Ok e, s') /\ is_error code e /\
        (s' = bump s \/ s' = bump (pruned s) \/ s' = bump (ready s)) /\
        (reaches_gate s m -> s' = bump (ready s))
  | Dispatch cands pd =>
      route self (VDict m) s
      = dispatch self m (vget "message_id" m) (intent_of m) pd cands [] [] (ready s)
  end.
Proof.
  intros Hnd. unfold route_prefix, route, reaches_gate.
  destruct (valid_core m) eqn:Hvalid; cbn [negb].
  2:{ destruct (validate_core_invalid m s Hvalid) as [e [He Hi]].
      step_with He. exists e, (bump s). split; [reflexivity|].
      split; [exact Hi|]. split; [now left|]. intros [? _]. discriminate. }
  step_with (validate_core_valid m s Hvalid). cbv zeta.
  destruct (String.eqb (Py.str (vget "protocol_version" m)) PROTOCOL_VERSION) eqn:Hpv;
    cbn [negb].
  2:{ destruct (make_error_run E_UNSUPPORTED_PROTOCOL
                  ("Protocol version unsupported in this build: "
                   +:+ Py.str (vget "protocol_version" m))
                  (vget "message_id" m) false [] s) as [e [He [Hi _]]].
      exists e, (bump s). split; [exact He|].
      split; [exact Hi|]. split; [now left|].
      intros [_ [E _]]. rewrite E in Hpv. discriminate. }
  fold (intent_of m). step_with (eligible_nodes_run s m Hnd).
  unfold with_extensions.
  destruct (eligible_nodes s m) as [|c0 cs] eqn:Hel.
  { destruct (make_error_run E_NO_ROUTE
                ("No matching capability for intent: " +:+ intent_of m)
                (vget "message_id" m) false [] (pruned s)) as [e [He [Hi _]]].
    exists e, (bump (pruned s)). split; [exact He|]. split; [exact Hi|].
    split; [right; now left|]. intros [_ [_ E]]. now contradiction E. }
  destruct (List.filter _ (c0 :: cs)) as [|e0 es] eqn:Hext.
  { match goal with
    | |- context [Protocol.make_error ?c ?t ?p ?r ?d (pruned s)] =>
        destruct (make_error_run c t p r d (pruned s)) as [e [He [Hi _]]]
    end.
    exists e, (bump (pruned s)). split; [exact He|]. split; [exact Hi|].
    split; [right; now left|]. intros [_ [_ E]]. now contradiction E. }
  step_with (elapse_run (pruned s)).
  step_with (capability_metadata_run (intent_of m) (later (pruned s))
               (later_distinct _ (pruned_distinct _ Hnd))).
  fold (ready s). unfold gate_open.
  set (s2 := later (pruned s)).
  pose proof (check_confirmation_run (ready s) m
                (match canonical_metadata s2 (intent_of m) with
                 | Some meta => approval_required meta
                 | None => false
                 end)) as Hgate.
  assert (Hopen :
    match canonical_metadata s2 (intent_of m) with
    | Some meta => negb (approval_required meta)
                   || String.eqb (confirmation_status m) "approved"
    | None => true
    end
    = negb (match canonical_metadata s2 (intent_of m) with
            | Some meta => approval_required meta
            | None => false
            end) || String.eqb (confirmation_status m) "approved").
  { destruct (canonical_metadata s2 (intent_of m)); reflexivity. }
  rewrite Hopen. clear Hopen.
  destruct (negb _ || _); cbn [negb].
  2:{ destruct Hgate as [e [He Hi]]. step_with He.
      exists e, (bump (ready s)). split; [reflexivity|]. split; [exact Hi|].
      split; [right; now right|reflexivity]. }
  step_with Hgate.
  pose proof (filter_for_provider_run self (e0 :: es) m (ready s)) as Hf.
  destruct (provider_filter self (e0 :: es) m) as [code|[filtered pd]].
  - destruct Hf as [e [He Hi]]. step_with He.
    exists e, (bump (ready s)). split; [reflexivity|]. split; [exact Hi|].
    split; [right; now right|reflexivity].
  - step_with Hf. reflexivity.
Qed.

(** A request that is rejected leaves the state idle. *)
Lemma rejected_idle (s s' : State) :
  s' = bump s \/ s' = bump (pruned s) \/ s' = bump (ready s) -> idle s s'.
Proof.
  intros [->|[->| ->]].
  - apply quiet_idle, bump_quiet.
  - eapply idle_trans; [apply quiet_idle, pruned_quiet|apply quiet_idle, bump_quiet].
  - eapply idle_trans; [apply ready_idle|apply quiet_idle, bump_quiet].
Qed.

End RoutePrefix.

(** ** The confirmation gate (router.py) *)

Section ConfirmationGate.

Import NodeRegistry RouterCore.

Lemma gate_closed_rejects (self : t) (s : State) (m : dict) :
  gate_open (later (pruned s)) m = false ->
  exists code,
    route_prefix self s m = Rejected code /\
    (reaches_gate s m -> code = E_CONFIRMATION_REQUIRED).
Proof.
  intros Hgate. unfold route_prefix, reaches_gate.
  destruct (valid_core m); cbn [negb].
  2:{ eexists. split; [reflexivity|]. intros [? _]. discriminate. }
  destruct (String.eqb (Py.str (vget "protocol_version" m)) PROTOCOL_VERSION) eqn:Hpv;
    cbn [negb].
  2:{ eexists. split; [reflexivity|]. intros [_ [E _]]. rewrite E in Hpv.
      discriminate. }
  unfold with_extensions.
  destruct (eligible_nodes s m) as [|c0 cs].
  { eexists. split; [reflexivity|]. intros [_ [_ E]]. now contradiction E. }
  destruct (List.filter _ (c0 :: cs)) as [|e0 es].
  { eexists. split; [reflexivity|]. intros [_ [_ E]]. now contradiction E. }
  rewrite Hgate. cbn [negb]. eexists. split; [reflexivity|]. auto.
Qed.

Lemma other_files_kept_refl (s : State) : other_files_kept s s.
Proof. intros name _. reflexivity. Qed.

Lemma other_files_kept_trans (s1 s2 s3 : State) :
  other_files_kept s1 s2 -> other_files_kept s2 s3 -> other_files_kept s1 s3.
Proof. intros H1 H2 name Hne. now rewrite (H2 name Hne), (H1 name Hne). Qed.

Lemma bump_files (s : State) : state_files (world (bump s)) = state_files (world s).
Proof. reflexivity. Qed.

Lemma later_files (s : State) : state_files (world (later s)) = state_files (world s).
Proof. unfold later, elapse_world. now destruct (ticks (world s)). Qed.

(** What a rejected request leaves behind: the registry as a reading left
    it, and no state file written but the snapshot. *)
Lemma rejected_files (s s' : State) :
  s' = bump s \/ s' = bump (pruned s) \/ s' = bump (ready s) ->
  other_files_kept s s'.
Proof.
  assert (Hb : forall x, other_files_kept x (bump x)).
  { intros x name _. reflexivity. }
  assert (Hl : forall x, other_files_kept x (later x)).
  { intros x name _. now rewrite later_files. }
  intros [->|[->| ->]].
  - apply Hb.
  - eapply other_files_kept_trans; [apply pruned_files|apply Hb].
  - eapply other_files_kept_trans; [|apply Hb]. unfold ready.
    eapply other_files_kept_trans; [apply pruned_files|].
    eapply other_files_kept_trans; [apply Hl|apply pruned_files].
Qed.

Lemma rejected_none_expired (s s' : State) :
  s' = bump s \/ s' = bump (pruned s) \/ s' = bump (ready s) ->
  none_expired s -> none_expired (later s) ->
  registry s' = registry s /\ state_files (world s') = state_files (world s).
Proof.
  intros Hs H1 H2.
  assert (Hp : pruned s = s) by now apply pruned_none_expired.
  assert (Hr : ready s = later s).
  { unfold ready. rewrite Hp. now apply pruned_none_expired. }
  rewrite Hp, Hr in Hs.
  destruct Hs as [->|[->| ->]]; split; try reflexivity.
  rewrite bump_files. apply later_files.
Qed.

(** C1, as the code has it.  [route] reads the registry twice: for the
    candidates, and then, time having passed, for the canonical metadata
    of the intent.  When the metadata of that second reading declares
    [approval_required] and the confirmation status of the request (its
    text, lower-cased) is not approved, [route] returns an error envelope
    and no handler is invoked.  The state it leaves is the one it found
    but for an identifier drawn, the time gone by, and the leases that the
    readings found run out: no call, health entry, log line, library file
    or node memory changes, no state file but the snapshot of the
    registry is written, and when no lease has run out the registry and
    every state file are as before.  The code of the error is
    [E_CONFIRMATION_REQUIRED] whenever the request gets as far as the
    confirmation check, that is when it is well formed, of the protocol
    version of the build, and some live node that claims the intent finds
    its required extensions. *)
Theorem C1_unapproved_mutation_fails_closed :
  forall (self : t) (s : State) (m : dict) (meta : CapabilityMetadata),
    distinct_ids s ->
    canonical_metadata (later (pruned s)) (intent_of m) = Some meta ->
    approval_required meta = true ->
    confirmation_status m <> "approved" ->
    exists (e : dict) (s' : State),
      route self (VDict m) s = (Ok e, s') /\
      vget "intent" e = VStr "error" /\
      (reaches_gate s m ->
       error_code e = VStr E_CONFIRMATION_REQUIRED /\ s' = bump (ready s)) /\
      (s' = bump s \/ s' = bump (pruned s) \/ s' = bump (ready s)) /\
      idle s s' /\
      other_files_kept s s' /\
      (none_expired s -> none_expired (later s) ->
       registry s' = registry s /\ state_files (world s') = state_files (world s)).
Proof.
  intros self s m meta Hnd Hmeta Happr Hstatus.
  assert (Hgate : gate_open (later (pruned s)) m = false).
  { unfold gate_open. rewrite Hmeta, Happr. cbn [negb orb].
    now apply String.eqb_neq. }
  destruct (gate_closed_rejects self s m Hgate) as [code [Hpre Hcode]].
  pose proof (route_run self s m Hnd) as Hrun. rewrite Hpre in Hrun.
  destruct Hrun as [e [s' [Hr [[Hi Hc] [Hst Hreach]]]]].
  exists e, s'. split; [exact Hr|]. split; [exact Hi|]. split.
  { intros Hg. split; [|now apply Hreach]. rewrite Hc. now rewrite (Hcode Hg). }
  split; [exact Hst|]. split; [now apply rejected_idle|].
  split; [now apply rejected_files|]. now apply rejected_none_expired.
Qed.

Lemma mutate_state_distinct : distinct_ids mutate_state.
Proof. unfold distinct_ids. vm_compute. repeat constructor. intros []. Qed.

(** The capability needs approval, and yet: a request whose status is the
    text APPROVED in capitals is not the string approved, and the handler
    runs; a request of another protocol version with status pending is
    refused with [E_UNSUPPORTED_PROTOCOL], not [E_CONFIRMATION_REQUIRED];
    a refused request changes the state when a lease has run out: the
    record is dropped and the snapshot written again; and when the lease
    of the provider runs out between the two readings of the registry,
    the metadata found on entry counts for nothing: the request, without
    any confirmation, is dispatched and the handler runs. *)
Lemma C1_counterexample :
  option_map approval_required (canonical_metadata mutate_state "dynamic.mutate")
  = Some true /\
  (VStr "APPROVED" <> VStr "approved" /\
   exists r s',
     route test_router (VDict (request "dynamic.mutate" [] (Some (confirmation "APPROVED"))))
       mutate_state = (Ok r, s') /\
     vget "intent" r = VStr "dynamic.mutate.done" /\
     map call_node (calls s') = ["node.dynamic.mutate"]) /\
  (exists e s',
     route test_router
       (VDict (request_v "0.2" "dynamic.mutate" [] (Some (confirmation "pending"))))
       mutate_state = (Ok e, s') /\
     error_code e = VStr E_UNSUPPORTED_PROTOCOL) /\
  (exists e s',
     route test_router (VDict (request "dynamic.mutate" [] None)) mutate_beside_expired
     = (Ok e, s') /\
     error_code e = VStr E_CONFIRMATION_REQUIRED /\
     map fst (records (registry mutate_beside_expired)) = ["node.a"; "node.dynamic.mutate"] /\
     map fst (records (registry s')) = ["node.dynamic.mutate"] /\
     state_files (world s') !! "router_registry"
     <> state_files (world mutate_beside_expired) !! "router_registry") /\
  (option_map approval_required (canonical_metadata mutate_state_racing "dynamic.mutate")
   = Some true /\
   exists r s',
     route test_router (VDict (request "dynamic.mutate" [] None)) mutate_state_racing
     = (Ok r, s') /\
     vget "intent" r = VStr "dynamic.mutate.done" /\
     map call_node (calls s') = ["node.dynamic.mutate"]).
Proof.
  split; [vm_compute; reflexivity|]. split; [|split; [|split]].
  - split; [discriminate|].
    eexists. eexists. split; [vm_compute; reflexivity|].
    split; vm_compute; reflexivity.
  - eexists. eexists. split; [vm_compute; reflexivity|]. vm_compute. reflexivity.
  - eexists. eexists. split; [vm_compute; reflexivity|].
    split; [vm_compute; reflexivity|]. split; [vm_compute; reflexivity|].
    split; [vm_compute; reflexivity|]. vm_compute. discriminate.
  - split; [vm_compute; reflexivity|].
    eexists. eexists. split; [vm_compute; reflexivity|].
    split; vm_compute; reflexivity.
Qed.

(** The request of the test suite, without a confirmation block: it is
    refused, no handler runs, and the registry and the state files are as
    before. *)
Lemma C1_unapproved_mutation_witness :
  exists (e : dict) (s' : State),
    route test_router (VDict (request "dynamic.mutate" [] None)) mutate_state = (Ok e, s') /\
    error_code e = VStr E_CONFIRMATION_REQUIRED /\
    calls s' = calls mutate_state /\
    registry s' = registry mutate_state /\
    state_files (world s') = state_files (world mutate_state).
Proof.
  destruct (C1_unapproved_mutation_fails_closed test_router mutate_state
              (request "dynamic.mutate" [] None) mutate_capability)
    as [e [s' [Hr [_ [Hc [_ [Hq [_ Hsame]]]]]]]].
  - exact mutate_state_distinct.
  - vm_compute. reflexivity.
  - reflexivity.
  - vm_compute. discriminate.
  - exists e, s'. split; [exact Hr|]. split.
    + apply Hc. unfold reaches_gate. split; [reflexivity|]. split; [reflexivity|].
      vm_compute. discriminate.
    + split; [apply Hq|]. apply Hsame; vm_compute; reflexivity.
Defined.

End ConfirmationGate.

(** ** One candidate (router.py) *)

Section OneCandidate.

Import NodeRegistry RouterCore.

Lemma update_health_run (node : string) (success : bool) (s : State) :
  exists s',
    update_health node success s = (Ok tt, s') /\
    calls s' = calls s /\
    records (registry s') = records (registry s) /\
    library (world s') = library (world s) /\
    logs (world s') = logs (world s) /\
    node_mem (world s') = node_mem (world s) /\
    now (world s') = now (world s) /\
    dget node (health (registry s')) =
    Some (if success
          then {| success_count := success_count (health_entry node s) + 1;
                  failure_count := failure_count (health_entry node s);
                  consecutive_failures := 0;
                  updated_at := iso_of (now (world s)) |}
          else {| success_count := success_count (health_entry node s);
                  failure_count := failure_count (health_entry node s) + 1;
                  consecutive_failures := consecutive_failures (health_entry node s) + 1;
                  updated_at := iso_of (now (world s)) |}).
Proof.
  unfold update_health. do 4 step.
  match goal with
  | |- context [_save_snapshot_locked ?st] =>
      destruct (save_snapshot_run st) as [v Ev]; rewrite Ev
  end.
  eexists. split; [reflexivity|]. cbn.
  repeat (split; [reflexivity|]).
  rewrite dget_dset_same. unfold health_entry.
  assert (E : forall d : list (string * NodeHealth),
            dget_or node (fresh_health (iso_of (now (world s))))
              (dsetdefault node (fresh_health (iso_of (now (world s)))) d)
            = dget_or node (fresh_health (iso_of (now (world s)))) d).
  { intros d. unfold dsetdefault, dhas, dget_or.
    destruct (dget node d) eqn:F; [now rewrite F|].
    clear -F. induction d as [|[k x] d IH]; simpl in *.
    - now rewrite String.eqb_refl.
    - destruct (String.eqb k node); [discriminate|]. now apply IH. }
  rewrite E. destruct success; reflexivity.
Qed.

Lemma validate_core_other (v : value) (s : State) :
  is_dict v = false ->
  exists e, Protocol.validate_core v s = (Ok (Some e), bump s).
Proof.
  intros Hv.
  destruct (make_error_run E_BAD_MESSAGE "Message must be an object"
              VNone false [] s) as [e [He _]].
  exists e. destruct v; try discriminate;
    unfold Protocol.validate_core; now step_with He.
Qed.

Lemma looks_like_bdp_run (v : value) (s : State) :
  exists s',
    Protocol.looks_like_bdp v s = (Ok (well_formed v), s') /\ (s' = s \/ s' = bump s).
Proof.
  unfold Protocol.looks_like_bdp, well_formed.
  destruct (is_dict v) eqn:Hd.
  - destruct v as [| | | | |r]; try discriminate.
    destruct (valid_core r) eqn:Hv.
    + exists s. split; [|now left]. now step_with (validate_core_valid r s Hv).
    + destruct (validate_core_invalid r s Hv) as [e [He _]].
      exists (bump s). split; [|now right]. now step_with He.
  - destruct (validate_core_other v s Hd) as [e He].
    exists (bump s). split; [|now right]. step_with He.
    destruct v; try reflexivity. discriminate.
Qed.

Lemma fingerprint_library_run (self : t) (s : State) :
  _fingerprint_library self s = (Ok (fingerprint_in self (library (world s))), s).
Proof.
  unfold _fingerprint_library, fingerprint_in. now destruct (library_root self).
Qed.

(** The fingerprint taken before the call. *)
Lemma before_fingerprint_run (self : t) (rec : NodeRecord) (intent : string) (s : State) :
  match _metadata_for rec intent with
  | Some cap_meta =>
      if String.eqb (risk_class cap_meta) "read"
         && String.eqb (side_effect_scope cap_meta) "none"
      then _fingerprint_library self
      else ret None
  | None => ret None
  end s
  = (Ok (if read_only (_metadata_for rec intent)
         then fingerprint_in self (library (world s)) else None), s).
Proof.
  unfold read_only. destruct (_metadata_for rec intent) as [c|]; [|reflexivity].
  destruct (_ && _); [apply fingerprint_library_run|reflexivity].
Qed.

Lemma flag_run (self : t) (before_fp : option Fingerprint) (s : State) :
  match before_fp with
  | Some before =>
      let* after_fp := _fingerprint_library self in
      ret (match after_fp with
           | Some after => negb (fingerprint_eqb after before)
           | None => false
           end)
  | None => ret false
  end s
  = (Ok (flagged before_fp (fingerprint_in self (library (world s)))), s).
Proof.
  destruct before_fp as [b|]; [|reflexivity].
  step_with (fingerprint_library_run self s). reflexivity.
Qed.

Lemma settled_refl (s : State) : settled s s.
Proof. unfold settled. intuition. Qed.

Lemma settled_trans (s1 s2 s3 : State) :
  settled s1 s2 -> settled s2 s3 -> settled s1 s3.
Proof. unfold settled. intuition congruence. Qed.

Lemma settled_bump (s : State) : settled s (bump s).
Proof. unfold settled, bump. simpl. intuition. Qed.

Lemma update_health_settled (node : string) (success : bool) (s : State) :
  exists s', update_health node success s = (Ok tt, s') /\ settled s s'.
Proof.
  destruct (update_health_run node success s) as [s' [E F]].
  exists s'. split; [exact E|]. unfold settled. intuition.
Qed.

Lemma on_exception_run (node : string) (exc : exn) (s : State) :
  exists s',
    on_exception node exc s
    = (Ok (Continue [attempted_item node "exception" [("error", VStr (exc_text exc))]] []), s')
    /\ settled s s'.
Proof.
  unfold on_exception.
  destruct (update_health_settled node false s) as [s' [E F]].
  exists s'. split; [|exact F]. now step_with E.
Qed.

(** [after_call] always returns a step, and leaves the library alone. *)
Lemma after_call_settled (self : t) (node : string) (before_fp : option Fingerprint)
  (result : Res value) (s : State) :
  exists step s',
    after_call self node before_fp result s = (Ok step, s') /\ settled s s'.
Proof.
  unfold after_call. destruct result as [response|exc].
  2:{ destruct (on_exception_run node exc s) as [s' [E F]]. eauto. }
  destruct (looks_like_bdp_run response s) as [s1 [E1 F1]]. step_with E1.
  assert (Hs1 : settled s s1).
  { destruct F1 as [->| ->]; [apply settled_refl|apply settled_bump]. }
  assert (Hbad : exists step s',
    bind (update_health node false)
      (fun _ => ret (Continue [attempted_item node "invalid_response" []] [])) s1
    = (Ok step, s') /\ settled s s').
  { destruct (update_health_settled node false s1) as [s' [E F]].
    eexists. exists s'. split; [now step_with E|].
    eapply settled_trans; eauto. }
  destruct (well_formed response); [|destruct response; exact Hbad].
  destruct response as [| | | | |resp]; try exact Hbad.
  step_with (flag_run self before_fp s1).
  destruct (flagged before_fp (fingerprint_in self (library (world s1)))).
  { destruct (update_health_settled node false s1) as [s' [E F]].
    eexists. exists s'. split; [now step_with E|].
    eapply settled_trans; eauto. }
  destruct (eq_str (vget "intent" resp) "error").
  - destruct (dget_or "error" (VDict []) (dict_at "payload" resp)) as [| | | | |err];
      try match goal with
          | |- context [on_exception ?n ?x ?st] =>
              destruct (on_exception_run n x st) as [s' [E F]];
              eexists; exists s'; split; [exact E|];
              eapply settled_trans; eauto
          end.
    destruct (truthy (dget_or "retryable" (VBool false) err)).
    + destruct (update_health_settled node false s1) as [s' [E F]].
      eexists. exists s'. split; [now step_with E|].
      eapply settled_trans; eauto.
    + destruct (update_health_settled node true s1) as [s' [E F]].
      eexists. exists s'. split; [now step_with E|].
      eapply settled_trans; eauto.
  - destruct (update_health_settled node true s1) as [s' [E F]].
    eexists. exists s'. split; [now step_with E|].
    eapply settled_trans; eauto.
Qed.

(** When [after_call] ends in [Return], the response is what the handler
    answered, and the router did not flag the call. *)
Lemma after_call_return (self : t) (node : string) (before_fp : option Fingerprint)
  (result : Res value) (s s' : State) (resp : dict) :
  after_call self node before_fp result s = (Ok (Return resp), s') ->
  result = Ok (VDict resp) /\
  flagged before_fp (fingerprint_in self (library (world s))) = false.
Proof.
  unfold after_call. destruct result as [response|exc].
  2:{ destruct (on_exception_run node exc s) as [s1 [E F]]. rewrite E. discriminate. }
  destruct (looks_like_bdp_run response s) as [s1 [E1 F1]]. step_with E1.
  assert (Hfp : fingerprint_in self (library (world s1)) = fingerprint_in self (library (world s))).
  { unfold fingerprint_in. destruct F1 as [->| ->]; reflexivity. }
  assert (Hbad : forall st,
    bind (update_health node false)
      (fun _ => ret (Continue [attempted_item node "invalid_response" []] [])) s1
    = (Ok (Return resp), st) -> False).
  { intros st. destruct (update_health_settled node false s1) as [s2 [E F]].
    step_with E. discriminate. }
  destruct (well_formed response);
    [|destruct response; intros Hx; exfalso; exact (Hbad _ Hx)].
  destruct response as [| | | | |r];
    try (intros Hx; exfalso; exact (Hbad _ Hx)).
  step_with (flag_run self before_fp s1). rewrite Hfp.
  destruct (flagged before_fp (fingerprint_in self (library (world s)))).
  { destruct (update_health_settled node false s1) as [s2 [E F]].
    step_with E. discriminate. }
  destruct (eq_str (vget "intent" r) "error").
  - destruct (dget_or "error" (VDict []) (dict_at "payload" r)) as [| | | | |err];
      try match goal with
          | |- context [on_exception ?n ?x ?st] =>
              destruct (on_exception_run n x st) as [s2 [E F]];
              rewrite E; discriminate
          end.
    destruct (truthy (dget_or "retryable" (VBool false) err)).
    + destruct (update_health_settled node false s1) as [s2 [E F]].
      step_with E. discriminate.
    + destruct (update_health_settled node true s1) as [s2 [E F]].
      step_with E. unfold ret. intros [= <- <-]. auto.
  - destruct (update_health_settled node true s1) as [s2 [E F]].
    step_with E. unfold ret. intros [= <- <-]. auto.
Qed.

End OneCandidate.

(** ** The loop over the candidates (router.py) *)

Section Loop.

Import NodeRegistry RouterCore.

Lemma attempt_run (self : t) (rec : NodeRecord) (intent : string) (outbound : dict)
  (s : State) :
  attempt self rec intent outbound s =
  match chosen_handler self rec with
  | None =>
      (Ok (Continue [attempted_item (node_id (descriptor rec)) "handler_missing" []] []), s)
  | Some h =>
      let '(r, w) := h outbound (world s) in
      after_call self (node_id (descriptor rec))
        (if read_only (_metadata_for rec intent)
         then fingerprint_in self (library (world s)) else None)
        r
        (add_call {| call_node := node_id (descriptor rec);
                     call_cap := _metadata_for rec intent;
                     call_message := outbound; call_result := r;
                     call_library_before := library (world s);
                     call_library_after := library w |}
           (set_world w s))
  end.
Proof.
  unfold attempt. cbv zeta.
  step_with (before_fingerprint_run self rec intent s).
  unfold chosen_handler.
  destruct (handler rec) as [h|].
  - unfold bind at 1, invoke. destruct (h outbound (world s)) as [r w]. reflexivity.
  - destruct (startswith "http" (endpoint_url (descriptor rec))); cbn [negb];
      [|reflexivity].
    unfold bind at 1, invoke.
    destruct (http_post_json self (endpoint_url (descriptor rec)) outbound (world s))
      as [r w].
    reflexivity.
Qed.

(** One candidate: the attempt returns a step; it makes no call, or one
    call, to this node with the outbound message; and when the step is a
    [Return], the response is what that call answered and the call was not
    flagged. *)
Lemma attempt_inv (self : t) (rec : NodeRecord) (intent : string) (outbound : dict)
  (s s' : State) (res : Res Step) :
  attempt self rec intent outbound s = (res, s') ->
  exists step,
    res = Ok step /\
    ((calls s' = calls s /\ forall resp, step <> Return resp) \/
     (exists c,
        calls s' = calls s ++ [c] /\
        call_node c = node_id (descriptor rec) /\
        call_cap c = _metadata_for rec intent /\
        call_message c = outbound /\
        call_library_before c = library (world s) /\
        call_library_after c = library (world s') /\
        (forall resp, step = Return resp ->
                      call_result c = Ok (VDict resp) /\ unflagged self c))).
Proof.
  rewrite attempt_run. destruct (chosen_handler self rec) as [h|].
  2:{ intros [= <- <-]. eexists. split; [reflexivity|]. left.
      split; [reflexivity|]. discriminate. }
  destruct (h outbound (world s)) as [r w] eqn:Hh.
  set (c := {| call_node := node_id (descriptor rec);
               call_cap := _metadata_for rec intent;
               call_message := outbound; call_result := r;
               call_library_before := library (world s);
               call_library_after := library w |}).
  set (before_fp := if read_only (_metadata_for rec intent)
                    then fingerprint_in self (library (world s)) else None).
  intros Hac.
  destruct (after_call_settled self (node_id (descriptor rec)) before_fp r
              (add_call c (set_world w s))) as [step [s2 [E F]]].
  rewrite E in Hac. injection Hac as <- <-.
  exists step. split; [reflexivity|]. right. exists c.
  destruct F as [Fc [_ [Fl _]]].
  split; [exact Fc|]. repeat (split; [reflexivity|]).
  split; [now rewrite Fl|].
  intros resp ->.
  destruct (after_call_return _ _ _ _ _ _ _ E) as [Hr Hf].
  split; [exact Hr|]. exact Hf.
Qed.

Lemma exhausted_run (msg_id : value) (attempted retryable : list dict) (s : State) :
  exists e,
    exhausted msg_id attempted retryable s = (Ok e, bump s) /\
    vget "intent" e = VStr "error".
Proof.
  unfold exhausted.
  destruct retryable as [|first rest];
    [destruct attempted as [|a0 att]; [|destruct (existsb is_undeclared (a0 :: att))]|];
    match goal with
    | |- context [Protocol.make_error ?c ?t ?p ?r ?d s] =>
        destruct (make_error_run c t p r d s) as [e [He [[Hi _] _]]]
    end; exists e; split; auto.
Qed.


Lemma dispatch_cons (self : t) (m : dict) (msg_id : value) (intent : string)
  (pd : option dict) (rec : NodeRecord) (rest : list NodeRecord)
  (attempted retryable : list dict) :
  dispatch self m msg_id intent pd (rec :: rest) attempted retryable =
  (let* outbound := lift_res (outbound_of m msg_id pd) in
   do* liftW (Persistence.emit_event "router" "router.route_dispatched"
                (VDict [("selected_node_id", VStr (node_id (descriptor rec)));
                        ("intent", VStr intent)])) in
   let* step := attempt self rec intent outbound in
   match step with
   | Return response => ret response
   | Continue a r =>
       dispatch self m msg_id intent pd rest (attempted ++ a) (retryable ++ r)
   end).
Proof. reflexivity. Qed.

Lemma call_of_more (m : dict) (pd : option dict) (rec : NodeRecord)
  (rest : list NodeRecord) (c : Call) :
  call_of m pd rest c -> call_of m pd (rec :: rest) c.
Proof.
  intros [Ho [r [Hin Hc]]]. split; [exact Ho|]. exists r. split; [now right|exact Hc].
Qed.

(** The loop: every call it makes gets the outbound message of the request
    and goes to a candidate; and it ends in one of three ways: building the
    outbound message raised, or the last call served the response, or the
    candidates ran out. *)
Lemma dispatch_inv (self : t) (m : dict) (pd : option dict) (cands : list NodeRecord) :
  forall (attempted retryable : list dict) (s s' : State) (res : Res dict),
    dispatch self m (vget "message_id" m) (intent_of m) pd cands attempted retryable s
    = (res, s') ->
    exists new,
      calls s' = calls s ++ new /\
      Forall (call_of m pd cands) new /\
      ((exists e, res = Raise e /\ outbound_of m (vget "message_id" m) pd = Raise e) \/
       served self new res \/
       (exists attempted' retryable' s1,
          exhausted (vget "message_id" m) (attempted ++ attempted')
            (retryable ++ retryable') s1 = (res, s'))).
Proof.
  induction cands as [|rec rest IH]; intros attempted retryable s s' res Hd.
  - exists []. rewrite app_nil_r. split; [|split; [constructor|]].
    + change (exhausted (vget "message_id" m) attempted retryable s = (res, s')) in Hd.
      destruct (exhausted_run (vget "message_id" m) attempted retryable s) as [e [He _]].
      rewrite He in Hd. now injection Hd as <- <-.
    + right. right. exists [], [], s. now rewrite !app_nil_r.
  - rewrite dispatch_cons in Hd.
    destruct (outbound_of m (vget "message_id" m) pd) as [outbound|e] eqn:Hout.
    2:{ unfold bind at 1, lift_res in Hd. injection Hd as <- <-.
        exists []. rewrite app_nil_r. split; [reflexivity|]. split; [constructor|].
        left. eauto. }
    unfold bind at 1, lift_res in Hd. unfold bind at 1 in Hd.
    set (s1 := snd (liftW (Persistence.emit_event "router" "router.route_dispatched"
                             (VDict [("selected_node_id", VStr (node_id (descriptor rec)));
                                     ("intent", VStr (intent_of m))])) s)) in *.
    change (liftW _ s) with (Ok tt, s1) in Hd. cbv beta iota in Hd.
    assert (Hc1 : calls s1 = calls s) by reflexivity.
    assert (Hl1 : library (world s1) = library (world s)) by reflexivity.
    unfold bind at 1 in Hd.
    destruct (attempt self rec (intent_of m) outbound s1) as [r2 s2] eqn:Hat.
    destruct (attempt_inv _ _ _ _ _ _ _ Hat) as [step [-> Hcalls]].
    destruct step as [resp|a r].
    + unfold ret in Hd. injection Hd as <- <-.
      destruct Hcalls as [[_ Hno]|[c [Hc [Hn [Hcap [Hmsg [Hb [Ha Hret]]]]]]]].
      { exfalso. now apply (Hno resp). }
      destruct (Hret resp eq_refl) as [Hres Hun].
      exists [c]. rewrite Hc, Hc1. split; [reflexivity|]. split.
      * constructor; [|constructor]. split; [now rewrite Hmsg|].
        exists rec. split; [now left|]. auto.
      * right. left. exists resp, c. auto.
    + destruct (IH _ _ _ _ _ Hd) as [new [Hn [Hall Hend]]].
      assert (Hpre : exists pre, calls s2 = calls s ++ pre /\
                                 Forall (call_of m pd (rec :: rest)) pre).
      { destruct Hcalls as [[Hc _]|[c [Hc [Hnode [Hcap [Hmsg _]]]]]].
        - exists []. rewrite app_nil_r, Hc, Hc1. split; [reflexivity|constructor].
        - exists [c]. rewrite Hc, Hc1. split; [reflexivity|].
          constructor; [|constructor]. split; [now rewrite Hmsg|].
          exists rec. split; [now left|]. auto. }
      destruct Hpre as [pre [Hp Hpall]].
      exists (pre ++ new). rewrite Hn, Hp, app_assoc. split; [reflexivity|]. split.
      * apply List.Forall_app. split; [exact Hpall|].
        eapply List.Forall_impl; [|exact Hall]. intros c. apply call_of_more.
      * destruct Hend as [Hraise|[Hserved|Hex]].
        -- destruct Hraise as [e [_ Hx]]. discriminate Hx.
        -- right. left. destruct Hserved as [resp [c [E1 [E2 E3]]]].
           exists resp, c. split; [exact E1|]. split; [|exact E3].
           destruct new as [|n0 new']; [discriminate|].
           rewrite last_app. now rewrite E2.
        -- right. right. destruct Hex as [a' [r' [s3 Hex]]].
           exists (a ++ a'), (r ++ r'), s3. now rewrite !app_assoc.
Qed.

End Loop.

(** ** What [route] does, seen from outside *)

Section RouteInversion.

Import NodeRegistry RouterCore.

Lemma route_inv (self : t) (s s' : State) (m : dict) (res : Res dict) :
  distinct_ids s ->
  route self (VDict m) s = (res, s') ->
  match route_prefix self s m with
  | Rejected code => exists e, res = Ok e /\ is_error code e /\ idle s s'
  | Dispatch cands pd =>
      exists new,
        calls s' = calls s ++ new /\
        Forall (call_of m pd cands) new /\
        ((exists e, res = Raise e /\ outbound_of m (vget "message_id" m) pd = Raise e) \/
         served self new res \/
         (exists attempted retryable s1,
            exhausted (vget "message_id" m) attempted retryable s1 = (res, s')))
  end.
Proof.
  intros Hnd Hr. pose proof (route_run self s m Hnd) as Hrun.
  destruct (route_prefix self s m) as [code|cands pd].
  - destruct Hrun as [e [s1 [E [Hi [Hq _]]]]]. rewrite E in Hr.
    injection Hr as <- <-. exists e. split; [reflexivity|].
    split; [exact Hi|now apply rejected_idle].
  - rewrite Hrun in Hr.
    destruct (dispatch_inv self m pd cands [] [] (ready s) s' res Hr)
      as [new [Hc [Hall Hend]]].
    exists new. split; [|split; [exact Hall|exact Hend]].
    rewrite Hc. f_equal. apply ready_idle.
Qed.

Lemma failures_alt (node : string) (s : State) :
  failures node s =
  match dget node (health (registry s)) with
  | Some h => failure_count h
  | None => 0
  end.
Proof.
  unfold failures, health_entry, dget_or.
  now destruct (dget node (health (registry s))).
Qed.

(** A call that the router flags: the attempt does not return the response,
    it records an undeclared side effect and counts a failure against the
    node. *)
Lemma attempt_flagged (self : t) (rec : NodeRecord) (intent : string)
  (outbound resp : dict) (s : State) (h : Handler) (w : World)
  (before after : Fingerprint) :
  chosen_handler self rec = Some h ->
  read_only (_metadata_for rec intent) = true ->
  h outbound (world s) = (Ok (VDict resp), w) ->
  valid_core resp = true ->
  fingerprint_in self (library (world s)) = Some before ->
  fingerprint_in self (library w) = Some after ->
  after <> before ->
  exists s',
    attempt self rec intent outbound s
    = (Ok (Continue [attempted_item (node_id (descriptor rec)) "undeclared_side_effect" []] []),
       s') /\
    failures (node_id (descriptor rec)) s' = failures (node_id (descriptor rec)) s + 1 /\
    library (world s') = library w.
Proof.
  intros Hh Hro Hcall Hvalid Hb Ha Hne.
  rewrite attempt_run, Hh, Hcall, Hro. cbv beta iota. rewrite Hb.
  unfold after_call.
  match goal with
  | |- exists _, bind _ _ ?st = _ /\ _ =>
      destruct (looks_like_bdp_run (VDict resp) st) as [s1 [E1 F1]]
  end.
  step_with E1. cbn [well_formed]. rewrite Hvalid.
  step_with (flag_run self (Some before) s1).
  assert (Hlib : library (world s1) = library w).
  { destruct F1 as [->| ->]; reflexivity. }
  assert (Hhealth : health (registry s1) = health (registry s)).
  { destruct F1 as [->| ->]; reflexivity. }
  rewrite Hlib, Ha. cbn [flagged]. unfold fingerprint_eqb.
  rewrite bool_decide_eq_false_2 by exact Hne. cbn [negb].
  destruct (update_health_run (node_id (descriptor rec)) false s1)
    as [s2 [E2 [_ [_ [Hl2 [_ [_ [_ Hh2]]]]]]]].
  step_with E2. exists s2. split; [reflexivity|]. split.
  - rewrite !failures_alt, Hh2. cbn.
    unfold health_entry, dget_or. rewrite Hhealth.
    now destruct (dget (node_id (descriptor rec)) (health (registry s))).
  - now rewrite Hl2.
Qed.

Lemma sorted_In_any {A K : Type} (ltb : K -> K -> bool) (key : A -> K)
  (l : list A) (x : A) :
  In x (sorted ltb key l) <-> In x l.
Proof.
  induction l as [|y l IH]; simpl; [tauto|].
  assert (Hins : forall z r, In z (insert_sorted ltb key y r) <-> z = y \/ In z r).
  { intros z r. induction r as [|u r IHr]; simpl; [intuition|].
    destruct (ltb (key u) (key y)); simpl; rewrite ?IHr; intuition. }
  rewrite Hins, IH. intuition.
Qed.



End RouteInversion.

Section ReadOnlyExamples.

Import NodeRegistry RouterCore.

(** [test_read_capability_side_effects_are_caught]: the node writes a file
    during a read-only call; the router answers [E_NODE_ERROR]. *)
Example route_flags_writing_handler :
  exists e s',
    route test_router (VDict (request "malicious.read" [] None))
      (malicious_state writing_handler) = (Ok e, s') /\
    is_error E_NODE_ERROR e /\
    failures "node.malicious.read" s' = 1.
Proof.
  eexists. eexists. split; [vm_compute; reflexivity|].
  repeat split; vm_compute; reflexivity.
Qed.


End ReadOnlyExamples.

(** ** Traces (protocol.py, router.py) *)

Section Traces.

Import NodeRegistry RouterCore.

Lemma dget_app_last {A : Type} (k k' : string) (x : A) (d : list (string * A)) :
  dget k' (d ++ [(k, x)]) =
  match dget k' d with
  | Some y => Some y
  | None => if String.eqb k k' then Some x else None
  end.
Proof.
  induction d as [|[k0 y] d IH]; simpl; [reflexivity|].
  destruct (String.eqb k0 k'); auto.
Qed.

Lemma dget_dsetdefault_same {A : Type} (k : string) (x : A) (d : list (string * A)) :
  dget k (dsetdefault k x d) = Some (dget_or k x d).
Proof.
  unfold dsetdefault, dhas, dget_or. destruct (dget k d) as [y|] eqn:E.
  - exact E.
  - rewrite dget_app_last, E. now rewrite String.eqb_refl.
Qed.

Lemma dget_dsetdefault_other {A : Type} (k k' : string) (x : A) (d : list (string * A)) :
  k <> k' -> dget k' (dsetdefault k x d) = dget k' d.
Proof.
  intros Hne. unfold dsetdefault. destruct (dhas k d); [reflexivity|].
  rewrite dget_app_last. destruct (dget k' d); [reflexivity|].
  destruct (String.eqb_spec k k'); [contradiction|reflexivity].
Qed.

Lemma vget_dset_same (k : string) (x : value) (d : dict) : vget k (dset k x d) = x.
Proof. unfold vget, dget_or. now rewrite dget_dset_same. Qed.

Lemma vget_dset_other (k k' : string) (x : value) (d : dict) :
  k <> k' -> vget k' (dset k x d) = vget k' d.
Proof. intros Hne. unfold vget, dget_or. now rewrite dget_dset_other. Qed.

Lemma extensions_of_dset (e : dict) (m : dict) :
  extensions_of (dset "extensions" (VDict e) m) = e.
Proof. unfold extensions_of. now rewrite dget_dset_same. Qed.

(** What [ensure_trace] with a hop leaves on the message, when it returns:
    the depth it found plus one, and the hop at the end of the path. *)
Lemma ensure_trace_hop (m : dict) (parent : value) (h : string) (out : dict) :
  h <> EmptyString ->
  Protocol.ensure_trace m parent (Some h) = Ok out ->
  exists d,
    Py.int (inbound_depth m) = Ok d /\
    trace_depth out = VInt (d + 1) /\
    trace_path out = trace_path m ++ [VStr h].
Proof.
  intros Hh. unfold Protocol.ensure_trace, Protocol.hop_given.
  destruct (String.eqb_spec h EmptyString) as [|_]; [contradiction|].
  set (parent' := py_or parent _). clearbody parent'.
  assert (Hext : vget "extensions" (Protocol.ensure_extensions m)
                 = match dget "extensions" m with
                   | None | Some VNone => VDict []
                   | Some v => v
                   end).
  { unfold Protocol.ensure_extensions.
    destruct (dget "extensions" m) as [[| | | | |e]|] eqn:E;
      try (unfold vget, dget_or; now rewrite E);
      now rewrite vget_dset_same. }
  rewrite Hext. clear Hext.
  set (default := VDict [("parent_message_id", parent'); ("depth", VInt 0);
                         ("path", VList [])]).
  assert (Hgo : forall ext,
    extensions_of m = ext ->
    match vget "trace" (dsetdefault "trace" default ext) with
    | VDict trace =>
        match
          Py.int
            (vget "depth"
               (dsetdefault "path" (VList [])
                  (dsetdefault "depth" (VInt 0)
                     (dsetdefault "parent_message_id" parent' trace))))
        with
        | Ok depth =>
            match
              vget "path"
                (dset "depth" (VInt (depth + 1))
                   (dsetdefault "path" (VList [])
                      (dsetdefault "depth" (VInt 0)
                         (dsetdefault "parent_message_id" parent' trace))))
            with
            | VList p =>
                Ok (dset "extensions"
                      (VDict
                         (dset "trace"
                            (VDict
                               (dset "path" (VList (p ++ [VStr h]))
                                  (dset "depth" (VInt (depth + 1))
                                     (dsetdefault "path" (VList [])
                                        (dsetdefault "depth" (VInt 0)
                                           (dsetdefault "parent_message_id" parent'
                                              trace))))))
                            (dsetdefault "trace" default ext)))
                      (Protocol.ensure_extensions m))
            | v => Raise (Protocol.no_attribute v "append")
            end
        | Raise e => Raise e
        end
    | v => Raise (Protocol.no_attribute v "setdefault")
    end = Ok out ->
    exists d,
      Py.int (inbound_depth m) = Ok d /\
      trace_depth out = VInt (d + 1) /\
      trace_path out = trace_path m ++ [VStr h]).
  { intros ext Hx.
    unfold vget at 1. unfold dget_or at 1. rewrite dget_dsetdefault_same.
    assert (Htr : forall trace,
              dget_or "trace" default ext = VDict trace ->
              dget_or "depth" (VInt 0) trace = inbound_depth m /\
              dget_or "path" (VList []) trace = dget_or "path" (VList []) (trace_of m)).
    { intros trace. unfold inbound_depth, trace_of, dict_at. rewrite Hx.
      unfold dget_or at 1. destruct (dget "trace" ext) as [v|].
      - intros ->. auto.
      - unfold default. intros [= <-]. auto. }
    destruct (dget_or "trace" default ext) as [| | | | |trace]; try discriminate.
    destruct (Htr trace eq_refl) as [Hd Hp]. clear Htr.
    set (t1 := dsetdefault "parent_message_id" parent' trace).
    assert (Hd1 : dget_or "depth" (VInt 0) t1 = inbound_depth m).
    { rewrite <- Hd. unfold dget_or, t1.
      now rewrite dget_dsetdefault_other by discriminate. }
    assert (Hp1 : dget_or "path" (VList []) t1 = dget_or "path" (VList []) (trace_of m)).
    { rewrite <- Hp. unfold dget_or, t1.
      now rewrite dget_dsetdefault_other by discriminate. }
    clearbody t1.
    assert (Hdepth : vget "depth" (dsetdefault "path" (VList [])
                                     (dsetdefault "depth" (VInt 0) t1))
                     = inbound_depth m).
    { unfold vget, dget_or at 1.
      rewrite dget_dsetdefault_other by discriminate.
      now rewrite dget_dsetdefault_same. }
    rewrite Hdepth.
    destruct (Py.int (inbound_depth m)) as [d|e]; [|discriminate].
    rewrite vget_dset_other by discriminate.
    assert (Hpath : vget "path" (dsetdefault "path" (VList [])
                                   (dsetdefault "depth" (VInt 0) t1))
                    = dget_or "path" (VList []) (trace_of m)).
    { unfold vget, dget_or at 1. rewrite dget_dsetdefault_same.
      rewrite <- Hp1. unfold dget_or.
      now rewrite dget_dsetdefault_other by discriminate. }
    rewrite Hpath.
    destruct (dget_or "path" (VList []) (trace_of m)) as [| | | |p|] eqn:Ep;
      try discriminate.
    intros [= <-]. exists d. split; [reflexivity|].
    assert (Hin : trace_path m = p) by (unfold trace_path; now rewrite Ep).
    rewrite Hin.
    unfold trace_depth, trace_path, trace_of. rewrite !extensions_of_dset.
    unfold dict_at. rewrite !dget_dset_same.
    split.
    - rewrite vget_dset_other by discriminate. apply vget_dset_same.
    - unfold dget_or. now rewrite dget_dset_same. }
  destruct (dget "extensions" m) as [[| | | | |e]|] eqn:E; try discriminate.
  - apply Hgo. unfold extensions_of. now rewrite E.
  - apply Hgo. unfold extensions_of. now rewrite E.
  - apply Hgo. unfold extensions_of. now rewrite E.
Qed.

(** The provider disclosure goes under [llm]; the trace stays as it is. *)
Lemma stamp_disclosure_trace (pd : option dict) (out out' : dict) :
  stamp_disclosure pd out = Ok out' -> trace_of out' = trace_of out.
Proof.
  unfold stamp_disclosure. destruct pd as [pd|]; [|now intros [= <-]].
  fold (extensions_of out).
  destruct (vget "llm" (dsetdefault "llm" (VDict []) (extensions_of out)))
    as [| | | | |llm]; try discriminate.
  intros [= <-]. unfold trace_of. rewrite extensions_of_dset. unfold dict_at.
  rewrite dget_dset_other by discriminate.
  now rewrite dget_dsetdefault_other by discriminate.
Qed.

Lemma stamp_disclosure_llm (pd : dict) (out out' : dict) :
  stamp_disclosure (Some pd) out = Ok out' ->
  let llm := dict_at "llm" (extensions_of out') in
  vget "provider" llm = vget "provider" pd /\
  vget "model" llm = vget "model" pd /\
  vget "provider_source" llm = vget "provider_source" pd /\
  vget "model_source" llm = vget "model_source" pd.
Proof.
  unfold stamp_disclosure. fold (extensions_of out).
  destruct (vget "llm" (dsetdefault "llm" (VDict []) (extensions_of out)))
    as [| | | | |llm]; try discriminate.
  intros [= <-]. cbv zeta. rewrite extensions_of_dset. unfold dict_at.
  rewrite dget_dset_same.
  repeat split;
    repeat first [ apply vget_dset_same
                 | rewrite vget_dset_other by discriminate ].
Qed.

(** The message handed to the candidates carries the router hop. *)
Lemma outbound_trace (m : dict) (msg_id : value) (pd : option dict) (out : dict) :
  outbound_of m msg_id pd = Ok out ->
  exists d,
    Py.int (inbound_depth m) = Ok d /\
    trace_depth out = VInt (d + 1) /\
    trace_path out = trace_path m ++ [VStr "router.core"].
Proof.
  unfold outbound_of.
  destruct (Protocol.ensure_trace m msg_id (Some "router.core")) as [o|e] eqn:E;
    [|discriminate].
  intros Hs. destruct (ensure_trace_hop m msg_id "router.core" o) as [d [Hd [H1 H2]]];
    [discriminate|exact E|].
  exists d. split; [exact Hd|].
  unfold trace_depth, trace_path in *.
  now rewrite (stamp_disclosure_trace pd o out Hs).
Qed.

(** A response built by [make_response] for a parent message carries a
    trace of depth 1 and an empty path. *)
Lemma make_response_trace (intent : string) (payload : dict) (parent : value) (s : State) :
  truthy parent = true ->
  exists r,
    Protocol.make_response intent payload parent [] s = (Ok r, bump s) /\
    trace_depth r = VInt 1 /\ trace_path r = [].
Proof.
  intros Hp. unfold Protocol.make_response, new_uuid, bind, bump.
  destruct (draw_uuid s) as [u s']. rewrite Hp. cbn.
  eexists. split; [reflexivity|]. split; reflexivity.
Qed.

(** C9, as the code has it.  When [route] dispatches a request, every call
    it makes goes to one of the candidates with a copy of the request whose
    trace path is the path of the request followed by the hop router.core
    and whose trace depth is the depth of the request plus one (an absent
    trace counts as depth 0 and an empty path).  The response [route]
    returns from a node is the value the last call answered, as it is:
    the router adds neither a hop nor depth to it.  A response built by
    [make_response] carries depth 1 and an empty path. *)
Theorem C9_router_hop_is_on_the_outbound_trace :
  (forall (self : t) (s s' : State) (m : dict) (res : Res dict)
          (cands : list NodeRecord) (pd : option dict),
     distinct_ids s ->
     route self (VDict m) s = (res, s') ->
     route_prefix self s m = Dispatch cands pd ->
     exists new,
       calls s' = calls s ++ new /\
       Forall (fun c =>
                 (exists rec, In rec cands /\ call_node c = node_id (descriptor rec)) /\
                 trace_path (call_message c) = trace_path m ++ [VStr "router.core"] /\
                 exists d, Py.int (inbound_depth m) = Ok d /\
                           trace_depth (call_message c) = VInt (d + 1)) new /\
       ((exists e, res = Raise e) \/
        (exists attempted retryable s1,
           exhausted (vget "message_id" m) attempted retryable s1 = (res, s')) \/
        (exists resp c,
           res = Ok resp /\ last new = Some c /\ call_result c = Ok (VDict resp)))) /\
  (forall (intent : string) (payload : dict) (parent : value) (s : State),
     truthy parent = true ->
     exists r,
       Protocol.make_response intent payload parent [] s = (Ok r, bump s) /\
       trace_depth r = VInt 1 /\ trace_path r = []).
Proof.
  split; [|exact make_response_trace].
  intros self s s' m res cands pd Hnd Hr Hpre.
  pose proof (route_inv self s s' m res Hnd Hr) as Hinv. rewrite Hpre in Hinv.
  destruct Hinv as [new [Hc [Hall Hend]]]. exists new. split; [exact Hc|]. split.
  - eapply List.Forall_impl; [|exact Hall].
    intros c [Hout [rec [Hin [Hn _]]]].
    destruct (outbound_trace _ _ _ _ Hout) as [d [Hd [H1 H2]]].
    split; [eauto|]. split; [exact H2|eauto].
  - destruct Hend as [[e [E _]]|[Hs|Hx]]; [left; eauto| |right; left; exact Hx].
    right. right. destruct Hs as [resp [c [E1 [E2 [E3 _]]]]]. eauto.
Qed.

Lemma echo_state_distinct : distinct_ids echo_state.
Proof. unfold distinct_ids. vm_compute. repeat constructor. intros []. Qed.

(** The request is dispatched to the one node that claims the intent, and
    the response that comes back has an empty trace path and depth 1. *)
Lemma C9_counterexample :
  exists r s',
    route test_router (VDict (request "demo.echo" [] None)) echo_state = (Ok r, s') /\
    map call_node (calls s') = ["node.echo"] /\
    vget "intent" r = VStr "demo.echoed" /\
    trace_path r = [] /\
    trace_depth r = VInt 1.
Proof.
  eexists. eexists. split; [vm_compute; reflexivity|].
  repeat split; vm_compute; reflexivity.
Qed.

(** The same request: the node was handed a trace with the router hop. *)
Lemma C9_router_hop_witness :
  exists new,
    calls (snd (route test_router (VDict (request "demo.echo" [] None)) echo_state))
    = calls echo_state ++ new /\
    Forall (fun c =>
              trace_path (call_message c) = [VStr "router.core"] /\
              trace_depth (call_message c) = VInt 1) new.
Proof.
  destruct (proj1 C9_router_hop_is_on_the_outbound_trace
              test_router echo_state
              (snd (route test_router (VDict (request "demo.echo" [] None)) echo_state))
              (request "demo.echo" [] None)
              (fst (route test_router (VDict (request "demo.echo" [] None)) echo_state))
              (match route_prefix test_router echo_state (request "demo.echo" [] None) with
               | Dispatch cands _ => cands
               | Rejected _ => []
               end)
              None)
    as [new [Hc [Hall _]]].
  - exact echo_state_distinct.
  - apply surjective_pairing.
  - vm_compute. reflexivity.
  - exists new. split; [exact Hc|].
    eapply List.Forall_impl; [|exact Hall].
    intros c [_ [Hp [d [Hd Hdepth]]]]. split; [exact Hp|].
    rewrite Hdepth. vm_compute in Hd. injection Hd as <-. reflexivity.
Defined.

End Traces.

(** ** Provider selection (config.py, router.py) *)

Section ProviderSelection.

Import NodeRegistry RouterCore ConfigResolver.

Lemma default_provider_precedence (self : ConfigResolver.t) :
  default_provider self
  = first_of
      [(known_provider (dget "default_provider" (llm_cfg self)), "user config");
       (env_provider self, ".env")]
      ("openrouter", "fallback").
Proof.
  unfold default_provider, known_provider, env_provider. cbn [first_of].
  destruct (dget "default_provider" (llm_cfg self)) as [[| | |p| |]|];
    try destruct (str_in p MODEL_PROVIDERS);
    try reflexivity;
    destruct (str_in _ MODEL_PROVIDERS); reflexivity.
Qed.

(** [select_llm] resolves the provider, then the model of that provider,
    each by precedence among its sources. *)
Lemma select_llm_precedence (self : ConfigResolver.t) (ext : dict) :
  select_llm self (VDict ext)
  = let pp := provider_by_precedence self ext in
    let mm := model_by_precedence self (fst pp) ext in
    {| sel_provider := fst pp; sel_model := fst mm;
       provider_source := snd pp; model_source := snd mm |}.
Proof.
  unfold select_llm.
  assert (Hp : match dget "provider" ext with
               | Some (VStr p) =>
                   if str_in p MODEL_PROVIDERS then (p, "request override")
                   else default_provider self
               | _ => default_provider self
               end = provider_by_precedence self ext).
  { unfold provider_by_precedence. cbn [first_of].
    rewrite default_provider_precedence. cbn [first_of].
    destruct (dget "provider" ext) as [[| | |p| |]|]; cbn [known_provider];
      try reflexivity.
    destruct (str_in p MODEL_PROVIDERS); reflexivity. }
  rewrite Hp. clear Hp.
  destruct (provider_by_precedence self ext) as [provider src]. cbv zeta. cbn [fst snd].
  assert (Hm : match dget "model" ext with
               | Some (VStr m) =>
                   if Metadata.not_blank m then (strip m, "request override")
                   else
                     match dget "default_model" (sub_dict provider (llm_cfg self)) with
                     | Some (VStr m0) =>
                         if Metadata.not_blank m0 then (strip m0, "user config")
                         else (default_model (provider_defaults self provider), ".env")
                     | _ => (default_model (provider_defaults self provider), ".env")
                     end
               | _ =>
                   match dget "default_model" (sub_dict provider (llm_cfg self)) with
                   | Some (VStr m0) =>
                       if Metadata.not_blank m0 then (strip m0, "user config")
                       else (default_model (provider_defaults self provider), ".env")
                   | _ => (default_model (provider_defaults self provider), ".env")
                   end
               end = model_by_precedence self provider ext).
  { unfold model_by_precedence, named_model. cbn [first_of].
    destruct (dget "model" ext) as [[| | |m| |]|];
      try destruct (Metadata.not_blank m);
      try reflexivity;
      destruct (dget "default_model" (sub_dict provider (llm_cfg self)))
        as [[| | |m0| |]|];
      try destruct (Metadata.not_blank m0); reflexivity. }
  rewrite Hm. clear Hm.
  now destruct (model_by_precedence self provider ext).
Qed.

Lemma provider_matches_spec (intent provider : string) (rec : NodeRecord) :
  provider_matches intent provider rec = true <->
  capability_provider rec intent = Some provider.
Proof.
  unfold provider_matches, capability_provider.
  destruct (_metadata_for rec intent) as [c|]; [|split; discriminate].
  destruct (Metadata.provider c) as [q|]; [|split; discriminate].
  destruct (String.eqb_spec q provider) as [->|Hne]; split; auto; try discriminate.
  intros [= E]. contradiction.
Qed.

(** A model intent that is dispatched: the candidates are the nodes of the
    resolved provider, in selection order, and the disclosure is that of
    the selection. *)
Lemma prefix_dispatch_model (self : RouterCore.t) (s : State) (m : dict)
  (cands : list NodeRecord) (pd : option dict) :
  startswith "model." (intent_of m) = true ->
  route_prefix self s m = Dispatch cands pd ->
  pd = Some (disclosure_of (selection_of self m)) /\
  cands = sorted key_ltb _node_sort_key
            (List.filter (provider_matches (intent_of m)
                            (sel_provider (selection_of self m)))
               (with_extensions s m)).
Proof.
  intros Hmodel. unfold route_prefix.
  destruct (negb (valid_core m)); [discriminate|].
  destruct (negb (String.eqb _ PROTOCOL_VERSION)); [discriminate|].
  destruct (eligible_nodes s m); [discriminate|].
  destruct (with_extensions s m) as [|e0 es] eqn:Hw; [discriminate|].
  destruct (negb (gate_open (later (pruned s)) m)); [discriminate|].
  unfold provider_filter. rewrite Hmodel. cbn [negb]. cbv zeta.
  destruct (negb (str_in _ MODEL_PROVIDERS)); [discriminate|].
  destruct (String.eqb _ EmptyString); [discriminate|].
  destruct (validate_provider_requirements _ _); [discriminate|].
  destruct (List.filter _ (e0 :: es)) as [|f0 fs] eqn:Hf; [discriminate|].
  intros [= <- <-]. auto.
Qed.

Lemma vget_str (k : string) (d : dict) (x : string) :
  vget k d = VStr x -> dget k d = Some (VStr x).
Proof.
  unfold vget, dget_or. destruct (dget k d); [now intros ->|discriminate].
Qed.

(** C8, as the code has it.  [select_llm] resolves the provider by
    precedence among the request override, the user configuration and the
    environment variable (read as openrouter when it is not set, so that an
    unset variable still yields the tag of the environment), with openrouter
    tagged fallback as the last resort; and the model of that provider by
    precedence among the request override and the user configuration, with
    the default model of the provider, tagged as coming from the
    environment, as the last resort.  A request that names a known provider
    is resolved to it with the tag of the request override.  When [route]
    dispatches a model intent, the candidates are exactly the eligible
    nodes whose capability names the resolved provider, and every call
    carries the selection, with its tags, under [extensions.llm]. *)
Theorem C8_provider_selection_and_pinning :
  (forall (self : ConfigResolver.t) (ext : dict),
     select_llm self (VDict ext)
     = let pp := provider_by_precedence self ext in
       let mm := model_by_precedence self (fst pp) ext in
       {| sel_provider := fst pp; sel_model := fst mm;
          provider_source := snd pp; model_source := snd mm |}) /\
  (forall (self : RouterCore.t) (m : dict) (p : string),
     vget "provider" (llm_of m) = VStr p ->
     str_in p MODEL_PROVIDERS = true ->
     sel_provider (selection_of self m) = p /\
     provider_source (selection_of self m) = "request override") /\
  (forall (self : RouterCore.t) (s s' : State) (m : dict) (res : Res dict)
          (cands : list NodeRecord) (pd : option dict),
     distinct_ids s ->
     startswith "model." (intent_of m) = true ->
     route self (VDict m) s = (res, s') ->
     route_prefix self s m = Dispatch cands pd ->
     (forall rec,
        In rec cands <->
        In rec (with_extensions s m) /\
        capability_provider rec (intent_of m) = Some (sel_provider (selection_of self m))) /\
     exists new,
       calls s' = calls s ++ new /\
       Forall (fun c =>
                 stamped (selection_of self m) (call_message c) /\
                 exists rec, In rec cands /\ call_node c = node_id (descriptor rec)) new).
Proof.
  split; [exact select_llm_precedence|]. split.
  - intros self m p Hp Hin. unfold selection_of. fold (llm_of m).
    rewrite select_llm_precedence. cbv zeta. cbn [sel_provider provider_source].
    unfold provider_by_precedence. rewrite (vget_str _ _ _ Hp).
    cbn [known_provider]. rewrite Hin. cbn [first_of fst snd]. auto.
  - intros self s s' m res cands pd Hnd Hmodel Hr Hpre.
    destruct (prefix_dispatch_model self s m cands pd Hmodel Hpre) as [Hpd Hcands].
    split.
    + intros rec. rewrite Hcands, sorted_In, List.filter_In, provider_matches_spec.
      reflexivity.
    + pose proof (route_inv self s s' m res Hnd Hr) as Hinv. rewrite Hpre in Hinv.
      destruct Hinv as [new [Hc [Hall _]]]. exists new. split; [exact Hc|].
      eapply List.Forall_impl; [|exact Hall].
      intros c [Hout [rec [Hin [Hn _]]]]. split; [|eauto].
      rewrite Hpd in Hout. unfold outbound_of in Hout.
      destruct (Protocol.ensure_trace m _ _) as [o|e]; [|discriminate].
      destruct (stamp_disclosure_llm _ _ _ Hout) as [H1 [H2 [H3 H4]]].
      unfold stamped, llm_of. auto.
Qed.

(** With nothing in the environment and no user configuration, the
    provider is the built-in openrouter and yet it is tagged as coming from
    the environment; and the model is empty: no built-in model exists. *)
Lemma C8_counterexample :
  env bare_config !! "BRAINDRIVE_DEFAULT_PROVIDER" = None /\
  env bare_config !! "BRAINDRIVE_OPENROUTER_DEFAULT_MODEL" = None /\
  user_config bare_config = [] /\
  select_llm bare_config (VDict [])
  = {| sel_provider := "openrouter"; sel_model := EmptyString;
       provider_source := ".env"; model_source := ".env" |}.
Proof. repeat split; vm_compute; reflexivity. Qed.

Lemma model_state_distinct : distinct_ids model_state.
Proof.
  unfold distinct_ids. vm_compute. repeat constructor; simpl; intuition discriminate.
Qed.

(** Scenario S3: the request pins ollama while the default is openrouter;
    the node of ollama is called, with the pinned provider stamped, and its
    response comes back. *)
Example route_pins_provider :
  exists r s',
    route test_router (VDict pinned_request) model_state = (Ok r, s') /\
    map call_node (calls s') = ["node.model.ollama"] /\
    vget "provider" (dict_at "payload" r) = VStr "ollama" /\
    sel_provider (select_llm (config test_router) (VDict [])) = "openrouter".
Proof.
  eexists. eexists. split; [vm_compute; reflexivity|].
  repeat split; vm_compute; reflexivity.
Qed.

Lemma C8_provider_selection_witness :
  exists new,
    calls (snd (route test_router (VDict pinned_request) model_state))
    = calls model_state ++ new /\
    Forall (fun c =>
              vget "provider" (llm_of (call_message c)) = VStr "ollama" /\
              vget "provider_source" (llm_of (call_message c)) = VStr "request override")
      new.
Proof.
  destruct (proj2 (proj2 C8_provider_selection_and_pinning)
              test_router model_state
              (snd (route test_router (VDict pinned_request) model_state))
              pinned_request
              (fst (route test_router (VDict pinned_request) model_state))
              (match route_prefix test_router model_state pinned_request with
               | Dispatch cands _ => cands
               | Rejected _ => []
               end)
              (match route_prefix test_router model_state pinned_request with
               | Dispatch _ pd => pd
               | Rejected _ => None
               end))
    as [_ [new [Hc Hall]]].
  - exact model_state_distinct.
  - reflexivity.
  - apply surjective_pairing.
  - vm_compute. reflexivity.
  - exists new. split; [exact Hc|].
    eapply List.Forall_impl; [|exact Hall].
    intros c [[H1 [_ [H3 _]]] _]. split.
    + rewrite H1. vm_compute. reflexivity.
    + rewrite H3. vm_compute. reflexivity.
Defined.

End ProviderSelection.

(** ** The asynchronous pipeline (Proof-of-Concept-3) *)

Section Pipeline.

Import Bdp RouterHandler EchoWorker.

(** What an operation leaves of Redis, the effects and the queues. *)

Lemma note_run (id ev : string) (details : dict) (s : Sys) :
  exists s',
    note id ev details s = (Ok tt, s') /\
    strings (rdb s') = strings (rdb s) /\
    hashes (rdb s') = hashes (rdb s) /\
    events_of id s' = events_of id s ++ [event_entry (sys_now s) id ev details] /\
    effects s' = effects s ++ [logged id ev details] /\
    queue_of QUEUE_ECHO s' = queue_of QUEUE_ECHO s /\
    queue_of QUEUE_ECHO_DLQ s' = queue_of QUEUE_ECHO_DLQ s /\
    sys_now s' = sys_now s.
Proof.
  eexists. split; [reflexivity|].
  unfold events_of, queue_of, enqueue, event_entry. cbn.
  rewrite !lookup_insert_eq. rewrite !lookup_insert_ne by done.
  repeat split.
Qed.

Lemma redis_set_run (key : string) (v : rval) (s : Sys) :
  exists s',
    redis_set key v s = (Ok tt, s') /\
    strings (rdb s') = <[key := v]> (strings (rdb s)) /\
    hashes (rdb s') = hashes (rdb s) /\
    lists (rdb s') = lists (rdb s) /\
    effects s' = effects s /\
    queues s' = queues s /\
    sys_now s' = sys_now s.
Proof. eexists. split; [reflexivity|]. cbn. auto 10. Qed.

Lemma publish_capability_run (body : dict) (s : Sys) :
  exists s',
    publish_json EX_CAPABILITY "echo" body s = (Ok tt, s') /\
    rdb s' = rdb s /\
    effects s' = effects s ++ [Published EX_CAPABILITY "echo" body] /\
    queue_of QUEUE_ECHO s' = queue_of QUEUE_ECHO s ++ [body] /\
    queue_of QUEUE_ECHO_DLQ s' = queue_of QUEUE_ECHO_DLQ s /\
    sys_now s' = sys_now s.
Proof.
  eexists. split; [reflexivity|].
  unfold queue_of, enqueue. cbn.
  rewrite !lookup_insert_eq. rewrite !lookup_insert_ne by done.
  repeat split.
Qed.

Lemma publish_dlq_run (body : dict) (s : Sys) :
  exists s',
    publish_json EX_DLQ "echo" body s = (Ok tt, s') /\
    rdb s' = rdb s /\
    effects s' = effects s ++ [Published EX_DLQ "echo" body] /\
    queue_of QUEUE_ECHO s' = queue_of QUEUE_ECHO s /\
    queue_of QUEUE_ECHO_DLQ s' = queue_of QUEUE_ECHO_DLQ s ++ [body] /\
    sys_now s' = sys_now s.
Proof.
  eexists. split; [reflexivity|].
  unfold queue_of, enqueue. cbn.
  rewrite !lookup_insert_eq. rewrite !lookup_insert_ne by done.
  repeat split.
Qed.

(** [make_error] draws an identifier and touches nothing else. *)
Lemma make_error_sys (code message : string) (parent : value) (retryable : bool)
  (details : dict) (s : Sys) :
  exists e s',
    Protocol.make_error code message parent retryable details s = (Ok e, s') /\
    rdb s' = rdb s /\ effects s' = effects s /\ queues s' = queues s /\
    sys_now s' = sys_now s /\
    is_error code e /\
    vget "retryable" (error_of e) = VBool retryable /\
    Bdp.looks_like_bdp (VDict e) = true.
Proof.
  destruct (make_error_run code message parent retryable details s)
    as [e [He [Hi [Hr [_ [_ Hl]]]]]].
  exists e. eexists. split; [exact He|]. cbn. auto 10.
Qed.

(** The router's answer to a posted result: it records the state and the
    event, and logs it. *)
Lemma send_result_run (self : t) (id : string) (response : dict) (attempt : Z)
  (duplicate dead_lettered : bool) (s : Sys) :
  id <> EmptyString ->
  exists s' details,
    send_result self id response attempt duplicate dead_lettered s = (Ok tt, s') /\
    strings (rdb s') = strings (rdb s) /\
    events_of id s' = events_of id s ++ [event_entry (sys_now s) id "worker_result" details] /\
    effects s' = effects s ++ [posted self id response attempt duplicate dead_lettered;
                               logged id "worker_result" details] /\
    vget "duplicate" details = VBool duplicate /\
    vget "dead_lettered" details = VBool dead_lettered /\
    vget "attempt" details = VInt attempt /\
    queue_of QUEUE_ECHO s' = queue_of QUEUE_ECHO s /\
    queue_of QUEUE_ECHO_DLQ s' = queue_of QUEUE_ECHO_DLQ s /\
    sys_now s' = sys_now s /\
    status_state id s' = Some (Text (recorded_state response dead_lettered)).
Proof.
  intros Hid. apply String.eqb_neq in Hid.
  unfold send_result, recorded_state. unfold bind at 1, modify at 1, catch.
  unfold _handle_worker_result. cbn [dget_or dget String.eqb Ascii.eqb Bool.eqb vget].
  cbn [Py.str Py.int lift_res truthy]. unfold bind at 1. unfold bind at 1.
  cbn [lift_res]. rewrite Hid.
  destruct (looks_like_bdp (VDict response)) eqn:Hl.
  - eexists. eexists. split; [reflexivity|].
    unfold events_of, status_state, queue_of, enqueue, event_entry. cbn.
    rewrite !lookup_insert_eq. rewrite !lookup_insert_ne by done.
    repeat split.
    + now rewrite <- List.app_assoc.
    + cbn. rewrite !dget_dset_other by discriminate. rewrite dget_dset_same.
      now destruct (eq_str (vget "intent" response) "error"), dead_lettered.
  - match goal with
    | |- context [bind (Protocol.make_error ?a ?b ?c ?d ?e) _ ?st] =>
        destruct (make_error_sys a b c d e st)
          as [e' [s1 [He [H1 [H2 [H3 [H4 [[Hi _] _]]]]]]]]
    end.
    unfold bind at 1. rewrite He.
    eexists. eexists. split; [reflexivity|].
    unfold events_of, status_state, queue_of, enqueue, event_entry. cbn.
    rewrite !lookup_insert_eq. rewrite !lookup_insert_ne by done.
    rewrite H1, H2, H3, H4. cbn.
    repeat split.
    + now rewrite <- List.app_assoc.
    + rewrite !dget_dset_other by discriminate. rewrite dget_dset_same.
      rewrite Hi. reflexivity.
Qed.

Lemma event_names_app (id : string) (s s' : Sys) (new : list dict) :
  events_of id s' = events_of id s ++ new ->
  event_names id s' = event_names id s ++ map (vget "event") new.
Proof. unfold event_names. intros ->. apply map_app. Qed.

(** The envelope published for the next attempt is accepted like the one
    it comes from. *)
Lemma retry_envelope_accepted (self : t) (envelope message : dict) (a mx : Z) (flag : value) :
  accepted self envelope message a mx flag ->
  accepted self (retry_envelope self message (a + 1) mx) message (a + 1) mx flag.
Proof. intros [H1 H2 H3 H4 H5 H6 H7]. constructor; auto. Qed.

(** The worker up to the point where it looks at [force_error]. *)
Lemma process_delivery_accepted (self : t) (envelope message : dict) (a mx : Z)
  (flag : value) (s : Sys) :
  accepted self envelope message a mx flag ->
  exists s1,
    note (id_of message) "worker_received"
      [("node_id", VStr (NODE_ID self)); ("attempt", VInt a)] s = (Ok tt, s1) /\
    process_delivery self (VDict envelope) s
    = (if truthy flag then
         if a + 1 <? mx then
           do* modify (add_effect (Slept (RETRY_DELAY_MS self))) in
           do* publish_json EX_CAPABILITY "echo" (retry_envelope self message (a + 1) mx) in
           note (id_of message) "retry_scheduled"
             [("node_id", VStr (NODE_ID self)); ("attempt", VInt (a + 1))]
         else
           let* response := Protocol.make_error E_NODE_TIMEOUT
                              (NODE_ID self +:+ " exceeded max attempts")
                              (VStr (id_of message)) true
                              [("node_id", VStr (NODE_ID self));
                               ("attempt", VInt (a + 1))] in
           do* publish_json EX_DLQ "echo"
                 (dead_letter_entry self message (a + 1) response) in
           do* note (id_of message) "worker_dead_lettered"
                 [("node_id", VStr (NODE_ID self)); ("attempt", VInt (a + 1))] in
           do* redis_set (cached_response_key self (id_of message))
                 (Json (VDict response)) in
           send_result self (id_of message) response (a + 1) false true
       else
         let* first_seen := redis_setnx (idempotency_key self (id_of message)) (Text "1") in
         if negb first_seen then
           let* cached := redis_get (cached_response_key self (id_of message)) in
           let* response :=
             match cached with
             | None | Some (Text EmptyString) =>
                 Protocol.make_error "E_NODE_ERROR"
                   ("Duplicate delivery but no cached response for " +:+ NODE_ID self)
                   (VStr (id_of message)) false []
             | Some raw => lift_res (json_loads raw)
             end in
           do* note (id_of message) "duplicate_delivery"
                 [("node_id", VStr (NODE_ID self)); ("attempt", VInt a)] in
           send_result self (id_of message) response a true false
         else
           do* redis_set (side_effect_key self (id_of message)) (Text "1") in
           let* response := perform self message (id_of message) in
           do* redis_set (cached_response_key self (id_of message))
                 (Json (VDict response)) in
           do* note (id_of message) "worker_completed"
                 [("node_id", VStr (NODE_ID self)); ("attempt", VInt a);
                  ("intent", vget "intent" response)] in
           send_result self (id_of message) response a false false) s1.
Proof.
  intros [Hm Ha Hx Hid Hv Hi Hf].
  destruct (note_run (id_of message) "worker_received"
              [("node_id", VStr (NODE_ID self)); ("attempt", VInt a)] s) as [s1 [E1 _]].
  exists s1. split; [exact E1|].
  unfold process_delivery. cbn [json_loads]. step. rewrite Hm, Ha. step.
  rewrite Hx. step. fold (id_of message).
  apply String.eqb_neq in Hid. rewrite Hid. cbv zeta.
  step_with E1. rewrite Hv. cbn [negb]. rewrite Hi. step. cbn [negb].
  rewrite Hf. step. reflexivity.
Qed.

(** A delivery of an envelope whose message asks for a failure, while the
    next attempt is below the maximum. *)
Lemma retry_delivery (self : t) (envelope message : dict) (attempt max_attempts : Z)
  (flag : value) (s : Sys) :
  accepted self envelope message attempt max_attempts flag ->
  truthy flag = true ->
  attempt + 1 < max_attempts ->
  let id := id_of message in
  let next := attempt + 1 in
  let here := [("node_id", VStr (NODE_ID self)); ("attempt", VInt attempt)] in
  let there := [("node_id", VStr (NODE_ID self)); ("attempt", VInt next)] in
  exists s',
    process_delivery self (VDict envelope) s = (Ok tt, s') /\
    accepted self (retry_envelope self message next max_attempts) message
      next max_attempts flag /\
    effects s' = effects s ++
                 [logged id "worker_received" here;
                  Slept (RETRY_DELAY_MS self);
                  Published EX_CAPABILITY "echo"
                    (retry_envelope self message next max_attempts);
                  logged id "retry_scheduled" there] /\
    queue_of QUEUE_ECHO s' = queue_of QUEUE_ECHO s ++
                             [retry_envelope self message next max_attempts] /\
    queue_of QUEUE_ECHO_DLQ s' = queue_of QUEUE_ECHO_DLQ s /\
    event_names id s' = event_names id s ++
                        [VStr "worker_received"; VStr "retry_scheduled"] /\
    strings (rdb s') = strings (rdb s) /\
    status_state id s' = status_state id s.
Proof.
  intros Hacc Hflag Hnext id next here there.
  rename attempt into a. rename max_attempts into mx.
  destruct (process_delivery_accepted self envelope message a mx flag s Hacc)
    as [s1 [E1 Hrun]].
  rewrite Hrun, Hflag. clear Hrun.
  destruct (note_run id "worker_received" here s)
    as [s1' [E1' [S1 [H1 [L1 [F1 [Q1 [D1 N1]]]]]]]].
  fold id in E1. fold here in E1. rewrite E1 in E1'. injection E1' as <-.
  assert (Hid : id <> EmptyString) by now destruct Hacc.
  fold id. fold next.
  destruct (Z.ltb_spec next mx) as [Hlt|Hge]; [|unfold next in Hge; lia].
  - step.
    destruct (publish_capability_run (retry_envelope self message next mx)
                (add_effect (Slept (RETRY_DELAY_MS self)) s1))
      as [s2 [E2 [R2 [F2 [Q2 [D2 N2]]]]]].
    step_with E2.
    destruct (note_run id "retry_scheduled" there s2)
      as [s3 [E3 [S3 [H3 [L3 [F3 [Q3 [D3 N3]]]]]]]].
    exists s3. split; [exact E3|].
    split; [exact (retry_envelope_accepted _ _ _ _ _ _ Hacc)|].
    split; [|split; [|split; [|split; [|split]]]].
    + rewrite F3, F2. cbn [effects add_effect]. rewrite F1.
      rewrite <- !List.app_assoc. reflexivity.
    + now rewrite Q3, Q2, <- Q1.
    + now rewrite D3, D2, <- D1.
    + assert (L2 : events_of id s2 = events_of id s1).
      { unfold events_of. now rewrite R2. }
      rewrite (event_names_app id s2 s3 _ L3).
      unfold event_names at 1. rewrite L2, L1, map_app, <- List.app_assoc.
      reflexivity.
    + now rewrite S3, R2.
    + unfold status_state. now rewrite H3, R2, <- H1.
Qed.

(** A delivery of an envelope whose message asks for a failure, once the
    next attempt reaches the maximum. *)
Lemma dead_letter_delivery (self : t) (envelope message : dict) (attempt max_attempts : Z)
  (flag : value) (s : Sys) :
  accepted self envelope message attempt max_attempts flag ->
  truthy flag = true ->
  max_attempts <= attempt + 1 ->
  let id := id_of message in
  let next := attempt + 1 in
  let here := [("node_id", VStr (NODE_ID self)); ("attempt", VInt attempt)] in
  let there := [("node_id", VStr (NODE_ID self)); ("attempt", VInt next)] in
  exists s' response details,
    process_delivery self (VDict envelope) s = (Ok tt, s') /\
    is_error E_NODE_TIMEOUT response /\
    vget "retryable" (error_of response) = VBool true /\
    effects s' = effects s ++
                 [logged id "worker_received" here;
                  Published EX_DLQ "echo"
                    (dead_letter_entry self message next response);
                  logged id "worker_dead_lettered" there;
                  posted self id response next false true;
                  logged id "worker_result" details] /\
    vget "dead_lettered" details = VBool true /\
    queue_of QUEUE_ECHO_DLQ s' = queue_of QUEUE_ECHO_DLQ s ++
                                 [dead_letter_entry self message next response] /\
    queue_of QUEUE_ECHO s' = queue_of QUEUE_ECHO s /\
    event_names id s' = event_names id s ++
                        [VStr "worker_received"; VStr "worker_dead_lettered";
                         VStr "worker_result"] /\
    strings (rdb s') = <[cached_response_key self id := Json (VDict response)]>
                         (strings (rdb s)) /\
    status_state id s' = Some (Text "dlq").
Proof.
  intros Hacc Hflag Hnext id next here there.
  rename attempt into a. rename max_attempts into mx.
  destruct (process_delivery_accepted self envelope message a mx flag s Hacc)
    as [s1 [E1 Hrun]].
  rewrite Hrun, Hflag. clear Hrun.
  destruct (note_run id "worker_received" here s)
    as [s1' [E1' [S1 [H1 [L1 [F1 [Q1 [D1 N1]]]]]]]].
  fold id in E1. fold here in E1. rewrite E1 in E1'. injection E1' as <-.
  assert (Hid : id <> EmptyString) by now destruct Hacc.
  fold id. fold next.
  destruct (Z.ltb_spec next mx) as [Hlt|Hge]; [unfold next in Hlt; lia|].
  - destruct (make_error_sys E_NODE_TIMEOUT (NODE_ID self +:+ " exceeded max attempts")
                (VStr id) true there s1)
      as [response [s2 [E2 [R2 [F2 [Qs2 [N2 [Hi [Hr _]]]]]]]]].
    step_with E2.
    destruct (publish_dlq_run (dead_letter_entry self message next response) s2)
      as [s3 [E3 [R3 [F3 [Q3 [D3 N3]]]]]].
    step_with E3.
    destruct (note_run id "worker_dead_lettered" there s3)
      as [s4 [E4 [S4 [H4 [L4 [F4 [Q4 [D4 N4]]]]]]]].
    step_with E4.
    destruct (redis_set_run (cached_response_key self id) (Json (VDict response)) s4)
      as [s5 [E5 [S5 [H5 [L5 [F5 [Q5 N5]]]]]]].
    step_with E5.
    destruct (send_result_run self id response next false true s5 Hid)
      as [s6 [details [E6 [S6 [L6 [F6 [_ [Dl [_ [Q6 [D6 [N6 St]]]]]]]]]]]].
    exists s6, response, details. split; [exact E6|].
    split; [exact Hi|]. split; [exact Hr|].
    split; [|split; [exact Dl|split; [|split; [|split; [|split]]]]].
    + rewrite F6, F5, F4, F3, F2, F1. rewrite <- !List.app_assoc. reflexivity.
    + rewrite D6. unfold queue_of at 1. rewrite Q5. fold (queue_of QUEUE_ECHO_DLQ s4).
      rewrite D4, D3. unfold queue_of at 1. rewrite Qs2.
      fold (queue_of QUEUE_ECHO_DLQ s1). now rewrite D1.
    + rewrite Q6. unfold queue_of at 1. rewrite Q5. fold (queue_of QUEUE_ECHO s4).
      rewrite Q4, Q3. unfold queue_of at 1. rewrite Qs2.
      fold (queue_of QUEUE_ECHO s1). now rewrite Q1.
    + rewrite (event_names_app id s5 s6 _ L6).
      assert (L5' : events_of id s5 = events_of id s4).
      { unfold events_of. now rewrite L5. }
      assert (L3' : events_of id s3 = events_of id s1).
      { unfold events_of. now rewrite R3, R2. }
      unfold event_names at 1. rewrite L5', L4, L3', L1, !map_app, <- !List.app_assoc.
      reflexivity.
    + now rewrite S6, S5, S4, R3, R2, S1.
    + rewrite St. unfold recorded_state.
      destruct Hi as [Hi _]. unfold eq_str. rewrite Hi. cbn.
      now rewrite Bool.andb_false_r.
Qed.



(** C7: an envelope whose message asks for a failure.  While the next
    attempt is below the maximum, the worker sleeps for the retry delay,
    publishes the envelope again with the attempt incremented (an envelope
    that it will accept in the same way) and records [retry_scheduled]:
    nothing is posted to the router and no Redis string is written.  Once
    the next attempt reaches the maximum, it publishes the envelope with
    the error to the dead-letter exchange, records
    [worker_dead_lettered], caches an error response with code
    [E_NODE_TIMEOUT] and posts it with [dead_lettered] set; the router
    records the state dlq. *)
Theorem C7_retries_then_dead_letter :
  forall (self : t) (envelope message : dict) (attempt max_attempts : Z)
         (flag : value) (s : Sys),
    accepted self envelope message attempt max_attempts flag ->
    truthy flag = true ->
    let id := id_of message in
    let next := attempt + 1 in
    let here := [("node_id", VStr (NODE_ID self)); ("attempt", VInt attempt)] in
    let there := [("node_id", VStr (NODE_ID self)); ("attempt", VInt next)] in
    exists s',
      process_delivery self (VDict envelope) s = (Ok tt, s') /\
      (next < max_attempts ->
         accepted self (retry_envelope self message next max_attempts) message
           next max_attempts flag /\
         effects s' = effects s ++
                      [logged id "worker_received" here;
                       Slept (RETRY_DELAY_MS self);
                       Published EX_CAPABILITY "echo"
                         (retry_envelope self message next max_attempts);
                       logged id "retry_scheduled" there] /\
         queue_of QUEUE_ECHO s' = queue_of QUEUE_ECHO s ++
                                  [retry_envelope self message next max_attempts] /\
         queue_of QUEUE_ECHO_DLQ s' = queue_of QUEUE_ECHO_DLQ s /\
         event_names id s' = event_names id s ++
                             [VStr "worker_received"; VStr "retry_scheduled"] /\
         strings (rdb s') = strings (rdb s) /\
         status_state id s' = status_state id s) /\
      (max_attempts <= next ->
         exists response details,
           is_error E_NODE_TIMEOUT response /\
           vget "retryable" (error_of response) = VBool true /\
           effects s' = effects s ++
                        [logged id "worker_received" here;
                         Published EX_DLQ "echo"
                           (dead_letter_entry self message next response);
                         logged id "worker_dead_lettered" there;
                         posted self id response next false true;
                         logged id "worker_result" details] /\
           vget "dead_lettered" details = VBool true /\
           queue_of QUEUE_ECHO_DLQ s' = queue_of QUEUE_ECHO_DLQ s ++
                                        [dead_letter_entry self message next response] /\
           queue_of QUEUE_ECHO s' = queue_of QUEUE_ECHO s /\
           event_names id s' = event_names id s ++
                               [VStr "worker_received"; VStr "worker_dead_lettered";
                                VStr "worker_result"] /\
           strings (rdb s') = <[cached_response_key self id := Json (VDict response)]>
                                (strings (rdb s)) /\
           status_state id s' = Some (Text "dlq")).
Proof.
  intros self envelope message a mx flag s Hacc Hflag id next here there.
  destruct (Z.lt_ge_cases next mx) as [Hlt|Hge].
  - destruct (retry_delivery self envelope message a mx flag s Hacc Hflag Hlt)
      as [s' [E Hretry]].
    exists s'. split; [exact E|]. split.
    + intros _. exact Hretry.
    + intros Hge. exfalso. lia.
  - destruct (dead_letter_delivery self envelope message a mx flag s Hacc Hflag Hge)
      as [s' [response [details [E Hdlq]]]].
    exists s'. split; [exact E|]. split.
    + intros Hlt. exfalso. lia.
    + intros _. exists response, details. exact Hdlq.
Qed.


Lemma grows_refl (id : string) (s : Sys) : grows id s s.
Proof. split; reflexivity. Qed.

Lemma grows_trans (id : string) (s1 s2 s3 : Sys) :
  grows id s1 s2 -> grows id s2 s3 -> grows id s1 s3.
Proof. intros [A1 A2] [B1 B2]. split; congruence. Qed.

Lemma duplicate_events_app (id : string) (s s' : Sys) (new : list dict) :
  events_of id s' = events_of id s ++ new ->
  duplicate_events id s'
  = (duplicate_events id s + length (List.filter is_duplicate_event new))%nat.
Proof.
  unfold duplicate_events. intros ->. now rewrite List.filter_app, length_app.
Qed.

Lemma same_rdb_grows (id : string) (s s' : Sys) : rdb s' = rdb s -> grows id s s'.
Proof.
  intros H. split; [now rewrite H|].
  unfold duplicate_events, events_of. now rewrite H.
Qed.

Lemma note_grows (id ev : string) (details : dict) (s : Sys) :
  String.eqb ev "duplicate_delivery" = false ->
  exists s', note id ev details s = (Ok tt, s') /\ grows id s s'.
Proof.
  intros Hev.
  destruct (note_run id ev details s) as [s' [E [S1 [_ [L1 _]]]]].
  exists s'. split; [exact E|]. split; [exact S1|].
  rewrite (duplicate_events_app id s s' _ L1). cbn.
  unfold is_duplicate_event, eq_str. cbn. rewrite Hev. cbn. lia.
Qed.

Lemma make_error_grows (id code message : string) (parent : value) (retryable : bool)
  (details : dict) (s : Sys) :
  exists e s',
    Protocol.make_error code message parent retryable details s = (Ok e, s') /\
    grows id s s' /\ is_error code e.
Proof.
  destruct (make_error_sys code message parent retryable details s)
    as [e [s' [E [R [_ [_ [_ [Hi _]]]]]]]].
  exists e, s'. split; [exact E|]. split; [now apply same_rdb_grows|exact Hi].
Qed.

(** The chat request goes out to the model endpoint; nothing is stored. *)
Lemma build_chat_response_grows (self : t) (id : string) (message : dict) (s s' : Sys)
  (res : Res dict) :
  build_chat_response self message s = (res, s') -> grows id s s'.
Proof.
  unfold build_chat_response. cbv zeta.
  unfold bind, lift_res, modify.
  repeat match goal with
         | |- context [match ?r with Ok _ => _ | Raise _ => _ end] =>
             match r with
             | context [match _ with Ok _ => _ | Raise _ => _ end] => fail 1
             | _ => destruct r
             end
         end;
    intros [= <- <-]; now apply same_rdb_grows.
Qed.

(** The work itself always ends in a response; it stores nothing. *)
Lemma perform_run (self : t) (message : dict) (id : string) (s : Sys) :
  exists r s', perform self message id s = (Ok r, s') /\ grows id s s'.
Proof.
  unfold perform, catch.
  set (intent := Py.str (dget_or "intent" (VStr EmptyString) message)).
  assert (Hhandler : forall exc s1,
    grows id s s1 ->
    exists r s',
      (let* response := Protocol.make_error "E_NODE_UNAVAILABLE"
                          ("LLM processing failed: " +:+ exc_type exc)
                          (VStr id) true
                          [("error", VStr (exc_text exc));
                           ("ollama_base_url", VStr (OLLAMA_BASE_URL self))] in
       do* note id "worker_error"
             [("node_id", VStr (NODE_ID self)); ("code", VStr "E_NODE_UNAVAILABLE")] in
       ret response) s1 = (Ok r, s') /\ grows id s s').
  { intros exc s1 G1.
    destruct (make_error_grows id "E_NODE_UNAVAILABLE"
                ("LLM processing failed: " +:+ exc_type exc) (VStr id) true
                [("error", VStr (exc_text exc));
                 ("ollama_base_url", VStr (OLLAMA_BASE_URL self))] s1)
      as [e [s2 [E2 [G2 _]]]].
    step_with E2.
    destruct (note_grows id "worker_error"
                [("node_id", VStr (NODE_ID self)); ("code", VStr "E_NODE_UNAVAILABLE")]
                s2 eq_refl) as [s3 [E3 G3]].
    step_with E3. exists e, s3. split; [reflexivity|].
    eapply grows_trans; [exact G1|]. eapply grows_trans; eassumption. }
  destruct (String.eqb intent "chat").
  - destruct (build_chat_response self message s) as [[r|exc] s1] eqn:Hb.
    + exists r, s1. split; [reflexivity|]. eapply build_chat_response_grows; eassumption.
    + apply Hhandler. eapply build_chat_response_grows; eassumption.
  - destruct (String.eqb intent "echo").
    + unfold lift_res. destruct (build_echo_response self message) as [r|exc].
      * exists r, s. split; [reflexivity|apply grows_refl].
      * apply Hhandler. apply grows_refl.
    + destruct (make_error_grows id "E_NO_ROUTE"
                  ("Unsupported intent for worker: " +:+ intent) (VStr id) false [] s)
        as [e [s2 [E2 [G2 _]]]].
      destruct (note_grows id "worker_error"
                  [("node_id", VStr (NODE_ID self)); ("code", VStr "E_NO_ROUTE")]
                  s2 eq_refl) as [s3 [E3 G3]].
      assert (Hok : (let* response := Protocol.make_error "E_NO_ROUTE"
                                        ("Unsupported intent for worker: " +:+ intent)
                                        (VStr id) false [] in
                     do* note id "worker_error"
                           [("node_id", VStr (NODE_ID self)); ("code", VStr "E_NO_ROUTE")] in
                     ret response) s = (Ok e, s3)).
      { step_with E2. step_with E3. reflexivity. }
      rewrite Hok. exists e, s3. split; [reflexivity|].
      eapply grows_trans; eassumption.
Qed.

Lemma redis_setnx_new (key : string) (v : rval) (s : Sys) :
  strings (rdb s) !! key = None ->
  exists s',
    redis_setnx key v s = (Ok true, s') /\
    strings (rdb s') = <[key := v]> (strings (rdb s)) /\
    lists (rdb s') = lists (rdb s) /\
    effects s' = effects s.
Proof.
  intros H. unfold redis_setnx, redis_get. unfold bind at 1, gets. rewrite H.
  eexists. split; [reflexivity|]. cbn. auto.
Qed.

Lemma redis_setnx_old (key : string) (v x : rval) (s : Sys) :
  strings (rdb s) !! key = Some x ->
  redis_setnx key v s = (Ok false, s).
Proof.
  intros H. unfold redis_setnx, redis_get. unfold bind at 1, gets. now rewrite H.
Qed.

Lemma worker_keys_distinct (self : t) (id : string) :
  idempotency_key self id <> side_effect_key self id /\
  idempotency_key self id <> cached_response_key self id /\
  side_effect_key self id <> cached_response_key self id.
Proof.
  unfold idempotency_key, side_effect_key, cached_response_key. cbn.
  repeat split; discriminate.
Qed.

Lemma same_lists_duplicates (id : string) (s s' : Sys) :
  lists (rdb s') = lists (rdb s) -> duplicate_events id s' = duplicate_events id s.
Proof. intros H. unfold duplicate_events, events_of. now rewrite H. Qed.

(** The first delivery of a message that does not ask for a failure: the
    worker wins the idempotency key, sets the side-effect key, does the
    work, caches the response and posts it, not as a duplicate. *)
Lemma first_delivery (self : t) (envelope message : dict) (a mx : Z) (flag : value)
  (s : Sys) :
  accepted self envelope message a mx flag ->
  truthy flag = false ->
  string_at (idempotency_key self (id_of message)) s = None ->
  exists s' response details before,
    process_delivery self (VDict envelope) s = (Ok tt, s') /\
    strings (rdb s')
    = <[cached_response_key self (id_of message) := Json (VDict response)]>
        (<[side_effect_key self (id_of message) := Text "1"]>
           (<[idempotency_key self (id_of message) := Text "1"]> (strings (rdb s)))) /\
    handled self (id_of message) s' /\
    duplicate_events (id_of message) s' = duplicate_events (id_of message) s /\
    effects s' = before ++ [posted self (id_of message) response a false false;
                            logged (id_of message) "worker_result" details].
Proof.
  intros Hacc Hflag Hnew. set (id := id_of message) in *.
  assert (Hid : id <> EmptyString) by now destruct Hacc.
  destruct (process_delivery_accepted self envelope message a mx flag s Hacc)
    as [s1 [E1 Hrun]].
  rewrite Hrun, Hflag. clear Hrun. fold id in E1 |- *.
  destruct (note_grows id "worker_received"
              [("node_id", VStr (NODE_ID self)); ("attempt", VInt a)] s eq_refl)
    as [s1' [E1' [S1 D1]]].
  rewrite E1 in E1'. injection E1' as <-.
  destruct (redis_setnx_new (idempotency_key self id) (Text "1") s1)
    as [s2 [E2 [S2 [L2 _]]]].
  { rewrite S1. exact Hnew. }
  step_with E2. cbn [negb].
  destruct (redis_set_run (side_effect_key self id) (Text "1") s2)
    as [s3 [E3 [S3 [_ [L3 _]]]]].
  step_with E3.
  destruct (perform_run self message id s3) as [response [s4 [E4 [S4 D4]]]].
  step_with E4.
  destruct (redis_set_run (cached_response_key self id) (Json (VDict response)) s4)
    as [s5 [E5 [S5 [_ [L5 _]]]]].
  step_with E5.
  destruct (note_grows id "worker_completed"
              [("node_id", VStr (NODE_ID self)); ("attempt", VInt a);
               ("intent", vget "intent" response)] s5 eq_refl) as [s6 [E6 [S6 D6]]].
  step_with E6.
  destruct (send_result_run self id response a false false s6 Hid)
    as [s7 [details [E7 [S7 [L7 [F7 _]]]]]].
  exists s7, response, details, (effects s6). split; [exact E7|].
  assert (Hs : strings (rdb s7)
               = <[cached_response_key self id := Json (VDict response)]>
                   (<[side_effect_key self id := Text "1"]>
                      (<[idempotency_key self id := Text "1"]> (strings (rdb s))))).
  { now rewrite S7, S6, S5, S4, S3, S2, S1. }
  destruct (worker_keys_distinct self id) as [K1 [K2 K3]].
  split; [exact Hs|]. split; [|split].
  - unfold handled, string_at. rewrite Hs. split; [|split].
    + exists (Text "1"). rewrite lookup_insert_ne by congruence.
      rewrite lookup_insert_ne by congruence. apply lookup_insert_eq.
    + rewrite lookup_insert_ne by congruence. apply lookup_insert_eq.
    + exists response. apply lookup_insert_eq.
  - rewrite (duplicate_events_app id s6 s7 _ L7). cbn.
    rewrite D6, (same_lists_duplicates id s4 s5 L5), D4,
      (same_lists_duplicates id s2 s3 L3), (same_lists_duplicates id s1 s2 L2), D1.
    lia.
  - exact F7.
Qed.

(** A delivery of a message the worker has seen: the idempotency key is
    taken, so the worker answers with the cached response (or an
    [E_NODE_ERROR] when nothing is cached), records [duplicate_delivery]
    and posts the result as a duplicate.  No Redis string is written. *)
Lemma duplicate_delivery (self : t) (envelope message : dict) (a mx : Z) (flag : value)
  (s : Sys) (v : rval) :
  accepted self envelope message a mx flag ->
  truthy flag = false ->
  string_at (idempotency_key self (id_of message)) s = Some v ->
  (string_at (cached_response_key self (id_of message)) s = None \/
   exists r, string_at (cached_response_key self (id_of message)) s
             = Some (Json (VDict r))) ->
  exists s' response details,
    process_delivery self (VDict envelope) s = (Ok tt, s') /\
    strings (rdb s') = strings (rdb s) /\
    match string_at (cached_response_key self (id_of message)) s with
    | Some cached => cached = Json (VDict response)
    | None => is_error "E_NODE_ERROR" response
    end /\
    duplicate_events (id_of message) s' = Datatypes.S (duplicate_events (id_of message) s) /\
    effects s' = effects s ++
                 [logged (id_of message) "worker_received"
                    [("node_id", VStr (NODE_ID self)); ("attempt", VInt a)];
                  logged (id_of message) "duplicate_delivery"
                    [("node_id", VStr (NODE_ID self)); ("attempt", VInt a)];
                  posted self (id_of message) response a true false;
                  logged (id_of message) "worker_result" details].
Proof.
  intros Hacc Hflag Hold Hcached. set (id := id_of message) in *.
  assert (Hid : id <> EmptyString) by now destruct Hacc.
  destruct (process_delivery_accepted self envelope message a mx flag s Hacc)
    as [s1 [E1 Hrun]].
  rewrite Hrun, Hflag. clear Hrun. fold id in E1 |- *.
  destruct (note_run id "worker_received"
              [("node_id", VStr (NODE_ID self)); ("attempt", VInt a)] s)
    as [s1' [E1' [S1 [_ [L1 [F1 _]]]]]].
  rewrite E1 in E1'. injection E1' as <-.
  assert (E2 : redis_setnx (idempotency_key self id) (Text "1") s1 = (Ok false, s1)).
  { apply redis_setnx_old with v. rewrite S1. exact Hold. }
  step_with E2. clear E2. cbn [negb]. step.
  rewrite S1. fold (string_at (cached_response_key self id) s).
  assert (Hresp : exists response s2,
    match string_at (cached_response_key self id) s with
    | None | Some (Text EmptyString) =>
        Protocol.make_error "E_NODE_ERROR"
          ("Duplicate delivery but no cached response for " +:+ NODE_ID self)
          (VStr id) false []
    | Some raw => lift_res (json_loads raw)
    end s1 = (Ok response, s2) /\
    rdb s2 = rdb s1 /\ effects s2 = effects s1 /\ sys_now s2 = sys_now s1 /\
    match string_at (cached_response_key self id) s with
    | Some cached => cached = Json (VDict response)
    | None => is_error "E_NODE_ERROR" response
    end).
  { destruct Hcached as [->|[r ->]].
    - destruct (make_error_sys "E_NODE_ERROR"
                  ("Duplicate delivery but no cached response for " +:+ NODE_ID self)
                  (VStr id) false [] s1) as [e [s2 [E [R [F [_ [N [Hi _]]]]]]]].
      exists e, s2. auto 10.
    - exists r, s1. auto 10. }
  destruct Hresp as [response [s2 [E2 [R2 [F2 [N2 Hmatch]]]]]].
  step_with E2.
  destruct (note_run id "duplicate_delivery"
              [("node_id", VStr (NODE_ID self)); ("attempt", VInt a)] s2)
    as [s3 [E3 [S3 [_ [L3 [F3 _]]]]]].
  step_with E3.
  destruct (send_result_run self id response a true false s3 Hid)
    as [s4 [details [E4 [S4 [L4 [F4 _]]]]]].
  exists s4, response, details. split; [exact E4|].
  split; [now rewrite S4, S3, R2, S1|]. split; [exact Hmatch|]. split.
  - rewrite (duplicate_events_app id s3 s4 _ L4).
    rewrite (duplicate_events_app id s2 s3 _ L3).
    rewrite (same_lists_duplicates id s1 s2) by now rewrite R2.
    rewrite (duplicate_events_app id s s1 _ L1). cbn. lia.
  - rewrite F4, F3, F2, F1. rewrite <- !List.app_assoc. reflexivity.
Qed.

Lemma handled_strings (self : t) (id : string) (s s' : Sys) :
  strings (rdb s') = strings (rdb s) -> handled self id s -> handled self id s'.
Proof. unfold handled, string_at. now intros ->. Qed.

(** Once the message is handled, every further delivery is a duplicate. *)
Lemma repeated_duplicates (self : t) (envelope message : dict) (a mx : Z) (flag : value) :
  accepted self envelope message a mx flag ->
  truthy flag = false ->
  forall (n : nat) (s : Sys),
    handled self (id_of message) s ->
    exists s',
      deliveries self envelope n s = (Ok tt, s') /\
      strings (rdb s') = strings (rdb s) /\
      duplicate_events (id_of message) s' = (duplicate_events (id_of message) s + n)%nat.
Proof.
  intros Hacc Hflag. induction n as [|n IH]; intros s Hh.
  - exists s. split; [reflexivity|]. split; [reflexivity|lia].
  - pose proof Hh as [[v Hv] [_ Hc]].
    destruct (duplicate_delivery self envelope message a mx flag s v Hacc Hflag Hv
                (or_intror Hc)) as [s1 [r [d [E1 [S1 [_ [D1 _]]]]]]].
    destruct (IH s1 (handled_strings _ _ _ _ S1 Hh)) as [s2 [E2 [S2 D2]]].
    exists s2. cbn [deliveries]. step_with E1. split; [exact E2|].
    split; [congruence|]. rewrite D2, D1. lia.
Qed.

(** A message that asks for a failure never gets the side-effect key. *)
Lemma force_error_keeps_side_effect (self : t) (envelope message : dict) (a mx : Z)
  (flag : value) :
  accepted self envelope message a mx flag ->
  truthy flag = true ->
  forall (n : nat) (s : Sys),
    exists s',
      deliveries self envelope n s = (Ok tt, s') /\
      string_at (side_effect_key self (id_of message)) s'
      = string_at (side_effect_key self (id_of message)) s /\
      string_at (idempotency_key self (id_of message)) s'
      = string_at (idempotency_key self (id_of message)) s.
Proof.
  intros Hacc Hflag. induction n as [|n IH]; intros s.
  - exists s. auto.
  - destruct (worker_keys_distinct self (id_of message)) as [K1 [K3 K4]].
    destruct (Z.lt_ge_cases (a + 1) mx) as [Hlt|Hge].
    + destruct (retry_delivery self envelope message a mx flag s Hacc Hflag Hlt)
        as [s1 [E1 [_ [_ [_ [_ [_ [S1 _]]]]]]]].
      destruct (IH s1) as [s2 [E2 [K2 I2]]].
      exists s2. cbn [deliveries]. step_with E1. split; [exact E2|].
      rewrite K2, I2. unfold string_at. now rewrite S1.
    + destruct (dead_letter_delivery self envelope message a mx flag s Hacc Hflag Hge)
        as [s1 [r [d [E1 [_ [_ [_ [_ [_ [_ [_ [S1 _]]]]]]]]]]]].
      destruct (IH s1) as [s2 [E2 [K2 I2]]].
      exists s2. cbn [deliveries]. step_with E1. split; [exact E2|].
      rewrite K2, I2. unfold string_at.
      rewrite S1. rewrite !lookup_insert_ne by congruence. auto.
Qed.

(** C2, as the code has it.  For a message that the worker accepts and
    that does not ask for a failure: the first delivery (the idempotency
    key is free) sets the idempotency key and the side-effect key to 1,
    does the work, caches the response and posts it, not as a duplicate;
    a delivery that finds the idempotency key taken writes no Redis string,
    answers with the cached response (an [E_NODE_ERROR] when nothing is
    cached), records one [duplicate_delivery] event and posts its result as
    a duplicate; so after one delivery and any number of further ones the
    side-effect key is 1 and each further delivery left one
    [duplicate_delivery] event.  For a message that asks for a failure, no
    delivery touches the side-effect key or the idempotency key. *)
Theorem C2_side_effect_key_is_set_once :
  forall (self : t) (envelope message : dict) (attempt max_attempts : Z) (flag : value),
    accepted self envelope message attempt max_attempts flag ->
    let id := id_of message in
    (truthy flag = false ->
       (forall s,
          string_at (idempotency_key self id) s = None ->
          exists s' response details before,
            process_delivery self (VDict envelope) s = (Ok tt, s') /\
            strings (rdb s')
            = <[cached_response_key self id := Json (VDict response)]>
                (<[side_effect_key self id := Text "1"]>
                   (<[idempotency_key self id := Text "1"]> (strings (rdb s)))) /\
            handled self id s' /\
            duplicate_events id s' = duplicate_events id s /\
            effects s' = before ++ [posted self id response attempt false false;
                                    logged id "worker_result" details]) /\
       (forall s v,
          string_at (idempotency_key self id) s = Some v ->
          (string_at (cached_response_key self id) s = None \/
           exists r, string_at (cached_response_key self id) s = Some (Json (VDict r))) ->
          exists s' response details,
            process_delivery self (VDict envelope) s = (Ok tt, s') /\
            strings (rdb s') = strings (rdb s) /\
            match string_at (cached_response_key self id) s with
            | Some cached => cached = Json (VDict response)
            | None => is_error "E_NODE_ERROR" response
            end /\
            duplicate_events id s' = Datatypes.S (duplicate_events id s) /\
            effects s' = effects s ++
                         [logged id "worker_received"
                            [("node_id", VStr (NODE_ID self)); ("attempt", VInt attempt)];
                          logged id "duplicate_delivery"
                            [("node_id", VStr (NODE_ID self)); ("attempt", VInt attempt)];
                          posted self id response attempt true false;
                          logged id "worker_result" details]) /\
       (forall s n,
          string_at (idempotency_key self id) s = None ->
          exists s',
            deliveries self envelope (Datatypes.S n) s = (Ok tt, s') /\
            string_at (side_effect_key self id) s' = Some (Text "1") /\
            duplicate_events id s' = (duplicate_events id s + n)%nat)) /\
    (truthy flag = true ->
       forall s n,
         exists s',
           deliveries self envelope n s = (Ok tt, s') /\
           string_at (side_effect_key self id) s' = string_at (side_effect_key self id) s /\
           string_at (idempotency_key self id) s'
           = string_at (idempotency_key self id) s).
Proof.
  intros self envelope message a mx flag Hacc id. split.
  - intros Hflag. split; [|split].
    + intros s Hnew. exact (first_delivery self envelope message a mx flag s Hacc Hflag Hnew).
    + intros s v Hold Hc.
      exact (duplicate_delivery self envelope message a mx flag s v Hacc Hflag Hold Hc).
    + intros s n Hnew.
      destruct (first_delivery self envelope message a mx flag s Hacc Hflag Hnew)
        as [s1 [r [d [b [E1 [S1 [Hh [D1 _]]]]]]]].
      destruct (repeated_duplicates self envelope message a mx flag Hacc Hflag n s1 Hh)
        as [s2 [E2 [S2 D2]]].
      exists s2. cbn [deliveries]. step_with E1. split; [exact E2|]. split.
      * destruct Hh as [_ [Hside _]]. unfold string_at in *. now rewrite S2.
      * fold id in D1, D2. rewrite D2, D1. reflexivity.
  - intros Hflag s n.
    exact (force_error_keeps_side_effect self envelope message a mx flag Hacc Hflag n s).
Qed.

End Pipeline.

Section PipelineExamples.

Import Bdp RouterHandler EchoWorker.

Lemma failing_request_accepted (a : Z) :
  accepted default_worker
    (retry_envelope default_worker failing_request a 3) failing_request a 3 (VBool true).
Proof. constructor; try reflexivity. discriminate. Qed.

Lemma plain_request_accepted :
  accepted default_worker (envelope_of plain_request) plain_request 0 3 (VBool false).
Proof. constructor; try reflexivity. discriminate. Qed.

(** Scenario S5: the request asks for a failure.  The router queues it, the
    worker gets it three times, and the final state is dlq with an
    [E_NODE_TIMEOUT] response cached; nothing waits in the echo queue and
    one entry is in the dead-letter queue. *)
Example pipeline_dead_letters :
  let s := snd (pipeline failing_request 5 boot) in
  fst (pipeline failing_request 5 boot) = Ok tt /\
  status_state "m-1" s = Some (Text "dlq") /\
  event_names "m-1" s
  = [VStr "route_enqueued";
     VStr "worker_received"; VStr "retry_scheduled";
     VStr "worker_received"; VStr "retry_scheduled";
     VStr "worker_received"; VStr "worker_dead_lettered"; VStr "worker_result"] /\
  queue_of QUEUE_ECHO s = [] /\
  length (queue_of QUEUE_ECHO_DLQ s) = 1%nat /\
  match string_at (cached_response_key default_worker "m-1") s with
  | Some (Json (VDict e)) => error_code e = VStr E_NODE_TIMEOUT
  | _ => False
  end.
Proof. vm_compute. repeat split. Qed.


(** The request that asks for a failure went through the router and was
    delivered three times; the side-effect key was never set, and the
    debug endpoint counts no side effect. *)
Lemma C2_counterexample :
  let s := snd (pipeline failing_request 5 boot) in
  fst (pipeline failing_request 5 boot) = Ok tt /\
  length (List.filter (fun e => eq_str (vget "event" e) "worker_received")
            (events_of "m-1" s)) = 3%nat /\
  string_at (side_effect_key default_worker "m-1") s = None /\
  fst (_handle_debug_idempotency "m-1" s)
  = Ok (200, [("ok", VBool true); ("message_id", VStr "m-1");
              ("side_effect_count", VInt 0); ("duplicate_event_count", VInt 0)]).
Proof. vm_compute. repeat split. Qed.

(** A plain request delivered three times: the side-effect key is 1 and
    the two further deliveries left two [duplicate_delivery] events. *)
Lemma C2_side_effect_witness :
  exists s',
    deliveries default_worker (envelope_of plain_request) 3 boot = (Ok tt, s') /\
    string_at (side_effect_key default_worker "m-2") s' = Some (Text "1") /\
    duplicate_events "m-2" s' = 2%nat.
Proof.
  destruct (proj2 (proj2 (proj1 (C2_side_effect_key_is_set_once
                                   default_worker (envelope_of plain_request)
                                   plain_request 0 3 (VBool false)
                                   plain_request_accepted) eq_refl))
              boot 2%nat eq_refl)
    as [s' [E [K D]]].
  exists s'. split; [exact E|]. split; [exact K|exact D].
Defined.

(** The third delivery of the failing request: the next attempt is the
    maximum, and the router records dlq. *)
Lemma C7_retries_witness :
  (exists s',
     process_delivery default_worker
       (VDict (retry_envelope default_worker failing_request 0 3)) boot = (Ok tt, s') /\
     queue_of QUEUE_ECHO s' = [retry_envelope default_worker failing_request 1 3]) /\
  (exists s',
     process_delivery default_worker
       (VDict (retry_envelope default_worker failing_request 2 3)) boot = (Ok tt, s') /\
     status_state "m-1" s' = Some (Text "dlq")).
Proof.
  split.
  - destruct (C7_retries_then_dead_letter default_worker
                (retry_envelope default_worker failing_request 0 3) failing_request
                0 3 (VBool true) boot (failing_request_accepted 0) eq_refl)
      as [s' [E [Hretry _]]].
    destruct (Hretry eq_refl) as [_ [_ [Q _]]].
    exists s'. split; [exact E|exact Q].
  - destruct (C7_retries_then_dead_letter default_worker
                (retry_envelope default_worker failing_request 2 3) failing_request
                2 3 (VBool true) boot (failing_request_accepted 2) eq_refl)
      as [s' [E [_ Hdlq]]].
    assert (Hge : 3 <= 2 + 1) by (intros H; discriminate H).
    destruct (Hdlq Hge) as [r [d [_ [_ [_ [_ [_ [_ [_ [_ St]]]]]]]]]].
    exists s'. split; [exact E|exact St].
Defined.

End PipelineExamples.

(** * Further properties of the sources *)

(** ** Text *)

Section Text.

(** A text without white space at its head is its own [lstrip]. *)
Lemma lstrip_fixed (s : string) : space_len s = 0%nat -> lstrip s = s.
Proof. intros H. destruct s as [|c s]; [reflexivity|]. cbn [lstrip]. now rewrite H. Qed.

Lemma space_len_cases (s : string) :
  space_len s = 0%nat \/
  (exists c s0, s = String c s0 /\ space_len s = 1%nat) \/
  (exists c0 c1 s1, s = String c0 (String c1 s1) /\ space_len s = 2%nat) \/
  (exists c0 c1 c2 s2, s = String c0 (String c1 (String c2 s2)) /\ space_len s = 3%nat).
Proof.
  destruct s as [|c0 s0]; [now left|]. unfold space_len. cbv zeta.
  destruct (byte_of c0 <? 128).
  { destruct (is_space (byte_of c0)); [right; left; eauto|now left]. }
  destruct s0 as [|c1 s1]; [now left|].
  destruct (code2 (byte_of c0) (byte_of c1)) as [c|].
  { destruct (is_space c); [right; right; left; eauto 6|now left]. }
  destruct s1 as [|c2 s2]; [now left|].
  destruct (code3 (byte_of c0) (byte_of c1) (byte_of c2)) as [c|]; [|now left].
  destruct (is_space c); [right; right; right; eauto 8|now left].
Qed.

(** White space at the head of a text stays at the head of a longer one. *)
Lemma space_len_app (a b : string) :
  space_len a <> 0%nat -> space_len (a +:+ b) = space_len a.
Proof.
  destruct a as [|c0 [|c1 [|c2 a2]]]; [intros H; now contradiction H| | |];
    change (String c0 ?x +:+ b) with (String c0 (x +:+ b));
    unfold space_len; cbv zeta;
    (destruct (byte_of c0 <? 128); [reflexivity|]).
  - intros H; now contradiction H.
  - change (String c1 EmptyString +:+ b) with (String c1 b). cbv beta iota.
    destruct (code2 (byte_of c0) (byte_of c1)) as [c|]; [reflexivity|].
    intros H; now contradiction H.
  - change (String c1 (String c2 a2) +:+ b) with (String c1 (String c2 (a2 +:+ b))).
    cbv beta iota. reflexivity.
Qed.

Lemma lstrip_length (s : string) : (String.length (lstrip s) <= String.length s)%nat.
Proof.
  remember (String.length s) as n eqn:Hn. revert s Hn.
  induction n as [n IH] using lt_wf_ind. intros s ->.
  destruct (space_len_cases s)
    as [H|[[c [s0 [-> H]]]|[[c0 [c1 [s1 [-> H]]]]|[c0 [c1 [c2 [s2 [-> H]]]]]]]].
  - now rewrite lstrip_fixed.
  - cbn [lstrip]. rewrite H. cbn [String.length].
    specialize (IH (String.length s0) ltac:(cbn; lia) s0 eq_refl). lia.
  - cbn [lstrip]. rewrite H. cbn [String.length].
    specialize (IH (String.length s1) ltac:(cbn; lia) s1 eq_refl). lia.
  - cbn [lstrip]. rewrite H. cbn [String.length].
    specialize (IH (String.length s2) ltac:(cbn; lia) s2 eq_refl). lia.
Qed.

(** [lstrip] leaves no white space at the head. *)
Lemma lstrip_head (s : string) : space_len (lstrip s) = 0%nat.
Proof.
  remember (String.length s) as n eqn:Hn. revert s Hn.
  induction n as [n IH] using lt_wf_ind. intros s ->.
  destruct (space_len_cases s)
    as [H|[[c [s0 [-> H]]]|[[c0 [c1 [s1 [-> H]]]]|[c0 [c1 [c2 [s2 [-> H]]]]]]]].
  - now rewrite lstrip_fixed.
  - cbn [lstrip]. rewrite H. apply (IH (String.length s0)); [cbn; lia|reflexivity].
  - cbn [lstrip]. rewrite H. apply (IH (String.length s1)); [cbn; lia|reflexivity].
  - cbn [lstrip]. rewrite H. apply (IH (String.length s2)); [cbn; lia|reflexivity].
Qed.

(** White space before a text does not count. *)
Lemma lstrip_app (a b : string) :
  lstrip a = EmptyString -> lstrip (a +:+ b) = lstrip b.
Proof.
  remember (String.length a) as n eqn:Hn. revert a Hn.
  induction n as [n IH] using lt_wf_ind. intros a -> Ha.
  destruct (space_len_cases a)
    as [H|[[c [s0 [-> H]]]|[[c0 [c1 [s1 [-> H]]]]|[c0 [c1 [c2 [s2 [-> H]]]]]]]].
  - rewrite lstrip_fixed in Ha by exact H. now subst a.
  - pose proof (space_len_app (String c s0) b ltac:(rewrite H; discriminate)) as Hb.
    cbn [lstrip] in Ha. rewrite H in Ha.
    change (String c s0 +:+ b) with (String c (s0 +:+ b)) in *.
    cbn [lstrip]. rewrite Hb, H.
    apply (IH (String.length s0)); [cbn; lia|reflexivity|exact Ha].
  - pose proof (space_len_app (String c0 (String c1 s1)) b
                  ltac:(rewrite H; discriminate)) as Hb.
    cbn [lstrip] in Ha. rewrite H in Ha.
    change (String c0 (String c1 s1) +:+ b) with (String c0 (String c1 (s1 +:+ b))) in *.
    cbn [lstrip]. rewrite Hb, H.
    apply (IH (String.length s1)); [cbn; lia|reflexivity|exact Ha].
  - pose proof (space_len_app (String c0 (String c1 (String c2 s2))) b
                  ltac:(rewrite H; discriminate)) as Hb.
    cbn [lstrip] in Ha. rewrite H in Ha.
    change (String c0 (String c1 (String c2 s2)) +:+ b)
      with (String c0 (String c1 (String c2 (s2 +:+ b)))) in *.
    cbn [lstrip]. rewrite Hb, H.
    apply (IH (String.length s2)); [cbn; lia|reflexivity|exact Ha].
Qed.

(** What [rstrip] drops is white space. *)
Lemma rstrip_tail (s : string) :
  exists tl, s = rstrip s +:+ tl /\ lstrip tl = EmptyString.
Proof.
  induction s as [|c s IH]; [exists EmptyString; auto|].
  cbn [rstrip]. destruct (String.eqb_spec (lstrip (String c s)) EmptyString) as [E|E].
  - exists (String c s). auto.
  - destruct IH as [tl [Hs Ht]]. exists tl. split; [|exact Ht].
    change (String c (rstrip s) +:+ tl) with (String c (rstrip s +:+ tl)).
    now rewrite <- Hs.
Qed.

Lemma rstrip_idem (s : string) : rstrip (rstrip s) = rstrip s.
Proof.
  induction s as [|c s IH]; [reflexivity|]. cbn [rstrip].
  destruct (String.eqb_spec (lstrip (String c s)) EmptyString) as [E|E]; [reflexivity|].
  cbn [rstrip]. rewrite IH.
  destruct (String.eqb_spec (lstrip (String c (rstrip s))) EmptyString) as [F|F];
    [|reflexivity].
  exfalso. apply E. destruct (rstrip_tail s) as [tl [Hs Ht]].
  rewrite Hs at 1. change (String c (rstrip s +:+ tl)) with (String c (rstrip s) +:+ tl).
  now rewrite (lstrip_app _ _ F).
Qed.

(** [rstrip] brings no white space to the head. *)
Lemma rstrip_head (s : string) : space_len s = 0%nat -> space_len (rstrip s) = 0%nat.
Proof.
  intros H. destruct (rstrip_tail s) as [tl [Hs _]].
  destruct (Nat.eq_dec (space_len (rstrip s)) 0%nat) as [E|E]; [exact E|].
  pose proof (space_len_app (rstrip s) tl E) as Ha. rewrite <- Hs in Ha. congruence.
Qed.

(** [s.strip().strip() == s.strip()] *)
Lemma strip_idem (s : string) : strip (strip s) = strip s.
Proof.
  unfold strip.
  rewrite (lstrip_fixed (rstrip (lstrip s))) by apply rstrip_head, lstrip_head.
  apply rstrip_idem.
Qed.

Lemma strip_empty_iff_idem (s : string) :
  String.eqb (strip (strip s)) EmptyString = String.eqb (strip s) EmptyString.
Proof. now rewrite strip_idem. Qed.

End Text.

(** ** persistence.py *)

Section PersistenceMore.

Import Persistence.

(** Scrubbing twice is scrubbing once. *)
Lemma scrub_twice (v : value) :
  _scrub_sensitive (_scrub_sensitive v) = _scrub_sensitive v.
Proof.
  induction v as [| b | z | s | l IH | d IH] using value_ind'; simpl; auto; f_equal.
  - induction IH as [|x l Hx _ IHl]; simpl; auto. now rewrite Hx, IHl.
  - induction IH as [|[k x] d Hx _ IHd]; simpl in *; auto.
    rewrite IHd. f_equal. f_equal. destruct (sensitive k); [reflexivity|exact Hx].
Qed.

(** X1: what [load_state] returns after [save_state] is the scrubbed
    value, whatever was there before; the other state files are as they
    were; and saving what was loaded changes nothing any more. *)
Theorem save_then_load (name : string) (v fallback : value) (w : World) :
  exists w',
    save_state name v w = (Ok tt, w') /\
    load_state name fallback w' = (Ok (_scrub_sensitive v), w') /\
    (forall other, other <> name ->
                   load_state other fallback w' = (fst (load_state other fallback w), w')) /\
    save_state name (_scrub_sensitive v) w' = (Ok tt, w') /\
    logs w' = logs w.
Proof.
  eexists. split; [reflexivity|]. unfold load_state, save_state, gets, modify.
  cbn [state_files set_state_files logs fst]. split; [|split; [|split]].
  - now rewrite lookup_insert_eq.
  - intros other Hne. now rewrite lookup_insert_ne by congruence.
  - rewrite scrub_twice, insert_insert_eq. reflexivity.
  - reflexivity.
Qed.

End PersistenceMore.

(** ** protocol.py *)

Section ProtocolMore.

Import NodeRegistry RouterCore.

Lemma dget_ensure_extensions (k : string) (m : dict) :
  k <> "extensions" -> dget k (Protocol.ensure_extensions m) = dget k m.
Proof.
  intros Hk. unfold Protocol.ensure_extensions.
  destruct (dget "extensions" m) as [[| | | | |]|]; try reflexivity;
    now rewrite dget_dset_other by congruence.
Qed.

Lemma vget_ensure_extensions (m : dict) :
  traceable m = true ->
  vget "extensions" (Protocol.ensure_extensions m) = VDict (extensions_of m).
Proof.
  unfold traceable, Protocol.ensure_extensions, extensions_of.
  destruct (dget "extensions" m) as [[| | | | |e]|] eqn:E; try discriminate; intros _;
    try (now rewrite vget_dset_same).
  unfold vget, dget_or. now rewrite E.
Qed.

(** [ensure_trace] on a message it can trace: it returns, the depth goes up
    by one, the hop (if any) goes to the end of the path, and nothing else
    of the message changes. *)
Lemma ensure_trace_run (m : dict) (parent : value) (hop : option string) :
  traceable m = true ->
  exists out d p,
    Protocol.ensure_trace m parent hop = Ok out /\
    Py.int (inbound_depth m) = Ok d /\
    dget_or "path" (VList []) (trace_of m) = VList p /\
    trace_depth out = VInt (d + 1) /\
    dget "path" (trace_of out)
    = Some (VList (p ++ match Protocol.hop_given hop with
                        | Some h => [VStr h]
                        | None => []
                        end)) /\
    vget "parent_message_id" (trace_of out)
    = dget_or "parent_message_id"
        (py_or parent (vget "message_id" m)) (trace_of m) /\
    (forall k, k <> "extensions" -> dget k out = dget k m) /\
    dget "extensions" out = Some (VDict (extensions_of out)) /\
    dget "trace" (extensions_of out) = Some (VDict (trace_of out)) /\
    (forall k, k <> "trace" -> dget k (extensions_of out) = dget k (extensions_of m)).
Proof.
  intros Ht. unfold Protocol.ensure_trace.
  rewrite (vget_ensure_extensions m Ht).
  assert (Hid : vget "message_id" (Protocol.ensure_extensions m) = vget "message_id" m).
  { unfold vget, dget_or. now rewrite dget_ensure_extensions by discriminate. }
  rewrite Hid. clear Hid.
  set (parent' := py_or parent (vget "message_id" m)).
  set (ext := extensions_of m).
  set (default := VDict [("parent_message_id", parent'); ("depth", VInt 0);
                         ("path", VList [])]).
  unfold vget at 1. unfold dget_or at 1. rewrite dget_dsetdefault_same.
  assert (Htrace : exists t0,
            dget_or "trace" default ext = VDict t0 /\
            dget_or "depth" (VInt 0) t0 = inbound_depth m /\
            dget_or "path" (VList []) t0 = dget_or "path" (VList []) (trace_of m) /\
            dget_or "parent_message_id" parent' t0
            = dget_or "parent_message_id" parent' (trace_of m) /\
            exists d p, Py.int (inbound_depth m) = Ok d /\
                        dget_or "path" (VList []) (trace_of m) = VList p).
  { unfold inbound_depth, trace_of, dict_at. fold ext.
    unfold traceable in Ht. unfold ext, extensions_of in *.
    destruct (dget "extensions" m) as [[| | | | |e]|]; try discriminate;
      try (exists [("parent_message_id", parent'); ("depth", VInt 0); ("path", VList [])];
           cbn; split; [reflexivity|]; split; [reflexivity|]; split; [reflexivity|];
           split; [reflexivity|]; exists 0, []; split; reflexivity).
    unfold dget_or at 1.
    destruct (dget "trace" e) as [[| | | | |t]|]; try discriminate.
    - exists t. split; [reflexivity|]. split; [reflexivity|]. split; [reflexivity|].
      split; [reflexivity|].
      destruct (Py.int (dget_or "depth" (VInt 0) t)) as [d|]; [|discriminate].
      destruct (dget_or "path" (VList []) t) as [| | | |p|]; try discriminate.
      exists d, p. auto.
    - exists [("parent_message_id", parent'); ("depth", VInt 0); ("path", VList [])].
      cbn. split; [reflexivity|]. split; [reflexivity|]. split; [reflexivity|].
      split; [reflexivity|]. exists 0, []. split; reflexivity. }
  destruct Htrace as [t0 [E0 [Hd [Hp [Hq [d [p [Ed Ep]]]]]]]].
  rewrite E0.
  set (t1 := dsetdefault "parent_message_id" parent' t0).
  set (t2 := dsetdefault "depth" (VInt 0) t1).
  set (t3 := dsetdefault "path" (VList []) t2).
  assert (H3d : vget "depth" t3 = inbound_depth m).
  { unfold vget, dget_or at 1, t3. rewrite dget_dsetdefault_other by discriminate.
    unfold t2. rewrite dget_dsetdefault_same. rewrite <- Hd. unfold dget_or, t1.
    now rewrite dget_dsetdefault_other by discriminate. }
  assert (H3p : dget "path" t3 = Some (VList p)).
  { unfold t3. rewrite dget_dsetdefault_same. rewrite <- Ep, <- Hp.
    f_equal. unfold dget_or, t2, t1.
    now rewrite !dget_dsetdefault_other by discriminate. }
  assert (H3q : vget "parent_message_id" t3
                = dget_or "parent_message_id" parent' (trace_of m)).
  { rewrite <- Hq. unfold vget, dget_or at 1, t3, t2.
    rewrite !dget_dsetdefault_other by discriminate.
    unfold t1. now rewrite dget_dsetdefault_same. }
  rewrite H3d, Ed. clearbody t3. clear t1 t2.
  set (t4 := dset "depth" (VInt (d + 1)) t3).
  assert (H4p : vget "path" t4 = VList p).
  { unfold vget, dget_or, t4. rewrite dget_dset_other by discriminate. now rewrite H3p. }
  assert (Hfinish : forall t5,
    vget "depth" t5 = VInt (d + 1) ->
    vget "parent_message_id" t5 = dget_or "parent_message_id" parent' (trace_of m) ->
    let out := dset "extensions"
                 (VDict (dset "trace" (VDict t5) (dsetdefault "trace" default ext)))
                 (Protocol.ensure_extensions m) in
    trace_depth out = VInt (d + 1) /\
    trace_of out = t5 /\
    vget "parent_message_id" (trace_of out)
    = dget_or "parent_message_id" parent' (trace_of m) /\
    (forall k, k <> "extensions" -> dget k out = dget k m) /\
    dget "extensions" out = Some (VDict (extensions_of out)) /\
    dget "trace" (extensions_of out) = Some (VDict (trace_of out)) /\
    (forall k, k <> "trace" -> dget k (extensions_of out) = dget k (extensions_of m))).
  { intros t5 H5d H5q out.
    assert (Hext : extensions_of out
                   = dset "trace" (VDict t5) (dsetdefault "trace" default ext)).
    { unfold out. apply extensions_of_dset. }
    assert (Htr : trace_of out = t5).
    { unfold trace_of, dict_at. rewrite Hext. now rewrite dget_dset_same. }
    unfold trace_depth. rewrite Htr.
    split; [exact H5d|]. split; [reflexivity|]. split; [exact H5q|].
    split; [|split; [|split]].
    - intros k Hk. unfold out. rewrite dget_dset_other by congruence.
      now apply dget_ensure_extensions.
    - unfold out at 1. rewrite dget_dset_same. now rewrite Hext.
    - rewrite Hext. now rewrite dget_dset_same.
    - intros k Hk. rewrite Hext. rewrite dget_dset_other by congruence.
      now rewrite dget_dsetdefault_other by congruence. }
  destruct (Protocol.hop_given hop) as [h|].
  - rewrite H4p. eexists. exists d, p. split; [reflexivity|].
    split; [reflexivity|]. split; [exact Ep|].
    destruct (Hfinish (dset "path" (VList (p ++ [VStr h])) t4))
      as [A [B [C [D [E [F G]]]]]].
    { rewrite vget_dset_other by discriminate. apply vget_dset_same. }
    { rewrite vget_dset_other by discriminate. unfold t4.
      now rewrite vget_dset_other by discriminate. }
    split; [exact A|]. split; [now rewrite B, dget_dset_same|]. auto.
  - eexists. exists d, p. split; [reflexivity|].
    split; [reflexivity|]. split; [exact Ep|].
    destruct (Hfinish t4) as [A [B [C [D [E [F G]]]]]].
    { apply vget_dset_same. }
    { unfold t4. now rewrite vget_dset_other by discriminate. }
    split; [exact A|]. split; [|auto].
    rewrite B, app_nil_r. unfold t4. now rewrite dget_dset_other by discriminate.
Qed.

Lemma vget_some (k : string) (d : dict) (x : value) :
  dget k d = Some x -> vget k d = x.
Proof. unfold vget, dget_or. now intros ->. Qed.

Lemma vget_not_none (k : string) (d : dict) (x : value) :
  vget k d = x -> x <> VNone -> dget k d = Some x.
Proof.
  unfold vget, dget_or. destruct (dget k d); [now intros ->|].
  intros <- H. now contradiction H.
Qed.

(** A message [ensure_trace] cannot trace makes it raise, when a hop is
    given. *)
Lemma ensure_trace_raises (m : dict) (parent : value) (h : string) :
  h <> EmptyString ->
  traceable m = false ->
  exists e, Protocol.ensure_trace m parent (Some h) = Raise e.
Proof.
  intros Hh Ht. unfold Protocol.ensure_trace, Protocol.hop_given.
  destruct (String.eqb_spec h EmptyString) as [|_]; [contradiction|].
  unfold traceable in Ht. unfold Protocol.ensure_extensions.
  set (parent' := py_or parent _). clearbody parent'.
  destruct (dget "extensions" m) as [[| | | | |e]|] eqn:E; try discriminate;
    try (unfold vget at 1; unfold dget_or at 1; rewrite E; eauto).
  unfold vget at 1. unfold dget_or at 1. rewrite dget_dsetdefault_same.
  unfold dget_or at 1.
  destruct (dget "trace" e) as [[| | | | |t]|]; try discriminate; eauto.
  set (t1 := dsetdefault "parent_message_id" parent' t).
  assert (Hd : vget "depth" (dsetdefault "path" (VList []) (dsetdefault "depth" (VInt 0) t1))
               = dget_or "depth" (VInt 0) t).
  { unfold vget, dget_or at 1. rewrite dget_dsetdefault_other by discriminate.
    rewrite dget_dsetdefault_same. unfold dget_or, t1.
    now rewrite dget_dsetdefault_other by discriminate. }
  rewrite Hd.
  destruct (Py.int (dget_or "depth" (VInt 0) t)) as [d|exc]; [|eauto].
  rewrite vget_dset_other by discriminate.
  assert (Hp : vget "path" (dsetdefault "path" (VList []) (dsetdefault "depth" (VInt 0) t1))
               = dget_or "path" (VList []) t).
  { unfold vget, dget_or at 1. rewrite dget_dsetdefault_same. unfold dget_or, t1.
    now rewrite !dget_dsetdefault_other by discriminate. }
  rewrite Hp.
  destruct (dget_or "path" (VList []) t) as [| | | |p|]; try discriminate; eauto.
Qed.

Lemma traceable_after (m out : dict) (parent : value) (h : string) :
  traceable m = true ->
  Protocol.ensure_trace m parent (Some h) = Ok out ->
  traceable out = true.
Proof.
  intros Ht E.
  destruct (ensure_trace_run m parent (Some h) Ht)
    as [out' [d [p [E' [_ [_ [Hd [Hp [_ [_ [Hx [Htr _]]]]]]]]]]]].
  rewrite E in E'. injection E' as <-.
  unfold traceable. rewrite Hx, Htr.
  unfold dget_or. rewrite Hp.
  rewrite (vget_not_none "depth" (trace_of out) (VInt (d + 1)) Hd) by discriminate.
  reflexivity.
Qed.

(** X2: two hops in a row.  A message that can be traced can be traced
    again: the depth has gone up by two, both hops stand at the end of the
    path in the order they were added, the parent recorded first is kept,
    and the fields of the message other than [extensions] are untouched.  A
    message that cannot be traced makes [ensure_trace] raise. *)
Theorem ensure_trace_composes (m : dict) (parent parent' : value) (h1 h2 : string) :
  h1 <> EmptyString -> h2 <> EmptyString ->
  if traceable m then
    exists m1 m2 d,
      Protocol.ensure_trace m parent (Some h1) = Ok m1 /\
      Protocol.ensure_trace m1 parent' (Some h2) = Ok m2 /\
      Py.int (inbound_depth m) = Ok d /\
      trace_depth m2 = VInt (d + 2) /\
      trace_path m2 = trace_path m ++ [VStr h1; VStr h2] /\
      vget "parent_message_id" (trace_of m2) = vget "parent_message_id" (trace_of m1) /\
      (forall k, k <> "extensions" -> dget k m2 = dget k m)
  else exists e, Protocol.ensure_trace m parent (Some h1) = Raise e.
Proof.
  intros H1 H2. destruct (traceable m) eqn:Ht; [|now apply ensure_trace_raises].
  destruct (ensure_trace_run m parent (Some h1) Ht)
    as [m1 [d [p [E1 [Hd [Hp [Hd1 [Hp1 [Hq1 [Hk1 [Hx1 [Htr1 _]]]]]]]]]]]].
  pose proof (traceable_after m m1 parent h1 Ht E1) as Ht1.
  destruct (ensure_trace_run m1 parent' (Some h2) Ht1)
    as [m2 [d' [p' [E2 [Hd' [Hp' [Hd2 [Hp2 [Hq2 [Hk2 _]]]]]]]]]].
  exists m1, m2, d. split; [exact E1|]. split; [exact E2|]. split; [exact Hd|].
  assert (Hh1 : Protocol.hop_given (Some h1) = Some h1).
  { unfold Protocol.hop_given. now destruct (String.eqb_spec h1 EmptyString). }
  assert (Hh2 : Protocol.hop_given (Some h2) = Some h2).
  { unfold Protocol.hop_given. now destruct (String.eqb_spec h2 EmptyString). }
  rewrite Hh1 in Hp1. rewrite Hh2 in Hp2.
  assert (Ed' : d' = d + 1).
  { unfold inbound_depth, dget_or in Hd'.
    rewrite (vget_not_none "depth" (trace_of m1) (VInt (d + 1)) Hd1) in Hd'
      by discriminate.
    cbn in Hd'. now injection Hd' as <-. }
  assert (Ep' : p' = p ++ [VStr h1]).
  { unfold dget_or in Hp'. rewrite Hp1 in Hp'. now injection Hp' as <-. }
  split; [|split; [|split]].
  - rewrite Hd2, Ed'. f_equal. lia.
  - unfold trace_path at 1 2. unfold dget_or at 1. rewrite Hp2, Hp, Ep'.
    now rewrite <- List.app_assoc.
  - rewrite Hq2. unfold dget_or.
    destruct (dget "parent_message_id" (trace_of m1)) as [x|] eqn:Ex.
    + unfold vget, dget_or. now rewrite Ex.
    + exfalso. clear - Ht E1 Ex.
      unfold Protocol.ensure_trace in E1. revert E1.
      rewrite (vget_ensure_extensions m Ht).
      unfold vget at 1. unfold dget_or at 1. rewrite dget_dsetdefault_same.
      destruct (dget_or "trace" _ (extensions_of m)) as [| | | | |t0]; try discriminate.
      match goal with
      | |- context [Py.int ?x] => destruct (Py.int x) as [d0|]; [|discriminate]
      end.
      cbn [Protocol.hop_given].
      destruct (String.eqb h1 EmptyString).
      * intros [= <-]. revert Ex. unfold trace_of, dict_at.
        rewrite extensions_of_dset, dget_dset_same.
        rewrite dget_dset_other by discriminate.
        rewrite !dget_dsetdefault_other by discriminate.
        rewrite dget_dsetdefault_same. discriminate.
      * match goal with
        | |- context [match ?x with VList _ => _ | _ => _ end] => destruct x
        end; try discriminate.
        intros [= <-]. revert Ex. unfold trace_of, dict_at.
        rewrite extensions_of_dset, dget_dset_same.
        rewrite !dget_dset_other by discriminate.
        rewrite !dget_dsetdefault_other by discriminate.
        rewrite dget_dsetdefault_same. discriminate.
  - intros k Hk. now rewrite Hk2, Hk1.
Qed.

Lemma looks_like_bdp_valid (m : dict) : Bdp.looks_like_bdp (VDict m) = valid_core m.
Proof.
  unfold Bdp.looks_like_bdp, valid_core, Protocol.missing_field, vget, dget_or, dhas.
  cbn [find].
  destruct (dget "protocol_version" m) as [pv|]; cbn [negb]; [|reflexivity].
  destruct (dget "message_id" m) as [id|]; cbn [negb];
    [|now rewrite andb_false_r].
  destruct (dget "intent" m) as [i|]; cbn [negb];
    [|now rewrite andb_false_r].
  destruct (dget "payload" m) as [pl|]; cbn [negb]; [reflexivity|].
  now rewrite andb_false_r.
Qed.

(** X3: the two validators of a message agree.  [validate_core] returns
    nothing exactly for the values [looks_like_bdp] accepts (without drawing
    an identifier); for any other value it returns an error envelope with
    code [E_BAD_MESSAGE], which is itself a message both accept. *)
Theorem validators_agree {S : Type} `{Host S} (v : value) (s : S) :
  if Bdp.looks_like_bdp v
  then Protocol.validate_core v s = (Ok None, s)
  else exists e,
         Protocol.validate_core v s = (Ok (Some e), snd (draw_uuid s)) /\
         is_error E_BAD_MESSAGE e /\
         Bdp.looks_like_bdp (VDict e) = true /\
         Protocol.validate_core (VDict e) s = (Ok None, s).
Proof.
  assert (Hgood : forall e, Bdp.looks_like_bdp (VDict e) = true ->
                            Protocol.validate_core (VDict e) s = (Ok None, s)).
  { intros e He. apply validate_core_valid. now rewrite <- looks_like_bdp_valid. }
  destruct v as [| b | z | t | l | m];
    try (cbn [Bdp.looks_like_bdp];
         destruct (make_error_run E_BAD_MESSAGE "Message must be an object"
                     VNone false [] s) as [e [He [Hi [_ [_ [_ Hl]]]]]];
         exists e; split; [unfold Protocol.validate_core; now step_with He|]; auto).
  rewrite looks_like_bdp_valid. destruct (valid_core m) eqn:Hv.
  - now apply validate_core_valid.
  - unfold valid_core in Hv. unfold Protocol.validate_core. cbv zeta.
    assert (Hbad : forall text,
      exists e,
        bind (Protocol.make_error E_BAD_MESSAGE text (vget "message_id" m) false [])
          (fun e => ret (Some e)) s = (Ok (Some e), snd (draw_uuid s)) /\
        is_error E_BAD_MESSAGE e /\
        Bdp.looks_like_bdp (VDict e) = true /\
        Protocol.validate_core (VDict e) s = (Ok None, s)).
    { intros text.
      destruct (make_error_run E_BAD_MESSAGE text (vget "message_id" m) false [] s)
        as [e [He [Hi [_ [_ [_ Hl]]]]]].
      exists e. split; [now step_with He|]. auto. }
    destruct (Protocol.missing_field m); [apply Hbad|].
    destruct (is_str (vget "protocol_version" m)); [|apply Hbad].
    destruct (is_str (vget "message_id" m)); [|apply Hbad].
    destruct (is_str (vget "intent" m)); [|apply Hbad].
    destruct (is_dict (vget "payload" m)); [|apply Hbad].
    cbn [negb andb] in *.
    destruct (dget "extensions" m) as [[| | | | |]|]; try discriminate; apply Hbad.
Qed.

(** X4: what [make_error] builds.  It always returns: an envelope that
    passes validation, with intent [error], the given code, text, flag and
    details, and the identifier just drawn; with a parent it carries a
    trace of depth 1 with an empty path that names the parent, without one
    it carries no trace. *)
Theorem make_error_is_valid {S : Type} `{Host S} (code message : string) (parent : value)
  (retryable : bool) (details : dict) (s : S) :
  exists e,
    Protocol.make_error code message parent retryable details s
    = (Ok e, snd (draw_uuid s)) /\
    valid_core e = true /\
    vget "message_id" e = VStr (fst (draw_uuid s)) /\
    is_error code e /\
    vget "message" (error_of e) = VStr message /\
    vget "retryable" (error_of e) = VBool retryable /\
    vget "details" (error_of e) = VDict details /\
    if truthy parent
    then trace_depth e = VInt 1 /\ trace_path e = [] /\
         vget "parent_message_id" (trace_of e) = parent
    else trace_of e = [].
Proof.
  unfold Protocol.make_error, new_uuid, bind, is_error.
  destruct (draw_uuid s) as [u s'] eqn:E. cbn [fst snd].
  destruct (truthy parent) eqn:Hp.
  - cbn. unfold py_or. rewrite Hp. eexists. split; [reflexivity|].
    cbn. repeat split.
  - eexists. split; [reflexivity|]. cbn. repeat split.
Qed.

(** X5: what [make_response] builds.  With extensions that hold no trace
    it returns a message that passes validation, with the given intent and
    payload, the given extensions and, with a parent, a trace of depth 1
    with an empty path that names the parent.  With a parent and
    extensions whose trace is not a dictionary it raises. *)
Theorem make_response_is_valid {S : Type} `{Host S} (intent : string) (payload : dict)
  (parent : value) (ext : dict) (s : S) :
  (dget "trace" ext = None ->
   exists r,
     Protocol.make_response intent payload parent ext s = (Ok r, snd (draw_uuid s)) /\
     valid_core r = true /\
     vget "message_id" r = VStr (fst (draw_uuid s)) /\
     vget "intent" r = VStr intent /\
     vget "payload" r = VDict payload /\
     (forall k, k <> "trace" -> dget k (extensions_of r) = dget k ext) /\
     if truthy parent
     then trace_depth r = VInt 1 /\ trace_path r = [] /\
          vget "parent_message_id" (trace_of r) = parent
     else trace_of r = []) /\
  (forall v,
     dget "trace" ext = Some v -> is_dict v = false -> truthy parent = true ->
     exists e,
       Protocol.make_response intent payload parent ext s = (Raise e, snd (draw_uuid s))).
Proof.
  unfold Protocol.make_response, new_uuid, bind.
  destruct (draw_uuid s) as [u s'] eqn:E. cbn [fst snd].
  set (response0 := [("protocol_version", VStr PROTOCOL_VERSION); ("message_id", VStr u);
                     ("intent", VStr intent); ("payload", VDict payload)]).
  set (response := match ext with
                   | [] => response0
                   | _ :: _ => dset "extensions" (VDict ext) response0
                   end).
  assert (Hkeys : forall k, k <> "extensions" -> dget k response = dget k response0).
  { intros k Hk. unfold response. destruct ext; [reflexivity|].
    now rewrite dget_dset_other by congruence. }
  assert (Hext : extensions_of response = ext).
  { unfold response. destruct ext as [|kv ext']; [reflexivity|].
    apply extensions_of_dset. }
  assert (Hx : dget "extensions" response
               = match ext with [] => None | _ => Some (VDict ext) end).
  { unfold response. destruct ext as [|kv ext']; [reflexivity|].
    apply dget_dset_same. }
  split.
  - intros Hnone.
    assert (Hvalid : forall out,
              (forall k, k <> "extensions" -> dget k out = dget k response) ->
              (dget "extensions" out = None \/
               exists x, dget "extensions" out = Some (VDict x)) ->
              valid_core out = true /\ vget "message_id" out = VStr u /\
              vget "intent" out = VStr intent /\ vget "payload" out = VDict payload).
    { intros out Hk Ho.
      unfold valid_core, Protocol.missing_field, dhas, vget, dget_or. cbn [find].
      rewrite !Hk by discriminate. rewrite !Hkeys by discriminate. cbn.
      destruct Ho as [->|[x ->]]; auto. }
    destruct (truthy parent) eqn:Hp.
    + assert (Ht : traceable response = true).
      { unfold traceable. rewrite Hx. destruct ext; [reflexivity|]. now rewrite Hnone. }
      destruct (ensure_trace_run response parent None Ht)
        as [out [d [p [Eo [Hd [Hpp [Hd1 [Hp1 [Hq [Hk [Hxo [Htr Hrest]]]]]]]]]]]].
      assert (Htrace0 : trace_of response = []).
      { unfold trace_of, dict_at. rewrite Hext, Hnone. reflexivity. }
      unfold inbound_depth in Hd. rewrite Htrace0 in Hd, Hpp, Hq.
      cbn in Hd, Hpp, Hq. injection Hd as <-. injection Hpp as <-.
      exists out. unfold lift_res. rewrite Eo. split; [reflexivity|].
      destruct (Hvalid out Hk (or_intror (ex_intro _ _ Hxo))) as [V1 [V2 [V3 V4]]].
      split; [exact V1|]. split; [exact V2|]. split; [exact V3|]. split; [exact V4|].
      split; [intros k Hk'; rewrite Hrest by exact Hk'; now rewrite Hext|].
      split; [exact Hd1|]. split.
      * unfold trace_path, dget_or. now rewrite Hp1.
      * rewrite Hq. unfold py_or. now rewrite Hp.
    + exists response. split; [reflexivity|].
      destruct (Hvalid response (fun k _ => eq_refl)) as [V1 [V2 [V3 V4]]].
      { rewrite Hx. destruct ext; eauto. }
      split; [exact V1|]. split; [exact V2|]. split; [exact V3|]. split; [exact V4|].
      split; [intros k _; now rewrite Hext|].
      unfold trace_of, dict_at. rewrite Hext, Hnone. reflexivity.
  - intros v Hv Hd Hp. rewrite Hp. unfold lift_res, Protocol.ensure_trace.
    assert (Hne : ext <> []) by (intros ->; discriminate).
    assert (Hxe : vget "extensions" (Protocol.ensure_extensions response) = VDict ext).
    { unfold Protocol.ensure_extensions. rewrite Hx.
      destruct ext; [contradiction|]. apply vget_some. exact Hx. }
    rewrite Hxe. unfold vget at 1. unfold dget_or at 1.
    rewrite dget_dsetdefault_same. unfold dget_or at 1. rewrite Hv.
    destruct v; try discriminate; eauto.
Qed.

End ProtocolMore.

(** ** metadata.py *)

Section MetadataMore.

Import MetadataFromDict.

Lemma str_items_strings (l : list string) : str_items (VList (map VStr l)) = Ok l.
Proof.
  cbn [str_items]. f_equal. induction l as [|x l IH]; [reflexivity|].
  cbn. now rewrite IH.
Qed.

Lemma cap_from_to_dict (c : CapabilityMetadata) :
  cap_from_dict (cap_to_dict c) = Ok (cap_reload c).
Proof.
  unfold cap_from_dict, cap_to_dict, cap_reload, stripped.
  cbn [dget_or dget vget String.eqb Ascii.eqb Bool.eqb Py.str truthy].
  rewrite !str_items_strings.
  destruct (provider c) as [p|]; reflexivity.
Qed.

Lemma caps_from_to_dict (caps : list CapabilityMetadata) :
  caps_from (map (fun c => VDict (cap_to_dict c)) caps) = Ok (map cap_reload caps).
Proof.
  induction caps as [|c caps IH]; [reflexivity|].
  cbn [map caps_from]. now rewrite cap_from_to_dict, IH.
Qed.

Lemma cap_reload_idem (c : CapabilityMetadata) : cap_reload (cap_reload c) = cap_reload c.
Proof.
  unfold cap_reload.
  cbn [name description input_schema risk_class required_extensions approval_required
       examples idempotency side_effect_scope capability_version provider].
  rewrite !strip_idem. f_equal.
  - destruct (input_schema c); reflexivity.
  - destruct (provider c) as [p|]; [|reflexivity].
    destruct (String.eqb (strip p) EmptyString) eqn:E; [reflexivity|].
    now rewrite strip_idem, E.
Qed.

(** X6: a descriptor written out and read back.  [from_dict] of [to_dict]
    never raises; it gives the descriptor with its texts stripped (a
    provider that is blank becomes none, a schema that is not a dictionary
    becomes empty).  Doing it twice gives nothing new: the copy the
    registry hands out is a fixed point. *)
Theorem from_dict_to_dict (d : NodeDescriptor) :
  from_dict (to_dict d) = Ok (reload d) /\
  Forall2 (fun c c' => cap_from_dict (cap_to_dict c) = Ok c')
    (capabilities d) (capabilities (reload d)) /\
  from_dict (to_dict (reload d)) = Ok (reload d).
Proof.
  assert (H : forall x, from_dict (to_dict x) = Ok (reload x)).
  { intros x. unfold from_dict, to_dict, stripped.
    cbn [dget_or dget vget String.eqb Ascii.eqb Bool.eqb Py.str Py.int].
    now rewrite caps_from_to_dict, !str_items_strings. }
  split; [apply H|]. split.
  - cbn [reload capabilities]. induction (capabilities d) as [|c caps IH]; constructor; auto.
    apply cap_from_to_dict.
  - rewrite H. f_equal. unfold reload.
    cbn [node_id node_version endpoint_url supported_protocol_versions capabilities
         requires priority auth].
    rewrite !strip_idem. f_equal.
    rewrite map_map. apply map_ext. intros c. apply cap_reload_idem.
Qed.

Lemma split_on_nonempty (sep : ascii) (s : string) : split_on sep s <> [].
Proof.
  destruct s as [|c s]; [discriminate|]. cbn [split_on].
  destruct (Ascii.eqb c sep); [discriminate|]. destruct (split_on sep s); discriminate.
Qed.

Lemma split_on_token (sep : ascii) (a : string) :
  no_char sep a = true -> split_on sep a = [a].
Proof.
  induction a as [|c a IH]; [reflexivity|]. cbn [no_char split_on].
  intros H. apply andb_true_iff in H as [Hc Ha]. apply negb_true_iff in Hc.
  rewrite Hc, (IH Ha). reflexivity.
Qed.

Lemma split_on_cons (sep : ascii) (a b : string) :
  no_char sep a = true ->
  split_on sep (a +:+ String sep b) = a :: split_on sep b.
Proof.
  induction a as [|c a IH]; simpl.
  - intros _. now rewrite Ascii.eqb_refl.
  - intros H. apply andb_true_iff in H as [Hc Ha]. apply negb_true_iff in Hc.
    rewrite Hc, (IH Ha). reflexivity.
Qed.

(** X7: the components of a version.  Each of the first three components
    counts as its number, or as 0 when [int] refuses it; components that
    are missing count as 0 and those after the third are ignored. *)
Theorem parse_version_components (a b c rest : string) :
  no_char "." a = true -> no_char "." b = true -> no_char "." c = true ->
  parse_version a = (component a, 0, 0) /\
  parse_version (a +:+ "." +:+ b) = (component a, component b, 0) /\
  parse_version (a +:+ "." +:+ b +:+ "." +:+ c) = (component a, component b, component c) /\
  parse_version (a +:+ "." +:+ b +:+ "." +:+ c +:+ "." +:+ rest)
  = (component a, component b, component c).
Proof.
  intros Ha Hb Hc. unfold parse_version, component.
  assert (Hdot : forall x y, no_char "." x = true ->
                             split_on "." (x +:+ "." +:+ y) = x :: split_on "." y).
  { intros x y Hx. exact (split_on_cons "." x y Hx). }
  repeat split.
  - now rewrite (split_on_token _ a Ha).
  - now rewrite (Hdot a b Ha), (split_on_token _ b Hb).
  - now rewrite (Hdot a _ Ha), (Hdot b c Hb), (split_on_token _ c Hc).
  - now rewrite (Hdot a _ Ha), (Hdot b _ Hb), (Hdot c rest Hc).
Qed.

End MetadataMore.

(** ** config.py and the provider filter of router.py *)

Section ConfigMore.

Import NodeRegistry RouterCore ConfigResolver.

Lemma requirements_met (self : ConfigResolver.t) (sel : LLMSelection) :
  validate_provider_requirements self sel = None ->
  sel_model sel <> EmptyString /\
  (sel_provider sel = MODEL_PROVIDER_OPENROUTER ->
   strip (env_get self "BRAINDRIVE_OPENROUTER_API_KEY" EmptyString) <> EmptyString) /\
  (sel_provider sel <> MODEL_PROVIDER_OPENROUTER ->
   base_url (provider_defaults self MODEL_PROVIDER_OLLAMA) <> EmptyString).
Proof.
  unfold validate_provider_requirements.
  destruct (String.eqb_spec (sel_provider sel) MODEL_PROVIDER_OPENROUTER) as [Hp|Hp].
  - destruct (String.eqb_spec
                (strip (env_get self "BRAINDRIVE_OPENROUTER_API_KEY" EmptyString))
                EmptyString) as [|Hk]; [discriminate|].
    destruct (String.eqb_spec (sel_model sel) EmptyString) as [|Hm]; [discriminate|].
    intros _. split; [exact Hm|]. split; [intros _; exact Hk|]. intros H. contradiction.
  - destruct (String.eqb_spec (base_url (provider_defaults self MODEL_PROVIDER_OLLAMA))
                EmptyString) as [|Hb]; [discriminate|].
    destruct (String.eqb_spec (sel_model sel) EmptyString) as [|Hm]; [discriminate|].
    intros _. split; [exact Hm|]. split; [intros H; contradiction|]. intros _. exact Hb.
Qed.

(** X8: no node is called for a model intent unless the selection is
    complete: the provider is a known one, the model is not empty, and the
    provider has what it needs (an API key for openrouter, a base URL for
    ollama). *)
Theorem model_calls_meet_requirements (self : RouterCore.t) (s s' : State) (m : dict)
  (res : Res dict) :
  distinct_ids s ->
  startswith "model." (intent_of m) = true ->
  route self (VDict m) s = (res, s') ->
  calls s' <> calls s ->
  let sel := selection_of self m in
  str_in (sel_provider sel) MODEL_PROVIDERS = true /\
  sel_model sel <> EmptyString /\
  (sel_provider sel = MODEL_PROVIDER_OPENROUTER ->
   strip (env_get (config self) "BRAINDRIVE_OPENROUTER_API_KEY" EmptyString)
   <> EmptyString) /\
  (sel_provider sel <> MODEL_PROVIDER_OPENROUTER ->
   base_url (provider_defaults (config self) MODEL_PROVIDER_OLLAMA) <> EmptyString).
Proof.
  intros Hnd Hmodel Hr Hcalls sel.
  pose proof (route_inv self s s' m res Hnd Hr) as Hinv.
  destruct (route_prefix self s m) as [code|cands pd] eqn:Hpre.
  { destruct Hinv as [e [_ [_ Hq]]]. exfalso. apply Hcalls. apply Hq. }
  clear Hinv. revert Hpre. unfold route_prefix.
  destruct (negb (valid_core m)); [discriminate|].
  destruct (negb (String.eqb _ PROTOCOL_VERSION)); [discriminate|].
  destruct (eligible_nodes s m); [discriminate|].
  destruct (with_extensions s m) as [|e0 es]; [discriminate|].
  destruct (negb (gate_open (later (pruned s)) m)); [discriminate|].
  unfold provider_filter. rewrite Hmodel. cbn [negb]. cbv zeta. fold sel.
  destruct (str_in (sel_provider sel) MODEL_PROVIDERS) eqn:Hin; [|discriminate].
  cbn [negb].
  destruct (String.eqb (sel_model sel) EmptyString); [discriminate|].
  destruct (validate_provider_requirements (config self) sel) eqn:Hreq; [discriminate|].
  intros _. split; [reflexivity|]. now apply requirements_met.
Qed.

End ConfigMore.

(** ** registry.py *)

Section RegistryMore.

Import NodeRegistry.

Lemma dset_keys {A : Type} (k : string) (x : A) (d : list (string * A)) :
  map fst (dset k x d) = if dhas k d then map fst d else map fst d ++ [k].
Proof.
  unfold dhas. induction d as [|[k0 y] d IH]; simpl; [reflexivity|].
  destruct (String.eqb k0 k) eqn:E; simpl; [reflexivity|].
  rewrite IH. now destruct (dget k d).
Qed.

Lemma dget_In {A : Type} (k : string) (x : A) (d : list (string * A)) :
  dget k d = Some x -> In (k, x) d.
Proof.
  induction d as [|[k0 y] d IH]; simpl; [discriminate|].
  destruct (String.eqb_spec k0 k) as [->|_]; [intros [= ->]; now left|].
  intros H. right. now apply IH.
Qed.

Lemma dset_NoDup {A : Type} (k : string) (x : A) (d : list (string * A)) :
  List.NoDup (map fst d) -> List.NoDup (map fst (dset k x d)).
Proof.
  intros Hnd. rewrite dset_keys. unfold dhas.
  destruct (dget k d) eqn:E; [exact Hnd|].
  apply List.NoDup_app; [exact Hnd|repeat constructor; intros []|].
  intros a Ha [<-|[]]. revert Ha. now apply dget_None_not_In.
Qed.

Lemma dset_In {A : Type} (k k' : string) (x y : A) (d : list (string * A)) :
  In (k', y) (dset k x d) -> (k' = k /\ y = x) \/ In (k', y) d.
Proof.
  induction d as [|[k0 z] d IH]; simpl.
  - intros [[= <- <-]|[]]. now left.
  - destruct (String.eqb_spec k0 k) as [->|_]; simpl.
    + intros [[= <- <-]|H]; [now left|now right; right].
    + intros [E|H]; [now right; left|]. destruct (IH H); auto.
Qed.

Lemma dset_Forall {A : Type} (P : string * A -> Prop) (k : string) (x : A)
  (d : list (string * A)) :
  Forall P d -> P (k, x) -> Forall P (dset k x d).
Proof.
  intros Hd Hx. apply List.Forall_forall. intros [k' y] Hin.
  destruct (dset_In _ _ _ _ _ Hin) as [[-> ->]|H]; [exact Hx|].
  rewrite List.Forall_forall in Hd. now apply Hd.
Qed.

(** A registration that goes through. *)
Lemma register_run (d : NodeDescriptor) (h : option Handler) (s : State) :
  validate d = None ->
  eq_str (vget "registration_token" (auth d)) (registration_token (registry s)) = true ->
  exists s',
    register d h s
    = (Ok [("ok", VBool true); ("node_id", VStr (node_id d));
           ("lease_token", VStr (uuid_of (uuids (world s))));
           ("heartbeat_ttl_sec", VInt (heartbeat_ttl_sec (registry s)))], s') /\
    records (registry s')
    = dset (node_id d)
        {| descriptor := d; handler := h;
           lease_token := uuid_of (uuids (world s));
           expires_at_epoch := now (world s) + heartbeat_ttl_sec (registry s);
           registered_at := iso_of (now (world s));
           last_heartbeat_at := iso_of (now (world s)) |}
        (records (registry s)) /\
    health (registry s')
    = dsetdefault (node_id d) (fresh_health (iso_of (now (world s)))) (health (registry s)) /\
    registration_token (registry s') = registration_token (registry s) /\
    heartbeat_ttl_sec (registry s') = heartbeat_ttl_sec (registry s) /\
    now (world s') = now (world s) /\
    calls s' = calls s /\
    library (world s') = library (world s) /\
    node_mem (world s') = node_mem (world s) /\
    uuids (world s') = Datatypes.S (uuids (world s)).
Proof.
  intros Hv Ht. unfold register. rewrite Hv. step. rewrite Ht. cbn [negb].
  eexists. split; [reflexivity|]. cbn. repeat split.
Qed.

(** Identifiers drawn at different counts differ. *)
Lemma uuid_of_inj (n k : nat) : uuid_of n = uuid_of k -> n = k.
Proof.
  unfold uuid_of. intros H. apply (inj (String.app "uuid-")) in H.
  apply (inj pretty) in H. lia.
Qed.

Lemma dget_filter {A : Type} (f : string * A -> bool) (k : string)
  (d : list (string * A)) :
  List.NoDup (map fst d) ->
  dget k (List.filter f d)
  = match dget k d with
    | Some x => if f (k, x) then Some x else None
    | None => None
    end.
Proof.
  induction d as [|[k0 y] d IH]; simpl; [reflexivity|].
  intros Hnd. apply List.NoDup_cons_iff in Hnd as [Hnot Hnd].
  destruct (String.eqb_spec k0 k) as [->|Hne].
  - destruct (f (k, y)) eqn:E; simpl; [now rewrite String.eqb_refl|].
    rewrite (IH Hnd).
    destruct (dget k d) as [x|] eqn:F; [|reflexivity].
    exfalso. apply Hnot. apply dget_In in F. now apply (in_map fst) in F.
  - destruct (f (k0, y)); simpl; [|now apply IH].
    destruct (String.eqb_spec k0 k); [contradiction|]. now apply IH.
Qed.

Lemma well_kept_distinct (s : State) : well_kept s -> distinct_ids s.
Proof. now intros [H _]. Qed.

Lemma get_record_run (node : string) (s : State) :
  distinct_ids s ->
  get_record node s
  = (Ok (match dget node (records (registry s)) with
         | Some rec =>
             if now (world s) <? expires_at_epoch rec
             then Some (_clone_record rec) else None
         | None => None
         end), pruned s).
Proof.
  intros Hnd. unfold get_record. step_with (pruned_run s). unfold gets.
  rewrite pruned_records by exact Hnd. unfold live_records.
  rewrite dget_filter by exact Hnd. cbn [snd].
  destruct (dget node (records (registry s))) as [rec|]; [|reflexivity].
  rewrite Z.leb_antisym, negb_involutive.
  now destruct (now (world s) <? expires_at_epoch rec).
Qed.

(** The heartbeat of a registered node with its lease token. *)
Lemma heartbeat_run (node token : string) (rec : NodeRecord) (s : State) :
  dget node (records (registry s)) = Some rec ->
  lease_token rec = token ->
  exists s',
    heartbeat node token s = (Ok [("ok", VBool true); ("node_id", VStr node)], s') /\
    records (registry s')
    = dset node
        {| descriptor := descriptor rec; handler := handler rec;
           lease_token := lease_token rec;
           expires_at_epoch := now (world s) + heartbeat_ttl_sec (registry s);
           registered_at := registered_at rec;
           last_heartbeat_at := iso_of (now (world s)) |}
        (records (registry s)) /\
    health (registry s') = health (registry s) /\
    registration_token (registry s') = registration_token (registry s) /\
    heartbeat_ttl_sec (registry s') = heartbeat_ttl_sec (registry s) /\
    now (world s') = now (world s) /\
    calls s' = calls s /\
    logs (world s') = logs (world s) /\
    library (world s') = library (world s).
Proof.
  intros Hrec Htok. unfold heartbeat. step. rewrite Hrec.
  apply String.eqb_eq in Htok. rewrite Htok. cbn [negb].
  eexists. split; [reflexivity|]. cbn. repeat split.
Qed.

(** X9: what [register] does.  An invalid descriptor and a wrong
    registration token are refused with their codes and the state is
    untouched.  Otherwise the node is recorded under its id, replacing any
    record it had, with a fresh lease token that the reply hands out: the
    identifier [new_uuid] draws, after which the counter of identifiers
    has moved on, so that no identifier drawn at another count is the
    same; the other records are untouched and the registry stays well
    kept.  With a positive time to live, [get_record] then finds the
    record (a copy with the texts of the descriptor stripped), and a
    heartbeat with the lease token of the reply succeeds. *)
Theorem register_outcomes (d : NodeDescriptor) (h : option Handler) (s : State) :
  well_kept s ->
  0 < heartbeat_ttl_sec (registry s) ->
  match validate d with
  | Some err => register d h s = (Ok (reply_error err E_NODE_REG_INVALID), s)
  | None =>
      if eq_str (vget "registration_token" (auth d)) (registration_token (registry s))
      then
        exists s' lease,
          register d h s
          = (Ok [("ok", VBool true); ("node_id", VStr (node_id d));
                 ("lease_token", VStr lease);
                 ("heartbeat_ttl_sec", VInt (heartbeat_ttl_sec (registry s)))], s') /\
          lease = fst (draw_uuid s) /\
          uuids (world s') = Datatypes.S (uuids (world s)) /\
          (forall n, uuid_of n = lease -> n = uuids (world s)) /\
          well_kept s' /\
          fst (get_record (node_id d) s')
          = Ok (Some {| descriptor := reload d; handler := h; lease_token := lease;
                        expires_at_epoch := now (world s) + heartbeat_ttl_sec (registry s);
                        registered_at := iso_of (now (world s));
                        last_heartbeat_at := iso_of (now (world s)) |}) /\
          fst (heartbeat (node_id d) lease s')
          = Ok [("ok", VBool true); ("node_id", VStr (node_id d))] /\
          (forall other, other <> node_id d ->
                         dget other (records (registry s'))
                         = dget other (records (registry s))) /\
          dget (node_id d) (health (registry s'))
          = Some (health_entry (node_id d) s)
      else register d h s
           = (Ok (reply_error "registration token invalid" E_NODE_UNTRUSTED), s)
  end.
Proof.
  intros [Hnd Hall] Httl.
  destruct (validate d) as [err|] eqn:Hv.
  { unfold register. now rewrite Hv. }
  destruct (eq_str (vget "registration_token" (auth d)) (registration_token (registry s)))
    eqn:Ht.
  2:{ unfold register. rewrite Hv. step. now rewrite Ht. }
  destruct (register_run d h s Hv Ht)
    as [s' [E [Hrec [Hh [_ [Httl' [Hnow [_ [_ [_ Hu]]]]]]]]]].
  exists s', (uuid_of (uuids (world s))). split; [exact E|].
  split; [reflexivity|]. split; [exact Hu|]. split; [intros n; apply uuid_of_inj|].
  assert (Hnd' : distinct_ids s').
  { unfold distinct_ids. rewrite Hrec. now apply dset_NoDup. }
  split; [|split; [|split; [|split]]].
  - split; [exact Hnd'|]. rewrite Hrec. apply dset_Forall; [exact Hall|]. now split.
  - rewrite (get_record_run _ s' Hnd'). cbn [fst]. rewrite Hrec, dget_dset_same.
    cbn [expires_at_epoch]. rewrite Hnow.
    destruct (Z.ltb_spec (now (world s)) (now (world s) + heartbeat_ttl_sec (registry s)));
      [reflexivity|lia].
  - destruct (heartbeat_run (node_id d) (uuid_of (uuids (world s)))
                {| descriptor := d; handler := h;
                   lease_token := uuid_of (uuids (world s));
                   expires_at_epoch := now (world s) + heartbeat_ttl_sec (registry s);
                   registered_at := iso_of (now (world s));
                   last_heartbeat_at := iso_of (now (world s)) |} s')
      as [s2 [E2 _]]; [rewrite Hrec; apply dget_dset_same|reflexivity|].
    now rewrite E2.
  - intros other Hne. rewrite Hrec. now apply dget_dset_other.
  - rewrite Hh, dget_dsetdefault_same. reflexivity.
Qed.

(** X10: what [heartbeat] does.  For an id that is not recorded and for a
    lease token that is not the one of the record it refuses, with its
    code, and the state is untouched; it never prunes.  Otherwise it puts
    the expiry at the clock plus the time to live and notes the beat;
    descriptor, handler and lease token of the record, the order of the
    records, the other records and the health table stay as they are. *)
Theorem heartbeat_outcomes (node token : string) (s : State) :
  match dget node (records (registry s)) with
  | None =>
      heartbeat node token s
      = (Ok (reply_error "node not registered" E_NODE_NOT_REGISTERED), s)
  | Some rec =>
      if String.eqb (lease_token rec) token
      then
        exists s',
          heartbeat node token s = (Ok [("ok", VBool true); ("node_id", VStr node)], s') /\
          dget node (records (registry s'))
          = Some {| descriptor := descriptor rec; handler := handler rec;
                    lease_token := lease_token rec;
                    expires_at_epoch := now (world s) + heartbeat_ttl_sec (registry s);
                    registered_at := registered_at rec;
                    last_heartbeat_at := iso_of (now (world s)) |} /\
          map fst (records (registry s')) = map fst (records (registry s)) /\
          (forall other, other <> node ->
                         dget other (records (registry s'))
                         = dget other (records (registry s))) /\
          health (registry s') = health (registry s) /\
          calls s' = calls s
      else heartbeat node token s
           = (Ok (reply_error "invalid lease token" E_NODE_UNTRUSTED), s)
  end.
Proof.
  destruct (dget node (records (registry s))) as [rec|] eqn:Hrec.
  2:{ unfold heartbeat. step. now rewrite Hrec. }
  destruct (String.eqb (lease_token rec) token) eqn:Ht.
  2:{ unfold heartbeat. step. now rewrite Hrec, Ht. }
  apply String.eqb_eq in Ht.
  destruct (heartbeat_run node token rec s Hrec Ht)
    as [s' [E [Hr [Hh [_ [_ [_ [Hc _]]]]]]]].
  exists s'. split; [exact E|]. rewrite Hr. split; [apply dget_dset_same|].
  split; [|split; [|split; [exact Hh|exact Hc]]].
  - rewrite dset_keys. apply dhas_of_dget in Hrec. now rewrite Hrec.
  - intros other Hne. now apply dget_dset_other.
Qed.

Lemma well_kept_records (s s' : State) :
  records (registry s') = records (registry s) -> well_kept s -> well_kept s'.
Proof. unfold well_kept. now intros ->. Qed.

Lemma well_kept_pruned (s : State) : well_kept s -> well_kept (pruned s).
Proof.
  intros [Hnd Hall]. unfold well_kept. rewrite pruned_records by exact Hnd.
  split; [now apply filter_NoDup_keys|].
  unfold live_records. rewrite List.Forall_forall in *. intros kv Hin.
  apply List.filter_In in Hin as [Hin _]. now apply Hall.
Qed.

Lemma registry_op_well_kept (op : RegistryOp) (s : State) :
  well_kept s ->
  exists s', run_registry_op op s = (Ok tt, s') /\ well_kept s'.
Proof.
  intros Hw. pose proof Hw as [Hnd Hall].
  destruct op as [d h|node token| |node| |intent|node success|t]; cbn [run_registry_op].
  - destruct (validate d) as [err|] eqn:Hv.
    { exists s. split; [|exact Hw].
      assert (E : register d h s = (Ok (reply_error err E_NODE_REG_INVALID), s)).
      { unfold register. now rewrite Hv. }
      now step_with E. }
    destruct (eq_str (vget "registration_token" (auth d))
                (registration_token (registry s))) eqn:Ht.
    2:{ exists s. split; [|exact Hw].
        assert (E : register d h s
                    = (Ok (reply_error "registration token invalid" E_NODE_UNTRUSTED), s)).
        { unfold register. rewrite Hv. step. now rewrite Ht. }
        now step_with E. }
    destruct (register_run d h s Hv Ht) as [s' [E [Hrec _]]].
    exists s'. split; [now step_with E|]. unfold well_kept. rewrite Hrec.
    split; [now apply dset_NoDup|]. apply dset_Forall; [exact Hall|]. now split.
  - destruct (dget node (records (registry s))) as [rec|] eqn:Hrec.
    2:{ exists s. split; [|exact Hw].
        assert (E : heartbeat node token s
                    = (Ok (reply_error "node not registered" E_NODE_NOT_REGISTERED), s)).
        { unfold heartbeat. step. now rewrite Hrec. }
        now step_with E. }
    destruct (String.eqb (lease_token rec) token) eqn:Ht.
    2:{ exists s. split; [|exact Hw].
        assert (E : heartbeat node token s
                    = (Ok (reply_error "invalid lease token" E_NODE_UNTRUSTED), s)).
        { unfold heartbeat. step. now rewrite Hrec, Ht. }
        now step_with E. }
    apply String.eqb_eq in Ht.
    destruct (heartbeat_run node token rec s Hrec Ht) as [s' [E [Hr _]]].
    exists s'. split; [now step_with E|]. unfold well_kept. rewrite Hr.
    split; [now apply dset_NoDup|]. apply dset_Forall; [exact Hall|].
    rewrite List.Forall_forall in Hall. exact (Hall (node, rec) (dget_In _ _ _ Hrec)).
  - exists (pruned s). split; [apply pruned_run|now apply well_kept_pruned].
  - exists (pruned s). split; [|now apply well_kept_pruned].
    now step_with (get_record_run node s Hnd).
  - exists (pruned s). split; [|now apply well_kept_pruned].
    now step_with (active_records_run s Hnd).
  - exists (pruned s). split; [|now apply well_kept_pruned].
    unfold capability_metadata, bind. rewrite (pruned_run s). reflexivity.
  - destruct (update_health_run node success s) as [s' [E [_ [Hr _]]]].
    exists s'. split; [exact E|]. exact (well_kept_records s s' Hr Hw).
  - eexists. split; [reflexivity|]. exact Hw.
Qed.

(** X11: the registry stays well kept.  Whatever calls are made on it, in
    whatever order and with the clock moving as it likes, every call
    returns, no two records share an id, each record is filed under the id
    of its descriptor, and each descriptor passes validation. *)
Theorem registry_stays_well_kept (ops : list RegistryOp) (s : State) :
  well_kept s ->
  fst (run_registry_ops ops s) = Ok tt /\
  well_kept (snd (run_registry_ops ops s)) /\
  distinct_ids (snd (run_registry_ops ops s)).
Proof.
  revert s. induction ops as [|op ops IH]; intros s Hw.
  - cbn. split; [reflexivity|]. split; [exact Hw|now destruct Hw].
  - destruct (registry_op_well_kept op s Hw) as [s' [E Hw']].
    cbn [run_registry_ops]. unfold bind. rewrite E. now apply IH.
Qed.

Lemma update_health_others (node other : string) (success : bool) (s : State) :
  other <> node ->
  dget other (health (registry (snd (update_health node success s))))
  = dget other (health (registry s)).
Proof.
  intros Hne. unfold update_health. do 4 step.
  match goal with
  | |- context [_save_snapshot_locked ?st] =>
      destruct (save_snapshot_run st) as [v Ev]; rewrite Ev
  end.
  cbn. rewrite dget_dset_other by congruence.
  now rewrite dget_dsetdefault_other by congruence.
Qed.

Lemma health_entry_after (node : string) (success : bool) (s s' : State) :
  update_health node success s = (Ok tt, s') ->
  success_count (health_entry node s')
  = success_count (health_entry node s) + (if success then 1 else 0) /\
  failure_count (health_entry node s')
  = failure_count (health_entry node s) + (if success then 0 else 1) /\
  consecutive_failures (health_entry node s')
  = (if success then 0 else consecutive_failures (health_entry node s) + 1).
Proof.
  intros E. destruct (update_health_run node success s)
    as [s1 [E1 [_ [_ [_ [_ [_ [_ Hh]]]]]]]].
  rewrite E in E1. injection E1 as <-.
  unfold health_entry at 1 3 5. unfold dget_or. rewrite Hh.
  destruct success; cbn; repeat split; lia.
Qed.

Lemma report_outcomes_run (node : string) (outcomes : list bool) (s : State) :
  exists s',
    report_outcomes node outcomes s = (Ok tt, s') /\
    records (registry s') = records (registry s) /\
    (forall other, other <> node ->
                   dget other (health (registry s')) = dget other (health (registry s))) /\
    success_count (health_entry node s')
    = success_count (health_entry node s) + count_of true outcomes /\
    failure_count (health_entry node s')
    = failure_count (health_entry node s) + count_of false outcomes.
Proof.
  revert s. induction outcomes as [|b outs IH]; intros s.
  - exists s. unfold count_of. cbn. repeat split; lia.
  - destruct (update_health_run node b s) as [s1 [E1 [_ [Hr1 _]]]].
    destruct (health_entry_after node b s s1 E1) as [Hs [Hf _]].
    destruct (IH s1) as [s2 [E2 [Hr2 [Ho2 [Hs2 Hf2]]]]].
    exists s2. cbn [report_outcomes]. split; [now step_with E1|].
    split; [congruence|]. split.
    + intros other Hne. rewrite (Ho2 other Hne).
      pose proof (update_health_others node other b s Hne) as Hx.
      now rewrite E1 in Hx.
    + rewrite Hs2, Hf2, Hs, Hf. unfold count_of. cbn [List.filter].
      destruct b; cbn [Bool.eqb length]; rewrite ?Nat2Z.inj_succ; split; lia.
Qed.

Lemma filter_true_failures (n : nat) :
  List.filter (Bool.eqb true) (repeat false n) = [].
Proof. induction n as [|k IH]; [reflexivity|]. cbn. exact IH. Qed.

Lemma filter_false_failures (n : nat) :
  List.filter (Bool.eqb false) (repeat false n) = repeat false n.
Proof. induction n as [|k IH]; [reflexivity|]. cbn. now rewrite IH. Qed.

(** X12: the health counters.  After any outcomes, a success and then [n]
    failures have been reported for a node, its successes and failures
    have gone up by what was reported, its run of consecutive failures is
    [n], and neither the records nor the health of other nodes changed. *)
Theorem health_counts (node : string) (outcomes : list bool) (n : nat) (s : State) :
  exists s',
    report_outcomes node (outcomes ++ true :: repeat false n) s = (Ok tt, s') /\
    success_count (health_entry node s')
    = success_count (health_entry node s) + count_of true outcomes + 1 /\
    failure_count (health_entry node s')
    = failure_count (health_entry node s) + count_of false outcomes + Z.of_nat n /\
    consecutive_failures (health_entry node s') = Z.of_nat n /\
    records (registry s') = records (registry s) /\
    (forall other, other <> node ->
                   dget other (health (registry s')) = dget other (health (registry s))).
Proof.
  assert (Happ : forall l1 l2 s0,
            report_outcomes node (l1 ++ l2) s0
            = (do* report_outcomes node l1 in report_outcomes node l2) s0).
  { induction l1 as [|b l1 IH]; intros l2 s0; [reflexivity|].
    cbn [report_outcomes app]. unfold bind.
    destruct (update_health node b s0) as [[[]|e] s1]; [|reflexivity].
    rewrite IH. reflexivity. }
  assert (Hrun : forall k s0,
            exists s1,
              report_outcomes node (repeat false k) s0 = (Ok tt, s1) /\
              consecutive_failures (health_entry node s1)
              = consecutive_failures (health_entry node s0) + Z.of_nat k).
  { induction k as [|k IH]; intros s0.
    - exists s0. split; [reflexivity|]. cbn. lia.
    - destruct (update_health_run node false s0) as [s1 [E1 _]].
      destruct (health_entry_after node false s0 s1 E1) as [_ [_ Hc]].
      destruct (IH s1) as [s2 [E2 Hc2]].
      exists s2. cbn [repeat report_outcomes]. split; [now step_with E1|].
      rewrite Hc2, Hc, Nat2Z.inj_succ. lia. }
  destruct (report_outcomes_run node (outcomes ++ true :: repeat false n) s)
    as [s' [E [Hr [Ho [Hs Hf]]]]].
  exists s'. split; [exact E|].
  assert (Hct : count_of true (outcomes ++ true :: repeat false n)
                = count_of true outcomes + 1).
  { unfold count_of. rewrite List.filter_app, length_app. cbn [List.filter Bool.eqb].
    rewrite filter_true_failures. cbn [length]. lia. }
  assert (Hcf : count_of false (outcomes ++ true :: repeat false n)
                = count_of false outcomes + Z.of_nat n).
  { unfold count_of. rewrite List.filter_app, length_app. cbn [List.filter Bool.eqb].
    rewrite filter_false_failures, repeat_length. lia. }
  split; [rewrite Hs, Hct; lia|]. split; [rewrite Hf, Hcf; lia|].
  split; [|split; [exact Hr|exact Ho]].
  rewrite Happ in E. unfold bind in E.
  destruct (report_outcomes_run node outcomes s) as [s1 [E1 _]]. rewrite E1 in E.
  cbn [report_outcomes] in E. unfold bind in E.
  destruct (update_health_run node true s1) as [s2 [E2 _]]. rewrite E2 in E.
  destruct (health_entry_after node true s1 s2 E2) as [_ [_ Hc]].
  destruct (Hrun n s2) as [s3 [E3 Hc3]]. rewrite E3 in E. injection E as <-.
  rewrite Hc3, Hc. lia.
Qed.

Lemma dget_scrubbed (k : string) (d : dict) :
  dget k (map (fun kv => (fst kv,
                          if Persistence.sensitive (fst kv) then Persistence.REDACTED
                          else Persistence._scrub_sensitive (snd kv))) d)
  = option_map (fun x => if Persistence.sensitive k then Persistence.REDACTED
                         else Persistence._scrub_sensitive x) (dget k d).
Proof.
  induction d as [|[k0 x] d IH]; [reflexivity|]. cbn [map dget fst snd].
  destruct (String.eqb_spec k0 k) as [->|_]; [reflexivity|exact IH].
Qed.

Lemma Forall2_map_self {A B : Type} (f : A -> B) (l : list A) :
  Forall2 (fun a b => b = f a) l (map f l).
Proof. induction l; constructor; auto. Qed.

(** X13: the snapshot of the registry on disk.  Every write of the
    snapshot lists the records in their order, each with its node id and
    expiry, and with the lease token and every sensitive entry of [auth]
    replaced by the redaction mark: the tokens that [register] hands out
    and checks never reach the disk.  The registry itself is not changed
    by the write. *)
Theorem snapshot_hides_tokens (s : State) :
  exists nodes s',
    _save_snapshot_locked s = (Ok tt, s') /\
    registry s' = registry s /\
    snapshot_file s' = Some (VDict [("nodes", VList nodes)]) /\
    Forall2 (fun kv node =>
               exists nd,
                 node = VDict nd /\
                 vget "node_id" nd = VStr (node_id (descriptor (snd kv))) /\
                 vget "expires_at_epoch" nd = VInt (expires_at_epoch (snd kv)) /\
                 vget "lease_token" nd = VStr "<redacted>" /\
                 (forall k, Persistence.sensitive k = true ->
                            dhas k (auth (descriptor (snd kv))) = true ->
                            vget k (RouterCore.dict_at "auth" nd) = VStr "<redacted>") /\
                 no_raw_secret node = true)
      (records (registry s)) nodes.
Proof.
  eexists. eexists. split; [reflexivity|]. split; [reflexivity|].
  unfold snapshot_file. cbn [world set_world state_files set_state_files].
  rewrite lookup_insert_eq.
  change (Persistence._scrub_sensitive (VDict [("nodes", VList ?l)]))
    with (VDict [("nodes", VList (map Persistence._scrub_sensitive l))]).
  split; [reflexivity|]. rewrite map_map.
  eapply List.Forall2_impl; [|apply Forall2_map_self].
  intros [k rec] node ->. cbn [fst snd Persistence._scrub_sensitive].
  eexists. split; [reflexivity|].
  unfold vget, dget_or, RouterCore.dict_at. rewrite !dget_scrubbed.
  rewrite !dget_dset_other by discriminate.
  unfold to_public, to_dict, dupdate. cbn [fold_left dset fst snd String.eqb Ascii.eqb Bool.eqb dget option_map].
  split; [reflexivity|]. split; [reflexivity|]. split; [reflexivity|]. split.
  - change (Persistence.sensitive "auth") with false. cbn iota.
    cbn [Persistence._scrub_sensitive]. intros key Hs Hk. rewrite dget_scrubbed.
    unfold dhas in Hk. destruct (dget key (auth (descriptor rec))); [|discriminate].
    cbn [option_map]. now rewrite Hs.
  - apply (scrub_no_raw_secret (VDict _)).
Qed.

(** X14: what [prune_stale] removes.  It drops exactly the records whose
    expiry is not after the clock and keeps the others as they are; the
    health table, also the entries of the nodes it drops, the calls and
    the logs are untouched; and pruning again changes nothing. *)
Theorem prune_stale_exact (s : State) :
  distinct_ids s ->
  exists s',
    prune_stale s = (Ok tt, s') /\
    (forall node,
       dget node (records (registry s'))
       = match dget node (records (registry s)) with
         | Some rec => if now (world s) <? expires_at_epoch rec then Some rec else None
         | None => None
         end) /\
    health (registry s') = health (registry s) /\
    calls s' = calls s /\
    logs (world s') = logs (world s) /\
    now (world s') = now (world s) /\
    prune_stale s' = (Ok tt, s').
Proof.
  intros Hnd. exists (pruned s). split; [apply pruned_run|].
  destruct (pruned_quiet s) as [Hc [Hh [_ [Hl [_ Hn]]]]].
  split; [|split; [exact Hh|split; [exact Hc|split; [exact Hl|split; [exact Hn|]]]]].
  - intros node. rewrite pruned_records by exact Hnd. unfold live_records.
    rewrite dget_filter by exact Hnd. cbn [snd].
    destruct (dget node (records (registry s))) as [rec|]; [|reflexivity].
    rewrite Z.leb_antisym, negb_involutive. reflexivity.
  - rewrite pruned_run. now rewrite pruned_idem.
Qed.

End RegistryMore.
Section RouterMore.

Import NodeRegistry RouterCore.






(** A response the loop returns passed [looks_like_bdp]. *)
Lemma after_call_valid (self : t) (node : string) (before_fp : option Fingerprint)
  (result : Res value) (s s' : State) (resp : dict) :
  after_call self node before_fp result s = (Ok (Return resp), s') ->
  valid_core resp = true.
Proof.
  unfold after_call. destruct result as [response|exc].
  2:{ destruct (on_exception_run node exc s) as [s1 [E F]]. rewrite E. discriminate. }
  destruct (looks_like_bdp_run response s) as [s1 [E1 F1]]. step_with E1.
  assert (Hbad : forall st,
    bind (update_health node false)
      (fun _ => ret (Continue [attempted_item node "invalid_response" []] [])) s1
    = (Ok (Return resp), st) -> False).
  { intros st. destruct (update_health_settled node false s1) as [s2 [E F]].
    step_with E. discriminate. }
  destruct (well_formed response) eqn:Hw;
    [|destruct response; intros Hx; exfalso; exact (Hbad _ Hx)].
  destruct response as [| | | | |r];
    try (intros Hx; exfalso; exact (Hbad _ Hx)).
  step_with (flag_run self before_fp s1).
  destruct (flagged before_fp (fingerprint_in self (library (world s1)))).
  { destruct (update_health_settled node false s1) as [s2 [E F]].
    step_with E. discriminate. }
  destruct (eq_str (vget "intent" r) "error").
  - destruct (dget_or "error" (VDict []) (dict_at "payload" r)) as [| | | | |err];
      try match goal with
          | |- context [on_exception ?n ?x ?st] =>
              destruct (on_exception_run n x st) as [s2 [E F]];
              rewrite E; discriminate
          end.
    destruct (truthy (dget_or "retryable" (VBool false) err)).
    + destruct (update_health_settled node false s1) as [s2 [E F]].
      step_with E. discriminate.
    + destruct (update_health_settled node true s1) as [s2 [E F]].
      step_with E. unfold ret. intros [= <- <-]. exact Hw.
  - destruct (update_health_settled node true s1) as [s2 [E F]].
    step_with E. unfold ret. intros [= <- <-]. exact Hw.
Qed.


(** One candidate, by what the router has to call. *)
Lemma attempt_cases (self : t) (rec : NodeRecord) (intent : string) (outbound : dict)
  (s : State) :
  match chosen_handler self rec with
  | None =>
      attempt self rec intent outbound s
      = (Ok (Continue [attempted_item (node_id (descriptor rec)) "handler_missing" []] []), s)
  | Some h =>
      exists step s' c,
        attempt self rec intent outbound s = (Ok step, s') /\
        calls s' = calls s ++ [c] /\
        call_node c = node_id (descriptor rec) /\
        call_message c = outbound /\
        call_result c = fst (h outbound (world s)) /\
        (forall resp, step = Return resp ->
                      call_result c = Ok (VDict resp) /\ valid_core resp = true)
  end.
Proof.
  rewrite attempt_run. destruct (chosen_handler self rec) as [h|]; [|reflexivity].
  destruct (h outbound (world s)) as [r w] eqn:Hh.
  set (c := {| call_node := node_id (descriptor rec);
               call_cap := _metadata_for rec intent;
               call_message := outbound; call_result := r;
               call_library_before := library (world s);
               call_library_after := library w |}).
  set (before_fp := if read_only (_metadata_for rec intent)
                    then fingerprint_in self (library (world s)) else None).
  destruct (after_call_settled self (node_id (descriptor rec)) before_fp r
              (add_call c (set_world w s))) as [step [s2 [E F]]].
  exists step, s2, c. split; [exact E|].
  destruct F as [Fc _]. split; [exact Fc|].
  repeat (split; [reflexivity|]).
  intros resp ->. split.
  - now destruct (after_call_return _ _ _ _ _ _ _ E).
  - exact (after_call_valid _ _ _ _ _ _ _ E).
Qed.

Lemma emit_dispatched_run (rec : NodeRecord) (intent : string) (s : State) :
  exists s1,
    liftW (Persistence.emit_event "router" "router.route_dispatched"
             (VDict [("selected_node_id", VStr (node_id (descriptor rec)));
                     ("intent", VStr intent)])) s = (Ok tt, s1) /\
    calls s1 = calls s /\ registry s1 = registry s /\
    library (world s1) = library (world s) /\ now (world s1) = now (world s).
Proof. eexists. split; [reflexivity|]. repeat split. Qed.


Lemma sorted_nonempty {A K : Type} (ltb : K -> K -> bool) (key : A -> K) (l : list A) :
  l <> [] -> sorted ltb key l <> [].
Proof.
  intros Hl Hs. destruct l as [|x l]; [now apply Hl|].
  assert (Hin : In x (sorted ltb key (x :: l))) by (apply sorted_In_any; now left).
  rewrite Hs in Hin. exact Hin.
Qed.

(** What [route_prefix] hands to the loop: some candidate, and a
    disclosure for model intents only. *)
Lemma prefix_dispatch_shape (self : t) (s : State) (m : dict) (cands : list NodeRecord)
  (pd : option dict) :
  route_prefix self s m = Dispatch cands pd ->
  valid_core m = true /\ cands <> [] /\
  (pd <> None -> startswith "model." (intent_of m) = true).
Proof.
  unfold route_prefix.
  destruct (valid_core m); cbn [negb]; [|discriminate].
  destruct (String.eqb _ PROTOCOL_VERSION); cbn [negb]; [|discriminate].
  destruct (eligible_nodes s m); [discriminate|].
  destruct (with_extensions s m) as [|e0 es]; [discriminate|].
  destruct (gate_open (later (pruned s)) m); cbn [negb]; [|discriminate].
  unfold provider_filter.
  destruct (startswith "model." (intent_of m)); cbn [negb].
  - destruct (str_in _ MODEL_PROVIDERS); cbn [negb]; [|discriminate].
    destruct (String.eqb _ EmptyString); [discriminate|].
    destruct (ConfigResolver.validate_provider_requirements _ _); [discriminate|].
    destruct (List.filter _ (e0 :: es)) as [|f0 fs] eqn:Hf; [discriminate|].
    intros [= <- <-]. split; [reflexivity|]. split; [|reflexivity].
    apply (sorted_nonempty key_ltb _node_sort_key (f0 :: fs)). discriminate.
  - intros [= <- <-]. split; [reflexivity|]. split; [|intros H; now contradiction H].
    apply (sorted_nonempty key_ltb _node_sort_key (e0 :: es)). discriminate.
Qed.



(** X16: the way [route] fails.  A valid request that gets as far as the
    loop over the candidates but carries a trace [ensure_trace] cannot
    extend (a trace that is no dictionary, a depth [int] refuses, a path
    that is no list) makes [route] raise: the exception leaves [route], no
    error envelope is built, no node is called and no health entry is
    touched. *)
Theorem route_raises_on_untraceable (self : t) (s : State) (m : dict)
  (cands : list NodeRecord) (pd : option dict) :
  distinct_ids s ->
  route_prefix self s m = Dispatch cands pd ->
  traceable m = false ->
  exists exc s',
    route self (VDict m) s = (Raise exc, s') /\
    calls s' = calls s /\
    health (registry s') = health (registry s) /\
    logs (world s') = logs (world s).
Proof.
  intros Hnd Hp Ht.
  pose proof (route_run self s m Hnd) as Hrun. rewrite Hp in Hrun.
  destruct (prefix_dispatch_shape _ _ _ _ _ Hp) as [_ [Hne _]].
  destruct cands as [|rec rest]; [now contradiction Hne|].
  destruct (ensure_trace_raises m (vget "message_id" m) "router.core") as [exc E];
    [discriminate|exact Ht|].
  exists exc, (ready s). split.
  - rewrite Hrun, dispatch_cons. unfold outbound_of. rewrite E. reflexivity.
  - destruct (ready_idle s) as [Hc [Hh [_ [Hl _]]]]. auto.
Qed.

(** The loop tries the candidates from the first on, calls those it has
    something to call for, and stops at the first that serves. *)
Lemma dispatch_order (self : t) (m : dict) (pd : option dict) (out : dict)
  (cands : list NodeRecord) :
  outbound_of m (vget "message_id" m) pd = Ok out ->
  forall (attempted retryable : list dict) (s s' : State) (res : Res dict),
    dispatch self m (vget "message_id" m) (intent_of m) pd cands attempted retryable s
    = (res, s') ->
    exists tried rest new,
      cands = tried ++ rest /\
      calls s' = calls s ++ new /\
      map call_node new = map node_of (List.filter (callable self) tried) /\
      Forall (fun c => call_message c = out) new /\
      ((rest = [] /\ exists e, res = Ok e /\ vget "intent" e = VStr "error") \/
       (exists r c resp,
          last tried = Some r /\ last new = Some c /\ call_node c = node_of r /\
          res = Ok resp /\ call_result c = Ok (VDict resp))).
Proof.
  intros Hout. induction cands as [|rec rest0 IH]; intros attempted retryable s s' res.
  - destruct (exhausted_run (vget "message_id" m) attempted retryable s) as [e [He Hi]].
    change (exhausted (vget "message_id" m) attempted retryable s = (res, s') ->
            exists tried rest new,
              [] = tried ++ rest /\
              calls s' = calls s ++ new /\
              map call_node new = map node_of (List.filter (callable self) tried) /\
              Forall (fun c => call_message c = out) new /\
              ((rest = [] /\ exists e, res = Ok e /\ vget "intent" e = VStr "error") \/
               (exists r c resp,
                  last tried = Some r /\ last new = Some c /\ call_node c = node_of r /\
                  res = Ok resp /\ call_result c = Ok (VDict resp)))).
    rewrite He. intros [= <- <-]. exists [], [], [].
    split; [reflexivity|]. split; [now rewrite app_nil_r|]. split; [reflexivity|].
    split; [constructor|]. left. eauto.
  - rewrite dispatch_cons, Hout. unfold bind at 1, lift_res.
    destruct (emit_dispatched_run rec (intent_of m) s) as [s1 [E1 [Hc1 _]]].
    step_with E1.
    pose proof (attempt_cases self rec (intent_of m) out s1) as Hat.
    destruct (chosen_handler self rec) as [h|] eqn:Hch.
    + destruct Hat as [step [s2 [c [E2 [Hc2 [Hn2 [Hm2 [_ Hret]]]]]]]].
      step_with E2. destruct step as [resp|a r].
      * unfold ret. intros [= <- <-]. exists [rec], rest0, [c].
        split; [reflexivity|]. split; [now rewrite Hc2, Hc1|].
        split; [cbn [List.filter]; unfold callable; rewrite Hch; cbn; now rewrite Hn2|].
        split; [repeat constructor; exact Hm2|].
        right. exists rec, c, resp. destruct (Hret resp eq_refl) as [Hr _].
        repeat split; auto.
      * intros Hd.
        destruct (IH _ _ _ _ _ Hd) as [tried [rest' [new [Hc [Hn [Hmap [Hall Hend]]]]]]].
        exists (rec :: tried), rest', (c :: new).
        split; [now rewrite Hc|].
        split; [rewrite Hn, Hc2, Hc1, <- List.app_assoc; reflexivity|].
        split.
        { cbn [List.filter]. unfold callable at 1. rewrite Hch. cbn [map].
          now rewrite Hn2, Hmap. }
        split; [constructor; [exact Hm2|exact Hall]|].
        destruct Hend as [Hex|[r0 [c0 [resp [Hl1 [Hl2 Hrest]]]]]]; [now left|].
        right. exists r0, c0, resp. rewrite !last_cons, Hl1, Hl2. auto.
    + step_with Hat. intros Hd.
      destruct (IH _ _ _ _ _ Hd) as [tried [rest' [new [Hc [Hn [Hmap [Hall Hend]]]]]]].
      exists (rec :: tried), rest', new.
      split; [now rewrite Hc|]. split; [now rewrite Hn, Hc1|].
      split.
      { cbn [List.filter]. unfold callable at 1. rewrite Hch. exact Hmap. }
      split; [exact Hall|].
      destruct Hend as [Hex|[r0 [c0 [resp [Hl1 [Hl2 Hrest]]]]]]; [now left|].
      right. exists r0, c0, resp. rewrite last_cons, Hl1. auto.
Qed.


Lemma flagged_same (b : bool) (fp : option Fingerprint) :
  flagged (if b then fp else None) fp = false.
Proof.
  destruct b, fp as [f|]; cbn; try reflexivity.
  unfold fingerprint_eqb. now rewrite bool_decide_eq_true_2.
Qed.

Lemma health_entry_counts (node : string) (a b : State) :
  health (registry a) = health (registry b) ->
  success_count (health_entry node a) = success_count (health_entry node b) /\
  failure_count (health_entry node a) = failure_count (health_entry node b) /\
  consecutive_failures (health_entry node a) = consecutive_failures (health_entry node b).
Proof.
  intros H. unfold health_entry, dget_or. rewrite H.
  now destruct (dget node (health (registry b))).
Qed.

(** A final answer of a handler that leaves the library alone is
    returned, and counts as a success. *)
Lemma attempt_served (self : t) (rec : NodeRecord) (intent : string)
  (outbound resp : dict) (s : State) (h : Handler) (w : World) :
  chosen_handler self rec = Some h ->
  h outbound (world s) = (Ok (VDict resp), w) ->
  final_answer resp = true ->
  library w = library (world s) ->
  exists s' c,
    attempt self rec intent outbound s = (Ok (Return resp), s') /\
    calls s' = calls s ++ [c] /\
    call_node c = node_id (descriptor rec) /\
    call_message c = outbound /\
    call_result c = Ok (VDict resp) /\
    success_count (health_entry (node_id (descriptor rec)) s')
    = success_count (health_entry (node_id (descriptor rec)) s) + 1 /\
    failure_count (health_entry (node_id (descriptor rec)) s')
    = failure_count (health_entry (node_id (descriptor rec)) s) /\
    consecutive_failures (health_entry (node_id (descriptor rec)) s') = 0 /\
    (forall other, other <> node_id (descriptor rec) ->
                   dget other (health (registry s')) = dget other (health (registry s))).
Proof.
  intros Hh Hcall Hfinal Hlib.
  apply andb_true_iff in Hfinal as [Hvalid Hfinal].
  rewrite attempt_run, Hh, Hcall. cbv beta iota.
  set (node := node_id (descriptor rec)).
  set (c := {| call_node := node; call_cap := _metadata_for rec intent;
               call_message := outbound; call_result := Ok (VDict resp);
               call_library_before := library (world s);
               call_library_after := library w |}).
  unfold after_call.
  destruct (looks_like_bdp_run (VDict resp) (add_call c (set_world w s))) as [s1 [E1 F1]].
  step_with E1. cbn [well_formed]. rewrite Hvalid.
  assert (Hl1 : library (world s1) = library (world s)).
  { destruct F1 as [->| ->]; exact Hlib. }
  assert (Hh1 : health (registry s1) = health (registry s)).
  { destruct F1 as [->| ->]; reflexivity. }
  assert (Hc1 : calls s1 = calls s ++ [c]).
  { destruct F1 as [->| ->]; reflexivity. }
  match goal with
  | |- context [bind ?fl _ s1] =>
      assert (Hflag : fl s1 = (Ok false, s1))
  end.
  { rewrite flag_run, Hl1. now rewrite flagged_same. }
  step_with Hflag. cbv iota.
  destruct (update_health_run node true s1) as [s2 [E2 [Hc2 _]]].
  destruct (health_entry_after node true s1 s2 E2) as [Hs [Hf Hcf]].
  destruct (health_entry_counts node s1 s Hh1) as [Ks [Kf _]].
  assert (Hdone : bind (update_health node true) (fun _ => ret (Return resp)) s1
                  = (Ok (Return resp), s2)) by now step_with E2.
  assert (Hgoal : (if eq_str (vget "intent" resp) "error"
                   then match dget_or "error" (VDict []) (dict_at "payload" resp) with
                        | VDict err =>
                            if truthy (dget_or "retryable" (VBool false) err)
                            then
                              bind (update_health node false)
                                (fun _ =>
                                   ret (Continue
                                          [attempted_item node "retryable_error"
                                             [("code", vget "code" err)]]
                                          [[("code", vget "code" err);
                                            ("message", vget "message" err);
                                            ("details", dget_or "details" (VDict []) err)]]))
                            else bind (update_health node true) (fun _ => ret (Return resp))
                        | v => on_exception node (Protocol.no_attribute v "get")
                        end
                   else bind (update_health node true) (fun _ => ret (Return resp))) s1
                  = (Ok (Return resp), s2)).
  { destruct (eq_str (vget "intent" resp) "error"); [|exact Hdone].
    cbn [negb orb] in Hfinal.
    destruct (dget_or "error" (VDict []) (dict_at "payload" resp)) as [| | | | |err];
      try discriminate.
    destruct (truthy (dget_or "retryable" (VBool false) err)); [discriminate|exact Hdone]. }
  exists s2, c. split; [exact Hgoal|].
  split; [now rewrite Hc2, Hc1|].
  repeat (split; [reflexivity|]).
  split; [rewrite Hs, Ks; lia|]. split; [rewrite Hf, Kf; lia|]. split; [exact Hcf|].
  intros other Hne.
  pose proof (update_health_others node other true s1 Hne) as Ho.
  rewrite E2 in Ho. cbn [snd] in Ho. now rewrite Ho, Hh1.
Qed.

(** X18: the first candidate serves.  When the handler of the first
    candidate in selection order gives a final answer (a valid envelope
    that is no error, or an error that is not marked retryable) and leaves
    the library as it was, [route] returns that answer as it is, whatever
    candidates come after it.  The answer counts as a success of the
    node, also when it is an error: its success count goes up and its
    consecutive failures are reset. *)
Theorem first_candidate_serves (self : t) (s : State) (m : dict) (rec : NodeRecord)
  (rest : list NodeRecord) (pd : option dict) (out : dict) (h : Handler) :
  distinct_ids s ->
  route_prefix self s m = Dispatch (rec :: rest) pd ->
  outbound_of m (vget "message_id" m) pd = Ok out ->
  chosen_handler self rec = Some h ->
  (forall w, exists resp w',
      h out w = (Ok (VDict resp), w') /\ final_answer resp = true /\
      library w' = library w) ->
  exists resp s' w w',
    route self (VDict m) s = (Ok resp, s') /\
    h out w = (Ok (VDict resp), w') /\
    final_answer resp = true /\
    success_count (health_entry (node_of rec) s)
    < success_count (health_entry (node_of rec) s') /\
    consecutive_failures (health_entry (node_of rec) s') = 0.
Proof.
  intros Hnd Hp Hout Hh Hgood.
  pose proof (route_run self s m Hnd) as Hrun. rewrite Hp in Hrun.
  rewrite Hrun, dispatch_cons, Hout. unfold bind at 1, lift_res.
  destruct (emit_dispatched_run rec (intent_of m) (ready s))
    as [s1 [E1 [Hc1 [Hr1 [Hl1 _]]]]].
  step_with E1.
  destruct (Hgood (world s1)) as [resp [w' [Hcall [Hfinal Hlib]]]].
  destruct (attempt_served self rec (intent_of m) out resp s1 h w' Hh Hcall Hfinal Hlib)
    as [s2 [c [E2 [Hc2 [Hn [Hm [Hres [Hs [Hf [Hcf Ho]]]]]]]]]].
  step_with E2. exists resp, s2, (world s1), w'. split; [reflexivity|].
  split; [exact Hcall|]. split; [exact Hfinal|].
  destruct (ready_idle s) as [Qc [Qh _]].
  assert (Hh1 : health (registry s1) = health (registry s)) by now rewrite Hr1.
  destruct (health_entry_counts (node_id (descriptor rec)) s1 s Hh1) as [Ks [Kf _]].
  unfold node_of. split; [rewrite Hs, Ks; lia|exact Hcf].
Qed.

End RouterMore.
Section ApprovalsMore.

Import ApprovalGateNode.

Lemma bind_inv_ok {S A B : Type} (c : ST S A) (k : A -> ST S B) (s s' : S) (b : B) :
  bind c k s = (Ok b, s') ->
  exists a s1, c s = (Ok a, s1) /\ k a s1 = (Ok b, s').
Proof.
  unfold bind. destruct (c s) as [[a|e] s1]; [eauto|discriminate].
Qed.

Lemma store_record_run (id : string) (record : dict) (w : World) :
  requests_kept w = true ->
  exists w',
    store_record id record w = (Ok tt, w') /\
    stored_request id w' = Some record /\
    (forall other, other <> id -> stored_request other w' = stored_request other w) /\
    requests_kept w' = true /\
    library w' = library w /\ logs w' = logs w /\ state_files w' = state_files w /\
    now w' = now w /\ uuids w' = uuids w.
Proof.
  unfold requests_kept. intros Hk. unfold store_record. step.
  assert (Hshape : exists requests,
    vget "requests" (dsetdefault "requests" (VDict []) (self_state w)) = VDict requests /\
    forall other, dget other requests
                  = match dget_or "requests" (VDict []) (self_state w) with
                    | VDict r => dget other r
                    | _ => None
                    end).
  { unfold vget. unfold dget_or at 1. rewrite dget_dsetdefault_same. unfold dget_or.
    destruct (dget "requests" (self_state w)) as [[| | | | |r]|]; try discriminate;
      eexists; split; reflexivity. }
  destruct Hshape as [requests [Hv Hother]]. rewrite Hv.
  exists (snd (put_state
                 (dset "requests" (VDict (dset id (VDict record) requests))
                    (dsetdefault "requests" (VDict []) (self_state w))) w)).
  split; [reflexivity|].
  unfold stored_request, requests_kept.
  rewrite !self_state_put. unfold dget_or. rewrite !dget_dset_same.
  split; [reflexivity|]. split; [|repeat split].
  intros other Hne. rewrite dget_dset_other by congruence. rewrite Hother.
  unfold dget_or. now destruct (dget "requests" (self_state w)) as [[| | | | |r]|].
Qed.

Lemma not_request_intent (message : dict) :
  eq_str (vget "intent" message) "approval.resolve" = true ->
  eq_str (vget "intent" message) "approval.request" = false.
Proof.
  destruct (vget "intent" message) as [| | |s| |]; try reflexivity.
  simpl. intros H. apply String.eqb_eq in H. now subst.
Qed.

(** X19: an approval request is stored as pending.  A request that names
    the guarded intent and a non-empty list of changes is answered with
    [approval.requested] and the record of the request, which is stored
    under the id the payload asks for (or one made of a fresh identifier)
    with status pending and no decision, whatever was stored under that
    id before: asking again for an id that was approved puts it back to
    pending.  The other requests are untouched and the state is saved. *)
Theorem request_is_stored_pending :
  forall (w : World) (message payload : dict) (c : value) (cs : list value),
    eq_str (vget "intent" message) "approval.request" = true ->
    dget "payload" message = Some (VDict payload) ->
    guarded_intent payload <> EmptyString ->
    dget_or "changes" (VList []) payload = VList (c :: cs) ->
    requests_kept w = true ->
    exists (response record : dict) (w' : World),
      handle message w = (Ok (VDict response), w') /\
      vget "intent" response = VStr "approval.requested" /\
      vget "payload" response = VDict record /\
      vget "request_id" record = VStr (request_id_for payload w) /\
      vget "intent_being_guarded" record = VStr (guarded_intent payload) /\
      vget "changes" record = VList (c :: cs) /\
      vget "status" record = VStr "pending" /\
      vget "requested_at" record = VStr (iso_of (now w)) /\
      vget "decision" record = VNone /\
      vget "resolved_at" record = VNone /\
      stored_request (request_id_for payload w) w' = Some record /\
      (forall other, other <> request_id_for payload w ->
                     stored_request other w' = stored_request other w) /\
      state_files w' !! "approvals"
      = Some (Persistence._scrub_sensitive (VDict (self_state w'))).
Proof.
  intros w message payload c cs Hintent Hpayload Hguard Hchanges Hkept.
  unfold handle. rewrite Hintent. unfold dget_or at 1. rewrite Hpayload.
  unfold handle_request. cbv zeta. fold (guarded_intent payload). rewrite Hchanges.
  destruct (String.eqb_spec (guarded_intent payload) EmptyString) as [E|_];
    [contradiction|].
  set (given := strip (Py.str (dget_or "request_id" (VStr EmptyString) payload))).
  set (w1 := if String.eqb given EmptyString then snd (draw_uuid w) else w).
  assert (Hid : (if String.eqb given EmptyString
                 then bind new_uuid (fun u => ret ("appr-" +:+ u))
                 else ret given) w
                = (Ok (request_id_for payload w), w1)).
  { unfold request_id_for, w1. fold given.
    destruct (String.eqb given EmptyString); reflexivity. }
  step_with Hid.
  assert (Hnow : now w1 = now w) by (unfold w1; now destruct (String.eqb given EmptyString)).
  assert (Hk1 : requests_kept w1 = true)
    by (unfold w1; now destruct (String.eqb given EmptyString)).
  assert (Hs1 : forall other, stored_request other w1 = stored_request other w)
    by (intros other; unfold w1; now destruct (String.eqb given EmptyString)).
  step. change (read_clock w1) with (now w1). rewrite Hnow.
  set (id := request_id_for payload w).
  set (record := [("request_id", VStr id);
                  ("intent_being_guarded", VStr (guarded_intent payload));
                  ("changes", VList (c :: cs)); ("status", VStr "pending");
                  ("requested_at", VStr (iso_of (now w))); ("resolved_at", VNone);
                  ("decision", VNone); ("decision_note", VStr EmptyString)]).
  destruct (store_record_run id record w1 Hk1)
    as [w2 [Hstore [Hst [Hoth _]]]].
  step_with Hstore.
  assert (Hsave :
    _save w2 =
    (Ok tt, set_state_files
              (<["approvals" := Persistence._scrub_sensitive (VDict (self_state w2))]>
                 (state_files w2)) w2)) by reflexivity.
  step_with Hsave.
  set (w3 := set_state_files _ w2).
  destruct (make_response_run "approval.requested" record
              (vget "message_id" message) w3) as [r [Hr [Hri Hrp]]].
  step_with Hr.
  exists r, record, (snd (draw_uuid w3)).
  split; [reflexivity|]. split; [exact Hri|]. split; [exact Hrp|].
  repeat (split; [reflexivity|]).
  split; [exact Hst|]. split.
  - intros other Hne. rewrite <- Hs1. exact (Hoth other Hne).
  - cbn. now rewrite lookup_insert_eq.
Qed.

Lemma bad_run (text : string) (message : dict) (w w' : World) (r : value) :
  bad text message w = (Ok r, w') -> w' = snd (draw_uuid w).
Proof.
  unfold bad.
  destruct (make_error_run "E_BAD_MESSAGE" text (vget "message_id" message) false [] w)
    as [e [He _]].
  step_with He. unfold ret. now intros [= _ <-].
Qed.

Lemma responds_with (intent : string) (payload : dict) (parent : value) (w w' : World)
  (r : dict) :
  bind (Protocol.make_response intent payload parent [])
    (fun r => ret (VDict r)) w = (Ok (VDict r), w') ->
  vget "intent" r = VStr intent.
Proof.
  destruct (make_response_run intent payload parent w) as [r0 [Hr [Hi _]]].
  step_with Hr. unfold ret. now intros [= <- _].
Qed.

(** X20: an error answer of the approval gate means that nothing was
    stored.  Whenever [handle] answers with an error envelope (a payload
    that is no dictionary, no guarded intent, no changes, no request id,
    a decision other than approved or denied, an unknown request, an
    intent the gate does not serve), the requests it keeps, the state
    files, the logs and the library are as they were. *)
Theorem approval_errors_store_nothing :
  forall (w w' : World) (message response : dict),
    handle message w = (Ok (VDict response), w') ->
    vget "intent" response = VStr "error" ->
    node_mem w' = node_mem w /\ state_files w' = state_files w /\
    logs w' = logs w /\ library w' = library w /\ now w' = now w.
Proof.
  intros w w' message response Hrun Herr.
  assert (Hbad : forall text, bad text message w = (Ok (VDict response), w') ->
                              node_mem w' = node_mem w /\ state_files w' = state_files w /\
                              logs w' = logs w /\ library w' = library w /\ now w' = now w).
  { intros text Hb. rewrite (bad_run _ _ _ _ _ Hb). repeat split. }
  assert (Hno : forall code text,
            bind (Protocol.make_error code text (vget "message_id" message) false [])
              (fun e => ret (VDict e)) w = (Ok (VDict response), w') ->
            node_mem w' = node_mem w /\ state_files w' = state_files w /\
            logs w' = logs w /\ library w' = library w /\ now w' = now w).
  { intros code text.
    destruct (make_error_run code text (vget "message_id" message) false [] w)
      as [e [He _]].
    step_with He. unfold ret. intros [= _ <-]. repeat split. }
  unfold handle in Hrun.
  destruct (eq_str (vget "intent" message) "approval.request").
  - unfold handle_request in Hrun. cbv zeta in Hrun.
    destruct (dget_or "payload" (VDict []) message) as [| | | | |payload];
      try exact (Hbad _ Hrun).
    destruct (String.eqb _ EmptyString); [exact (Hbad _ Hrun)|].
    destruct (dget_or "changes" (VList []) payload) as [| | | |[|c cs]|];
      try exact (Hbad _ Hrun).
    exfalso.
    apply bind_inv_ok in Hrun as [id [w1 [_ Hrun]]].
    apply bind_inv_ok in Hrun as [t [w2 [_ Hrun]]].
    apply bind_inv_ok in Hrun as [[] [w3 [_ Hrun]]].
    apply bind_inv_ok in Hrun as [[] [w4 [_ Hrun]]].
    apply responds_with in Hrun. rewrite Hrun in Herr. discriminate.
  - destruct (eq_str (vget "intent" message) "approval.resolve");
      [|exact (Hno _ _ Hrun)].
    unfold handle_resolve in Hrun. cbv zeta in Hrun.
    destruct (dget_or "payload" (VDict []) message) as [| | | | |payload];
      try exact (Hbad _ Hrun).
    destruct (String.eqb _ EmptyString); [exact (Hbad _ Hrun)|].
    destruct (negb _); [exact (Hbad _ Hrun)|].
    rewrite (bind_ok _ _ _ _ _ (get_request_run _ w)) in Hrun.
    destruct (stored_request _ w) as [[|entry record]|];
      try exact (Hno _ _ Hrun).
    exfalso.
    apply bind_inv_ok in Hrun as [t [w2 [_ Hrun]]].
    apply bind_inv_ok in Hrun as [[] [w3 [_ Hrun]]].
    apply bind_inv_ok in Hrun as [[] [w4 [_ Hrun]]].
    apply responds_with in Hrun. rewrite Hrun in Herr. discriminate.
Qed.

End ApprovalsMore.
Section PipelineMore.

Import Bdp RouterHandler EchoWorker.

Lemma registry_routes (intent node routing_key : string) :
  dget intent REGISTRY = Some (node, routing_key) ->
  node = "terminal.echo" /\ routing_key = "echo".
Proof.
  unfold REGISTRY. cbn [dget].
  destruct (String.eqb "echo" intent); [now intros [= <- <-]|].
  destruct (String.eqb "chat" intent); [now intros [= <- <-]|discriminate].
Qed.

(** X21: the front door of the pipeline.  [/route_async] takes a request
    exactly when it is a valid message of protocol version 0.1 whose
    intent is in the registry: it then answers 202, records the status
    [queued] together with the request, appends the event
    [route_enqueued] and puts one envelope with attempt 0 of 3 at the end
    of the echo queue.  Any other body is answered with an error envelope
    and leaves no trace: nothing is stored, queued, logged or published. *)
Theorem route_async_accepts_or_leaves_no_trace (body : value) (s : Sys) :
  exists (code : Z) (reply : dict) (s' : Sys),
    _handle_route_async body s = (Ok (code, reply), s') /\
    sys_now s' = sys_now s /\
    match body with
    | VDict m =>
        if routable m then
          let id := Py.str (vget "message_id" m) in
          code = 202 /\
          vget "accepted" reply = VBool true /\
          vget "message_id" reply = vget "message_id" m /\
          status_state id s' = Some (Text "queued") /\
          dget "request" (status_fields id s') = Some (Json (VDict m)) /\
          events_of id s'
          = events_of id s
            ++ [event_entry (sys_now s) id "route_enqueued"
                  [("node_id", VStr "terminal.echo"); ("routing_key", VStr "echo");
                   ("attempt", VInt 0)]] /\
          queue_of QUEUE_ECHO s' = queue_of QUEUE_ECHO s ++ [envelope_of m] /\
          queue_of QUEUE_ECHO_DLQ s' = queue_of QUEUE_ECHO_DLQ s /\
          strings (rdb s') = strings (rdb s)
        else turned_away code reply s s'
    | _ => turned_away code reply s s'
    end.
Proof.
  assert (Hbad : forall code text parent details,
    exists (c : Z) (reply : dict) (s' : Sys),
      bind (Protocol.make_error code text parent false details)
        (fun e => ret (200, e)) s = (Ok (c, reply), s') /\
      sys_now s' = sys_now s /\ turned_away c reply s s').
  { intros code text parent details.
    destruct (make_error_sys code text parent false details s)
      as [e [s1 [He [H1 [H2 [H3 [H4 [[Hi _] _]]]]]]]].
    exists 200, e, s1. split; [now step_with He|]. split; [exact H4|].
    unfold turned_away. repeat split; auto.
    destruct (make_error_run code text parent false details s) as [e' [He' _]].
    rewrite He in He'. injection He' as _ ->. reflexivity. }
  destruct body as [| | | | |m]; try apply Hbad.
  unfold _handle_route_async, routable. fold (intent_of m).
  destruct (valid_core m) eqn:Hvalid; cbn [andb].
  2:{ destruct (validate_core_invalid m s Hvalid) as [e [He [Hi _]]].
      step_with He. exists 200, e, (snd (draw_uuid s)).
      split; [reflexivity|]. split; [reflexivity|].
      unfold turned_away. repeat split; auto. }
  step_with (validate_core_valid m s Hvalid).
  destruct (eq_str (vget "protocol_version" m) PROTOCOL_VERSION); cbn [negb andb];
    [|apply Hbad].
  destruct (dget (intent_of m) REGISTRY) as [[node routing_key]|] eqn:Hreg;
    [|apply Hbad].
  destruct (registry_routes _ _ _ Hreg) as [-> ->].
  eexists. eexists. eexists. split; [reflexivity|]. split; [reflexivity|].
  cbv zeta.
  unfold status_state, status_fields, events_of, queue_of, enqueue, event_entry, envelope_of.
  cbn. rewrite !lookup_insert_eq. rewrite !lookup_insert_ne by done.
  cbn. repeat split.
  - rewrite !dget_dset_other by discriminate. now rewrite dget_dset_same.
  - rewrite !dget_dset_other by discriminate. now rewrite dget_dset_same.
  - now rewrite lookup_insert_eq.
  - now rewrite !lookup_insert_ne by (vm_compute; discriminate).
Qed.

(** X22: what the worker refuses.  A delivery whose message is of
    another protocol version, or carries no identity extension, is not
    started: the worker builds an error that is not retryable
    ([E_UNSUPPORTED_PROTOCOL], or [E_REQUIRED_EXTENSION_MISSING]), caches
    it as the response of the message and posts it to the router, which
    records the state error.  Neither the idempotency key nor the
    side-effect key is touched, and nothing is queued again or
    dead-lettered. *)
Theorem worker_rejects_without_side_effect (self : t) (envelope message : dict)
  (a mx : Z) (s : Sys) :
  vget "message" envelope = VDict message ->
  Py.int (dget_or "attempt" (VInt 0) envelope) = Ok a ->
  Py.int (dget_or "max_attempts" (VInt (MAX_ATTEMPTS self)) envelope) = Ok mx ->
  id_of message <> EmptyString ->
  eq_str (vget "protocol_version" message) PROTOCOL_VERSION = false \/
  py_in "identity" (extensions_or_empty message) = Ok false ->
  let id := id_of message in
  exists (response : dict) (s' : Sys),
    process_delivery self (VDict envelope) s = (Ok tt, s') /\
    is_error (rejection_code message) response /\
    vget "retryable" (error_of response) = VBool false /\
    strings (rdb s') = <[cached_response_key self id := Json (VDict response)]>
                         (strings (rdb s)) /\
    string_at (idempotency_key self id) s' = string_at (idempotency_key self id) s /\
    string_at (side_effect_key self id) s' = string_at (side_effect_key self id) s /\
    status_state id s' = Some (Text "error") /\
    event_names id s'
    = event_names id s
      ++ [VStr "worker_received"]
      ++ (if eq_str (vget "protocol_version" message) PROTOCOL_VERSION
          then [VStr "worker_error"] else [])
      ++ [VStr "worker_result"] /\
    In (posted self id response a false false) (effects s') /\
    queue_of QUEUE_ECHO s' = queue_of QUEUE_ECHO s /\
    queue_of QUEUE_ECHO_DLQ s' = queue_of QUEUE_ECHO_DLQ s.
Proof.
  intros Hm Ha Hx Hid Hrej id.
  set (here := [("node_id", VStr (NODE_ID self)); ("attempt", VInt a)]).
  destruct (note_run id "worker_received" here s)
    as [s1 [E1 [S1 [H1 [L1 [F1 [Q1 [D1 N1]]]]]]]].
  destruct (worker_keys_distinct self id) as [_ [K1 K2]].
  assert (Hkeys : forall s' response,
    strings (rdb s') = <[cached_response_key self id := Json (VDict response)]>
                         (strings (rdb s)) ->
    string_at (idempotency_key self id) s' = string_at (idempotency_key self id) s /\
    string_at (side_effect_key self id) s' = string_at (side_effect_key self id) s).
  { intros s' response E. unfold string_at. rewrite E.
    now rewrite !lookup_insert_ne by congruence. }
  assert (Hstate : forall code response,
    is_error code response ->
    recorded_state response false = "error").
  { intros code response [Hi _]. unfold recorded_state, eq_str. rewrite Hi. cbn.
    now rewrite Bool.andb_false_r. }
  unfold process_delivery. cbn [json_loads]. step. rewrite Hm, Ha. step.
  rewrite Hx. step. fold (id_of message). fold id.
  pose proof Hid as Hid'. apply String.eqb_neq in Hid'. fold id in Hid'. rewrite Hid'.
  cbv zeta. fold here. step_with E1.
  unfold rejection_code.
  destruct (eq_str (vget "protocol_version" message) PROTOCOL_VERSION) eqn:Hv;
    cbn [negb].
  - destruct Hrej as [Hrej|Hident]; [discriminate|]. rewrite Hident. step. cbn [negb].
    match goal with
    | |- context [bind (Protocol.make_error ?c ?t ?p ?r ?d) _ s1] =>
        destruct (make_error_sys c t p r d s1)
          as [response [s2 [E2 [R2 [F2 [Qs2 [N2 [Hi [Hr _]]]]]]]]]
    end.
    step_with E2.
    destruct (redis_set_run (cached_response_key self id) (Json (VDict response)) s2)
      as [s3 [E3 [S3 [H3 [L3 [F3 [Q3 N3]]]]]]].
    step_with E3.
    destruct (note_run id "worker_error"
                [("node_id", VStr (NODE_ID self));
                 ("code", VStr E_REQUIRED_EXTENSION_MISSING)] s3)
      as [s4 [E4 [S4 [H4 [L4 [F4 [Q4 [D4 N4]]]]]]]].
    step_with E4.
    destruct (send_result_run self id response a false false s4 Hid)
      as [s5 [details [E5 [S5 [L5 [F5 [_ [_ [_ [Q5 [D5 [N5 St]]]]]]]]]]]].
    assert (Hstr : strings (rdb s5)
                   = <[cached_response_key self id := Json (VDict response)]>
                       (strings (rdb s))).
    { now rewrite S5, S4, S3, R2, S1. }
    exists response, s5. split; [exact E5|]. split; [exact Hi|]. split; [exact Hr|].
    split; [exact Hstr|].
    destruct (Hkeys s5 response Hstr) as [Ki Ks].
    split; [exact Ki|]. split; [exact Ks|].
    split; [rewrite St; now rewrite (Hstate _ response Hi)|].
    split; [|split; [|split]].
    + rewrite (event_names_app id s4 s5 _ L5).
      rewrite (event_names_app id s3 s4 _ L4).
      assert (L3' : events_of id s3 = events_of id s1).
      { unfold events_of. now rewrite L3, R2. }
      unfold event_names at 1. rewrite L3', L1, !map_app, <- !List.app_assoc.
      reflexivity.
    + rewrite F5. apply in_or_app. right. now left.
    + rewrite Q5, Q4. unfold queue_of at 1. rewrite Q3, Qs2.
      fold (queue_of QUEUE_ECHO s1). exact Q1.
    + rewrite D5, D4. unfold queue_of at 1. rewrite Q3, Qs2.
      fold (queue_of QUEUE_ECHO_DLQ s1). exact D1.
  - match goal with
    | |- context [bind (Protocol.make_error ?c ?t ?p ?r ?d) _ s1] =>
        destruct (make_error_sys c t p r d s1)
          as [response [s2 [E2 [R2 [F2 [Qs2 [N2 [Hi [Hr _]]]]]]]]]
    end.
    step_with E2.
    destruct (redis_set_run (cached_response_key self id) (Json (VDict response)) s2)
      as [s3 [E3 [S3 [H3 [L3 [F3 [Q3 N3]]]]]]].
    step_with E3.
    destruct (send_result_run self id response a false false s3 Hid)
      as [s5 [details [E5 [S5 [L5 [F5 [_ [_ [_ [Q5 [D5 [N5 St]]]]]]]]]]]].
    assert (Hstr : strings (rdb s5)
                   = <[cached_response_key self id := Json (VDict response)]>
                       (strings (rdb s))).
    { now rewrite S5, S3, R2, S1. }
    exists response, s5. split; [exact E5|]. split; [exact Hi|]. split; [exact Hr|].
    split; [exact Hstr|].
    destruct (Hkeys s5 response Hstr) as [Ki Ks].
    split; [exact Ki|]. split; [exact Ks|].
    split; [rewrite St; now rewrite (Hstate _ response Hi)|].
    split; [|split; [|split]].
    + rewrite (event_names_app id s3 s5 _ L5).
      assert (L3' : events_of id s3 = events_of id s1).
      { unfold events_of. now rewrite L3, R2. }
      unfold event_names at 1. rewrite L3', L1, !map_app, <- !List.app_assoc.
      reflexivity.
    + rewrite F5. apply in_or_app. right. now left.
    + rewrite Q5. unfold queue_of at 1. rewrite Q3, Qs2.
      fold (queue_of QUEUE_ECHO s1). exact Q1.
    + rewrite D5. unfold queue_of at 1. rewrite Q3, Qs2.
      fold (queue_of QUEUE_ECHO_DLQ s1). exact D1.
Qed.

(** X23: the echo response.  For a message whose payload, extensions and
    identity are dictionaries (or absent), [build_echo_response] returns a
    response that carries the message id of the request as its own, the
    intent [echo_response], the text of the request, the name of the node
    and the actor of the identity (or unknown), the identity extension of
    the request when it has one, and a trace of depth 1 whose path is the
    hop of the worker and whose parent is the request. *)
Theorem echo_response_shape (self : t) (message payload ext identity : dict) :
  dget_or "payload" (VDict []) message = VDict payload ->
  dget_or "extensions" (VDict []) message = VDict ext ->
  dget_or "identity" (VDict []) ext = VDict identity ->
  exists r,
    build_echo_response self message = Ok r /\
    vget "protocol_version" r = VStr PROTOCOL_VERSION /\
    vget "message_id" r = vget "message_id" message /\
    vget "intent" r = VStr "echo_response" /\
    vget "payload" r
    = VDict [("text", VStr (Py.str (dget_or "text" (VStr EmptyString) payload)));
             ("handled_by", VStr (NODE_ID self));
             ("actor", dget_or "actor_id" (VStr "unknown") identity)] /\
    dget "identity" (RouterCore.extensions_of r) = dget "identity" ext /\
    trace_depth r = VInt 1 /\
    trace_path r = [VStr "terminal.echo.worker"] /\
    vget "parent_message_id" (trace_of r) = vget "message_id" message.
Proof.
  intros Hp He Hi. unfold build_echo_response.
  rewrite Hp, He. cbn [get_on bind_res]. rewrite Hi. cbn [get_on bind_res].
  set (response :=
         [("protocol_version", VStr PROTOCOL_VERSION);
          ("message_id", vget "message_id" message);
          ("intent", VStr "echo_response");
          ("payload",
           VDict [("text", VStr (Py.str (dget_or "text" (VStr EmptyString) payload)));
                  ("handled_by", VStr (NODE_ID self));
                  ("actor", dget_or "actor_id" (VStr "unknown") identity)]);
          ("extensions", VDict [])]).
  assert (Hwith : exists r1 e1,
            with_identity message response = Ok r1 /\
            dget "extensions" r1 = Some (VDict e1) /\
            dget "trace" e1 = None /\
            dget "identity" e1 = dget "identity" ext /\
            (forall k, k <> "extensions" -> dget k r1 = dget k response)).
  { unfold with_identity, extensions_or_empty. rewrite He.
    assert (Hin : py_in "identity" (py_or (VDict ext) (VDict [])) = Ok (dhas "identity" ext)).
    { unfold py_or. now destruct ext. }
    rewrite Hin. cbn [bind_res].
    destruct (dhas "identity" ext) eqn:Hhas.
    - assert (Hx : vget "extensions" message = VDict ext).
      { unfold dget_or in He. unfold vget, dget_or.
        destruct (dget "extensions" message) as [v|]; [exact He|].
        injection He as <-. discriminate. }
      rewrite Hx. cbn [getitem]. unfold dhas in Hhas.
      destruct (dget "identity" ext) as [x|] eqn:Hd; [|discriminate].
      cbn [bind_res]. eexists. eexists. split; [reflexivity|].
      split; [reflexivity|]. split; [reflexivity|]. split; [reflexivity|].
      intros k Hk. now rewrite dget_dset_other by congruence.
    - exists response, []. split; [reflexivity|]. split; [reflexivity|].
      split; [reflexivity|]. split; [|reflexivity].
      unfold dhas in Hhas. now destruct (dget "identity" ext). }
  destruct Hwith as [r1 [e1 [Hw [Hx1 [Ht1 [Hid1 Hk1]]]]]]. rewrite Hw. cbn [bind_res].
  assert (Htr : traceable r1 = true).
  { unfold traceable. now rewrite Hx1, Ht1. }
  assert (Htrace1 : trace_of r1 = []).
  { unfold trace_of, RouterCore.extensions_of, RouterCore.dict_at. now rewrite Hx1, Ht1. }
  assert (Hmid : vget "message_id" r1 = vget "message_id" message).
  { unfold vget at 1. unfold dget_or. now rewrite Hk1 by discriminate. }
  destruct (ensure_trace_run r1 (vget "message_id" message)
              (Some "terminal.echo.worker") Htr)
    as [out [d [p [E [Hd [Hpath [Hdepth [Hp' [Hparent [Hk [Hx [_ Hke]]]]]]]]]]]].
  exists out. split; [exact E|].
  assert (Hf : forall k, k <> "extensions" -> vget k out = vget k response).
  { intros k Hne. unfold vget, dget_or. now rewrite Hk, Hk1. }
  split; [now rewrite Hf by discriminate|].
  split; [now rewrite Hf by discriminate|].
  split; [now rewrite Hf by discriminate|].
  split; [now rewrite Hf by discriminate|].
  split.
  { rewrite Hke by discriminate. unfold RouterCore.extensions_of. now rewrite Hx1. }
  unfold inbound_depth in Hd. rewrite Htrace1 in Hd, Hpath, Hparent.
  cbn in Hd. injection Hd as <-. cbn in Hpath. injection Hpath as <-.
  split; [exact Hdepth|]. split.
  - unfold trace_path, dget_or. now rewrite Hp'.
  - rewrite Hparent. cbn [dget_or dget]. rewrite Hmid. unfold py_or.
    now destruct (truthy (vget "message_id" message)).
Qed.

Lemma dget_absent {A : Type} (k : string) (d : list (string * A)) :
  ~ In k (map fst d) -> dget k d = None.
Proof.
  induction d as [|[k0 x] d IH]; simpl; [reflexivity|].
  intros Hn. destruct (String.eqb_spec k0 k) as [->|_]; [exfalso; auto|].
  apply IH. auto.
Qed.

Lemma hset_get (fields old : list (string * rval)) (k : string) :
  List.NoDup (map fst fields) ->
  dget k (hset fields old)
  = match dget k fields with
    | Some v => Some v
    | None => dget k old
    end.
Proof.
  unfold hset. revert old.
  induction fields as [|[k0 v] fs IH]; intros old Hnd; [reflexivity|].
  cbn [fold_left fst snd map] in *. apply List.NoDup_cons_iff in Hnd as [Hnotin Hnd].
  rewrite IH by exact Hnd. cbn [dget].
  destruct (String.eqb_spec k0 k) as [->|Hne].
  - rewrite (dget_absent k fs Hnotin). apply dget_dset_same.
  - destruct (dget k fs); [reflexivity|]. now apply dget_dset_other.
Qed.

Lemma hset_NoDup (fields old : list (string * rval)) :
  List.NoDup (map fst old) -> List.NoDup (map fst (hset fields old)).
Proof.
  unfold hset. revert old.
  induction fields as [|[k0 v] fs IH]; intros old Hnd; [exact Hnd|].
  cbn [fold_left fst snd]. apply IH. now apply dset_NoDup.
Qed.

Lemma dget_map_snd {A B : Type} (f : A -> B) (k : string) (d : list (string * A)) :
  dget k (map (fun kv => (fst kv, f (snd kv))) d) = option_map f (dget k d).
Proof.
  induction d as [|[k0 x] d IH]; [reflexivity|]. cbn [map dget fst snd].
  now destruct (String.eqb k0 k).
Qed.

(** X24: a status update merges.  [redis_set_status] writes the message
    id, the state, the time and the extra fields it is given (dictionaries
    and lists as JSON, the rest as text; an extra field named like one of
    the first three wins over it) and keeps every other field of the
    status as it was: the request recorded when the message was queued
    is still there after the result of the worker is recorded.  The
    status of other messages, the Redis strings and lists and the queues
    are untouched. *)
Theorem status_update_merges (id state : string) (extra : dict) (s : Sys) :
  List.NoDup (map fst extra) ->
  exists s',
    redis_set_status id state extra s = (Ok tt, s') /\
    (forall k,
       dget k (status_fields id s')
       = match dget k extra with
         | Some v => Some (status_field v)
         | None =>
             match dget k [("message_id", Text id); ("state", Text state);
                           ("updated_at", Text (iso_of (sys_now s)))] with
             | Some x => Some x
             | None => dget k (status_fields id s)
             end
         end) /\
    (forall other, other <> id -> status_fields other s' = status_fields other s) /\
    strings (rdb s') = strings (rdb s) /\
    lists (rdb s') = lists (rdb s) /\
    queues s' = queues s /\ effects s' = effects s.
Proof.
  intros Hnd. unfold redis_set_status, now_iso, bind, gets, modify.
  eexists. split; [reflexivity|].
  unfold status_fields. cbn [rdb hashes set_rdb set_hashes read_clock Sys_Host
                             strings lists queues effects].
  split; [|split; [|repeat split]].
  - intros k. rewrite lookup_insert_eq. cbn [default].
    set (base := [("message_id", Text id); ("state", Text state);
                  ("updated_at", Text (iso_of (sys_now s)))]).
    unfold Datatypes.id. rewrite hset_get.
    + rewrite hset_get by (rewrite map_map; exact Hnd).
      rewrite dget_map_snd. now destruct (dget k extra).
    + apply hset_NoDup. repeat constructor; cbn; intuition discriminate.
  - intros other Hne. rewrite lookup_insert_ne; [reflexivity|].
    unfold status_key. intros H. apply Hne. cbn in H. now injection H.
Qed.

End PipelineMore.
Section RelayMore.

Import NodeRegistry RouterCore.

(** A retryable error of a handler that leaves the library alone: the
    attempt goes on to the next candidate and counts a failure. *)
Lemma attempt_retryable (self : t) (rec : NodeRecord) (intent : string)
  (outbound resp err : dict) (s : State) (h : Handler) (w : World) :
  chosen_handler self rec = Some h ->
  h outbound (world s) = (Ok (VDict resp), w) ->
  retryable_error resp = Some err ->
  library w = library (world s) ->
  exists s' c,
    attempt self rec intent outbound s
    = (Ok (Continue [retry_attempt (node_id (descriptor rec)) err] [relayed err]), s') /\
    calls s' = calls s ++ [c] /\
    call_node c = node_id (descriptor rec) /\
    call_message c = outbound /\
    call_result c = Ok (VDict resp) /\
    failure_count (health_entry (node_id (descriptor rec)) s')
    = failure_count (health_entry (node_id (descriptor rec)) s) + 1 /\
    (forall other, other <> node_id (descriptor rec) ->
                   dget other (health (registry s')) = dget other (health (registry s))).
Proof.
  intros Hh Hcall Hret Hlib. unfold retryable_error in Hret.
  destruct (valid_core resp) eqn:Hvalid; [|discriminate].
  destruct (eq_str (vget "intent" resp) "error") eqn:Hint; [|discriminate].
  cbn [andb] in Hret.
  destruct (dget_or "error" (VDict []) (dict_at "payload" resp)) as [| | | | |err0] eqn:Herr;
    try discriminate.
  destruct (truthy (dget_or "retryable" (VBool false) err0)) eqn:Htr; [|discriminate].
  injection Hret as ->.
  rewrite attempt_run, Hh, Hcall. cbv beta iota.
  set (node := node_id (descriptor rec)).
  set (c := {| call_node := node; call_cap := _metadata_for rec intent;
               call_message := outbound; call_result := Ok (VDict resp);
               call_library_before := library (world s);
               call_library_after := library w |}).
  unfold after_call.
  destruct (looks_like_bdp_run (VDict resp) (add_call c (set_world w s))) as [s1 [E1 F1]].
  step_with E1. cbn [well_formed]. rewrite Hvalid.
  assert (Hl1 : library (world s1) = library (world s)).
  { destruct F1 as [->| ->]; exact Hlib. }
  assert (Hh1 : health (registry s1) = health (registry s)).
  { destruct F1 as [->| ->]; reflexivity. }
  assert (Hc1 : calls s1 = calls s ++ [c]).
  { destruct F1 as [->| ->]; reflexivity. }
  match goal with
  | |- context [bind ?fl _ s1] =>
      assert (Hflag : fl s1 = (Ok false, s1))
  end.
  { rewrite flag_run, Hl1. now rewrite flagged_same. }
  step_with Hflag. cbv iota. rewrite Hint, Herr, Htr.
  destruct (update_health_run node false s1) as [s2 [E2 [Hc2 _]]].
  destruct (health_entry_after node false s1 s2 E2) as [_ [Hf _]].
  destruct (health_entry_counts node s1 s Hh1) as [_ [Kf _]].
  step_with E2. exists s2, c. split; [reflexivity|].
  split; [now rewrite Hc2, Hc1|].
  repeat (split; [reflexivity|]).
  split; [rewrite Hf, Kf; lia|].
  intros other Hne.
  pose proof (update_health_others node other false s1 Hne) as Ho.
  rewrite E2 in Ho. cbn [snd] in Ho. now rewrite Ho, Hh1.
Qed.

(** The loop over candidates that all answer retryable errors. *)
Lemma dispatch_all_retryable (self : t) (m : dict) (pd : option dict) (out : dict)
  (err : NodeRecord -> dict) (cands : list NodeRecord) :
  outbound_of m (vget "message_id" m) pd = Ok out ->
  (forall rec, In rec cands ->
     exists h, chosen_handler self rec = Some h /\
               forall w, exists resp w',
                 h out w = (Ok (VDict resp), w') /\
                 retryable_error resp = Some (err rec) /\
                 library w' = library w) ->
  forall (attempted retryable : list dict) (s : State),
    exists s1 new,
      dispatch self m (vget "message_id" m) (intent_of m) pd cands attempted retryable s
      = exhausted (vget "message_id" m)
          (attempted ++ map (fun rec => retry_attempt (node_of rec) (err rec)) cands)
          (retryable ++ map (fun rec => relayed (err rec)) cands) s1 /\
      calls s1 = calls s ++ new /\
      map call_node new = map node_of cands /\
      Forall (fun c => call_message c = out) new.
Proof.
  intros Hout. induction cands as [|rec rest IH]; intros Hall attempted retryable s.
  - exists s, []. cbn [map]. rewrite !app_nil_r. repeat split. constructor.
  - rewrite dispatch_cons, Hout. unfold bind at 1, lift_res.
    destruct (emit_dispatched_run rec (intent_of m) s) as [s1 [E1 [Hc1 [_ [Hl1 _]]]]].
    step_with E1.
    destruct (Hall rec (or_introl eq_refl)) as [h [Hh Hgood]].
    destruct (Hgood (world s1)) as [resp [w' [Hcall [Hret Hlib]]]].
    destruct (attempt_retryable self rec (intent_of m) out resp (err rec)
                s1 h w' Hh Hcall Hret Hlib)
      as [s2 [c [E2 [Hc2 [Hn2 [Hm2 _]]]]]].
    step_with E2.
    destruct (IH (fun r Hr => Hall r (or_intror Hr))
                (attempted ++ [retry_attempt (node_id (descriptor rec)) (err rec)])
                (retryable ++ [relayed (err rec)]) s2)
      as [s3 [new [E3 [Hc3 [Hn3 Hr3]]]]].
    exists s3, (c :: new). split.
    { rewrite E3. cbn [map]. unfold node_of. now rewrite <- !List.app_assoc. }
    split; [rewrite Hc3, Hc2, Hc1, <- List.app_assoc; reflexivity|].
    cbn [map]. split; [now rewrite Hn2, Hn3|constructor; [exact Hm2|exact Hr3]].
Qed.

(** X25: the relay of retryable errors.  When every candidate answers a
    retryable error (a valid error envelope whose error is marked
    retryable) and leaves the library alone, [route] answers with an error
    of its own that relays the first of them in selection order: its code
    and message are the texts of the code and message of that error, it is
    marked retryable, its details list every attempt in selection order
    and pass on the details of that error as [upstream]. *)
Theorem retryable_errors_are_relayed (self : t) (s : State) (m : dict)
  (first : NodeRecord) (rest : list NodeRecord) (pd : option dict) (out : dict)
  (err : NodeRecord -> dict) :
  distinct_ids s ->
  route_prefix self s m = Dispatch (first :: rest) pd ->
  outbound_of m (vget "message_id" m) pd = Ok out ->
  (forall rec, In rec (first :: rest) ->
     exists h, chosen_handler self rec = Some h /\
               forall w, exists resp w',
                 h out w = (Ok (VDict resp), w') /\
                 retryable_error resp = Some (err rec) /\
                 library w' = library w) ->
  exists (e : dict) (s' : State),
    route self (VDict m) s = (Ok e, s') /\
    is_error (Py.str (vget "code" (err first))) e /\
    vget "message" (error_of e) = VStr (Py.str (vget "message" (err first))) /\
    vget "retryable" (error_of e) = VBool true /\
    vget "details" (error_of e)
    = VDict [("attempted",
              VList (map (fun rec => VDict (retry_attempt (node_of rec) (err rec)))
                       (first :: rest)));
             ("upstream", dget_or "details" (VDict []) (err first))].
Proof.
  intros Hnd Hp Hout Hall.
  pose proof (route_run self s m Hnd) as Hrun. rewrite Hp in Hrun.
  destruct (dispatch_all_retryable self m pd out err (first :: rest) Hout Hall
              [] [] (ready s)) as [s1 [new [E [Hc [Hn Hr]]]]].
  rewrite Hrun, E. cbn [app map]. unfold exhausted.
  match goal with
  | |- context [Protocol.make_error ?c ?t ?p ?r ?d s1] =>
      destruct (make_error_run c t p r d s1) as [e [He [Hi [Hre [Hm [Hd _]]]]]]
  end.
  exists e, (bump s1). split; [exact He|].
  split; [exact Hi|]. split; [exact Hm|]. split; [exact Hre|].
  rewrite Hd. cbn [map]. now rewrite map_map.
Qed.

End RelayMore.
Section MoreScenarios.

Import NodeRegistry RouterCore.

(** Two hops on a request that carries no trace. *)
Lemma ensure_trace_composes_witness :
  exists m1 m2,
    Protocol.ensure_trace (request "demo.echo" [] None) (VStr "msg-1") (Some "router.core")
    = Ok m1 /\
    Protocol.ensure_trace m1 (VStr "msg-1") (Some "node.echo") = Ok m2 /\
    trace_depth m2 = VInt 2 /\
    trace_path m2 = [VStr "router.core"; VStr "node.echo"].
Proof.
  pose proof (ensure_trace_composes (request "demo.echo" [] None) (VStr "msg-1")
                (VStr "msg-1") "router.core" "node.echo") as H.
  assert (Ht : traceable (request "demo.echo" [] None) = true) by reflexivity.
  rewrite Ht in H.
  destruct H as [m1 [m2 [d [E1 [E2 [Hd [Hdepth [Hp _]]]]]]]]; [discriminate|discriminate|].
  exists m1, m2. split; [exact E1|]. split; [exact E2|].
  vm_compute in Hd. injection Hd as <-.
  split; [exact Hdepth|]. rewrite Hp. reflexivity.
Defined.

(** Versions with one to four components. *)
Lemma parse_version_components_witness :
  parse_version "1" = (1, 0, 0) /\
  parse_version "1.2" = (1, 2, 0) /\
  parse_version "1.2.3" = (1, 2, 3) /\
  parse_version "1.2.3.4" = (1, 2, 3).
Proof.
  exact (parse_version_components "1" "2" "3" "4" eq_refl eq_refl eq_refl).
Defined.

(** The pinned request of the provider scenario is dispatched, so its
    selection meets the requirements. *)
Lemma model_calls_meet_requirements_witness :
  str_in (ConfigResolver.sel_provider (selection_of test_router pinned_request))
    MODEL_PROVIDERS = true /\
  ConfigResolver.sel_model (selection_of test_router pinned_request) <> EmptyString.
Proof.
  destruct (model_calls_meet_requirements test_router model_state
              (snd (route test_router (VDict pinned_request) model_state))
              pinned_request
              (fst (route test_router (VDict pinned_request) model_state)))
    as [H1 [H2 _]].
  - exact model_state_distinct.
  - reflexivity.
  - apply surjective_pairing.
  - vm_compute. discriminate.
  - split; [exact H1|exact H2].
Defined.

(** A first node registers at time 100 with the shared secret: the lease
    it gets is the first identifier, a second registration gets another,
    and a heartbeat with the lease succeeds. *)
Lemma register_outcomes_witness :
  let d := one_capability "node.a" "1.0.0" 100
             (capability_of "chat.general" "read" "none" false [] None) in
  exists s',
    register d None (fresh_state 100)
    = (Ok [("ok", VBool true); ("node_id", VStr "node.a"); ("lease_token", VStr "uuid-0");
           ("heartbeat_ttl_sec", VInt 15)], s') /\
    uuids (world s') = 1%nat /\
    vget "lease_token" (fst_ok (register d None s')) = VStr "uuid-1" /\
    fst (heartbeat "node.a" "uuid-0" s') = Ok [("ok", VBool true); ("node_id", VStr "node.a")].
Proof.
  intros d.
  pose proof (register_outcomes d None (fresh_state 100)) as H.
  assert (Hv : validate d = None) by reflexivity.
  rewrite Hv in H. cbn [eq_str vget dget_or dget auth one_capability fresh_state d
                        registry registration_token String.eqb Ascii.eqb Bool.eqb] in H.
  destruct H as [s' [lease [E [Hl [Hu [_ [_ [_ [Hb _]]]]]]]]].
  - split; constructor.
  - reflexivity.
  - assert (Hlease : lease = "uuid-0") by (rewrite Hl; reflexivity). subst lease.
    exists s'. split; [exact E|]. split; [exact Hu|]. split; [|exact Hb].
    pose proof E as E'. vm_compute in E'. injection E' as <-. vm_compute. reflexivity.
Defined.

(** A registration, the clock moving past the lease, a pruning and a late
    heartbeat. *)
Lemma registry_stays_well_kept_witness :
  let ops := [Register (one_capability "node.a" "1.0.0" 100
                          (capability_of "chat.general" "read" "none" false [] None)) None;
              ClockReads 200; PruneStale; Heartbeat "node.a" "uuid-0"] in
  fst (run_registry_ops ops (fresh_state 100)) = Ok tt /\
  distinct_ids (snd (run_registry_ops ops (fresh_state 100))).
Proof.
  intros ops.
  destruct (registry_stays_well_kept ops (fresh_state 100)) as [H1 [_ H3]].
  - split; constructor.
  - split; [exact H1|exact H3].
Defined.

(** The expired lease is pruned, and a second pruning changes nothing. *)
Lemma prune_stale_exact_witness :
  exists s',
    prune_stale lease_expired_state = (Ok tt, s') /\
    dget "node.a" (records (registry lease_expired_state)) = Some lease_expired_record /\
    dget "node.a" (records (registry s')) = None /\
    prune_stale s' = (Ok tt, s').
Proof.
  destruct (prune_stale_exact lease_expired_state)
    as [s' [E [Hget [_ [_ [_ [_ Hidem]]]]]]].
  - unfold distinct_ids. vm_compute. repeat constructor. intros [].
  - exists s'. split; [exact E|]. split; [vm_compute; reflexivity|].
    split; [|exact Hidem]. rewrite Hget. vm_compute. reflexivity.
Defined.


(** A trace that is a text makes [route] raise. *)
Lemma route_raises_on_untraceable_witness :
  valid_core untraceable_request = true /\
  exists exc s',
    route test_router (VDict untraceable_request) echo_state = (Raise exc, s') /\
    calls s' = calls echo_state.
Proof.
  split; [reflexivity|].
  destruct (route_raises_on_untraceable test_router echo_state untraceable_request
              (candidates_of test_router echo_state untraceable_request)
              (disclosure_for test_router echo_state untraceable_request))
    as [exc [s' [E [Hc _]]]].
  - exact echo_state_distinct.
  - vm_compute. reflexivity.
  - reflexivity.
  - exists exc, s'. split; [exact E|exact Hc].
Defined.


(** Scenario S6: of the two providers the first in selection order is a,
    whose answer [route] returns. *)
Lemma first_candidate_serves_witness :
  let m := request "determinism.echo" [] None in
  let s := registered [provider_z; provider_a] 100 in
  route_prefix test_router s m
  = Dispatch [selected_record "a" "1.2.0" "a" 1; selected_record "z" "1.0.0" "z" 0] None /\
  exists resp s',
    route test_router (VDict m) s = (Ok resp, s') /\
    selected_by resp = VStr "a" /\
    final_answer resp = true /\
    consecutive_failures (health_entry "a" s') = 0.
Proof.
  intros m s.
  assert (Hp : route_prefix test_router s m
               = Dispatch [selected_record "a" "1.2.0" "a" 1;
                           selected_record "z" "1.0.0" "z" 0] None)
    by (vm_compute; reflexivity).
  split; [exact Hp|].
  destruct (outbound_of m (vget "message_id" m) None) as [out|x] eqn:Hout;
    [|vm_compute in Hout; discriminate].
  pose proof Hout as Hq. vm_compute in Hq. injection Hq as <-.
  assert (Hnd : distinct_ids s).
  { unfold distinct_ids. vm_compute. repeat constructor; [|intros []].
    intros [H|[]]. discriminate H. }
  match type of Hout with
  | _ = Ok ?o =>
      destruct (first_candidate_serves test_router s m
                  (selected_record "a" "1.2.0" "a" 1) [selected_record "z" "1.0.0" "z" 0]
                  None o (selected "a") Hnd Hp Hout eq_refl)
        as [resp [s' [w [w' [E [Hcall [Hf [_ Hcf]]]]]]]]
  end.
  - intros w. eexists. eexists. split; [reflexivity|]. split; reflexivity.
  - exists resp, s'. split; [exact E|]. split; [|split; [exact Hf|exact Hcf]].
    cbv in Hcall. injection Hcall as <- _. reflexivity.
Defined.

(** Two busy nodes: the error of the one of higher priority is relayed,
    and the details list both attempts in selection order. *)
Lemma retryable_errors_are_relayed_witness :
  let m := request "demo.busy" [] None in
  route_prefix test_router busy_pair_state m
  = Dispatch [busy_high_record; busy_low_record] None /\
  exists e s',
    route test_router (VDict m) busy_pair_state = (Ok e, s') /\
    is_error "E_NODE_TIMEOUT" e /\
    vget "message" (error_of e) = VStr "busy" /\
    vget "retryable" (error_of e) = VBool true /\
    vget "attempted" (dict_at "details" (error_of e))
    = VList [VDict (retry_attempt "node.busy.high" (failing_error "E_NODE_TIMEOUT" "busy"));
             VDict (retry_attempt "node.busy.low" (failing_error "E_NODE_BUSY" "later"))].
Proof.
  intros m.
  assert (Hp : route_prefix test_router busy_pair_state m
               = Dispatch [busy_high_record; busy_low_record] None)
    by (vm_compute; reflexivity).
  split; [exact Hp|].
  destruct (outbound_of m (vget "message_id" m) None) as [out|x] eqn:Hout;
    [|vm_compute in Hout; discriminate].
  pose proof Hout as Hq. vm_compute in Hq. injection Hq as <-.
  assert (Hnd : distinct_ids busy_pair_state).
  { unfold distinct_ids. vm_compute. repeat constructor; [|intros []].
    intros [H|[]]. discriminate H. }
  match type of Hout with
  | _ = Ok ?o =>
      destruct (retryable_errors_are_relayed test_router busy_pair_state m
                  busy_high_record [busy_low_record] None o busy_pair_error Hnd Hp Hout)
        as [e [s' [E [Hi [Hm [Hr Hd]]]]]]
  end.
  - intros rec [<-|[<-|[]]].
    + exists (failing "E_NODE_TIMEOUT" "busy"). split; [reflexivity|].
      intros w. eexists. eexists. split; [reflexivity|]. split; reflexivity.
    + exists (failing "E_NODE_BUSY" "later"). split; [reflexivity|].
      intros w. eexists. eexists. split; [reflexivity|]. split; reflexivity.
  - exists e, s'. split; [exact E|]. split; [exact Hi|]. split; [exact Hm|].
    split; [exact Hr|]. unfold dict_at, vget in *. unfold dget_or in Hd at 1.
    destruct (dget "details" (error_of e)) as [v|]; [|discriminate Hd].
    rewrite Hd. reflexivity.
Defined.

(** Asking again for approval under the id of an approved request puts it
    back to pending. *)
Lemma request_is_stored_pending_witness :
  option_map (vget "status") (stored_request "appr-1" approved_world)
  = Some (VStr "approved") /\
  exists response record w',
    ApprovalGateNode.handle repeated_approval_request approved_world
    = (Ok (VDict response), w') /\
    vget "intent" response = VStr "approval.requested" /\
    stored_request "appr-1" w' = Some record /\
    vget "status" record = VStr "pending".
Proof.
  split; [vm_compute; reflexivity|].
  destruct (request_is_stored_pending approved_world repeated_approval_request
              [("intent_being_guarded", VStr "memory.write.propose");
               ("changes", VList [VStr "notes.md"]); ("request_id", VStr "appr-1")]
              (VStr "notes.md") [])
    as [response [record [w' [E [Hi [_ [_ [_ [_ [Hs [_ [_ [_ [Hst _]]]]]]]]]]]]]].
  - reflexivity.
  - reflexivity.
  - vm_compute. discriminate.
  - reflexivity.
  - vm_compute. reflexivity.
  - exists response, record, w'. split; [exact E|]. split; [exact Hi|].
    split; [exact Hst|exact Hs].
Defined.

(** A request for approval without changes is refused, and the approved
    request the gate holds is as it was. *)
Lemma approval_errors_store_nothing_witness :
  let w' := snd (ApprovalGateNode.handle empty_approval_request approved_world) in
  (exists response,
     fst (ApprovalGateNode.handle empty_approval_request approved_world)
     = Ok (VDict response) /\
     error_code response = VStr "E_BAD_MESSAGE") /\
  node_mem w' = node_mem approved_world /\
  state_files w' = state_files approved_world.
Proof.
  intros w'.
  destruct (ApprovalGateNode.handle empty_approval_request approved_world)
    as [[[| | | | |response]|exc] w1] eqn:E;
    try (vm_compute in E; discriminate).
  assert (Herr : vget "intent" response = VStr "error").
  { vm_compute in E. injection E as <- _. reflexivity. }
  destruct (approval_errors_store_nothing approved_world w1 empty_approval_request
              response E Herr) as [Hm [Hf _]].
  split; [|split; [exact Hm|exact Hf]].
  exists response. split; [reflexivity|].
  vm_compute in E. injection E as <- _. reflexivity.
Defined.

End MoreScenarios.

Section PipelineScenarios.

Import Bdp RouterHandler EchoWorker.

(** A delivery without identity is refused and the side-effect key stays
    unset. *)
Lemma worker_rejects_without_side_effect_witness :
  exists response s',
    process_delivery default_worker (VDict (envelope_of anonymous_request)) boot
    = (Ok tt, s') /\
    is_error E_REQUIRED_EXTENSION_MISSING response /\
    string_at (cached_response_key default_worker "m-3") s' = Some (Json (VDict response)) /\
    string_at (side_effect_key default_worker "m-3") s' = None /\
    string_at (idempotency_key default_worker "m-3") s' = None /\
    status_state "m-3" s' = Some (Text "error").
Proof.
  destruct (worker_rejects_without_side_effect default_worker
              (envelope_of anonymous_request) anonymous_request 0 3 boot)
    as [response [s' [E [Hi [_ [Hs [Hk1 [Hk2 [Hst _]]]]]]]]].
  - reflexivity.
  - reflexivity.
  - reflexivity.
  - vm_compute. discriminate.
  - right. reflexivity.
  - exists response, s'. split; [exact E|]. split; [exact Hi|].
    split; [unfold string_at; rewrite Hs; apply lookup_insert_eq|].
    split; [exact Hk2|]. split; [exact Hk1|exact Hst].
Defined.

(** The response to the plain request. *)
Lemma echo_response_shape_witness :
  exists r,
    build_echo_response default_worker plain_request = Ok r /\
    vget "message_id" r = VStr "m-2" /\
    vget "payload" r
    = VDict [("text", VStr "hi"); ("handled_by", VStr "terminal.echo");
             ("actor", VStr "user-1")] /\
    trace_depth r = VInt 1 /\
    trace_path r = [VStr "terminal.echo.worker"].
Proof.
  destruct (echo_response_shape default_worker plain_request
              [("text", VStr "hi")]
              [("identity", VDict [("actor_id", VStr "user-1")])]
              [("actor_id", VStr "user-1")])
    as [r [E [_ [Hid [_ [Hp [_ [Hd [Hpath _]]]]]]]]].
  - reflexivity.
  - reflexivity.
  - reflexivity.
  - exists r. split; [exact E|]. split; [exact Hid|]. split; [exact Hp|].
    split; [exact Hd|exact Hpath].
Defined.

(** The status of a queued request keeps the request when the result of
    the worker is recorded. *)
Lemma status_update_merges_witness :
  let queued := snd (_handle_route_async (VDict plain_request) boot) in
  exists s',
    redis_set_status "m-2" "completed" [("node_id", VStr "terminal.echo")] queued
    = (Ok tt, s') /\
    dget "state" (status_fields "m-2" queued) = Some (Text "queued") /\
    dget "state" (status_fields "m-2" s') = Some (Text "completed") /\
    dget "request" (status_fields "m-2" s') = Some (Json (VDict plain_request)).
Proof.
  intros queued.
  destruct (status_update_merges "m-2" "completed" [("node_id", VStr "terminal.echo")]
              queued) as [s' [E [Hk _]]].
  - repeat constructor. intros [].
  - exists s'. split; [exact E|]. split; [vm_compute; reflexivity|].
    rewrite !Hk. split; vm_compute; reflexivity.
Defined.

End PipelineScenarios.

Section StableOrder.

Import NodeRegistry RouterCore.


Lemma stands_before_In {A : Type} (l : list A) (a b : A) :
  stands_before l a b -> In a l /\ In b l.
Proof.
  intros [l1 [l2 [l3 ->]]]. split.
  - apply in_or_app. right. now left.
  - apply in_or_app. right. right. apply in_or_app. right. now left.
Qed.









End StableOrder.

Section Judging.

Import NodeRegistry RouterCore.








End Judging.

Section Accounting.

Import NodeRegistry RouterCore.


Lemma undeclared_item (node : string) :
  is_undeclared (attempted_item node "undeclared_side_effect" []) = true.
Proof. reflexivity. Qed.


End Accounting.

Section SelectionThroughRoute.

Import NodeRegistry RouterCore.










End SelectionThroughRoute.

Section ReadOnlyCalls.

Import NodeRegistry RouterCore.







End ReadOnlyCalls.
